(** * gr-signal-hound: the lazy-reconfiguration adapters, embedded in Rocq

    The four GNU Radio blocks of [lib/] (bb_series, sm_series, sp_series,
    vsg_series) are embedded as programs of a small monad that threads the
    block object, the vendor device, the runtime buffer and the console,
    stops at [abort()], and records what the code does (lock operations,
    accesses to the members shared with the setters, vendor calls with their
    status, allocations and copies) in a trace. *)

From Stdlib Require Import ZArith Floats Ascii String.
From stdpp Require Import base numbers list strings.

#[local] Open Scope Z_scope.

(** ** Values *)

(** [double] members and arguments: IEEE binary64, never computed on. *)
Abbreviation double := float.

(** [gr_complex] is [std::complex<float>]: a pair of floats.  Samples are only
    moved, so they are kept as the binary64 values that represent them. *)
Definition gr_complex : Type := float * float.

(** [std::complex<float>()], the value of every element of a fresh
    [new std::complex<float>[n]]. *)
Definition complex_zero : gr_complex := (0%float, 0%float).

(** [(int16_t)x] for an [int] x: reduction modulo 2^16 into -32768..32767. *)
Definition int16_t (x : Z) : Z := (x + 32768) mod 65536 - 32768.

(** [!p] for a pointer [p], [None] being the null pointer. *)
Definition is_null {A : Type} (p : option A) : bool :=
  if p is None then true else false.

(** What a [std::cout << a << b << ...] statement sends, piece by piece. *)
Inductive Chunk : Type :=
| Str (s : string)
| Num (z : Z)
| Dbl (d : double)
| Endl.

Definition newline : string := String (ascii_of_nat 10) EmptyString.

(** ** Outcome of running a piece of code *)

Inductive Result (A : Type) : Type :=
| Done (a : A)        (* ran to its end *)
| Aborted             (* [abort()]: the process is terminated *)
| Thrown              (* a C++ exception left the function *)
| Undefined.          (* out-of-bounds access *)
Arguments Done {A} a.
Arguments Aborted {A}.
Arguments Thrown {A}.
Arguments Undefined {A}.

(** ** Trace events, over the adapter's shared members [F] and vendor calls [C] *)

Inductive Event (F C : Type) : Type :=
| EvLock                       (* [gr::thread::scoped_lock lock(_mutex)] *)
| EvUnlock                     (* the scoped lock leaves its scope *)
| EvLoad (f : F)               (* a member shared with the setters is read *)
| EvStore (f : F)              (* ... is written *)
| EvCall (c : C) (status : Z)  (* a vendor call and the status it returned *)
| EvNew (n : Z)                (* [new std::complex<float>[n]] *)
| EvDelete                     (* [delete [] _buffer] *)
| EvCopy (i : nat).            (* [out[i] = _buffer[i]] *)
Arguments EvLock {F C}.
Arguments EvUnlock {F C}.
Arguments EvLoad {F C} f.
Arguments EvStore {F C} f.
Arguments EvCall {F C} c status.
Arguments EvNew {F C} n.
Arguments EvDelete {F C}.
Arguments EvCopy {F C} i.

(** What a blocking read of [n] samples leaves in the array it was given:
    the reply decides the first [n] elements, the others keep their value. *)
Definition fill_iq (f : nat -> gr_complex) (n : Z) (buf : list gr_complex) : list gr_complex :=
  imap (fun i old => if decide (Z.of_nat i < n) then f i else old) buf.

(** ** The vendor SDK seen from the adapter (a device surface that a mock can
    implement): every call returns a status and fills its out-parameters. *)

Record Reply : Type := {
  status : Z;                    (* the returned status code *)
  ret_int : Z;                   (* first [int*] / enum out-parameter *)
  ret_int2 : Z;                  (* second one *)
  ret_dbl : double;              (* first [double*] out-parameter *)
  ret_dbl2 : double;             (* second one *)
  ret_iq : nat -> gr_complex     (* what the call leaves in the I/Q buffer *)
}.

Record VendorApi (C : Type) : Type := {
  Dev : Type;                                  (* state of the SDK and device *)
  vendor : C -> Dev -> Reply * Dev;            (* one call *)
  GetErrorString : Z -> string;                (* xxGetErrorString *)
  GetAPIVersion : string                       (* xxGetAPIVersion *)
}.
Arguments Dev {C} _.
Arguments vendor {C} _ _ _.
Arguments GetErrorString {C} _ _.
Arguments GetAPIVersion {C} _.

(** ** The program monad *)

Section Prog.
Context {Obj F C : Type} {api : VendorApi C}.

(** The block object, the device behind [_handle], the buffer the runtime
    hands to [work] ([output_items[0]] or [input_items[0]]) and what has
    been sent to [std::cout], one entry per statement. *)
Record World : Type := {
  self : Obj;
  device : Dev api;
  items0 : list gr_complex;
  console : list (list Chunk)
}.

Definition Prog (A : Type) : Type := World -> Result A * World * list (Event F C).

Definition ret {A} (a : A) : Prog A := fun w => (Done a, w, []).

Definition bind {A B} (m : Prog A) (k : A -> Prog B) : Prog B := fun w =>
  match m w with
  | (Done a, w1, t1) => let '(r, w2, t2) := k a w1 in (r, w2, t1 ++ t2)
  | (Aborted, w1, t1) => (Aborted, w1, t1)
  | (Thrown, w1, t1) => (Thrown, w1, t1)
  | (Undefined, w1, t1) => (Undefined, w1, t1)
  end.

Definition emit (e : Event F C) : Prog unit := fun w => (Done tt, w, [e]).

(** [abort()] *)
Definition abort {A} : Prog A := fun w => (Aborted, w, []).
Definition throw {A} : Prog A := fun w => (Thrown, w, []).
Definition undefined {A} : Prog A := fun w => (Undefined, w, []).

(** Members of [this]. *)
Definition read {A} (get : Obj -> A) : Prog A := fun w => (Done (get (self w)), w, []).
Definition write (upd : Obj -> Obj) : Prog unit := fun w =>
  (Done tt, {| self := upd (self w); device := device w; items0 := items0 w;
               console := console w |}, []).

(** Members written by the setters: the access is recorded. *)
Definition load {A} (f : F) (get : Obj -> A) : Prog A :=
  bind (emit (EvLoad f)) (fun _ => read get).
Definition store (f : F) (upd : Obj -> Obj) : Prog unit :=
  bind (emit (EvStore f)) (fun _ => write upd).

(** [std::cout << ...] *)
Definition print (s : list Chunk) : Prog unit := fun w =>
  (Done tt, {| self := self w; device := device w; items0 := items0 w;
               console := console w ++ [s] |}, []).

(** A call into the vendor library. *)
Definition call (c : C) : Prog Reply := fun w =>
  let '(r, d) := vendor api c (device w) in
  (Done r, {| self := self w; device := d; items0 := items0 w; console := console w |},
   [EvCall c (status r)]).

(** [gr::thread::scoped_lock lock(_mutex);] at the head of a function body:
    the lock is taken, the body runs, the lock is released when the scope
    is left.  [abort()] runs no destructor. *)
Definition scoped_lock {A} (body : Prog A) : Prog A :=
  bind (emit EvLock) (fun _ =>
  bind body (fun a =>
  bind (emit EvUnlock) (fun _ => ret a))).

(** The runtime buffer. *)
Definition read_items0 : Prog (list gr_complex) := fun w => (Done (items0 w), w, []).
Definition write_items0 (i : nat) (v : gr_complex) : Prog unit := fun w =>
  if decide (i < length (items0 w))%nat
  then (Done tt, {| self := self w; device := device w; items0 := <[i:=v]> (items0 w);
                    console := console w |}, [EvCopy i])
  else (Undefined, w, []).

(** [new std::complex<float>[n]]: a negative length throws
    [std::bad_array_new_length]; the elements are value-initialised. *)
Definition new_array (n : Z) : Prog (list gr_complex) :=
  if n <? 0 then throw
  else bind (emit (EvNew n)) (fun _ => ret (replicate (Z.to_nat n) complex_zero)).

(** [delete [] p] *)
Definition delete_array : Prog unit := emit EvDelete.

(** [out[i] = _buffer[i]] *)
Definition copy_out (buffer : Obj -> option (list gr_complex)) (i : nat) : Prog unit :=
  bind (read buffer) (fun b =>
  match b ≫= (fun l => l !! i) with
  | Some v => write_items0 i v
  | None => undefined
  end).

(** [for(int i = 0; i < n; i++) body(i)], entered with [k] iterations
    left, the next one at index [i]. *)
Fixpoint for_loop (k : nat) (i : nat) (body : nat -> Prog unit) : Prog unit :=
  match k with
  | O => ret tt
  | S k' => bind (body i) (fun _ => for_loop k' (S i) body)
  end.
(** [wp m w Q]: the run of [m] from [w] ends in a result, a world and a trace
    that satisfy [Q]. *)
Definition wp {A} (m : Prog A) (w : World)
    (Q : Result A -> World -> list (Event F C) -> Prop) : Prop :=
  let '(r, w', t) := m w in Q r w' t.
End Prog.

Arguments World Obj {C} api.
Arguments Prog Obj F {C} api A.

Declare Scope prog_scope.
Delimit Scope prog_scope with prog.
Notation "x <- m ;; k" := (bind m (fun x => k))
  (at level 100, m at next level, k at level 200, right associativity) : prog_scope.
Notation "m ;; k" := (bind m (fun _ => k))
  (at level 100, k at level 200, right associativity) : prog_scope.
#[local] Open Scope prog_scope.

(** ** Reading traces *)

Section Traces.
Context {F C : Type}.
Implicit Types t : list (Event F C).

(** The vendor calls of a trace, in order. *)
Fixpoint calls_of t : list C :=
  match t with
  | [] => []
  | EvCall c _ :: t' => c :: calls_of t'
  | _ :: t' => calls_of t'
  end.

(** The statuses the vendor calls returned, in order. *)
Fixpoint statuses_of t : list Z :=
  match t with
  | [] => []
  | EvCall _ s :: t' => s :: statuses_of t'
  | _ :: t' => statuses_of t'
  end.

(** No call of the trace returned a status below [ok]. *)
Definition fatal_free (ok : Z) t : bool := forallb (Z.leb ok) (statuses_of t).

(** The indices of the runtime buffer that were written, in order. *)
Fixpoint copies_of t : list nat :=
  match t with
  | [] => []
  | EvCopy i :: t' => i :: copies_of t'
  | _ :: t' => copies_of t'
  end.

(** The allocations of the transfer buffer, in order. *)
Fixpoint allocs_of t : list Z :=
  match t with
  | [] => []
  | EvNew n :: t' => n :: allocs_of t'
  | _ :: t' => allocs_of t'
  end.

(** The members that were written, in order. *)
Fixpoint stores_of t : list F :=
  match t with
  | [] => []
  | EvStore f :: t' => f :: stores_of t'
  | _ :: t' => stores_of t'
  end.

(** Every recorded member access of the trace happens with the lock held;
    [held] tells whether it is held when the trace starts. *)
Fixpoint guarded (held : bool) t : bool :=
  match t with
  | [] => true
  | EvLock :: t' => guarded true t'
  | EvUnlock :: t' => guarded false t'
  | EvLoad _ :: t' | EvStore _ :: t' => held && guarded held t'
  | _ :: t' => guarded held t'
  end.

(** Whether the lock is held at the end of the trace. *)
Fixpoint held_after (held : bool) t : bool :=
  match t with
  | [] => held
  | EvLock :: t' => held_after true t'
  | EvUnlock :: t' => held_after false t'
  | _ :: t' => held_after held t'
  end.
End Traces.


(** ** Sequences of setter calls *)

(** The last value a sequence of setter calls [l] gave to one field, [pick]
    telling which calls set that field and to what; [prior] when none did. *)
Definition last_set {S V : Type} (pick : S -> option V) (l : list S) (prior : V) : V :=
  default prior (last (omap pick l)).
(** * bb_series (lib/bb_series_impl.h, lib/bb_series_impl.cc) *)

Module Bb.

(** Macros and enumerators of bb_api.h that the adapter passes on; the
    header is not among the sources, so they are kept by name. *)
Inductive bb_const : Type :=
| BB_TRUE | BB_FALSE | bbDataType32fc | BB_STREAMING | BB_STREAM_IQ.

(** The vendor calls of the adapter, with the arguments it chooses (the
    arguments of [bbGetIQUnpacked] that are the literal 0 are left out;
    [iqData] is the array [_buffer] points to). *)
Inductive Call : Type :=
| bbOpenDevice
| bbGetSerialNumber (device : Z)
| bbConfigureIQCenter (device : Z) (centerFreq : double)
| bbConfigureRefLevel (device : Z) (refLevel : double)
| bbConfigureIQ (device : Z) (downsampleFactor : Z) (bandwidth : double)
| bbConfigureIQDataType (device : Z) (dataType : bb_const)
| bbInitiate (device : Z) (mode flag : bb_const)
| bbQueryIQParameters (device : Z)
| bbGetIQUnpacked (device : Z) (iqData : list gr_complex) (iqCount : Z) (purge : bb_const)
| bbAbort (device : Z)
| bbCloseDevice (device : Z).

(** class bb_series_impl; [_mutex] is represented by the lock events. *)
Record bb_series_impl : Type := {
  _handle : Z;
  _center : double;
  _reflevel : double;
  _decimation : Z;
  _bandwidth : double;
  _purge : bool;
  _param_changed : bool;
  _buffer : option (list gr_complex);   (* [None] is the null pointer *)
  _len : Z
}.

(** The members the setters write. *)
Inductive Field : Type :=
| F_center | F_reflevel | F_decimation | F_bandwidth | F_purge | F_param_changed.

Definition upd_handle (v : Z) (o : bb_series_impl) : bb_series_impl :=
  {| _handle := v; _center := _center o; _reflevel := _reflevel o;
     _decimation := _decimation o; _bandwidth := _bandwidth o; _purge := _purge o;
     _param_changed := _param_changed o; _buffer := _buffer o; _len := _len o |}.
Definition upd_center (v : double) (o : bb_series_impl) : bb_series_impl :=
  {| _handle := _handle o; _center := v; _reflevel := _reflevel o;
     _decimation := _decimation o; _bandwidth := _bandwidth o; _purge := _purge o;
     _param_changed := _param_changed o; _buffer := _buffer o; _len := _len o |}.
Definition upd_reflevel (v : double) (o : bb_series_impl) : bb_series_impl :=
  {| _handle := _handle o; _center := _center o; _reflevel := v;
     _decimation := _decimation o; _bandwidth := _bandwidth o; _purge := _purge o;
     _param_changed := _param_changed o; _buffer := _buffer o; _len := _len o |}.
Definition upd_decimation (v : Z) (o : bb_series_impl) : bb_series_impl :=
  {| _handle := _handle o; _center := _center o; _reflevel := _reflevel o;
     _decimation := v; _bandwidth := _bandwidth o; _purge := _purge o;
     _param_changed := _param_changed o; _buffer := _buffer o; _len := _len o |}.
Definition upd_bandwidth (v : double) (o : bb_series_impl) : bb_series_impl :=
  {| _handle := _handle o; _center := _center o; _reflevel := _reflevel o;
     _decimation := _decimation o; _bandwidth := v; _purge := _purge o;
     _param_changed := _param_changed o; _buffer := _buffer o; _len := _len o |}.
Definition upd_purge (v : bool) (o : bb_series_impl) : bb_series_impl :=
  {| _handle := _handle o; _center := _center o; _reflevel := _reflevel o;
     _decimation := _decimation o; _bandwidth := _bandwidth o; _purge := v;
     _param_changed := _param_changed o; _buffer := _buffer o; _len := _len o |}.
Definition upd_param_changed (v : bool) (o : bb_series_impl) : bb_series_impl :=
  {| _handle := _handle o; _center := _center o; _reflevel := _reflevel o;
     _decimation := _decimation o; _bandwidth := _bandwidth o; _purge := _purge o;
     _param_changed := v; _buffer := _buffer o; _len := _len o |}.
Definition upd_buffer (v : option (list gr_complex)) (o : bb_series_impl) : bb_series_impl :=
  {| _handle := _handle o; _center := _center o; _reflevel := _reflevel o;
     _decimation := _decimation o; _bandwidth := _bandwidth o; _purge := _purge o;
     _param_changed := _param_changed o; _buffer := v; _len := _len o |}.
Definition upd_len (v : Z) (o : bb_series_impl) : bb_series_impl :=
  {| _handle := _handle o; _center := _center o; _reflevel := _reflevel o;
     _decimation := _decimation o; _bandwidth := _bandwidth o; _purge := _purge o;
     _param_changed := _param_changed o; _buffer := _buffer o; _len := v |}.

Section Code.
Context {api : VendorApi Call}.
(** [bbNoError], the success value of [bbStatus] (bb_api.h). *)
Variable bbNoError : Z.

#[local] Abbreviation Prog := (Prog bb_series_impl Field api).
#[local] Abbreviation World := (World bb_series_impl api).

(** void ERROR_CHECK(bbStatus status) *)
Definition ERROR_CHECK (status : Z) : Prog unit :=
  if negb (status =? bbNoError) then
    let isWarning := status >? bbNoError in
    print [Str "** "; Str (if isWarning then "Warning: " else "Error: ");
           Str (GetErrorString api status); Str " **"; Str newline] ;;
    if negb isWarning then abort else ret tt
  else ret tt.

(** What [ERROR_CHECK] sends to the console for a status. *)
Definition check_output (st : Z) : list (list Chunk) :=
  if st =? bbNoError then []
  else [[Str "** "; Str (if st >? bbNoError then "Warning: " else "Error: ");
         Str (GetErrorString api st); Str " **"; Str newline]].

(** The member initialisers of the constructor. *)
Definition init (center reflevel : double) (decimation : Z) (bandwidth : double)
    (purge : bool) : bb_series_impl :=
  {| _handle := -1; _center := center; _reflevel := reflevel;
     _decimation := decimation; _bandwidth := bandwidth; _purge := purge;
     _param_changed := true; _buffer := None; _len := 0 |}.

(** bb_series_impl::bb_series_impl: the body, run on the object that
    [init] built. *)
Definition ctor_body : Prog unit :=
  print [Str newline; Str "API Version: "; Str (GetAPIVersion api); Str newline] ;;
  r <- call bbOpenDevice ;;
  write (upd_handle (ret_int r)) ;;
  ERROR_CHECK (status r) ;;
  h <- read _handle ;;
  s <- call (bbGetSerialNumber h) ;;
  ERROR_CHECK (status s) ;;
  print [Str "Serial Number: "; Num (ret_int s); Str newline].

(** bb_series::make: a new block, on a device in state [d], with nothing
    on the console yet. *)
Definition make (center reflevel : double) (decimation : Z) (bandwidth : double)
    (purge : bool) (d : Dev api) (items : list gr_complex) :=
  ctor_body {| self := init center reflevel decimation bandwidth purge;
               device := d; items0 := items; console := [] |}.

(** bb_series_impl::~bb_series_impl *)
Definition dtor : Prog unit :=
  h <- read _handle ;;
  _ <- call (bbAbort h) ;;
  h <- read _handle ;;
  _ <- call (bbCloseDevice h) ;;
  b <- read _buffer ;;
  if negb (is_null b) then delete_array else ret tt.

Definition set_center (center : double) : Prog unit :=
  scoped_lock (
    store F_center (upd_center center) ;;
    store F_param_changed (upd_param_changed true)).

Definition set_reflevel (reflevel : double) : Prog unit :=
  scoped_lock (
    store F_reflevel (upd_reflevel reflevel) ;;
    store F_param_changed (upd_param_changed true)).

Definition set_decimation (decimation : Z) : Prog unit :=
  scoped_lock (
    store F_decimation (upd_decimation decimation) ;;
    store F_param_changed (upd_param_changed true)).

Definition set_bandwidth (bandwidth : double) : Prog unit :=
  scoped_lock (
    store F_bandwidth (upd_bandwidth bandwidth) ;;
    store F_param_changed (upd_param_changed true)).

Definition set_purge (purge : bool) : Prog unit :=
  scoped_lock (
    store F_purge (upd_purge purge)).

(** bb_series_impl::configure *)
Definition configure : Prog unit :=
  scoped_lock (
    h <- read _handle ;; c <- load F_center _center ;;
    r <- call (bbConfigureIQCenter h c) ;; ERROR_CHECK (status r) ;;
    h <- read _handle ;; l <- load F_reflevel _reflevel ;;
    r <- call (bbConfigureRefLevel h l) ;; ERROR_CHECK (status r) ;;
    h <- read _handle ;; d <- load F_decimation _decimation ;;
    b <- load F_bandwidth _bandwidth ;;
    r <- call (bbConfigureIQ h d b) ;; ERROR_CHECK (status r) ;;
    h <- read _handle ;;
    r <- call (bbConfigureIQDataType h bbDataType32fc) ;; ERROR_CHECK (status r) ;;
    h <- read _handle ;;
    r <- call (bbInitiate h BB_STREAMING BB_STREAM_IQ) ;; ERROR_CHECK (status r) ;;
    h <- read _handle ;;
    q <- call (bbQueryIQParameters h) ;; ERROR_CHECK (status q) ;;
    print [Str newline; Str "Sample Rate: "; Dbl (ret_dbl q); Str newline] ;;
    print [Str "Actual Bandwidth: "; Dbl (ret_dbl2 q); Str newline]).

(** The statements of [work], in order. *)

(** [if(_param_changed) { configure(); _param_changed = false; }] *)
Definition work_reconfigure : Prog unit :=
  changed <- load F_param_changed _param_changed ;;
  if changed then
    configure ;;
    store F_param_changed (upd_param_changed false)
  else ret tt.

(** [if(!_buffer || noutput_items != _len) { ... }] *)
Definition work_allocate (noutput_items : Z) : Prog unit :=
  b <- read _buffer ;; len <- read _len ;;
  if is_null b || negb (noutput_items =? len) then
    (if negb (is_null b) then delete_array else ret tt) ;;
    a <- new_array noutput_items ;;
    write (upd_buffer (Some a)) ;;
    write (upd_len noutput_items)
  else ret tt.

(** [ERROR_CHECK(bbGetIQUnpacked(...))] *)
Definition work_get_iq (noutput_items : Z) : Prog unit :=
  h <- read _handle ;; b <- read _buffer ;; p <- load F_purge _purge ;;
  r <- call (bbGetIQUnpacked h (default [] b) noutput_items
               (if p then BB_TRUE else BB_FALSE)) ;;
  write (fun o => upd_buffer (fill_iq (ret_iq r) noutput_items <$> _buffer o) o) ;;
  ERROR_CHECK (status r).

(** [for(int i = 0; i < noutput_items; i++) out[i] = _buffer[i];] *)
Definition work_copy (noutput_items : Z) : Prog unit :=
  for_loop (Z.to_nat noutput_items) 0 (copy_out _buffer).

(** bb_series_impl::work *)
Definition work (noutput_items : Z) : Prog Z :=
  work_reconfigure ;;
  work_allocate noutput_items ;;
  work_get_iq noutput_items ;;
  work_copy noutput_items ;;
  ret noutput_items.

(** A call of one of the setters, and a sequence of such calls. *)
Inductive Setter : Type :=
| SetCenter (center : double)
| SetReflevel (reflevel : double)
| SetDecimation (decimation : Z)
| SetBandwidth (bandwidth : double)
| SetPurge (purge : bool).

Definition run_setter (s : Setter) : Prog unit :=
  match s with
  | SetCenter v => set_center v
  | SetReflevel v => set_reflevel v
  | SetDecimation v => set_decimation v
  | SetBandwidth v => set_bandwidth v
  | SetPurge v => set_purge v
  end.

Fixpoint run_setters (l : list Setter) : Prog unit :=
  match l with
  | [] => ret tt
  | s :: l' => run_setter s ;; run_setters l'
  end.

(** *** [work] running next to a thread that calls setters

    [work] is cut at the points where the other thread can run: before the
    test of [_param_changed], before [configure], before the marker is
    cleared, before the transfer.  [configure] is one step, as it holds the
    lock that every setter takes; the setter calls are steps of their own for
    the same reason. *)
Inductive hook_pc : Type := AtTest | AtConfigure | AtClear | AtTransfer | AtReturn.

Definition hook_step (noutput_items : Z) (pc : hook_pc) : Prog hook_pc :=
  match pc with
  | AtTest =>
      changed <- load F_param_changed _param_changed ;;
      ret (if changed then AtConfigure else AtTransfer)
  | AtConfigure => configure ;; ret AtClear
  | AtClear => store F_param_changed (upd_param_changed false) ;; ret AtTransfer
  | AtTransfer =>
      work_allocate noutput_items ;;
      work_get_iq noutput_items ;;
      work_copy noutput_items ;;
      ret AtReturn
  | AtReturn => ret AtReturn
  end.

(** Whose turn it is: the thread in [work], or the control thread with one
    setter call. *)
Inductive Turn : Type :=
| Hook
| Control (s : Setter).

Fixpoint interleave (noutput_items : Z) (sched : list Turn) (pc : hook_pc) : Prog hook_pc :=
  match sched with
  | [] => ret pc
  | Hook :: sched' =>
      pc' <- hook_step noutput_items pc ;; interleave noutput_items sched' pc'
  | Control s :: sched' =>
      run_setter s ;; interleave noutput_items sched' pc
  end.
End Code.

(** Which field a setter call sets, and to what. *)
Definition center_of (s : Setter) : option double :=
  if s is SetCenter v then Some v else None.
Definition reflevel_of (s : Setter) : option double :=
  if s is SetReflevel v then Some v else None.
Definition decimation_of (s : Setter) : option Z :=
  if s is SetDecimation v then Some v else None.
Definition bandwidth_of (s : Setter) : option double :=
  if s is SetBandwidth v then Some v else None.
Definition purge_of (s : Setter) : option bool :=
  if s is SetPurge v then Some v else None.
Definition is_set_purge (s : Setter) : bool :=
  if s is SetPurge _ then true else false.

(** The members a setter call writes, in order. *)
Definition written_by (s : Setter) : list Field :=
  match s with
  | SetCenter _ => [F_center; F_param_changed]
  | SetReflevel _ => [F_reflevel; F_param_changed]
  | SetDecimation _ => [F_decimation; F_param_changed]
  | SetBandwidth _ => [F_bandwidth; F_param_changed]
  | SetPurge _ => [F_purge]
  end.

(** The object after the setter calls [l], field by field: the last value
    set, or the value in [o] when no call of [l] set the field. *)
Definition after_setters (l : list Setter) (o : bb_series_impl) : bb_series_impl :=
  {| _handle := _handle o;
     _center := last_set center_of l (_center o);
     _reflevel := last_set reflevel_of l (_reflevel o);
     _decimation := last_set decimation_of l (_decimation o);
     _bandwidth := last_set bandwidth_of l (_bandwidth o);
     _purge := last_set purge_of l (_purge o);
     _param_changed := _param_changed o || existsb (fun s => negb (is_set_purge s)) l;
     _buffer := _buffer o;
     _len := _len o |}.

(** The calls by which [configure] pushes the pending configuration of [o]. *)
Definition config_calls (o : bb_series_impl) : list Call :=
  [ bbConfigureIQCenter (_handle o) (_center o);
    bbConfigureRefLevel (_handle o) (_reflevel o);
    bbConfigureIQ (_handle o) (_decimation o) (_bandwidth o);
    bbConfigureIQDataType (_handle o) bbDataType32fc;
    bbInitiate (_handle o) BB_STREAMING BB_STREAM_IQ;
    bbQueryIQParameters (_handle o) ].

(** The calls of one run of [work] on the object [o]: the configuration
    when the marker is set, then the blocking read into [buf]. *)
Definition work_calls (o : bb_series_impl) (n : Z) (buf : list gr_complex) : list Call :=
  (if _param_changed o then config_calls o else []) ++
  [bbGetIQUnpacked (_handle o) buf n (if _purge o then BB_TRUE else BB_FALSE)].

(** The test of [work] before it allocates. *)
Definition must_allocate (o : bb_series_impl) (n : Z) : bool :=
  is_null (_buffer o) || negb (n =? _len o).

(** [_len] is the length of the array behind [_buffer]. *)
Definition buffer_inv (o : bb_series_impl) : Prop :=
  forall b, _buffer o = Some b -> Z.of_nat (length b) = _len o.
End Bb.


(** * sm_series (lib/sm_series_impl.cc) *)

Module Sm.

(** Modelled from the spec: sm_api.h and sm_series_impl.h are not among the
    sources.  The class has the members that the constructor of
    sm_series_impl.cc initialises, with the types of the sibling
    sp_series_impl.h; [SmBool] follows [SpBool] of sp_api.h ([smFalse] is 0). *)
Inductive SmBool : Type := smFalse | smTrue.

(** [b ? smTrue : smFalse] for a C++ [bool] b. *)
Definition of_bool (b : bool) : SmBool := if b then smTrue else smFalse.
(** An [SmBool] used as a condition. *)
Definition truth (b : SmBool) : bool := if b is smTrue then true else false.

(** Enumerators of sm_api.h that the adapter passes on, kept by name. *)
Inductive sm_const : Type := smDataType32fc | smModeIQStreaming.

(** The vendor calls of the adapter, with the arguments it chooses (the
    arguments of [smGetIQ] that are the literal 0 are left out; [iqBuf] is
    the array [_buffer] points to). *)
Inductive Call : Type :=
| smOpenDevice
| smGetDeviceInfo (device : Z)
| smSetIQDataType (device : Z) (dataType : sm_const)
| smSetIQCenterFreq (device : Z) (centerFreqHz : double)
| smSetIQSampleRate (device : Z) (decimation : Z)
| smSetRefLevel (device : Z) (refLevel : double)
| smSetAttenuator (device : Z) (atten : Z)
| smSetIQBandwidth (device : Z) (enableSoftwareFilter : SmBool) (bandwidth : double)
| smConfigure (device : Z) (mode : sm_const)
| smGetIQParameters (device : Z)
| smGetIQ (device : Z) (iqBuf : list gr_complex) (iqBufSize : Z) (purge : SmBool)
| smAbort (device : Z)
| smCloseDevice (device : Z).

(** class sm_series_impl; [_mutex] is represented by the lock events. *)
Record sm_series_impl : Type := {
  _handle : Z;
  _center : double;
  _reflevel : double;
  _atten : Z;
  _decimation : Z;
  _bandwidth : double;
  _purge : SmBool;
  _swfilter : SmBool;
  _param_changed : bool;
  _buffer : option (list gr_complex);   (* [None] is the null pointer *)
  _len : Z
}.

(** The members the setters write. *)
Inductive Field : Type :=
| F_center | F_reflevel | F_atten | F_decimation | F_bandwidth | F_purge | F_swfilter
| F_param_changed.

Definition upd_handle (v : Z) (o : sm_series_impl) : sm_series_impl :=
  {| _handle := v; _center := _center o; _reflevel := _reflevel o; _atten := _atten o;
     _decimation := _decimation o; _bandwidth := _bandwidth o; _purge := _purge o;
     _swfilter := _swfilter o; _param_changed := _param_changed o;
     _buffer := _buffer o; _len := _len o |}.
Definition upd_center (v : double) (o : sm_series_impl) : sm_series_impl :=
  {| _handle := _handle o; _center := v; _reflevel := _reflevel o; _atten := _atten o;
     _decimation := _decimation o; _bandwidth := _bandwidth o; _purge := _purge o;
     _swfilter := _swfilter o; _param_changed := _param_changed o;
     _buffer := _buffer o; _len := _len o |}.
Definition upd_reflevel (v : double) (o : sm_series_impl) : sm_series_impl :=
  {| _handle := _handle o; _center := _center o; _reflevel := v; _atten := _atten o;
     _decimation := _decimation o; _bandwidth := _bandwidth o; _purge := _purge o;
     _swfilter := _swfilter o; _param_changed := _param_changed o;
     _buffer := _buffer o; _len := _len o |}.
Definition upd_atten (v : Z) (o : sm_series_impl) : sm_series_impl :=
  {| _handle := _handle o; _center := _center o; _reflevel := _reflevel o; _atten := v;
     _decimation := _decimation o; _bandwidth := _bandwidth o; _purge := _purge o;
     _swfilter := _swfilter o; _param_changed := _param_changed o;
     _buffer := _buffer o; _len := _len o |}.
Definition upd_decimation (v : Z) (o : sm_series_impl) : sm_series_impl :=
  {| _handle := _handle o; _center := _center o; _reflevel := _reflevel o;
     _atten := _atten o; _decimation := v; _bandwidth := _bandwidth o;
     _purge := _purge o; _swfilter := _swfilter o; _param_changed := _param_changed o;
     _buffer := _buffer o; _len := _len o |}.
Definition upd_bandwidth (v : double) (o : sm_series_impl) : sm_series_impl :=
  {| _handle := _handle o; _center := _center o; _reflevel := _reflevel o;
     _atten := _atten o; _decimation := _decimation o; _bandwidth := v;
     _purge := _purge o; _swfilter := _swfilter o; _param_changed := _param_changed o;
     _buffer := _buffer o; _len := _len o |}.
Definition upd_purge (v : SmBool) (o : sm_series_impl) : sm_series_impl :=
  {| _handle := _handle o; _center := _center o; _reflevel := _reflevel o;
     _atten := _atten o; _decimation := _decimation o; _bandwidth := _bandwidth o;
     _purge := v; _swfilter := _swfilter o; _param_changed := _param_changed o;
     _buffer := _buffer o; _len := _len o |}.
Definition upd_swfilter (v : SmBool) (o : sm_series_impl) : sm_series_impl :=
  {| _handle := _handle o; _center := _center o; _reflevel := _reflevel o;
     _atten := _atten o; _decimation := _decimation o; _bandwidth := _bandwidth o;
     _purge := _purge o; _swfilter := v; _param_changed := _param_changed o;
     _buffer := _buffer o; _len := _len o |}.
Definition upd_param_changed (v : bool) (o : sm_series_impl) : sm_series_impl :=
  {| _handle := _handle o; _center := _center o; _reflevel := _reflevel o;
     _atten := _atten o; _decimation := _decimation o; _bandwidth := _bandwidth o;
     _purge := _purge o; _swfilter := _swfilter o; _param_changed := v;
     _buffer := _buffer o; _len := _len o |}.
Definition upd_buffer (v : option (list gr_complex)) (o : sm_series_impl) : sm_series_impl :=
  {| _handle := _handle o; _center := _center o; _reflevel := _reflevel o;
     _atten := _atten o; _decimation := _decimation o; _bandwidth := _bandwidth o;
     _purge := _purge o; _swfilter := _swfilter o; _param_changed := _param_changed o;
     _buffer := v; _len := _len o |}.
Definition upd_len (v : Z) (o : sm_series_impl) : sm_series_impl :=
  {| _handle := _handle o; _center := _center o; _reflevel := _reflevel o;
     _atten := _atten o; _decimation := _decimation o; _bandwidth := _bandwidth o;
     _purge := _purge o; _swfilter := _swfilter o; _param_changed := _param_changed o;
     _buffer := _buffer o; _len := v |}.

Section Code.
Context {api : VendorApi Call}.
(** [smNoError], the success value of [SmStatus] (sm_api.h). *)
Variable smNoError : Z.

#[local] Abbreviation Prog := (Prog sm_series_impl Field api).
#[local] Abbreviation World := (World sm_series_impl api).

(** void ERROR_CHECK(const char* call, SmStatus status) *)
Definition ERROR_CHECK (call : string) (status : Z) : Prog unit :=
  if negb (status =? smNoError) then
    let isWarning := status >? smNoError in
    print [Str "** "; Str (if isWarning then "Warning: (" else "Error: (");
           Str call; Str ")"; Str (GetErrorString api status); Str " **"; Str newline] ;;
    if negb isWarning then abort else ret tt
  else ret tt.

(** What [ERROR_CHECK] sends to the console for a status. *)
Definition check_output (cname : string) (st : Z) : list (list Chunk) :=
  if st =? smNoError then []
  else [[Str "** "; Str (if st >? smNoError then "Warning: (" else "Error: ("); Str cname;
         Str ")"; Str (GetErrorString api st); Str " **"; Str newline]].

(** The member initialisers of the constructor. *)
Definition init (center reflevel : double) (atten decimation : Z)
    (swfilter purge : bool) (bandwidth : double) : sm_series_impl :=
  {| _handle := -1; _center := center; _reflevel := reflevel; _atten := atten;
     _decimation := decimation; _bandwidth := bandwidth;
     _purge := of_bool purge; _swfilter := of_bool swfilter;
     _param_changed := true; _buffer := None; _len := 0 |}.

(** sm_series_impl::sm_series_impl: the body, run on the object that [init]
    built. *)
Definition ctor_body : Prog unit :=
  print [Str newline; Str "API Version: "; Str (GetAPIVersion api); Endl] ;;
  r <- call smOpenDevice ;;
  write (upd_handle (ret_int r)) ;;
  ERROR_CHECK "smOpenDevice" (status r) ;;
  h <- read _handle ;;
  s <- call (smGetDeviceInfo h) ;;
  ERROR_CHECK "smGetDeviceInfo" (status s) ;;
  print [Str "Serial Number: "; Num (ret_int2 s); Endl].

(** sm_series::make: a new block, on a device in state [d], with nothing on
    the console yet. *)
Definition make (center reflevel : double) (atten decimation : Z)
    (swfilter purge : bool) (bandwidth : double)
    (d : Dev api) (items : list gr_complex) :=
  ctor_body {| self := init center reflevel atten decimation swfilter purge bandwidth;
               device := d; items0 := items; console := [] |}.

(** sm_series_impl::~sm_series_impl *)
Definition dtor : Prog unit :=
  h <- read _handle ;;
  _ <- call (smAbort h) ;;
  h <- read _handle ;;
  _ <- call (smCloseDevice h) ;;
  b <- read _buffer ;;
  if negb (is_null b) then delete_array else ret tt.

Definition set_center (center : double) : Prog unit :=
  scoped_lock (
    store F_center (upd_center center) ;;
    store F_param_changed (upd_param_changed true)).

Definition set_reflevel (reflevel : double) : Prog unit :=
  scoped_lock (
    store F_reflevel (upd_reflevel reflevel) ;;
    store F_param_changed (upd_param_changed true)).

Definition set_atten (atten : Z) : Prog unit :=
  scoped_lock (
    store F_atten (upd_atten atten) ;;
    store F_param_changed (upd_param_changed true)).

Definition set_decimation (decimation : Z) : Prog unit :=
  scoped_lock (
    store F_decimation (upd_decimation decimation) ;;
    store F_param_changed (upd_param_changed true)).

Definition set_bandwidth (bandwidth : double) : Prog unit :=
  scoped_lock (
    store F_bandwidth (upd_bandwidth bandwidth) ;;
    store F_param_changed (upd_param_changed true)).

Definition set_swfilter (swfilter : bool) : Prog unit :=
  scoped_lock (
    store F_swfilter (upd_swfilter (of_bool swfilter)) ;;
    store F_param_changed (upd_param_changed true)).

Definition set_purge (purge : bool) : Prog unit :=
  scoped_lock (
    store F_purge (upd_purge (of_bool purge))).

(** sm_series_impl::configure *)
Definition configure : Prog unit :=
  scoped_lock (
    h <- read _handle ;;
    r <- call (smSetIQDataType h smDataType32fc) ;;
    ERROR_CHECK "smSetIQDataType" (status r) ;;
    h <- read _handle ;; c <- load F_center _center ;;
    r <- call (smSetIQCenterFreq h c) ;; ERROR_CHECK "smSetIQCenterFreq" (status r) ;;
    h <- read _handle ;; d <- load F_decimation _decimation ;;
    r <- call (smSetIQSampleRate h d) ;; ERROR_CHECK "smSetIQSampleRate" (status r) ;;
    h <- read _handle ;; l <- load F_reflevel _reflevel ;;
    r <- call (smSetRefLevel h l) ;; ERROR_CHECK "smSetRefLevel" (status r) ;;
    h <- read _handle ;; a <- load F_atten _atten ;;
    r <- call (smSetAttenuator h a) ;; ERROR_CHECK "smSetAttenuator" (status r) ;;
    h <- read _handle ;; f <- load F_swfilter _swfilter ;;
    b <- load F_bandwidth _bandwidth ;;
    r <- call (smSetIQBandwidth h f b) ;; ERROR_CHECK "smSetIQBandwidth" (status r) ;;
    h <- read _handle ;;
    r <- call (smConfigure h smModeIQStreaming) ;; ERROR_CHECK "smConfigure" (status r) ;;
    h <- read _handle ;;
    q <- call (smGetIQParameters h) ;; ERROR_CHECK "smGetIQParameters" (status q) ;;
    print [Str newline; Str "Sample Rate: "; Dbl (ret_dbl q); Endl] ;;
    print [Str "Actual Bandwidth: "; Dbl (ret_dbl2 q); Endl]).

(** The statements of [work], in order. *)

(** [if(_param_changed) { configure(); _param_changed = false; }] *)
Definition work_reconfigure : Prog unit :=
  changed <- load F_param_changed _param_changed ;;
  if changed then
    configure ;;
    store F_param_changed (upd_param_changed false)
  else ret tt.

(** [if(!_buffer || noutput_items != _len) { ... }] *)
Definition work_allocate (noutput_items : Z) : Prog unit :=
  b <- read _buffer ;; len <- read _len ;;
  if is_null b || negb (noutput_items =? len) then
    (if negb (is_null b) then delete_array else ret tt) ;;
    a <- new_array noutput_items ;;
    write (upd_buffer (Some a)) ;;
    write (upd_len noutput_items)
  else ret tt.

(** [ERROR_CHECK("smGetIQ", smGetIQ(...))] *)
Definition work_get_iq (noutput_items : Z) : Prog unit :=
  h <- read _handle ;; b <- read _buffer ;; p <- load F_purge _purge ;;
  r <- call (smGetIQ h (default [] b) noutput_items (of_bool (truth p))) ;;
  write (fun o => upd_buffer (fill_iq (ret_iq r) noutput_items <$> _buffer o) o) ;;
  ERROR_CHECK "smGetIQ" (status r).

(** [for(int i = 0; i < noutput_items; i++) out[i] = _buffer[i];] *)
Definition work_copy (noutput_items : Z) : Prog unit :=
  for_loop (Z.to_nat noutput_items) 0 (copy_out _buffer).

(** sm_series_impl::work *)
Definition work (noutput_items : Z) : Prog Z :=
  work_reconfigure ;;
  work_allocate noutput_items ;;
  work_get_iq noutput_items ;;
  work_copy noutput_items ;;
  ret noutput_items.

(** A call of one of the setters, and a sequence of such calls. *)
Inductive Setter : Type :=
| SetCenter (center : double)
| SetReflevel (reflevel : double)
| SetAtten (atten : Z)
| SetDecimation (decimation : Z)
| SetBandwidth (bandwidth : double)
| SetSwfilter (swfilter : bool)
| SetPurge (purge : bool).

Definition run_setter (s : Setter) : Prog unit :=
  match s with
  | SetCenter v => set_center v
  | SetReflevel v => set_reflevel v
  | SetAtten v => set_atten v
  | SetDecimation v => set_decimation v
  | SetBandwidth v => set_bandwidth v
  | SetSwfilter v => set_swfilter v
  | SetPurge v => set_purge v
  end.

Fixpoint run_setters (l : list Setter) : Prog unit :=
  match l with
  | [] => ret tt
  | s :: l' => run_setter s ;; run_setters l'
  end.
End Code.

(** Which field a setter call sets, and to what. *)
Definition center_of (s : Setter) : option double :=
  if s is SetCenter v then Some v else None.
Definition reflevel_of (s : Setter) : option double :=
  if s is SetReflevel v then Some v else None.
Definition atten_of (s : Setter) : option Z :=
  if s is SetAtten v then Some v else None.
Definition decimation_of (s : Setter) : option Z :=
  if s is SetDecimation v then Some v else None.
Definition bandwidth_of (s : Setter) : option double :=
  if s is SetBandwidth v then Some v else None.
Definition swfilter_of (s : Setter) : option SmBool :=
  if s is SetSwfilter v then Some (of_bool v) else None.
Definition purge_of (s : Setter) : option SmBool :=
  if s is SetPurge v then Some (of_bool v) else None.
Definition is_set_purge (s : Setter) : bool :=
  if s is SetPurge _ then true else false.

(** The members a setter call writes, in order. *)
Definition written_by (s : Setter) : list Field :=
  match s with
  | SetCenter _ => [F_center; F_param_changed]
  | SetReflevel _ => [F_reflevel; F_param_changed]
  | SetAtten _ => [F_atten; F_param_changed]
  | SetDecimation _ => [F_decimation; F_param_changed]
  | SetBandwidth _ => [F_bandwidth; F_param_changed]
  | SetSwfilter _ => [F_swfilter; F_param_changed]
  | SetPurge _ => [F_purge]
  end.

(** The object after the setter calls [l], field by field: the last value
    set, or the value in [o] when no call of [l] set the field. *)
Definition after_setters (l : list Setter) (o : sm_series_impl) : sm_series_impl :=
  {| _handle := _handle o;
     _center := last_set center_of l (_center o);
     _reflevel := last_set reflevel_of l (_reflevel o);
     _atten := last_set atten_of l (_atten o);
     _decimation := last_set decimation_of l (_decimation o);
     _bandwidth := last_set bandwidth_of l (_bandwidth o);
     _purge := last_set purge_of l (_purge o);
     _swfilter := last_set swfilter_of l (_swfilter o);
     _param_changed := _param_changed o || existsb (fun s => negb (is_set_purge s)) l;
     _buffer := _buffer o;
     _len := _len o |}.

(** The calls by which [configure] pushes the pending configuration of [o]. *)
Definition config_calls (o : sm_series_impl) : list Call :=
  [ smSetIQDataType (_handle o) smDataType32fc;
    smSetIQCenterFreq (_handle o) (_center o);
    smSetIQSampleRate (_handle o) (_decimation o);
    smSetRefLevel (_handle o) (_reflevel o);
    smSetAttenuator (_handle o) (_atten o);
    smSetIQBandwidth (_handle o) (_swfilter o) (_bandwidth o);
    smConfigure (_handle o) smModeIQStreaming;
    smGetIQParameters (_handle o) ].

(** The calls of one run of [work] on the object [o]: the configuration
    when the marker is set, then the blocking read into [buf]. *)
Definition work_calls (o : sm_series_impl) (n : Z) (buf : list gr_complex) : list Call :=
  (if _param_changed o then config_calls o else []) ++
  [smGetIQ (_handle o) buf n (of_bool (truth (_purge o)))].

(** The test of [work] before it allocates. *)
Definition must_allocate (o : sm_series_impl) (n : Z) : bool :=
  is_null (_buffer o) || negb (n =? _len o).

(** [_len] is the length of the array behind [_buffer]. *)
Definition buffer_inv (o : sm_series_impl) : Prop :=
  forall b, _buffer o = Some b -> Z.of_nat (length b) = _len o.
End Sm.

(** * sp_series (lib/sp_series_impl.h, lib/sp_series_impl.cc, sp_api.h) *)

Module Sp.

(** enum SpBool (sp_api.h) *)
Inductive SpBool : Type := spFalse | spTrue.

(** [b ? spTrue : spFalse] for a C++ [bool] b. *)
Definition of_bool (b : bool) : SpBool := if b then spTrue else spFalse.
(** An [SpBool] used as a condition: [spFalse] is 0. *)
Definition truth (b : SpBool) : bool := if b is spTrue then true else false.

(** [spNoError], [spDataType32fc] and [spModeIQStreaming] (sp_api.h). *)
Definition spNoError : Z := 0.
Definition spDataType32fc : Z := 0.
Definition spModeIQStreaming : Z := 3.

(** The vendor calls of the adapter, with the arguments it chooses (the
    arguments of [spGetIQ] that are the literal 0 are left out; [iqBuf] is
    the array [_buffer] points to). *)
Inductive Call : Type :=
| spOpenDevice
| spGetSerialNumber (device : Z)
| spSetIQDataType (device : Z) (dataType : Z)
| spSetIQCenterFreq (device : Z) (centerFreqHz : double)
| spSetIQSampleRate (device : Z) (decimation : Z)
| spSetIQSoftwareFilter (device : Z) (enabled : SpBool)
| spSetRefLevel (device : Z) (refLevel : double)
| spSetAttenuator (device : Z) (atten : Z)
| spSetIQBandwidth (device : Z) (bandwidth : double)
| spConfigure (device : Z) (mode : Z)
| spGetIQParameters (device : Z)
| spGetIQ (device : Z) (iqBuf : list gr_complex) (iqBufSize : Z) (purge : SpBool)
| spAbort (device : Z)
| spCloseDevice (device : Z).

(** class sp_series_impl; [_mutex] is represented by the lock events. *)
Record sp_series_impl : Type := {
  _handle : Z;
  _center : double;
  _reflevel : double;
  _atten : Z;
  _decimation : Z;
  _bandwidth : double;
  _purge : SpBool;
  _swfilter : SpBool;
  _param_changed : bool;
  _buffer : option (list gr_complex);   (* [None] is the null pointer *)
  _len : Z
}.

(** The members the setters write. *)
Inductive Field : Type :=
| F_center | F_reflevel | F_atten | F_decimation | F_bandwidth | F_purge | F_swfilter
| F_param_changed.

Definition upd_handle (v : Z) (o : sp_series_impl) : sp_series_impl :=
  {| _handle := v; _center := _center o; _reflevel := _reflevel o; _atten := _atten o;
     _decimation := _decimation o; _bandwidth := _bandwidth o; _purge := _purge o;
     _swfilter := _swfilter o; _param_changed := _param_changed o;
     _buffer := _buffer o; _len := _len o |}.
Definition upd_center (v : double) (o : sp_series_impl) : sp_series_impl :=
  {| _handle := _handle o; _center := v; _reflevel := _reflevel o; _atten := _atten o;
     _decimation := _decimation o; _bandwidth := _bandwidth o; _purge := _purge o;
     _swfilter := _swfilter o; _param_changed := _param_changed o;
     _buffer := _buffer o; _len := _len o |}.
Definition upd_reflevel (v : double) (o : sp_series_impl) : sp_series_impl :=
  {| _handle := _handle o; _center := _center o; _reflevel := v; _atten := _atten o;
     _decimation := _decimation o; _bandwidth := _bandwidth o; _purge := _purge o;
     _swfilter := _swfilter o; _param_changed := _param_changed o;
     _buffer := _buffer o; _len := _len o |}.
Definition upd_atten (v : Z) (o : sp_series_impl) : sp_series_impl :=
  {| _handle := _handle o; _center := _center o; _reflevel := _reflevel o; _atten := v;
     _decimation := _decimation o; _bandwidth := _bandwidth o; _purge := _purge o;
     _swfilter := _swfilter o; _param_changed := _param_changed o;
     _buffer := _buffer o; _len := _len o |}.
Definition upd_decimation (v : Z) (o : sp_series_impl) : sp_series_impl :=
  {| _handle := _handle o; _center := _center o; _reflevel := _reflevel o;
     _atten := _atten o; _decimation := v; _bandwidth := _bandwidth o;
     _purge := _purge o; _swfilter := _swfilter o; _param_changed := _param_changed o;
     _buffer := _buffer o; _len := _len o |}.
Definition upd_bandwidth (v : double) (o : sp_series_impl) : sp_series_impl :=
  {| _handle := _handle o; _center := _center o; _reflevel := _reflevel o;
     _atten := _atten o; _decimation := _decimation o; _bandwidth := v;
     _purge := _purge o; _swfilter := _swfilter o; _param_changed := _param_changed o;
     _buffer := _buffer o; _len := _len o |}.
Definition upd_purge (v : SpBool) (o : sp_series_impl) : sp_series_impl :=
  {| _handle := _handle o; _center := _center o; _reflevel := _reflevel o;
     _atten := _atten o; _decimation := _decimation o; _bandwidth := _bandwidth o;
     _purge := v; _swfilter := _swfilter o; _param_changed := _param_changed o;
     _buffer := _buffer o; _len := _len o |}.
Definition upd_swfilter (v : SpBool) (o : sp_series_impl) : sp_series_impl :=
  {| _handle := _handle o; _center := _center o; _reflevel := _reflevel o;
     _atten := _atten o; _decimation := _decimation o; _bandwidth := _bandwidth o;
     _purge := _purge o; _swfilter := v; _param_changed := _param_changed o;
     _buffer := _buffer o; _len := _len o |}.
Definition upd_param_changed (v : bool) (o : sp_series_impl) : sp_series_impl :=
  {| _handle := _handle o; _center := _center o; _reflevel := _reflevel o;
     _atten := _atten o; _decimation := _decimation o; _bandwidth := _bandwidth o;
     _purge := _purge o; _swfilter := _swfilter o; _param_changed := v;
     _buffer := _buffer o; _len := _len o |}.
Definition upd_buffer (v : option (list gr_complex)) (o : sp_series_impl) : sp_series_impl :=
  {| _handle := _handle o; _center := _center o; _reflevel := _reflevel o;
     _atten := _atten o; _decimation := _decimation o; _bandwidth := _bandwidth o;
     _purge := _purge o; _swfilter := _swfilter o; _param_changed := _param_changed o;
     _buffer := v; _len := _len o |}.
Definition upd_len (v : Z) (o : sp_series_impl) : sp_series_impl :=
  {| _handle := _handle o; _center := _center o; _reflevel := _reflevel o;
     _atten := _atten o; _decimation := _decimation o; _bandwidth := _bandwidth o;
     _purge := _purge o; _swfilter := _swfilter o; _param_changed := _param_changed o;
     _buffer := _buffer o; _len := v |}.

Section Code.
Context {api : VendorApi Call}.

#[local] Abbreviation Prog := (Prog sp_series_impl Field api).
#[local] Abbreviation World := (World sp_series_impl api).

(** void ERROR_CHECK(SpStatus status) *)
Definition ERROR_CHECK (status : Z) : Prog unit :=
  if negb (status =? spNoError) then
    let isWarning := status >? spNoError in
    print [Str "** "; Str (if isWarning then "Warning: " else "Error: ");
           Str (GetErrorString api status); Str " **"; Str newline] ;;
    if negb isWarning then abort else ret tt
  else ret tt.

(** What [ERROR_CHECK] sends to the console for a status. *)
Definition check_output (st : Z) : list (list Chunk) :=
  if st =? spNoError then []
  else [[Str "** "; Str (if st >? spNoError then "Warning: " else "Error: ");
         Str (GetErrorString api st); Str " **"; Str newline]].

(** The member initialisers of the constructor. *)
Definition init (reflevel : double) (atten : Z) (center : double) (decimation : Z)
    (swfilter : bool) (bandwidth : double) (purge : bool) : sp_series_impl :=
  {| _handle := -1; _center := center; _reflevel := reflevel; _atten := atten;
     _decimation := decimation; _bandwidth := bandwidth;
     _purge := of_bool purge; _swfilter := of_bool swfilter;
     _param_changed := true; _buffer := None; _len := 0 |}.

(** sp_series_impl::sp_series_impl: the body, run on the object that [init]
    built. *)
Definition ctor_body : Prog unit :=
  print [Str newline; Str "API Version: "; Str (GetAPIVersion api); Endl] ;;
  r <- call spOpenDevice ;;
  write (upd_handle (ret_int r)) ;;
  ERROR_CHECK (status r) ;;
  h <- read _handle ;;
  s <- call (spGetSerialNumber h) ;;
  ERROR_CHECK (status s) ;;
  print [Str "Serial Number: "; Num (ret_int s); Endl].

(** sp_series::make: a new block, on a device in state [d], with nothing on
    the console yet. *)
Definition make (reflevel : double) (atten : Z) (center : double) (decimation : Z)
    (swfilter : bool) (bandwidth : double) (purge : bool)
    (d : Dev api) (items : list gr_complex) :=
  ctor_body {| self := init reflevel atten center decimation swfilter bandwidth purge;
               device := d; items0 := items; console := [] |}.

(** sp_series_impl::~sp_series_impl *)
Definition dtor : Prog unit :=
  h <- read _handle ;;
  _ <- call (spAbort h) ;;
  h <- read _handle ;;
  _ <- call (spCloseDevice h) ;;
  b <- read _buffer ;;
  if negb (is_null b) then delete_array else ret tt.

Definition set_center (center : double) : Prog unit :=
  scoped_lock (
    store F_center (upd_center center) ;;
    store F_param_changed (upd_param_changed true)).

Definition set_reflevel (reflevel : double) : Prog unit :=
  scoped_lock (
    store F_reflevel (upd_reflevel reflevel) ;;
    store F_param_changed (upd_param_changed true)).

Definition set_atten (atten : Z) : Prog unit :=
  scoped_lock (
    store F_atten (upd_atten atten) ;;
    store F_param_changed (upd_param_changed true)).

Definition set_decimation (decimation : Z) : Prog unit :=
  scoped_lock (
    store F_decimation (upd_decimation decimation) ;;
    store F_param_changed (upd_param_changed true)).

Definition set_bandwidth (bandwidth : double) : Prog unit :=
  scoped_lock (
    store F_bandwidth (upd_bandwidth bandwidth) ;;
    store F_param_changed (upd_param_changed true)).

Definition set_swfilter (swfilter : bool) : Prog unit :=
  scoped_lock (
    store F_swfilter (upd_swfilter (of_bool swfilter)) ;;
    store F_param_changed (upd_param_changed true)).

Definition set_purge (purge : bool) : Prog unit :=
  scoped_lock (
    store F_purge (upd_purge (of_bool purge))).

(** sp_series_impl::configure *)
Definition configure : Prog unit :=
  scoped_lock (
    h <- read _handle ;;
    r <- call (spSetIQDataType h spDataType32fc) ;; ERROR_CHECK (status r) ;;
    h <- read _handle ;; c <- load F_center _center ;;
    r <- call (spSetIQCenterFreq h c) ;; ERROR_CHECK (status r) ;;
    h <- read _handle ;; d <- load F_decimation _decimation ;;
    r <- call (spSetIQSampleRate h d) ;; ERROR_CHECK (status r) ;;
    h <- read _handle ;; f <- load F_swfilter _swfilter ;;
    r <- call (spSetIQSoftwareFilter h f) ;; ERROR_CHECK (status r) ;;
    h <- read _handle ;; l <- load F_reflevel _reflevel ;;
    r <- call (spSetRefLevel h l) ;; ERROR_CHECK (status r) ;;
    h <- read _handle ;; a <- load F_atten _atten ;;
    r <- call (spSetAttenuator h a) ;; ERROR_CHECK (status r) ;;
    h <- read _handle ;; b <- load F_bandwidth _bandwidth ;;
    r <- call (spSetIQBandwidth h b) ;; ERROR_CHECK (status r) ;;
    h <- read _handle ;;
    r <- call (spConfigure h spModeIQStreaming) ;; ERROR_CHECK (status r) ;;
    h <- read _handle ;;
    q <- call (spGetIQParameters h) ;; ERROR_CHECK (status q) ;;
    print [Str newline; Str "Sample Rate: "; Dbl (ret_dbl q); Endl] ;;
    print [Str "Actual Bandwidth: "; Dbl (ret_dbl2 q); Endl]).

(** The statements of [work], in order. *)

(** [if(_param_changed) { configure(); _param_changed = false; }] *)
Definition work_reconfigure : Prog unit :=
  changed <- load F_param_changed _param_changed ;;
  if changed then
    configure ;;
    store F_param_changed (upd_param_changed false)
  else ret tt.

(** [if(!_buffer || noutput_items != _len) { ... }] *)
Definition work_allocate (noutput_items : Z) : Prog unit :=
  b <- read _buffer ;; len <- read _len ;;
  if is_null b || negb (noutput_items =? len) then
    (if negb (is_null b) then delete_array else ret tt) ;;
    a <- new_array noutput_items ;;
    write (upd_buffer (Some a)) ;;
    write (upd_len noutput_items)
  else ret tt.

(** [ERROR_CHECK(spGetIQ(...))] *)
Definition work_get_iq (noutput_items : Z) : Prog unit :=
  h <- read _handle ;; b <- read _buffer ;; p <- load F_purge _purge ;;
  r <- call (spGetIQ h (default [] b) noutput_items (of_bool (truth p))) ;;
  write (fun o => upd_buffer (fill_iq (ret_iq r) noutput_items <$> _buffer o) o) ;;
  ERROR_CHECK (status r).

(** [for(int i = 0; i < noutput_items; i++) out[i] = _buffer[i];] *)
Definition work_copy (noutput_items : Z) : Prog unit :=
  for_loop (Z.to_nat noutput_items) 0 (copy_out _buffer).

(** sp_series_impl::work *)
Definition work (noutput_items : Z) : Prog Z :=
  work_reconfigure ;;
  work_allocate noutput_items ;;
  work_get_iq noutput_items ;;
  work_copy noutput_items ;;
  ret noutput_items.

(** A call of one of the setters, and a sequence of such calls. *)
Inductive Setter : Type :=
| SetCenter (center : double)
| SetReflevel (reflevel : double)
| SetAtten (atten : Z)
| SetDecimation (decimation : Z)
| SetBandwidth (bandwidth : double)
| SetSwfilter (swfilter : bool)
| SetPurge (purge : bool).

Definition run_setter (s : Setter) : Prog unit :=
  match s with
  | SetCenter v => set_center v
  | SetReflevel v => set_reflevel v
  | SetAtten v => set_atten v
  | SetDecimation v => set_decimation v
  | SetBandwidth v => set_bandwidth v
  | SetSwfilter v => set_swfilter v
  | SetPurge v => set_purge v
  end.

Fixpoint run_setters (l : list Setter) : Prog unit :=
  match l with
  | [] => ret tt
  | s :: l' => run_setter s ;; run_setters l'
  end.
End Code.

(** Which field a setter call sets, and to what. *)
Definition center_of (s : Setter) : option double :=
  if s is SetCenter v then Some v else None.
Definition reflevel_of (s : Setter) : option double :=
  if s is SetReflevel v then Some v else None.
Definition atten_of (s : Setter) : option Z :=
  if s is SetAtten v then Some v else None.
Definition decimation_of (s : Setter) : option Z :=
  if s is SetDecimation v then Some v else None.
Definition bandwidth_of (s : Setter) : option double :=
  if s is SetBandwidth v then Some v else None.
Definition swfilter_of (s : Setter) : option SpBool :=
  if s is SetSwfilter v then Some (of_bool v) else None.
Definition purge_of (s : Setter) : option SpBool :=
  if s is SetPurge v then Some (of_bool v) else None.
Definition is_set_purge (s : Setter) : bool :=
  if s is SetPurge _ then true else false.

(** The members a setter call writes, in order. *)
Definition written_by (s : Setter) : list Field :=
  match s with
  | SetCenter _ => [F_center; F_param_changed]
  | SetReflevel _ => [F_reflevel; F_param_changed]
  | SetAtten _ => [F_atten; F_param_changed]
  | SetDecimation _ => [F_decimation; F_param_changed]
  | SetBandwidth _ => [F_bandwidth; F_param_changed]
  | SetSwfilter _ => [F_swfilter; F_param_changed]
  | SetPurge _ => [F_purge]
  end.

(** The object after the setter calls [l], field by field: the last value
    set, or the value in [o] when no call of [l] set the field. *)
Definition after_setters (l : list Setter) (o : sp_series_impl) : sp_series_impl :=
  {| _handle := _handle o;
     _center := last_set center_of l (_center o);
     _reflevel := last_set reflevel_of l (_reflevel o);
     _atten := last_set atten_of l (_atten o);
     _decimation := last_set decimation_of l (_decimation o);
     _bandwidth := last_set bandwidth_of l (_bandwidth o);
     _purge := last_set purge_of l (_purge o);
     _swfilter := last_set swfilter_of l (_swfilter o);
     _param_changed := _param_changed o || existsb (fun s => negb (is_set_purge s)) l;
     _buffer := _buffer o;
     _len := _len o |}.

(** The calls by which [configure] pushes the pending configuration of [o]. *)
Definition config_calls (o : sp_series_impl) : list Call :=
  [ spSetIQDataType (_handle o) spDataType32fc;
    spSetIQCenterFreq (_handle o) (_center o);
    spSetIQSampleRate (_handle o) (_decimation o);
    spSetIQSoftwareFilter (_handle o) (_swfilter o);
    spSetRefLevel (_handle o) (_reflevel o);
    spSetAttenuator (_handle o) (_atten o);
    spSetIQBandwidth (_handle o) (_bandwidth o);
    spConfigure (_handle o) spModeIQStreaming;
    spGetIQParameters (_handle o) ].

(** The calls of one run of [work] on the object [o]: the configuration
    when the marker is set, then the blocking read into [buf]. *)
Definition work_calls (o : sp_series_impl) (n : Z) (buf : list gr_complex) : list Call :=
  (if _param_changed o then config_calls o else []) ++
  [spGetIQ (_handle o) buf n (of_bool (truth (_purge o)))].

(** The test of [work] before it allocates. *)
Definition must_allocate (o : sp_series_impl) (n : Z) : bool :=
  is_null (_buffer o) || negb (n =? _len o).

(** [_len] is the length of the array behind [_buffer]. *)
Definition buffer_inv (o : sp_series_impl) : Prop :=
  forall b, _buffer o = Some b -> Z.of_nat (length b) = _len o.
End Sp.

(** * vsg_series (lib/vsg_series_impl.h, lib/vsg_series_impl.cc) *)

Module Vsg.

(** The vendor calls of the adapter, with the arguments it chooses; [iq] is
    the array the pointer given to [vsgSubmitIQ] points to. *)
Inductive Call : Type :=
| vsgOpenDevice
| vsgGetSerialNumber (handle : Z)
| vsgSetFrequency (handle : Z) (frequency : double)
| vsgSetSampleRate (handle : Z) (sampleRate : double)
| vsgSetLevel (handle : Z) (level : double)
| vsgSetIQOffset (handle : Z) (iOffset qOffset : Z)
| vsgGetFrequency (handle : Z)
| vsgGetSampleRate (handle : Z)
| vsgGetLevel (handle : Z)
| vsgGetIQOffset (handle : Z)
| vsgSubmitIQ (handle : Z) (iq : list gr_complex) (len : Z)
| vsgFlush (handle : Z)
| vsgAbort (handle : Z)
| vsgCloseDevice (handle : Z).

(** class vsg_series_impl; [_mutex] is represented by the lock events. *)
Record vsg_series_impl : Type := {
  _handle : Z;
  _center : double;
  _samplerate : double;
  _level : double;
  _ioffset : Z;
  _qoffset : Z;
  _param_changed : bool;
  _buffer : option (list gr_complex);   (* [None] is the null pointer *)
  _len : Z
}.

(** The members the setters write. *)
Inductive Field : Type :=
| F_center | F_samplerate | F_level | F_ioffset | F_qoffset | F_param_changed.

Definition upd_handle (v : Z) (o : vsg_series_impl) : vsg_series_impl :=
  {| _handle := v; _center := _center o; _samplerate := _samplerate o;
     _level := _level o; _ioffset := _ioffset o; _qoffset := _qoffset o;
     _param_changed := _param_changed o; _buffer := _buffer o; _len := _len o |}.
Definition upd_center (v : double) (o : vsg_series_impl) : vsg_series_impl :=
  {| _handle := _handle o; _center := v; _samplerate := _samplerate o;
     _level := _level o; _ioffset := _ioffset o; _qoffset := _qoffset o;
     _param_changed := _param_changed o; _buffer := _buffer o; _len := _len o |}.
Definition upd_samplerate (v : double) (o : vsg_series_impl) : vsg_series_impl :=
  {| _handle := _handle o; _center := _center o; _samplerate := v; _level := _level o;
     _ioffset := _ioffset o; _qoffset := _qoffset o;
     _param_changed := _param_changed o; _buffer := _buffer o; _len := _len o |}.
Definition upd_level (v : double) (o : vsg_series_impl) : vsg_series_impl :=
  {| _handle := _handle o; _center := _center o; _samplerate := _samplerate o;
     _level := v; _ioffset := _ioffset o; _qoffset := _qoffset o;
     _param_changed := _param_changed o; _buffer := _buffer o; _len := _len o |}.
Definition upd_ioffset (v : Z) (o : vsg_series_impl) : vsg_series_impl :=
  {| _handle := _handle o; _center := _center o; _samplerate := _samplerate o;
     _level := _level o; _ioffset := v; _qoffset := _qoffset o;
     _param_changed := _param_changed o; _buffer := _buffer o; _len := _len o |}.
Definition upd_qoffset (v : Z) (o : vsg_series_impl) : vsg_series_impl :=
  {| _handle := _handle o; _center := _center o; _samplerate := _samplerate o;
     _level := _level o; _ioffset := _ioffset o; _qoffset := v;
     _param_changed := _param_changed o; _buffer := _buffer o; _len := _len o |}.
Definition upd_param_changed (v : bool) (o : vsg_series_impl) : vsg_series_impl :=
  {| _handle := _handle o; _center := _center o; _samplerate := _samplerate o;
     _level := _level o; _ioffset := _ioffset o; _qoffset := _qoffset o;
     _param_changed := v; _buffer := _buffer o; _len := _len o |}.
Definition upd_buffer (v : option (list gr_complex)) (o : vsg_series_impl) : vsg_series_impl :=
  {| _handle := _handle o; _center := _center o; _samplerate := _samplerate o;
     _level := _level o; _ioffset := _ioffset o; _qoffset := _qoffset o;
     _param_changed := _param_changed o; _buffer := v; _len := _len o |}.
Definition upd_len (v : Z) (o : vsg_series_impl) : vsg_series_impl :=
  {| _handle := _handle o; _center := _center o; _samplerate := _samplerate o;
     _level := _level o; _ioffset := _ioffset o; _qoffset := _qoffset o;
     _param_changed := _param_changed o; _buffer := _buffer o; _len := v |}.

Section Code.
Context {api : VendorApi Call}.
(** [vsgNoError], the success value of [VsgStatus] (vsg_api.h). *)
Variable vsgNoError : Z.

#[local] Abbreviation Prog := (Prog vsg_series_impl Field api).
#[local] Abbreviation World := (World vsg_series_impl api).

(** void ERROR_CHECK(const char* call, VsgStatus status) *)
Definition ERROR_CHECK (call : string) (status : Z) : Prog unit :=
  if negb (status =? vsgNoError) then
    let isWarning := status >? vsgNoError in
    print [Str "** VSG "; Str (if isWarning then "Warning: (" else "Error: (");
           Str call; Str ")"; Str (GetErrorString api status); Str " **"; Str newline] ;;
    if negb isWarning then abort else ret tt
  else ret tt.

(** What [ERROR_CHECK] sends to the console for a status. *)
Definition check_output (cname : string) (st : Z) : list (list Chunk) :=
  if st =? vsgNoError then []
  else [[Str "** VSG "; Str (if st >? vsgNoError then "Warning: (" else "Error: ("); Str cname;
         Str ")"; Str (GetErrorString api st); Str " **"; Str newline]].

(** The member initialisers of the constructor. *)
Definition init (center samplerate level : double) (ioffset qoffset : Z) :
    vsg_series_impl :=
  {| _handle := -1; _center := center; _samplerate := samplerate; _level := level;
     _ioffset := ioffset; _qoffset := qoffset;
     _param_changed := true; _buffer := None; _len := 0 |}.

(** vsg_series_impl::vsg_series_impl: the body, run on the object that
    [init] built. *)
Definition ctor_body : Prog unit :=
  print [Str newline; Str "API Version: "; Str (GetAPIVersion api); Endl] ;;
  r <- call vsgOpenDevice ;;
  write (upd_handle (ret_int r)) ;;
  ERROR_CHECK "vsgOpenDevice" (status r) ;;
  h <- read _handle ;;
  s <- call (vsgGetSerialNumber h) ;;
  ERROR_CHECK "vsgGetSerialNumber" (status s) ;;
  print [Str "Serial Number: "; Num (ret_int s); Endl].

(** vsg_series::make: a new block, on a device in state [d], with nothing on
    the console yet; [items] is the runtime's input buffer. *)
Definition make (center samplerate level : double) (ioffset qoffset : Z)
    (d : Dev api) (items : list gr_complex) :=
  ctor_body {| self := init center samplerate level ioffset qoffset;
               device := d; items0 := items; console := [] |}.

(** vsg_series_impl::configure *)
Definition configure : Prog unit :=
  scoped_lock (
    h <- read _handle ;; c <- load F_center _center ;;
    r <- call (vsgSetFrequency h c) ;; ERROR_CHECK "vsgSetFrequency" (status r) ;;
    h <- read _handle ;; s <- load F_samplerate _samplerate ;;
    r <- call (vsgSetSampleRate h s) ;; ERROR_CHECK "vsgSetSampleRate" (status r) ;;
    h <- read _handle ;; l <- load F_level _level ;;
    r <- call (vsgSetLevel h l) ;; ERROR_CHECK "vsgSetLevel" (status r) ;;
    h <- read _handle ;; i <- load F_ioffset _ioffset ;; q <- load F_qoffset _qoffset ;;
    r <- call (vsgSetIQOffset h (int16_t i) (int16_t q)) ;;
    ERROR_CHECK "vsgSetIQOffset" (status r) ;;
    h <- read _handle ;;
    aFreq <- call (vsgGetFrequency h) ;; ERROR_CHECK "vsgGetFrequency" (status aFreq) ;;
    h <- read _handle ;;
    aSamp <- call (vsgGetSampleRate h) ;; ERROR_CHECK "vsgGetSampleRate" (status aSamp) ;;
    h <- read _handle ;;
    aLeve <- call (vsgGetLevel h) ;; ERROR_CHECK "vsgGetLevel" (status aLeve) ;;
    h <- read _handle ;;
    aOff <- call (vsgGetIQOffset h) ;; ERROR_CHECK "vsgGetIQOffset" (status aOff) ;;
    print [Str newline; Str "Frequency: "; Dbl (ret_dbl aFreq); Endl] ;;
    print [Str "SampleRate: "; Dbl (ret_dbl aSamp); Endl] ;;
    print [Str "Level: "; Dbl (ret_dbl aLeve); Endl] ;;
    print [Str "I Offset: "; Num (ret_int aOff); Endl] ;;
    print [Str "Q Offset: "; Num (ret_int2 aOff); Endl]).

(** vsg_series_impl::~vsg_series_impl *)
Definition dtor : Prog unit :=
  h <- read _handle ;;
  _ <- call (vsgAbort h) ;;
  h <- read _handle ;;
  _ <- call (vsgCloseDevice h) ;;
  b <- read _buffer ;;
  if negb (is_null b) then delete_array else ret tt.

Definition set_center (center : double) : Prog unit :=
  scoped_lock (
    store F_center (upd_center center) ;;
    store F_param_changed (upd_param_changed true)).

Definition set_level (level : double) : Prog unit :=
  scoped_lock (
    store F_level (upd_level level) ;;
    store F_param_changed (upd_param_changed true)).

Definition set_samplerate (samplerate : double) : Prog unit :=
  scoped_lock (
    store F_samplerate (upd_samplerate samplerate) ;;
    store F_param_changed (upd_param_changed true)).

Definition set_ioffset (ioffset : Z) : Prog unit :=
  scoped_lock (
    store F_ioffset (upd_ioffset ioffset) ;;
    store F_param_changed (upd_param_changed true)).

Definition set_qoffset (qoffset : Z) : Prog unit :=
  scoped_lock (
    store F_qoffset (upd_qoffset qoffset) ;;
    store F_param_changed (upd_param_changed true)).

(** The statements of [work], in order. *)

(** [if(_param_changed) { configure(); _param_changed = false; }] *)
Definition work_reconfigure : Prog unit :=
  changed <- load F_param_changed _param_changed ;;
  if changed then
    configure ;;
    store F_param_changed (upd_param_changed false)
  else ret tt.

(** [vsgSubmitIQ(_handle, in, noutput_items); vsgFlush(_handle);] (with
    [in] cast to a pointer to float): the returned statuses are dropped. *)
Definition work_submit (noutput_items : Z) : Prog unit :=
  h <- read _handle ;; in_ <- read_items0 ;;
  _ <- call (vsgSubmitIQ h in_ noutput_items) ;;
  h <- read _handle ;;
  _ <- call (vsgFlush h) ;;
  ret tt.

(** vsg_series_impl::work *)
Definition work (noutput_items : Z) : Prog Z :=
  work_reconfigure ;;
  work_submit noutput_items ;;
  ret noutput_items.

(** A call of one of the setters, and a sequence of such calls. *)
Inductive Setter : Type :=
| SetCenter (center : double)
| SetSamplerate (samplerate : double)
| SetLevel (level : double)
| SetIoffset (ioffset : Z)
| SetQoffset (qoffset : Z).

Definition run_setter (s : Setter) : Prog unit :=
  match s with
  | SetCenter v => set_center v
  | SetSamplerate v => set_samplerate v
  | SetLevel v => set_level v
  | SetIoffset v => set_ioffset v
  | SetQoffset v => set_qoffset v
  end.

Fixpoint run_setters (l : list Setter) : Prog unit :=
  match l with
  | [] => ret tt
  | s :: l' => run_setter s ;; run_setters l'
  end.

(** What the runtime and the control thread can do with a block once it is
    built, and a sequence of such operations. *)
Inductive Op : Type :=
| OpSet (s : Setter)
| OpWork (noutput_items : Z).

Definition run_op (o : Op) : Prog unit :=
  match o with
  | OpSet s => run_setter s
  | OpWork n => _ <- work n ;; ret tt
  end.

Fixpoint run_ops (l : list Op) : Prog unit :=
  match l with
  | [] => ret tt
  | o :: l' => run_op o ;; run_ops l'
  end.
End Code.

(** Which field a setter call sets, and to what. *)
Definition center_of (s : Setter) : option double :=
  if s is SetCenter v then Some v else None.
Definition samplerate_of (s : Setter) : option double :=
  if s is SetSamplerate v then Some v else None.
Definition level_of (s : Setter) : option double :=
  if s is SetLevel v then Some v else None.
Definition ioffset_of (s : Setter) : option Z :=
  if s is SetIoffset v then Some v else None.
Definition qoffset_of (s : Setter) : option Z :=
  if s is SetQoffset v then Some v else None.

(** The members a setter call writes, in order. *)
Definition written_by (s : Setter) : list Field :=
  match s with
  | SetCenter _ => [F_center; F_param_changed]
  | SetSamplerate _ => [F_samplerate; F_param_changed]
  | SetLevel _ => [F_level; F_param_changed]
  | SetIoffset _ => [F_ioffset; F_param_changed]
  | SetQoffset _ => [F_qoffset; F_param_changed]
  end.

(** The object after the setter calls [l], field by field: the last value
    set, or the value in [o] when no call of [l] set the field. *)
Definition after_setters (l : list Setter) (o : vsg_series_impl) : vsg_series_impl :=
  {| _handle := _handle o;
     _center := last_set center_of l (_center o);
     _samplerate := last_set samplerate_of l (_samplerate o);
     _level := last_set level_of l (_level o);
     _ioffset := last_set ioffset_of l (_ioffset o);
     _qoffset := last_set qoffset_of l (_qoffset o);
     _param_changed := _param_changed o || negb (bool_decide (l = []));
     _buffer := _buffer o;
     _len := _len o |}.

(** The calls by which [configure] pushes the pending configuration of [o]
    and reads back what the device applied. *)
Definition config_calls (o : vsg_series_impl) : list Call :=
  [ vsgSetFrequency (_handle o) (_center o);
    vsgSetSampleRate (_handle o) (_samplerate o);
    vsgSetLevel (_handle o) (_level o);
    vsgSetIQOffset (_handle o) (int16_t (_ioffset o)) (int16_t (_qoffset o));
    vsgGetFrequency (_handle o);
    vsgGetSampleRate (_handle o);
    vsgGetLevel (_handle o);
    vsgGetIQOffset (_handle o) ].

(** The calls of one run of [work] on the object [o] with the input buffer
    [items]: the configuration when the marker is set, then the submission
    and the flush. *)
Definition work_calls (o : vsg_series_impl) (n : Z) (items : list gr_complex) : list Call :=
  (if _param_changed o then config_calls o else []) ++
  [vsgSubmitIQ (_handle o) items n; vsgFlush (_handle o)].
End Vsg.

(** * Whole runs: the lock, the heap and the device along a trace *)

Section Discipline.
Context {F C : Type}.
Implicit Types t : list (Event F C).

(** [gr::thread::mutex] is not recursive.  The lock is used properly along
    the trace: it is never taken while it is held, and never released while
    it is free; [held] tells whether it is held when the trace starts. *)
Fixpoint lock_ok (held : bool) t : bool :=
  match t with
  | [] => true
  | EvLock :: t' => negb held && lock_ok true t'
  | EvUnlock :: t' => held && lock_ok false t'
  | _ :: t' => lock_ok held t'
  end.

(** The vendor calls made while the lock is held, in order. *)
Fixpoint locked_calls (held : bool) t : list C :=
  match t with
  | [] => []
  | EvLock :: t' => locked_calls true t'
  | EvUnlock :: t' => locked_calls false t'
  | EvCall c _ :: t' => (if held then [c] else []) ++ locked_calls held t'
  | _ :: t' => locked_calls held t'
  end.

(** The vendor calls made while the lock is free, in order. *)
Fixpoint unlocked_calls (held : bool) t : list C :=
  match t with
  | [] => []
  | EvLock :: t' => unlocked_calls true t'
  | EvUnlock :: t' => unlocked_calls false t'
  | EvCall c _ :: t' => (if held then [] else [c]) ++ unlocked_calls held t'
  | _ :: t' => unlocked_calls held t'
  end.

(** The accesses to members shared with the setters that are made while the
    lock is free, in order. *)
Fixpoint unguarded (held : bool) t : list (Event F C) :=
  match t with
  | [] => []
  | EvLock :: t' => unguarded true t'
  | EvUnlock :: t' => unguarded false t'
  | EvLoad f :: t' => (if held then [] else [EvLoad f]) ++ unguarded held t'
  | EvStore f :: t' => (if held then [] else [EvStore f]) ++ unguarded held t'
  | _ :: t' => unguarded held t'
  end.

(** The vendor calls of a trace with the status each returned, in order. *)
Fixpoint checks_of t : list (C * Z) :=
  match t with
  | [] => []
  | EvCall c s :: t' => (c, s) :: checks_of t'
  | _ :: t' => checks_of t'
  end.

(** The transfer buffer on the heap: [live] tells whether an array is
    allocated when the trace starts.  [None] when the trace allocates while
    an array is live (the live one leaks) or deletes while none is (a double
    delete); otherwise whether an array is live at the end. *)
Fixpoint heap_after (live : bool) t : option bool :=
  match t with
  | [] => Some live
  | EvNew _ :: t' => if live then None else heap_after true t'
  | EvDelete :: t' => if live then heap_after false t' else None
  | _ :: t' => heap_after live t'
  end.
End Discipline.

(** The device run on its own: the replies to the calls [cs] made in order
    from the state [d], and the state they leave. *)
Fixpoint run_calls {C : Type} (api : VendorApi C) (cs : list C) (d : Dev api) :
    list Reply * Dev api :=
  match cs with
  | [] => ([], d)
  | c :: cs' =>
      let '(r, d1) := vendor api c d in
      let '(rs, d2) := run_calls api cs' d1 in
      (r :: rs, d2)
  end.

(** ** Sequences of operations on a block *)

(** What the runtime and the control thread can do with a bb_series block
    once it is built. *)
Module BbRun.
Import Bb.

Inductive Op : Type :=
| OpSet (s : Setter)
| OpWork (noutput_items : Z).

Section Code.
Context {api : VendorApi Call}.
Variable bbNoError : Z.

Definition run_op (o : Op) : Prog bb_series_impl Field api unit :=
  match o with
  | OpSet s => run_setter s
  | OpWork n => _ <- work bbNoError n ;; ret tt
  end.

Fixpoint run_ops (l : list Op) : Prog bb_series_impl Field api unit :=
  match l with
  | [] => ret tt
  | o :: l' => run_op o ;; run_ops l'
  end.

(** The life of a block: the constructor, the operations [l], the
    destructor. *)
Definition life (l : list Op) : Prog bb_series_impl Field api unit :=
  ctor_body bbNoError ;; run_ops l ;; dtor.
End Code.

(** The setter calls among the operations [l], in order. *)
Definition setters_of (l : list Op) : list Setter :=
  omap (fun o => if o is OpSet s then Some s else None) l.

(** A run of [work] cut in its four steps, with one setter call of the
    control thread after the first [i] of them. *)
Definition one_control (i : nat) (s : Setter) : list Turn :=
  replicate i Hook ++ [Control s] ++ replicate (4 - i) Hook.

(** What [ERROR_CHECK] sends to the console along a trace whose calls are all
    checked: for each call, in order, the line for its status. *)
Definition diagnostics {api : VendorApi Call} (bbNoError : Z)
    (t : list (Event Field Call)) : list (list Chunk) :=
  flat_map (fun cs => check_output (api:=api) bbNoError cs.2) (checks_of t).
End BbRun.

(** The same for sm_series. *)
Module SmRun.
Import Sm.

Inductive Op : Type :=
| OpSet (s : Setter)
| OpWork (noutput_items : Z).

Section Code.
Context {api : VendorApi Call}.
Variable smNoError : Z.

Definition run_op (o : Op) : Prog sm_series_impl Field api unit :=
  match o with
  | OpSet s => run_setter s
  | OpWork n => _ <- work smNoError n ;; ret tt
  end.

Fixpoint run_ops (l : list Op) : Prog sm_series_impl Field api unit :=
  match l with
  | [] => ret tt
  | o :: l' => run_op o ;; run_ops l'
  end.

Definition life (l : list Op) : Prog sm_series_impl Field api unit :=
  ctor_body smNoError ;; run_ops l ;; dtor.
End Code.

Definition setters_of (l : list Op) : list Setter :=
  omap (fun o => if o is OpSet s then Some s else None) l.

(** The name of the vendor function behind a call. *)
Definition call_name (c : Call) : string :=
  match c with
  | smOpenDevice => "smOpenDevice"
  | smGetDeviceInfo _ => "smGetDeviceInfo"
  | smSetIQDataType _ _ => "smSetIQDataType"
  | smSetIQCenterFreq _ _ => "smSetIQCenterFreq"
  | smSetIQSampleRate _ _ => "smSetIQSampleRate"
  | smSetRefLevel _ _ => "smSetRefLevel"
  | smSetAttenuator _ _ => "smSetAttenuator"
  | smSetIQBandwidth _ _ _ => "smSetIQBandwidth"
  | smConfigure _ _ => "smConfigure"
  | smGetIQParameters _ => "smGetIQParameters"
  | smGetIQ _ _ _ _ => "smGetIQ"
  | smAbort _ => "smAbort"
  | smCloseDevice _ => "smCloseDevice"
  end.

(** What [ERROR_CHECK] sends to the console along a trace whose calls are all
    checked: for each call, in order, the line for its status, with the name
    of the vendor function. *)
Definition diagnostics {api : VendorApi Call} (smNoError : Z)
    (t : list (Event Field Call)) : list (list Chunk) :=
  flat_map (fun cs => check_output (api:=api) smNoError (call_name cs.1) cs.2)
    (checks_of t).
End SmRun.

(** The same for sp_series. *)
Module SpRun.
Import Sp.

Inductive Op : Type :=
| OpSet (s : Setter)
| OpWork (noutput_items : Z).

Section Code.
Context {api : VendorApi Call}.

Definition run_op (o : Op) : Prog sp_series_impl Field api unit :=
  match o with
  | OpSet s => run_setter s
  | OpWork n => _ <- work n ;; ret tt
  end.

Fixpoint run_ops (l : list Op) : Prog sp_series_impl Field api unit :=
  match l with
  | [] => ret tt
  | o :: l' => run_op o ;; run_ops l'
  end.

Definition life (l : list Op) : Prog sp_series_impl Field api unit :=
  ctor_body ;; run_ops l ;; dtor.
End Code.

Definition setters_of (l : list Op) : list Setter :=
  omap (fun o => if o is OpSet s then Some s else None) l.

(** What [ERROR_CHECK] sends to the console along a trace whose calls are all
    checked: for each call, in order, the line for its status. *)
Definition diagnostics {api : VendorApi Call}
    (t : list (Event Field Call)) : list (list Chunk) :=
  flat_map (fun cs => check_output (api:=api) cs.2) (checks_of t).
End SpRun.

(** For vsg_series the operations are [Vsg.Op]. *)
Module VsgRun.
Import Vsg.

(** The life of a block: the constructor, the operations [l], the
    destructor. *)
Definition life {api : VendorApi Call} (vsgNoError : Z) (l : list Op) :
    Prog vsg_series_impl Field api unit :=
  ctor_body vsgNoError ;; run_ops vsgNoError l ;; dtor.

Definition setters_of (l : list Op) : list Setter :=
  omap (fun o => if o is OpSet s then Some s else None) l.

(** The name of the vendor function behind a call. *)
Definition call_name (c : Call) : string :=
  match c with
  | vsgOpenDevice => "vsgOpenDevice"
  | vsgGetSerialNumber _ => "vsgGetSerialNumber"
  | vsgSetFrequency _ _ => "vsgSetFrequency"
  | vsgSetSampleRate _ _ => "vsgSetSampleRate"
  | vsgSetLevel _ _ => "vsgSetLevel"
  | vsgSetIQOffset _ _ _ => "vsgSetIQOffset"
  | vsgGetFrequency _ => "vsgGetFrequency"
  | vsgGetSampleRate _ => "vsgGetSampleRate"
  | vsgGetLevel _ => "vsgGetLevel"
  | vsgGetIQOffset _ => "vsgGetIQOffset"
  | vsgSubmitIQ _ _ _ => "vsgSubmitIQ"
  | vsgFlush _ => "vsgFlush"
  | vsgAbort _ => "vsgAbort"
  | vsgCloseDevice _ => "vsgCloseDevice"
  end.

(** What [ERROR_CHECK] sends to the console along a trace whose calls are all
    checked: for each call, in order, the line for its status, with the name
    of the vendor function. *)
Definition diagnostics {api : VendorApi Call} (vsgNoError : Z)
    (t : list (Event Field Call)) : list (list Chunk) :=
  flat_map (fun cs => check_output (api:=api) vsgNoError (call_name cs.1) cs.2)
    (checks_of t).
End VsgRun.
(** * A scripted device, to run the adapters on *)

(** The device answers the calls it receives with the statuses of its script,
    in order, and with success (0) once the script is used up; handles and
    serial numbers are 7, the sample at index i is (i, -1). *)
Definition scripted_reply (s : Z) : Reply :=
  {| status := s; ret_int := 7; ret_int2 := 7;
     ret_dbl := 1.5%float; ret_dbl2 := 2.5%float;
     ret_iq := fun i => (PrimFloat.of_uint63 (Uint63.of_Z (Z.of_nat i)), (-1)%float) |}.

Definition scripted (C : Type) : VendorApi C :=
  {| Dev := list Z;
     vendor := fun _ d => match d with
                          | [] => (scripted_reply 0, [])
                          | s :: d' => (scripted_reply s, d')
                          end;
     GetErrorString := fun _ => "status"%string;
     GetAPIVersion := "mock"%string |}.


(** * Blocks on the scripted device *)

Module Examples.

(** A bb_series block with handle 7, tuned to 1 GHz, with the marker, the
    transfer buffer and its length as given, on a device that will answer
    with the statuses of [script]; the runtime's output buffer has room for
    four samples. *)
Definition bb_block (changed : bool) (buffer : option (list gr_complex)) (len : Z)
    (script : list Z) : World Bb.bb_series_impl (scripted Bb.Call) :=
  {| self := {| Bb._handle := 7; Bb._center := 1e9; Bb._reflevel := -20;
                Bb._decimation := 4; Bb._bandwidth := 1e6; Bb._purge := false;
                Bb._param_changed := changed; Bb._buffer := buffer; Bb._len := len |};
     device := (script : Dev (scripted _));
     items0 := replicate 4 complex_zero;
     console := [] |}.

(** Such a block before its first configuration, on a device that will warn
    once (status 1) at its second call; and one that holds two samples. *)
Definition bb_unconfigured : World Bb.bb_series_impl (scripted Bb.Call) :=
  bb_block true None 0 [0; 1].
Definition bb_holding_two : World Bb.bb_series_impl (scripted Bb.Call) :=
  bb_block false (Some (replicate 2 complex_zero)) 2 [].

(** What the constructor of bb_series gives on a device that answers every
    call with success (0 is taken as [bbNoError]). *)
Definition bb_made :
    Result unit * World Bb.bb_series_impl (scripted Bb.Call) *
    list (Event Bb.Field Bb.Call) :=
  Bb.make (api:=scripted Bb.Call) 0 1e9 (-20) 4 1e6 false [] (replicate 4 complex_zero).

(** The race of C9: the control thread calls [set_center(2e9)] after
    [configure] has released the lock and before [work] clears the marker. *)
Definition late_set_center : list Bb.Turn :=
  [Bb.Hook; Bb.Hook; Bb.Control (Bb.SetCenter 2e9); Bb.Hook; Bb.Hook].

(** The same for sm_series and sp_series. *)
Definition sm_block (changed : bool) (buffer : option (list gr_complex)) (len : Z)
    (script : list Z) : World Sm.sm_series_impl (scripted Sm.Call) :=
  {| self := {| Sm._handle := 7; Sm._center := 1e9; Sm._reflevel := -20; Sm._atten := -1;
                Sm._decimation := 4; Sm._bandwidth := 1e6; Sm._purge := Sm.smFalse;
                Sm._swfilter := Sm.smTrue;
                Sm._param_changed := changed; Sm._buffer := buffer; Sm._len := len |};
     device := (script : Dev (scripted _));
     items0 := replicate 4 complex_zero;
     console := [] |}.

Definition sp_block (changed : bool) (buffer : option (list gr_complex)) (len : Z)
    (script : list Z) : World Sp.sp_series_impl (scripted Sp.Call) :=
  {| self := {| Sp._handle := 7; Sp._center := 1e9; Sp._reflevel := -20; Sp._atten := -1;
                Sp._decimation := 4; Sp._bandwidth := 1e6; Sp._purge := Sp.spFalse;
                Sp._swfilter := Sp.spTrue;
                Sp._param_changed := changed; Sp._buffer := buffer; Sp._len := len |};
     device := (script : Dev (scripted _));
     items0 := replicate 4 complex_zero;
     console := [] |}.

(** A vsg_series block with handle 7 and zero I/Q offsets; the runtime's
    input buffer holds two samples. *)
Definition vsg_block (changed : bool) (script : list Z) :
    World Vsg.vsg_series_impl (scripted Vsg.Call) :=
  {| self := {| Vsg._handle := 7; Vsg._center := 1e9; Vsg._samplerate := 5e7;
                Vsg._level := -10; Vsg._ioffset := 0; Vsg._qoffset := 0;
                Vsg._param_changed := changed; Vsg._buffer := None; Vsg._len := 0 |};
     device := (script : Dev (scripted _));
     items0 := [(1%float, 0%float); (0%float, 1%float)];
     console := [] |}.
End Examples.

(** Two more cases: a block whose marker is set, before its first transfer,
    and the setter call that retunes it. *)
Module Cases.
Definition bb_dirty : World Bb.bb_series_impl (scripted Bb.Call) :=
  Examples.bb_block true None 0 [].
Definition retune : Bb.Setter := Bb.SetCenter 2e9.
End Cases.
(** ** Facts about values *)

Lemma length_fill_iq f n buf : length (fill_iq f n buf) = length buf.
Proof. unfold fill_iq. apply length_imap. Qed.

Lemma last_set_nil {S V : Type} (pick : S -> option V) prior : last_set pick [] prior = prior.
Proof. reflexivity. Qed.

Lemma last_set_cons {S V : Type} (pick : S -> option V) s l prior :
  last_set pick (s :: l) prior = last_set pick l (default prior (pick s)).
Proof.
  unfold last_set. cbn [omap list_omap]. destruct (pick s) as [v|]; [|done].
  cbn. rewrite last_cons. by destruct (last _).
Qed.

Lemma int16_t_id x : -32768 <= x <= 32767 -> int16_t x = x.
Proof. intros H. unfold int16_t. rewrite Z.mod_small; lia. Qed.

Lemma int16_t_range x : -32768 <= int16_t x <= 32767.
Proof. unfold int16_t. pose proof (Z.mod_pos_bound (x + 32768) 65536). lia. Qed.

(** ** Facts about traces *)

Section TraceFacts.
Context {F C : Type}.
Implicit Types t : list (Event F C).

Lemma calls_of_app t1 t2 : calls_of (t1 ++ t2) = calls_of t1 ++ calls_of t2.
Proof. induction t1 as [|[] t1 IH]; simpl; by rewrite ?IH. Qed.

Lemma statuses_of_app t1 t2 : statuses_of (t1 ++ t2) = statuses_of t1 ++ statuses_of t2.
Proof. induction t1 as [|[] t1 IH]; simpl; by rewrite ?IH. Qed.

Lemma copies_of_app t1 t2 : copies_of (t1 ++ t2) = copies_of t1 ++ copies_of t2.
Proof. induction t1 as [|[] t1 IH]; simpl; by rewrite ?IH. Qed.

Lemma allocs_of_app t1 t2 : allocs_of (t1 ++ t2) = allocs_of t1 ++ allocs_of t2.
Proof. induction t1 as [|[] t1 IH]; simpl; by rewrite ?IH. Qed.

Lemma fatal_free_app ok t1 t2 :
  fatal_free ok (t1 ++ t2) = fatal_free ok t1 && fatal_free ok t2.
Proof. unfold fatal_free. by rewrite statuses_of_app, forallb_app. Qed.

Lemma held_after_app h t1 t2 : held_after h (t1 ++ t2) = held_after (held_after h t1) t2.
Proof. revert h. induction t1 as [|[] t1 IH]; intros h; simpl; by rewrite ?IH. Qed.

Lemma guarded_app h t1 t2 :
  guarded h (t1 ++ t2) = guarded h t1 && guarded (held_after h t1) t2.
Proof.
  revert h. induction t1 as [|[] t1 IH]; intros h; simpl; rewrite ?IH; try done.
  all: by rewrite andb_assoc.
Qed.

(** A run of copies. *)
Lemma calls_of_copy (js : list nat) : calls_of (F:=F) (C:=C) (EvCopy <$> js) = [].
Proof. induction js; simpl; auto. Qed.
Lemma statuses_of_copy (js : list nat) : statuses_of (F:=F) (C:=C) (EvCopy <$> js) = [].
Proof. induction js; simpl; auto. Qed.
Lemma allocs_of_copy (js : list nat) : allocs_of (F:=F) (C:=C) (EvCopy <$> js) = [].
Proof. induction js; simpl; auto. Qed.
Lemma copies_of_copy (js : list nat) : copies_of (F:=F) (C:=C) (EvCopy <$> js) = js.
Proof. induction js; simpl; by f_equal. Qed.
Lemma stores_of_copy (js : list nat) : stores_of (F:=F) (C:=C) (EvCopy <$> js) = [].
Proof. induction js; simpl; auto. Qed.
Lemma fatal_free_copy ok (js : list nat) : fatal_free (F:=F) (C:=C) ok (EvCopy <$> js) = true.
Proof. unfold fatal_free. by rewrite statuses_of_copy. Qed.
Lemma guarded_copy h (js : list nat) : guarded (F:=F) (C:=C) h (EvCopy <$> js) = true.
Proof. induction js; simpl; auto. Qed.
Lemma held_after_copy h (js : list nat) : held_after (F:=F) (C:=C) h (EvCopy <$> js) = h.
Proof. induction js; simpl; auto. Qed.
End TraceFacts.

(** ** Facts about the monad and the copy loop *)

Section ProgFacts.
Context {Obj F C : Type} {api : VendorApi C}.
Implicit Types w : World Obj api.
#[local] Abbreviation wp := (wp (Obj:=Obj) (F:=F) (C:=C) (api:=api)).

Lemma world_eta w :
  {| self := self w; device := device w; items0 := items0 w; console := console w |} = w.
Proof. by destruct w. Qed.

Lemma bind_run {A B} (m : Prog Obj F api A) (k : A -> Prog Obj F api B) w :
  bind m k w =
  match m w with
  | (Done a, w1, t1) => let '(r, w2, t2) := k a w1 in (r, w2, t1 ++ t2)
  | (Aborted, w1, t1) => (Aborted, w1, t1)
  | (Thrown, w1, t1) => (Thrown, w1, t1)
  | (Undefined, w1, t1) => (Undefined, w1, t1)
  end.
Proof. reflexivity. Qed.

(** The copy loop touches nothing but the runtime buffer, calls nothing and
    never aborts. *)
Lemma for_loop_copy_frame (buffer : Obj -> option (list gr_complex)) k i w :
  match for_loop (F:=F) k i (copy_out buffer) w with
  | (r, w', t) =>
      self w' = self w /\ device w' = device w /\ console w' = console w /\
      length (items0 w') = length (items0 w) /\
      (exists js, t = EvCopy <$> js) /\ (r = Done tt \/ r = Undefined)
  end.
Proof.
  revert i w. induction k as [|k IH]; intros i w; simpl.
  { repeat split; auto. by exists []. }
  rewrite bind_run. unfold copy_out at 1. rewrite bind_run. simpl.
  destruct (buffer (self w) ≫= _) as [v|]; simpl; [|repeat split; auto; by exists []].
  unfold write_items0. destruct (decide _) as [Hi|Hi]; simpl;
    [|repeat split; auto; by exists []].
  match goal with |- context [for_loop k (S i) _ ?w1] => specialize (IH (S i) w1) end.
  destruct (for_loop k (S i) _ _) as [[r w'] t]. simpl in IH.
  destruct IH as (-> & -> & -> & Hl & [js ->] & Hr). rewrite length_insert in Hl.
  destruct Hr as [-> | ->]; simpl; repeat split; auto; by exists (i :: js).
Qed.

(** With the transfer buffer in place and room in the runtime buffer, the
    loop copies elements i .. i+k-1. *)
Lemma for_loop_copy_run (buffer : Obj -> option (list gr_complex)) b k i w :
  buffer (self w) = Some b ->
  (i + k <= length b)%nat -> (i + k <= length (items0 w))%nat ->
  for_loop (F:=F) k i (copy_out buffer) w =
  (Done tt,
   {| self := self w; device := device w;
      items0 := take i (items0 w) ++ take k (drop i b) ++ drop (i + k) (items0 w);
      console := console w |},
   EvCopy <$> seq i k).
Proof.
  revert i w. induction k as [|k IH]; intros i w Hb Hlb Hli; simpl.
  { rewrite Nat.add_0_r, take_drop. by rewrite world_eta. }
  rewrite bind_run. unfold copy_out at 1. rewrite bind_run. simpl. rewrite Hb. simpl.
  destruct (lookup_lt_is_Some_2 b i) as [v Hv]; [lia|]. rewrite Hv.
  unfold write_items0. destruct (decide _) as [Hi|Hi]; [|lia]. simpl.
  rewrite IH; simpl; [|done|lia|rewrite length_insert; lia].
  f_equal. f_equal.
  rewrite (take_S_r _ _ v) by (apply list_lookup_insert_eq; lia).
  rewrite take_insert_ge by lia. rewrite drop_insert_lt by lia.
  rewrite (drop_S b v i Hv). simpl. rewrite <- app_assoc. simpl.
  by rewrite Nat.add_succ_r.
Qed.

(** *** Rules for [wp] *)

Lemma wp_intro {A} (m : Prog Obj F api A) w (Q : _ -> _ -> _ -> Prop) :
  (forall r w' t, m w = (r, w', t) -> Q r w' t) -> wp m w Q.
Proof. unfold wp. destruct (m w) as [[r w'] t]. auto. Qed.

Lemma wp_elim {A} (m : Prog Obj F api A) w Q r w' t :
  wp m w Q -> m w = (r, w', t) -> Q r w' t.
Proof. unfold wp. intros H E. by rewrite E in H. Qed.

Lemma wp_mono {A} (m : Prog Obj F api A) w (P Q : _ -> _ -> _ -> Prop) :
  wp m w P -> (forall r w' t, P r w' t -> Q r w' t) -> wp m w Q.
Proof. unfold wp. destruct (m w) as [[r w'] t]. auto. Qed.

Lemma wp_conj {A} (m : Prog Obj F api A) w (P Q : _ -> _ -> _ -> Prop) :
  wp m w P -> wp m w Q -> wp m w (fun r w' t => P r w' t /\ Q r w' t).
Proof. unfold wp. destruct (m w) as [[r w'] t]. auto. Qed.

Lemma wp_bind {A B} (m : Prog Obj F api A) (k : A -> Prog Obj F api B) w Q :
  wp m w (fun r w1 t1 =>
    match r with
    | Done a => wp (k a) w1 (fun r' w2 t2 => Q r' w2 (t1 ++ t2))
    | Aborted => Q Aborted w1 t1
    | Thrown => Q Thrown w1 t1
    | Undefined => Q Undefined w1 t1
    end) ->
  wp (bind m k) w Q.
Proof.
  unfold wp, bind. destruct (m w) as [[[a| | |] w1] t1]; auto.
  by destruct (k a w1) as [[r w2] t2].
Qed.

Lemma wp_ret {A} (a : A) w (Q : _ -> _ -> _ -> Prop) : Q (Done a) w [] -> wp (ret a) w Q.
Proof. done. Qed.

Lemma wp_emit e w (Q : _ -> _ -> _ -> Prop) : Q (Done tt) w [e] -> wp (emit e) w Q.
Proof. done. Qed.

Lemma wp_abort {A} w (Q : Result A -> _ -> _ -> Prop) : Q Aborted w [] -> wp abort w Q.
Proof. done. Qed.

Lemma wp_throw {A} w (Q : Result A -> _ -> _ -> Prop) : Q Thrown w [] -> wp throw w Q.
Proof. done. Qed.

Lemma wp_read {A} (get : Obj -> A) w (Q : _ -> _ -> _ -> Prop) :
  Q (Done (get (self w))) w [] -> wp (read get) w Q.
Proof. done. Qed.

Lemma wp_read_items0 w (Q : _ -> _ -> _ -> Prop) :
  Q (Done (items0 w)) w [] -> wp read_items0 w Q.
Proof. done. Qed.

Lemma wp_write (upd : Obj -> Obj) w (Q : _ -> _ -> _ -> Prop) :
  Q (Done tt) {| self := upd (self w); device := device w; items0 := items0 w;
                 console := console w |} [] ->
  wp (write upd) w Q.
Proof. done. Qed.

Lemma wp_load {A} f (get : Obj -> A) w (Q : _ -> _ -> _ -> Prop) :
  Q (Done (get (self w))) w [EvLoad f] -> wp (load f get) w Q.
Proof. done. Qed.

Lemma wp_store f (upd : Obj -> Obj) w (Q : _ -> _ -> _ -> Prop) :
  Q (Done tt) {| self := upd (self w); device := device w; items0 := items0 w;
                 console := console w |} [EvStore f] ->
  wp (store f upd) w Q.
Proof. done. Qed.

Lemma wp_print s w (Q : _ -> _ -> _ -> Prop) :
  Q (Done tt) {| self := self w; device := device w; items0 := items0 w;
                 console := console w ++ [s] |} [] ->
  wp (print s) w Q.
Proof. done. Qed.

Lemma wp_call c w (Q : _ -> _ -> _ -> Prop) :
  (forall r d, vendor api c (device w) = (r, d) ->
     Q (Done r) {| self := self w; device := d; items0 := items0 w;
                   console := console w |} [EvCall c (status r)]) ->
  wp (call c) w Q.
Proof. unfold wp, call. destruct (vendor api c (device w)) as [r d]. auto. Qed.

Lemma wp_delete_array w (Q : _ -> _ -> _ -> Prop) :
  Q (Done tt) w [EvDelete] -> wp delete_array w Q.
Proof. done. Qed.

Lemma wp_new_array n w (Q : _ -> _ -> _ -> Prop) :
  (n < 0 -> Q Thrown w []) ->
  (0 <= n -> Q (Done (replicate (Z.to_nat n) complex_zero)) w [EvNew n]) ->
  wp (new_array n) w Q.
Proof.
  intros H1 H2. unfold wp, new_array. destruct (Z.ltb_spec n 0); simpl; auto.
Qed.

Lemma wp_scoped_lock {A} (body : Prog Obj F api A) w Q :
  wp body w (fun r w' t =>
    match r with
    | Done a => Q (Done a) w' (EvLock :: t ++ [EvUnlock])
    | Aborted => Q Aborted w' (EvLock :: t)
    | Thrown => Q Thrown w' (EvLock :: t)
    | Undefined => Q Undefined w' (EvLock :: t)
    end) ->
  wp (scoped_lock body) w Q.
Proof.
  unfold wp, scoped_lock, bind, emit, ret. simpl.
  destruct (body w) as [[[a| | |] w'] t]; simpl; auto.
Qed.

Lemma wp_copy_frame (buffer : Obj -> option (list gr_complex)) k i w
    (Q : _ -> _ -> _ -> Prop) :
  (forall r items js,
     length items = length (items0 w) ->
     r = Done tt \/ r = Undefined ->
     Q r {| self := self w; device := device w; items0 := items; console := console w |}
       (EvCopy <$> js)) ->
  wp (for_loop k i (copy_out buffer)) w Q.
Proof.
  intros H. apply wp_intro. intros r w' t E.
  pose proof (for_loop_copy_frame buffer k i w) as Hf. rewrite E in Hf.
  destruct Hf as (Hs & Hd & Hc & Hl & [js ->] & Hr).
  specialize (H r (items0 w') js Hl Hr). rewrite <- Hs, <- Hd, <- Hc in H.
  by rewrite world_eta in H.
Qed.

Lemma wp_copy_run (buffer : Obj -> option (list gr_complex)) b k w
    (Q : _ -> _ -> _ -> Prop) :
  buffer (self w) = Some b -> length b = k -> (k <= length (items0 w))%nat ->
  Q (Done tt)
    {| self := self w; device := device w; items0 := b ++ drop k (items0 w);
       console := console w |}
    (EvCopy <$> seq 0 k) ->
  wp (for_loop k 0 (copy_out buffer)) w Q.
Proof.
  intros Hb Hl Hi HQ. unfold wp.
  rewrite (for_loop_copy_run buffer b k 0 w Hb) by (simpl; lia).
  simpl. rewrite drop_0, <- Hl, firstn_all. by rewrite Hl.
Qed.
End ProgFacts.

(** One step of a run. *)
Ltac wp_prim :=
  lazymatch goal with
  | |- wp (bind _ _) _ _ => apply wp_bind
  | |- wp (ret _) _ _ => apply wp_ret
  | |- wp (emit _) _ _ => apply wp_emit
  | |- wp abort _ _ => apply wp_abort
  | |- wp throw _ _ => apply wp_throw
  | |- wp (read _) _ _ => apply wp_read
  | |- wp read_items0 _ _ => apply wp_read_items0
  | |- wp (write _) _ _ => apply wp_write
  | |- wp (load _ _) _ _ => apply wp_load
  | |- wp (store _ _) _ _ => apply wp_store
  | |- wp (print _) _ _ => apply wp_print
  | |- wp (call _) _ _ => apply wp_call; intros ? ? _
  | |- wp delete_array _ _ => apply wp_delete_array
  | |- wp (new_array _) _ _ => apply wp_new_array; intros ?
  | |- wp (scoped_lock _) _ _ => apply wp_scoped_lock
  | |- wp (if ?b then _ else _) _ _ => destruct b eqn:?
  | |- wp (match ?b with Some _ => _ | None => _ end) _ _ => destruct b eqn:?
  end.


Ltac use_tests :=
  repeat match goal with
  | H : (?a =? ?b) = _ |- context [?a =? ?b] => rewrite H
  end.

(** Closing a goal about an explicit run: the statuses met on the way are
    turned into the tests that [fatal_free] makes. *)
Ltac status_tests :=
  repeat match goal with
  | H : status _ < _ |- _ => apply Z.leb_gt in H
  | H : _ <= status _ |- _ => apply Z.leb_le in H
  end.

Ltac trace_norm :=
  rewrite ?app_nil_r, ?calls_of_app, ?statuses_of_app, ?copies_of_app, ?allocs_of_app,
    ?fatal_free_app, ?guarded_app, ?held_after_app, ?calls_of_copy, ?statuses_of_copy,
    ?allocs_of_copy, ?copies_of_copy, ?fatal_free_copy, ?guarded_copy, ?held_after_copy,
    ?app_nil_r.

Ltac trace_solve simp :=
  repeat match goal with
  | H : (_ =? _) = true |- _ => apply Z.eqb_eq in H; subst
  | H : _ \/ _ |- _ => destruct H; subst
  end;
  status_tests; trace_norm; unfold fatal_free; cbn;
  repeat match goal with H : (_ <=? _) = _ |- _ => rewrite ?H; clear H end;
  cbn; trace_norm; repeat split; try done; simp;
  try first [ solve [exists []; eexists; reflexivity]
            | solve [eexists; eexists; reflexivity]
            | solve [eexists; reflexivity]
            | solve [left; eexists; reflexivity]
            | solve [right; split; [done|]; eexists; reflexivity] ].

(** * Facts about bb_series *)

Module BbFacts.
Import Bb.

Section Facts.
Context {api : VendorApi Call}.
Variable ok : Z.
Implicit Types w : World bb_series_impl api.

Lemma bb_ERROR_CHECK_run st w :
  ERROR_CHECK ok st w =
  (if st <? ok then Aborted else Done tt,
   {| self := self w; device := device w; items0 := items0 w;
      console := console w ++ check_output (api:=api) ok st |}, []).
Proof.
  unfold ERROR_CHECK, check_output.
  destruct (Z.eqb_spec st ok) as [->|Hne]; simpl.
  - rewrite Z.ltb_irrefl, app_nil_r. unfold ret. by rewrite world_eta.
  - rewrite bind_run. unfold print. simpl.
    rewrite Z.gtb_ltb. destruct (Z.ltb_spec ok st), (Z.ltb_spec st ok); try lia; done.
Qed.

Lemma bb_wp_ERROR_CHECK st w (Q : _ -> _ -> _ -> Prop) :
  (st < ok -> Q Aborted {| self := self w; device := device w; items0 := items0 w;
                           console := console w ++ check_output (api:=api) ok st |} []) ->
  (ok <= st -> Q (Done tt) {| self := self w; device := device w; items0 := items0 w;
                              console := console w ++ check_output (api:=api) ok st |} []) ->
  wp (ERROR_CHECK ok st) w Q.
Proof.
  intros H1 H2. unfold wp. rewrite bb_ERROR_CHECK_run.
  destruct (Z.ltb_spec st ok); auto.
Qed.

(** The three cases of [ERROR_CHECK]. *)
Lemma bb_ERROR_CHECK_cases st w :
  ERROR_CHECK ok st w =
  match st ?= ok with
  | Eq => (Done tt, w, [])
  | Gt => (Done tt,
           {| self := self w; device := device w; items0 := items0 w;
              console := console w ++ [[Str "** "; Str "Warning: ";
         Str (GetErrorString api st); Str " **"; Str newline]] |}, [])
  | Lt => (Aborted,
           {| self := self w; device := device w; items0 := items0 w;
              console := console w ++ [[Str "** "; Str "Error: ";
         Str (GetErrorString api st); Str " **"; Str newline]] |}, [])
  end.
Proof.
  rewrite bb_ERROR_CHECK_run. unfold check_output.
  destruct (Z.compare_spec st ok) as [->|Hlt|Hgt].
  - rewrite Z.ltb_irrefl, Z.eqb_refl, app_nil_r. by rewrite world_eta.
  - destruct (Z.ltb_spec st ok); [|lia]. destruct (Z.eqb_spec st ok); [lia|].
    destruct (Z.gtb_spec st ok); [lia|]. done.
  - destruct (Z.ltb_spec st ok); [lia|]. destruct (Z.eqb_spec st ok); [lia|].
    destruct (Z.gtb_spec st ok); [|lia]. done.
Qed.

Ltac adapter_simpl :=
  cbv beta delta [upd_handle upd_center upd_reflevel upd_decimation upd_bandwidth upd_purge
              upd_param_changed upd_buffer upd_len];
  cbn [self device items0 console _handle _center _reflevel _decimation _bandwidth _purge _param_changed _buffer _len
       negb orb andb is_null default from_option id fmap option_fmap option_map];
  use_tests;
  cbn [negb orb andb].

Ltac wp_step :=
  first [ apply bb_wp_ERROR_CHECK; intros ? | apply wp_copy_frame; intros | wp_prim ];
  adapter_simpl.

Ltac wp_step_run :=
  first [ apply bb_wp_ERROR_CHECK; intros ?
        | eapply wp_copy_run; [adapter_simpl; reflexivity| | |]
        | wp_prim ];
  adapter_simpl.

(** *** The setters *)

Lemma bb_run_setter_spec s w :
  wp (run_setter s) w (fun r w' t =>
    r = Done tt /\ device w' = device w /\ items0 w' = items0 w /\
    console w' = console w /\
    (_center (self w') = default (_center (self w)) (center_of s) /\
     _reflevel (self w') = default (_reflevel (self w)) (reflevel_of s) /\
     _decimation (self w') = default (_decimation (self w)) (decimation_of s) /\
     _bandwidth (self w') = default (_bandwidth (self w)) (bandwidth_of s) /\
     _purge (self w') = default (_purge (self w)) (purge_of s)) /\
    _param_changed (self w') = _param_changed (self w) || negb (is_set_purge s) /\
    (_handle (self w') = _handle (self w) /\ _buffer (self w') = _buffer (self w) /\
     _len (self w') = _len (self w)) /\
    t = EvLock :: (EvStore <$> written_by s) ++ [EvUnlock]).
Proof.
  destruct s; unfold wp; cbn; rewrite ?orb_true_r, ?orb_false_r; repeat split.
Qed.

Lemma bb_run_setters_spec l w :
  wp (run_setters l) w (fun r w' t =>
    r = Done tt /\ device w' = device w /\ items0 w' = items0 w /\
    console w' = console w /\
    (_center (self w') = last_set center_of l (_center (self w)) /\
     _reflevel (self w') = last_set reflevel_of l (_reflevel (self w)) /\
     _decimation (self w') = last_set decimation_of l (_decimation (self w)) /\
     _bandwidth (self w') = last_set bandwidth_of l (_bandwidth (self w)) /\
     _purge (self w') = last_set purge_of l (_purge (self w))) /\
    _param_changed (self w') =
      _param_changed (self w) || existsb (fun s => negb (is_set_purge s)) l /\
    (_handle (self w') = _handle (self w) /\ _buffer (self w') = _buffer (self w) /\
     _len (self w') = _len (self w)) /\
    guarded false t = true /\ held_after false t = false /\
    calls_of t = [] /\ allocs_of t = [] /\ copies_of t = []).
Proof.
  revert w. induction l as [|s l IH]; intros w.
  { unfold wp; cbn. rewrite orb_false_r. repeat split. }
  cbn [run_setters]. apply wp_bind.
  eapply wp_mono; [apply bb_run_setter_spec|]. cbv beta.
  intros r w1 t1 (-> & Hd & Hi & Hc & HF & Hp & (Hh & Hb & Hl) & ->).
  eapply wp_mono; [apply IH|]. cbv beta.
  intros r w2 t2
    (-> & Hd2 & Hi2 & Hc2 & HG & Hp2 & (Hh2 & Hb2 & Hl2) & Hg & Hha & Hca & Hal & Hco).
  rewrite !last_set_cons.
  destruct HF as (Hf0 & Hf1 & Hf2 & Hf3 & Hf4). destruct HG as (Hg0 & Hg1 & Hg2 & Hg3 & Hg4).
  repeat split; try congruence.
  - rewrite Hp2, Hp. cbn [existsb]. by rewrite orb_assoc.
  - cbn [app guarded]. rewrite guarded_app, held_after_app.
    destruct s; cbn; by rewrite Hg.
  - cbn [app held_after]. rewrite !held_after_app. destruct s; cbn; by rewrite Hha.
  - cbn [app calls_of]. rewrite !calls_of_app, Hca. by destruct s.
  - cbn [app allocs_of]. rewrite !allocs_of_app, Hal. by destruct s.
  - cbn [app copies_of]. rewrite !copies_of_app, Hco. by destruct s.
Qed.

Lemma bb_run_setters_after l w :
  wp (run_setters l) w (fun r w' t =>
    r = Done tt /\
    w' = {| self := after_setters l (self w); device := device w; items0 := items0 w;
            console := console w |} /\
    guarded false t = true /\ held_after false t = false /\
    calls_of t = [] /\ allocs_of t = [] /\ copies_of t = []).
Proof.
  eapply wp_mono; [apply bb_run_setters_spec|]. cbv beta.
  intros r [o' d' i' c'] t (-> & Hd & Hi & Hc & HF & Hp & (Hh & Hb & Hl) & Hrest).
  split; [done|]. split; [|done]. cbn in *. subst.
  destruct HF as (Hf0 & Hf1 & Hf2 & Hf3 & Hf4). destruct o'; cbn in *; subst. reflexivity.
Qed.

(** *** The constructor *)

Lemma bb_ctor_body_spec w :
  wp (ctor_body ok) w (fun r w' t =>
    (exists h, self w' = upd_handle h (self w)) /\ items0 w' = items0 w /\
    allocs_of t = [] /\ copies_of t = [] /\
    match r with
    | Done _ => fatal_free ok t = true
    | Aborted => fatal_free ok t = false
    | _ => False
    end).
Proof. unfold ctor_body. repeat wp_step. all: trace_solve ltac:(adapter_simpl). Qed.

(** *** The transfer hook *)

Lemma bb_work_allocate_spec n w :
  buffer_inv (self w) ->
  wp (work_allocate n) w (fun r w' t =>
    device w' = device w /\ items0 w' = items0 w /\
    match r with
    | Done _ =>
        allocs_of t = (if must_allocate (self w) n then [n] else []) /\
        (must_allocate (self w) n = false -> w' = w) /\
        exists b, self w' = upd_len n (upd_buffer (Some b) (self w)) /\
                  Z.of_nat (length b) = n
    | Thrown => n < 0 /\ must_allocate (self w) n = true
    | _ => False
    end).
Proof.
  destruct w as [[h c rl dec bw p pc buf len] d items con]. intros Hinv.
  assert (forall l, buf = Some l -> Z.of_nat (length l) = len) as Hlen by apply Hinv.
  clear Hinv. unfold work_allocate, must_allocate.
  destruct (n =? len) eqn:Hnl; destruct buf as [l|]; try specialize (Hlen l eq_refl).
  all: repeat wp_step.
  all: repeat match goal with H : (_ =? _) = true |- _ => apply Z.eqb_eq in H; subst end.
  all: cbn; repeat split; try done.
  all: eexists; split; [reflexivity|]; rewrite ?length_replicate; lia.
Qed.

Lemma bb_work_spec n w :
  wp (work ok n) w (fun r w' t =>
    (exists buf, calls_of t `prefix_of` work_calls (self w) n buf) /\
    (_param_changed (self w) = true ->
       calls_of t <> [] /\
       (config_calls (self w) `prefix_of` calls_of t \/
        r = Aborted /\ calls_of t `prefix_of` config_calls (self w))) /\
    (_param_changed (self w) = false -> _param_changed (self w') = false) /\
    (must_allocate (self w) n = false -> allocs_of t = []) /\
    match r with
    | Done x =>
        x = n /\ fatal_free ok t = true /\
        (exists buf, calls_of t = work_calls (self w) n buf) /\
        allocs_of t = (if must_allocate (self w) n then [n] else []) /\
        (exists b, self w' = upd_len n (upd_buffer (Some b) (upd_param_changed false (self w))))
    | Aborted => fatal_free ok t = false /\ items0 w' = items0 w /\ copies_of t = []
    | Thrown => n < 0
    | Undefined => True
    end).
Proof.
  destruct w as [[h c rl dec bw p pc buf len] d items con].
  destruct (n =? len) eqn:Hlen.
  all: destruct pc, buf as [l|].
  all: unfold work, work_reconfigure, work_allocate, work_get_iq, work_copy, configure.
  all: unfold must_allocate, work_calls, config_calls.
  all: repeat wp_step.
  all: trace_solve ltac:(adapter_simpl).
Qed.

Lemma bb_work_complete n w :
  0 <= n -> (Z.to_nat n <= length (items0 w))%nat -> buffer_inv (self w) ->
  wp (work ok n) w (fun r w' t =>
    match r with
    | Done _ =>
        exists b, _buffer (self w') = Some b /\ length b = Z.to_nat n /\
          items0 w' = b ++ drop (Z.to_nat n) (items0 w) /\
          copies_of t = seq 0 (Z.to_nat n)
    | Aborted => True
    | _ => False
    end).
Proof.
  destruct w as [[h c rl dec bw p pc buf len] d items con].
  intros Hn Hitems Hinv. cbn in Hitems.
  assert (forall l, buf = Some l -> Z.of_nat (length l) = len) as Hlen by apply Hinv.
  clear Hinv. destruct (n =? len) eqn:Hnl.
  all: destruct pc, buf as [l|]; try specialize (Hlen l eq_refl).
  all: unfold work, work_reconfigure, work_allocate, work_get_iq, work_copy, configure.
  all: repeat wp_step_run.
  all: try done; try lia.
  all: repeat match goal with H : (_ =? _) = true |- _ => apply Z.eqb_eq in H; subst end.
  all: try (rewrite length_fill_iq, ?length_replicate; lia).
  all: eexists; split; [reflexivity|]; split; [|split; [reflexivity|]].
  all: try (rewrite length_fill_iq, ?length_replicate; lia).
  all: trace_norm; cbn; trace_norm; reflexivity.
Qed.

End Facts.
End BbFacts.

(** * Facts about sm_series *)

Module SmFacts.
Import Sm.

Section Facts.
Context {api : VendorApi Call}.
Variable ok : Z.
Implicit Types w : World sm_series_impl api.

Lemma sm_ERROR_CHECK_run (cname : string) st w :
  ERROR_CHECK ok cname st w =
  (if st <? ok then Aborted else Done tt,
   {| self := self w; device := device w; items0 := items0 w;
      console := console w ++ check_output (api:=api) ok cname st |}, []).
Proof.
  unfold ERROR_CHECK, check_output.
  destruct (Z.eqb_spec st ok) as [->|Hne]; simpl.
  - rewrite Z.ltb_irrefl, app_nil_r. unfold ret. by rewrite world_eta.
  - rewrite bind_run. unfold print. simpl.
    rewrite Z.gtb_ltb. destruct (Z.ltb_spec ok st), (Z.ltb_spec st ok); try lia; done.
Qed.

Lemma sm_wp_ERROR_CHECK (cname : string) st w (Q : _ -> _ -> _ -> Prop) :
  (st < ok -> Q Aborted {| self := self w; device := device w; items0 := items0 w;
                           console := console w ++ check_output (api:=api) ok cname st |} []) ->
  (ok <= st -> Q (Done tt) {| self := self w; device := device w; items0 := items0 w;
                              console := console w ++ check_output (api:=api) ok cname st |} []) ->
  wp (ERROR_CHECK ok cname st) w Q.
Proof.
  intros H1 H2. unfold wp. rewrite sm_ERROR_CHECK_run.
  destruct (Z.ltb_spec st ok); auto.
Qed.

(** The three cases of [ERROR_CHECK]. *)
Lemma sm_ERROR_CHECK_cases (cname : string) st w :
  ERROR_CHECK ok cname st w =
  match st ?= ok with
  | Eq => (Done tt, w, [])
  | Gt => (Done tt,
           {| self := self w; device := device w; items0 := items0 w;
              console := console w ++ [[Str "** "; Str "Warning: ("; Str cname; Str ")";
         Str (GetErrorString api st); Str " **"; Str newline]] |}, [])
  | Lt => (Aborted,
           {| self := self w; device := device w; items0 := items0 w;
              console := console w ++ [[Str "** "; Str "Error: ("; Str cname; Str ")";
         Str (GetErrorString api st); Str " **"; Str newline]] |}, [])
  end.
Proof.
  rewrite sm_ERROR_CHECK_run. unfold check_output.
  destruct (Z.compare_spec st ok) as [->|Hlt|Hgt].
  - rewrite Z.ltb_irrefl, Z.eqb_refl, app_nil_r. by rewrite world_eta.
  - destruct (Z.ltb_spec st ok); [|lia]. destruct (Z.eqb_spec st ok); [lia|].
    destruct (Z.gtb_spec st ok); [lia|]. done.
  - destruct (Z.ltb_spec st ok); [lia|]. destruct (Z.eqb_spec st ok); [lia|].
    destruct (Z.gtb_spec st ok); [|lia]. done.
Qed.

Ltac adapter_simpl :=
  cbv beta delta [upd_handle upd_center upd_reflevel upd_atten upd_decimation upd_bandwidth upd_purge
              upd_swfilter upd_param_changed upd_buffer upd_len];
  cbn [self device items0 console _handle _center _reflevel _atten _decimation _bandwidth _purge _swfilter
       _param_changed _buffer _len
       negb orb andb is_null default from_option id fmap option_fmap option_map];
  use_tests;
  cbn [negb orb andb].

Ltac wp_step :=
  first [ apply sm_wp_ERROR_CHECK; intros ? | apply wp_copy_frame; intros | wp_prim ];
  adapter_simpl.

Ltac wp_step_run :=
  first [ apply sm_wp_ERROR_CHECK; intros ?
        | eapply wp_copy_run; [adapter_simpl; reflexivity| | |]
        | wp_prim ];
  adapter_simpl.

(** *** The setters *)

Lemma sm_run_setter_spec s w :
  wp (run_setter s) w (fun r w' t =>
    r = Done tt /\ device w' = device w /\ items0 w' = items0 w /\
    console w' = console w /\
    (_center (self w') = default (_center (self w)) (center_of s) /\
     _reflevel (self w') = default (_reflevel (self w)) (reflevel_of s) /\
     _atten (self w') = default (_atten (self w)) (atten_of s) /\
     _decimation (self w') = default (_decimation (self w)) (decimation_of s) /\
     _bandwidth (self w') = default (_bandwidth (self w)) (bandwidth_of s) /\
     _swfilter (self w') = default (_swfilter (self w)) (swfilter_of s) /\
     _purge (self w') = default (_purge (self w)) (purge_of s)) /\
    _param_changed (self w') = _param_changed (self w) || negb (is_set_purge s) /\
    (_handle (self w') = _handle (self w) /\ _buffer (self w') = _buffer (self w) /\
     _len (self w') = _len (self w)) /\
    t = EvLock :: (EvStore <$> written_by s) ++ [EvUnlock]).
Proof.
  destruct s; unfold wp; cbn; rewrite ?orb_true_r, ?orb_false_r; repeat split.
Qed.

Lemma sm_run_setters_spec l w :
  wp (run_setters l) w (fun r w' t =>
    r = Done tt /\ device w' = device w /\ items0 w' = items0 w /\
    console w' = console w /\
    (_center (self w') = last_set center_of l (_center (self w)) /\
     _reflevel (self w') = last_set reflevel_of l (_reflevel (self w)) /\
     _atten (self w') = last_set atten_of l (_atten (self w)) /\
     _decimation (self w') = last_set decimation_of l (_decimation (self w)) /\
     _bandwidth (self w') = last_set bandwidth_of l (_bandwidth (self w)) /\
     _swfilter (self w') = last_set swfilter_of l (_swfilter (self w)) /\
     _purge (self w') = last_set purge_of l (_purge (self w))) /\
    _param_changed (self w') =
      _param_changed (self w) || existsb (fun s => negb (is_set_purge s)) l /\
    (_handle (self w') = _handle (self w) /\ _buffer (self w') = _buffer (self w) /\
     _len (self w') = _len (self w)) /\
    guarded false t = true /\ held_after false t = false /\
    calls_of t = [] /\ allocs_of t = [] /\ copies_of t = []).
Proof.
  revert w. induction l as [|s l IH]; intros w.
  { unfold wp; cbn. rewrite orb_false_r. repeat split. }
  cbn [run_setters]. apply wp_bind.
  eapply wp_mono; [apply sm_run_setter_spec|]. cbv beta.
  intros r w1 t1 (-> & Hd & Hi & Hc & HF & Hp & (Hh & Hb & Hl) & ->).
  eapply wp_mono; [apply IH|]. cbv beta.
  intros r w2 t2
    (-> & Hd2 & Hi2 & Hc2 & HG & Hp2 & (Hh2 & Hb2 & Hl2) & Hg & Hha & Hca & Hal & Hco).
  rewrite !last_set_cons.
  destruct HF as (Hf0 & Hf1 & Hf2 & Hf3 & Hf4 & Hf5 & Hf6). destruct HG as (Hg0 & Hg1 & Hg2 & Hg3 & Hg4 & Hg5 & Hg6).
  repeat split; try congruence.
  - rewrite Hp2, Hp. cbn [existsb]. by rewrite orb_assoc.
  - cbn [app guarded]. rewrite guarded_app, held_after_app.
    destruct s; cbn; by rewrite Hg.
  - cbn [app held_after]. rewrite !held_after_app. destruct s; cbn; by rewrite Hha.
  - cbn [app calls_of]. rewrite !calls_of_app, Hca. by destruct s.
  - cbn [app allocs_of]. rewrite !allocs_of_app, Hal. by destruct s.
  - cbn [app copies_of]. rewrite !copies_of_app, Hco. by destruct s.
Qed.

Lemma sm_run_setters_after l w :
  wp (run_setters l) w (fun r w' t =>
    r = Done tt /\
    w' = {| self := after_setters l (self w); device := device w; items0 := items0 w;
            console := console w |} /\
    guarded false t = true /\ held_after false t = false /\
    calls_of t = [] /\ allocs_of t = [] /\ copies_of t = []).
Proof.
  eapply wp_mono; [apply sm_run_setters_spec|]. cbv beta.
  intros r [o' d' i' c'] t (-> & Hd & Hi & Hc & HF & Hp & (Hh & Hb & Hl) & Hrest).
  split; [done|]. split; [|done]. cbn in *. subst.
  destruct HF as (Hf0 & Hf1 & Hf2 & Hf3 & Hf4 & Hf5 & Hf6). destruct o'; cbn in *; subst. reflexivity.
Qed.

(** *** The constructor *)

Lemma sm_ctor_body_spec w :
  wp (ctor_body ok) w (fun r w' t =>
    (exists h, self w' = upd_handle h (self w)) /\ items0 w' = items0 w /\
    allocs_of t = [] /\ copies_of t = [] /\
    match r with
    | Done _ => fatal_free ok t = true
    | Aborted => fatal_free ok t = false
    | _ => False
    end).
Proof. unfold ctor_body. repeat wp_step. all: trace_solve ltac:(adapter_simpl). Qed.

(** *** The transfer hook *)

Lemma sm_work_allocate_spec n w :
  buffer_inv (self w) ->
  wp (work_allocate n) w (fun r w' t =>
    device w' = device w /\ items0 w' = items0 w /\
    match r with
    | Done _ =>
        allocs_of t = (if must_allocate (self w) n then [n] else []) /\
        (must_allocate (self w) n = false -> w' = w) /\
        exists b, self w' = upd_len n (upd_buffer (Some b) (self w)) /\
                  Z.of_nat (length b) = n
    | Thrown => n < 0 /\ must_allocate (self w) n = true
    | _ => False
    end).
Proof.
  destruct w as [[h c rl att dec bw p sf pc buf len] d items con]. intros Hinv.
  assert (forall l, buf = Some l -> Z.of_nat (length l) = len) as Hlen by apply Hinv.
  clear Hinv. unfold work_allocate, must_allocate.
  destruct (n =? len) eqn:Hnl; destruct buf as [l|]; try specialize (Hlen l eq_refl).
  all: repeat wp_step.
  all: repeat match goal with H : (_ =? _) = true |- _ => apply Z.eqb_eq in H; subst end.
  all: cbn; repeat split; try done.
  all: eexists; split; [reflexivity|]; rewrite ?length_replicate; lia.
Qed.

Lemma sm_work_spec n w :
  wp (work ok n) w (fun r w' t =>
    (exists buf, calls_of t `prefix_of` work_calls (self w) n buf) /\
    (_param_changed (self w) = true ->
       calls_of t <> [] /\
       (config_calls (self w) `prefix_of` calls_of t \/
        r = Aborted /\ calls_of t `prefix_of` config_calls (self w))) /\
    (_param_changed (self w) = false -> _param_changed (self w') = false) /\
    (must_allocate (self w) n = false -> allocs_of t = []) /\
    match r with
    | Done x =>
        x = n /\ fatal_free ok t = true /\
        (exists buf, calls_of t = work_calls (self w) n buf) /\
        allocs_of t = (if must_allocate (self w) n then [n] else []) /\
        (exists b, self w' = upd_len n (upd_buffer (Some b) (upd_param_changed false (self w))))
    | Aborted => fatal_free ok t = false /\ items0 w' = items0 w /\ copies_of t = []
    | Thrown => n < 0
    | Undefined => True
    end).
Proof.
  destruct w as [[h c rl att dec bw p sf pc buf len] d items con].
  destruct (n =? len) eqn:Hlen.
  all: destruct pc, buf as [l|].
  all: unfold work, work_reconfigure, work_allocate, work_get_iq, work_copy, configure.
  all: unfold must_allocate, work_calls, config_calls.
  all: repeat wp_step.
  all: trace_solve ltac:(adapter_simpl).
Qed.

Lemma sm_work_complete n w :
  0 <= n -> (Z.to_nat n <= length (items0 w))%nat -> buffer_inv (self w) ->
  wp (work ok n) w (fun r w' t =>
    match r with
    | Done _ =>
        exists b, _buffer (self w') = Some b /\ length b = Z.to_nat n /\
          items0 w' = b ++ drop (Z.to_nat n) (items0 w) /\
          copies_of t = seq 0 (Z.to_nat n)
    | Aborted => True
    | _ => False
    end).
Proof.
  destruct w as [[h c rl att dec bw p sf pc buf len] d items con].
  intros Hn Hitems Hinv. cbn in Hitems.
  assert (forall l, buf = Some l -> Z.of_nat (length l) = len) as Hlen by apply Hinv.
  clear Hinv. destruct (n =? len) eqn:Hnl.
  all: destruct pc, buf as [l|]; try specialize (Hlen l eq_refl).
  all: unfold work, work_reconfigure, work_allocate, work_get_iq, work_copy, configure.
  all: repeat wp_step_run.
  all: try done; try lia.
  all: repeat match goal with H : (_ =? _) = true |- _ => apply Z.eqb_eq in H; subst end.
  all: try (rewrite length_fill_iq, ?length_replicate; lia).
  all: eexists; split; [reflexivity|]; split; [|split; [reflexivity|]].
  all: try (rewrite length_fill_iq, ?length_replicate; lia).
  all: trace_norm; cbn; trace_norm; reflexivity.
Qed.

End Facts.
End SmFacts.

(** * Facts about sp_series *)

Module SpFacts.
Import Sp.

Section Facts.
Context {api : VendorApi Call}.
#[local] Abbreviation ok := spNoError.
#[local] Opaque spNoError.
Implicit Types w : World sp_series_impl api.

Lemma sp_ERROR_CHECK_run st w :
  ERROR_CHECK st w =
  (if st <? ok then Aborted else Done tt,
   {| self := self w; device := device w; items0 := items0 w;
      console := console w ++ check_output (api:=api) st |}, []).
Proof.
  unfold ERROR_CHECK, check_output.
  destruct (Z.eqb_spec st ok) as [->|Hne]; simpl.
  - rewrite Z.ltb_irrefl, app_nil_r. unfold ret. by rewrite world_eta.
  - rewrite bind_run. unfold print. simpl.
    rewrite Z.gtb_ltb. destruct (Z.ltb_spec ok st), (Z.ltb_spec st ok); try lia; done.
Qed.

Lemma sp_wp_ERROR_CHECK st w (Q : _ -> _ -> _ -> Prop) :
  (st < ok -> Q Aborted {| self := self w; device := device w; items0 := items0 w;
                           console := console w ++ check_output (api:=api) st |} []) ->
  (ok <= st -> Q (Done tt) {| self := self w; device := device w; items0 := items0 w;
                              console := console w ++ check_output (api:=api) st |} []) ->
  wp (ERROR_CHECK st) w Q.
Proof.
  intros H1 H2. unfold wp. rewrite sp_ERROR_CHECK_run.
  destruct (Z.ltb_spec st ok); auto.
Qed.

(** The three cases of [ERROR_CHECK]. *)
Lemma sp_ERROR_CHECK_cases st w :
  ERROR_CHECK st w =
  match st ?= ok with
  | Eq => (Done tt, w, [])
  | Gt => (Done tt,
           {| self := self w; device := device w; items0 := items0 w;
              console := console w ++ [[Str "** "; Str "Warning: ";
         Str (GetErrorString api st); Str " **"; Str newline]] |}, [])
  | Lt => (Aborted,
           {| self := self w; device := device w; items0 := items0 w;
              console := console w ++ [[Str "** "; Str "Error: ";
         Str (GetErrorString api st); Str " **"; Str newline]] |}, [])
  end.
Proof.
  rewrite sp_ERROR_CHECK_run. unfold check_output.
  destruct (Z.compare_spec st ok) as [->|Hlt|Hgt].
  - rewrite Z.ltb_irrefl, Z.eqb_refl, app_nil_r. by rewrite world_eta.
  - destruct (Z.ltb_spec st ok); [|lia]. destruct (Z.eqb_spec st ok); [lia|].
    destruct (Z.gtb_spec st ok); [lia|]. done.
  - destruct (Z.ltb_spec st ok); [lia|]. destruct (Z.eqb_spec st ok); [lia|].
    destruct (Z.gtb_spec st ok); [|lia]. done.
Qed.

Ltac adapter_simpl :=
  cbv beta delta [upd_handle upd_center upd_reflevel upd_atten upd_decimation upd_bandwidth upd_purge
              upd_swfilter upd_param_changed upd_buffer upd_len];
  cbn [self device items0 console _handle _center _reflevel _atten _decimation _bandwidth _purge _swfilter
       _param_changed _buffer _len
       negb orb andb is_null default from_option id fmap option_fmap option_map];
  use_tests;
  cbn [negb orb andb].

Ltac wp_step :=
  first [ apply sp_wp_ERROR_CHECK; intros ? | apply wp_copy_frame; intros | wp_prim ];
  adapter_simpl.

Ltac wp_step_run :=
  first [ apply sp_wp_ERROR_CHECK; intros ?
        | eapply wp_copy_run; [adapter_simpl; reflexivity| | |]
        | wp_prim ];
  adapter_simpl.

(** *** The setters *)

Lemma sp_run_setter_spec s w :
  wp (run_setter s) w (fun r w' t =>
    r = Done tt /\ device w' = device w /\ items0 w' = items0 w /\
    console w' = console w /\
    (_center (self w') = default (_center (self w)) (center_of s) /\
     _reflevel (self w') = default (_reflevel (self w)) (reflevel_of s) /\
     _atten (self w') = default (_atten (self w)) (atten_of s) /\
     _decimation (self w') = default (_decimation (self w)) (decimation_of s) /\
     _bandwidth (self w') = default (_bandwidth (self w)) (bandwidth_of s) /\
     _swfilter (self w') = default (_swfilter (self w)) (swfilter_of s) /\
     _purge (self w') = default (_purge (self w)) (purge_of s)) /\
    _param_changed (self w') = _param_changed (self w) || negb (is_set_purge s) /\
    (_handle (self w') = _handle (self w) /\ _buffer (self w') = _buffer (self w) /\
     _len (self w') = _len (self w)) /\
    t = EvLock :: (EvStore <$> written_by s) ++ [EvUnlock]).
Proof.
  destruct s; unfold wp; cbn; rewrite ?orb_true_r, ?orb_false_r; repeat split.
Qed.

Lemma sp_run_setters_spec l w :
  wp (run_setters l) w (fun r w' t =>
    r = Done tt /\ device w' = device w /\ items0 w' = items0 w /\
    console w' = console w /\
    (_center (self w') = last_set center_of l (_center (self w)) /\
     _reflevel (self w') = last_set reflevel_of l (_reflevel (self w)) /\
     _atten (self w') = last_set atten_of l (_atten (self w)) /\
     _decimation (self w') = last_set decimation_of l (_decimation (self w)) /\
     _bandwidth (self w') = last_set bandwidth_of l (_bandwidth (self w)) /\
     _swfilter (self w') = last_set swfilter_of l (_swfilter (self w)) /\
     _purge (self w') = last_set purge_of l (_purge (self w))) /\
    _param_changed (self w') =
      _param_changed (self w) || existsb (fun s => negb (is_set_purge s)) l /\
    (_handle (self w') = _handle (self w) /\ _buffer (self w') = _buffer (self w) /\
     _len (self w') = _len (self w)) /\
    guarded false t = true /\ held_after false t = false /\
    calls_of t = [] /\ allocs_of t = [] /\ copies_of t = []).
Proof.
  revert w. induction l as [|s l IH]; intros w.
  { unfold wp; cbn. rewrite orb_false_r. repeat split. }
  cbn [run_setters]. apply wp_bind.
  eapply wp_mono; [apply sp_run_setter_spec|]. cbv beta.
  intros r w1 t1 (-> & Hd & Hi & Hc & HF & Hp & (Hh & Hb & Hl) & ->).
  eapply wp_mono; [apply IH|]. cbv beta.
  intros r w2 t2
    (-> & Hd2 & Hi2 & Hc2 & HG & Hp2 & (Hh2 & Hb2 & Hl2) & Hg & Hha & Hca & Hal & Hco).
  rewrite !last_set_cons.
  destruct HF as (Hf0 & Hf1 & Hf2 & Hf3 & Hf4 & Hf5 & Hf6). destruct HG as (Hg0 & Hg1 & Hg2 & Hg3 & Hg4 & Hg5 & Hg6).
  repeat split; try congruence.
  - rewrite Hp2, Hp. cbn [existsb]. by rewrite orb_assoc.
  - cbn [app guarded]. rewrite guarded_app, held_after_app.
    destruct s; cbn; by rewrite Hg.
  - cbn [app held_after]. rewrite !held_after_app. destruct s; cbn; by rewrite Hha.
  - cbn [app calls_of]. rewrite !calls_of_app, Hca. by destruct s.
  - cbn [app allocs_of]. rewrite !allocs_of_app, Hal. by destruct s.
  - cbn [app copies_of]. rewrite !copies_of_app, Hco. by destruct s.
Qed.

Lemma sp_run_setters_after l w :
  wp (run_setters l) w (fun r w' t =>
    r = Done tt /\
    w' = {| self := after_setters l (self w); device := device w; items0 := items0 w;
            console := console w |} /\
    guarded false t = true /\ held_after false t = false /\
    calls_of t = [] /\ allocs_of t = [] /\ copies_of t = []).
Proof.
  eapply wp_mono; [apply sp_run_setters_spec|]. cbv beta.
  intros r [o' d' i' c'] t (-> & Hd & Hi & Hc & HF & Hp & (Hh & Hb & Hl) & Hrest).
  split; [done|]. split; [|done]. cbn in *. subst.
  destruct HF as (Hf0 & Hf1 & Hf2 & Hf3 & Hf4 & Hf5 & Hf6). destruct o'; cbn in *; subst. reflexivity.
Qed.

(** *** The constructor *)

Lemma sp_ctor_body_spec w :
  wp (ctor_body) w (fun r w' t =>
    (exists h, self w' = upd_handle h (self w)) /\ items0 w' = items0 w /\
    allocs_of t = [] /\ copies_of t = [] /\
    match r with
    | Done _ => fatal_free ok t = true
    | Aborted => fatal_free ok t = false
    | _ => False
    end).
Proof. unfold ctor_body. repeat wp_step. all: trace_solve ltac:(adapter_simpl). Qed.

(** *** The transfer hook *)

Lemma sp_work_allocate_spec n w :
  buffer_inv (self w) ->
  wp (work_allocate n) w (fun r w' t =>
    device w' = device w /\ items0 w' = items0 w /\
    match r with
    | Done _ =>
        allocs_of t = (if must_allocate (self w) n then [n] else []) /\
        (must_allocate (self w) n = false -> w' = w) /\
        exists b, self w' = upd_len n (upd_buffer (Some b) (self w)) /\
                  Z.of_nat (length b) = n
    | Thrown => n < 0 /\ must_allocate (self w) n = true
    | _ => False
    end).
Proof.
  destruct w as [[h c rl att dec bw p sf pc buf len] d items con]. intros Hinv.
  assert (forall l, buf = Some l -> Z.of_nat (length l) = len) as Hlen by apply Hinv.
  clear Hinv. unfold work_allocate, must_allocate.
  destruct (n =? len) eqn:Hnl; destruct buf as [l|]; try specialize (Hlen l eq_refl).
  all: repeat wp_step.
  all: repeat match goal with H : (_ =? _) = true |- _ => apply Z.eqb_eq in H; subst end.
  all: cbn; repeat split; try done.
  all: eexists; split; [reflexivity|]; rewrite ?length_replicate; lia.
Qed.

Lemma sp_work_spec n w :
  wp (work n) w (fun r w' t =>
    (exists buf, calls_of t `prefix_of` work_calls (self w) n buf) /\
    (_param_changed (self w) = true ->
       calls_of t <> [] /\
       (config_calls (self w) `prefix_of` calls_of t \/
        r = Aborted /\ calls_of t `prefix_of` config_calls (self w))) /\
    (_param_changed (self w) = false -> _param_changed (self w') = false) /\
    (must_allocate (self w) n = false -> allocs_of t = []) /\
    match r with
    | Done x =>
        x = n /\ fatal_free ok t = true /\
        (exists buf, calls_of t = work_calls (self w) n buf) /\
        allocs_of t = (if must_allocate (self w) n then [n] else []) /\
        (exists b, self w' = upd_len n (upd_buffer (Some b) (upd_param_changed false (self w))))
    | Aborted => fatal_free ok t = false /\ items0 w' = items0 w /\ copies_of t = []
    | Thrown => n < 0
    | Undefined => True
    end).
Proof.
  destruct w as [[h c rl att dec bw p sf pc buf len] d items con].
  destruct (n =? len) eqn:Hlen.
  all: destruct pc, buf as [l|].
  all: unfold work, work_reconfigure, work_allocate, work_get_iq, work_copy, configure.
  all: unfold must_allocate, work_calls, config_calls.
  all: repeat wp_step.
  all: trace_solve ltac:(adapter_simpl).
Qed.

Lemma sp_work_complete n w :
  0 <= n -> (Z.to_nat n <= length (items0 w))%nat -> buffer_inv (self w) ->
  wp (work n) w (fun r w' t =>
    match r with
    | Done _ =>
        exists b, _buffer (self w') = Some b /\ length b = Z.to_nat n /\
          items0 w' = b ++ drop (Z.to_nat n) (items0 w) /\
          copies_of t = seq 0 (Z.to_nat n)
    | Aborted => True
    | _ => False
    end).
Proof.
  destruct w as [[h c rl att dec bw p sf pc buf len] d items con].
  intros Hn Hitems Hinv. cbn in Hitems.
  assert (forall l, buf = Some l -> Z.of_nat (length l) = len) as Hlen by apply Hinv.
  clear Hinv. destruct (n =? len) eqn:Hnl.
  all: destruct pc, buf as [l|]; try specialize (Hlen l eq_refl).
  all: unfold work, work_reconfigure, work_allocate, work_get_iq, work_copy, configure.
  all: repeat wp_step_run.
  all: try done; try lia.
  all: repeat match goal with H : (_ =? _) = true |- _ => apply Z.eqb_eq in H; subst end.
  all: try (rewrite length_fill_iq, ?length_replicate; lia).
  all: eexists; split; [reflexivity|]; split; [|split; [reflexivity|]].
  all: try (rewrite length_fill_iq, ?length_replicate; lia).
  all: trace_norm; cbn; trace_norm; reflexivity.
Qed.

End Facts.
End SpFacts.

(** * Facts about vsg_series *)

Module VsgFacts.
Import Vsg.

Section Facts.
Context {api : VendorApi Call}.
Variable ok : Z.
Implicit Types w : World vsg_series_impl api.

Lemma vsg_ERROR_CHECK_run (cname : string) st w :
  ERROR_CHECK ok cname st w =
  (if st <? ok then Aborted else Done tt,
   {| self := self w; device := device w; items0 := items0 w;
      console := console w ++ check_output (api:=api) ok cname st |}, []).
Proof.
  unfold ERROR_CHECK, check_output.
  destruct (Z.eqb_spec st ok) as [->|Hne]; simpl.
  - rewrite Z.ltb_irrefl, app_nil_r. unfold ret. by rewrite world_eta.
  - rewrite bind_run. unfold print. simpl.
    rewrite Z.gtb_ltb. destruct (Z.ltb_spec ok st), (Z.ltb_spec st ok); try lia; done.
Qed.

Lemma vsg_wp_ERROR_CHECK (cname : string) st w (Q : _ -> _ -> _ -> Prop) :
  (st < ok -> Q Aborted {| self := self w; device := device w; items0 := items0 w;
                           console := console w ++ check_output (api:=api) ok cname st |} []) ->
  (ok <= st -> Q (Done tt) {| self := self w; device := device w; items0 := items0 w;
                              console := console w ++ check_output (api:=api) ok cname st |} []) ->
  wp (ERROR_CHECK ok cname st) w Q.
Proof.
  intros H1 H2. unfold wp. rewrite vsg_ERROR_CHECK_run.
  destruct (Z.ltb_spec st ok); auto.
Qed.

(** The three cases of [ERROR_CHECK]. *)
Lemma vsg_ERROR_CHECK_cases (cname : string) st w :
  ERROR_CHECK ok cname st w =
  match st ?= ok with
  | Eq => (Done tt, w, [])
  | Gt => (Done tt,
           {| self := self w; device := device w; items0 := items0 w;
              console := console w ++
                [[Str "** VSG "; Str "Warning: ("; Str cname; Str ")";
                  Str (GetErrorString api st); Str " **"; Str newline]] |}, [])
  | Lt => (Aborted,
           {| self := self w; device := device w; items0 := items0 w;
              console := console w ++
                [[Str "** VSG "; Str "Error: ("; Str cname; Str ")";
                  Str (GetErrorString api st); Str " **"; Str newline]] |}, [])
  end.
Proof.
  rewrite vsg_ERROR_CHECK_run. unfold check_output.
  destruct (Z.compare_spec st ok) as [->|Hlt|Hgt].
  - rewrite Z.ltb_irrefl, Z.eqb_refl, app_nil_r. by rewrite world_eta.
  - destruct (Z.ltb_spec st ok); [|lia]. destruct (Z.eqb_spec st ok); [lia|].
    destruct (Z.gtb_spec st ok); [lia|]. done.
  - destruct (Z.ltb_spec st ok); [lia|]. destruct (Z.eqb_spec st ok); [lia|].
    destruct (Z.gtb_spec st ok); [|lia]. done.
Qed.

Ltac adapter_simpl :=
  cbv beta delta [upd_handle upd_center upd_samplerate upd_level upd_ioffset upd_qoffset
                  upd_param_changed upd_buffer upd_len];
  cbn [self device items0 console _handle _center _samplerate _level _ioffset _qoffset
       _param_changed _buffer _len
       negb orb andb is_null default from_option id fmap option_fmap option_map];
  use_tests;
  cbn [negb orb andb].

Ltac wp_step :=
  first [ apply vsg_wp_ERROR_CHECK; intros ? | wp_prim ];
  adapter_simpl.

(** *** The setters *)

Lemma vsg_run_setter_spec s w :
  wp (run_setter s) w (fun r w' t =>
    r = Done tt /\ device w' = device w /\ items0 w' = items0 w /\
    console w' = console w /\
    (_center (self w') = default (_center (self w)) (center_of s) /\
     _samplerate (self w') = default (_samplerate (self w)) (samplerate_of s) /\
     _level (self w') = default (_level (self w)) (level_of s) /\
     _ioffset (self w') = default (_ioffset (self w)) (ioffset_of s) /\
     _qoffset (self w') = default (_qoffset (self w)) (qoffset_of s)) /\
    _param_changed (self w') = true /\
    (_handle (self w') = _handle (self w) /\ _buffer (self w') = _buffer (self w) /\
     _len (self w') = _len (self w)) /\
    t = EvLock :: (EvStore <$> written_by s) ++ [EvUnlock]).
Proof. destruct s; unfold wp; cbn; repeat split. Qed.

Lemma vsg_run_setters_spec l w :
  wp (run_setters l) w (fun r w' t =>
    r = Done tt /\ device w' = device w /\ items0 w' = items0 w /\
    console w' = console w /\
    (_center (self w') = last_set center_of l (_center (self w)) /\
     _samplerate (self w') = last_set samplerate_of l (_samplerate (self w)) /\
     _level (self w') = last_set level_of l (_level (self w)) /\
     _ioffset (self w') = last_set ioffset_of l (_ioffset (self w)) /\
     _qoffset (self w') = last_set qoffset_of l (_qoffset (self w))) /\
    _param_changed (self w') = _param_changed (self w) || negb (bool_decide (l = [])) /\
    (_handle (self w') = _handle (self w) /\ _buffer (self w') = _buffer (self w) /\
     _len (self w') = _len (self w)) /\
    guarded false t = true /\ held_after false t = false /\
    calls_of t = [] /\ allocs_of t = [] /\ copies_of t = []).
Proof.
  revert w. induction l as [|s l IH]; intros w.
  { unfold wp; cbn. rewrite orb_false_r. repeat split. }
  cbn [run_setters]. apply wp_bind.
  eapply wp_mono; [apply vsg_run_setter_spec|]. cbv beta.
  intros r w1 t1 (-> & Hd & Hi & Hc & HF & Hp & (Hh & Hb & Hl) & ->).
  eapply wp_mono; [apply IH|]. cbv beta.
  intros r w2 t2
    (-> & Hd2 & Hi2 & Hc2 & HG & Hp2 & (Hh2 & Hb2 & Hl2) & Hg & Hha & Hca & Hal & Hco).
  rewrite !last_set_cons.
  destruct HF as (Hf0 & Hf1 & Hf2 & Hf3 & Hf4). destruct HG as (Hg0 & Hg1 & Hg2 & Hg3 & Hg4).
  repeat split; try congruence.
  - rewrite Hp2, Hp. cbn. by rewrite orb_true_r.
  - cbn [app guarded]. rewrite guarded_app, held_after_app.
    destruct s; cbn; by rewrite Hg.
  - cbn [app held_after]. rewrite !held_after_app. destruct s; cbn; by rewrite Hha.
  - cbn [app calls_of]. rewrite !calls_of_app, Hca. by destruct s.
  - cbn [app allocs_of]. rewrite !allocs_of_app, Hal. by destruct s.
  - cbn [app copies_of]. rewrite !copies_of_app, Hco. by destruct s.
Qed.

Lemma vsg_run_setters_after l w :
  wp (run_setters l) w (fun r w' t =>
    r = Done tt /\
    w' = {| self := after_setters l (self w); device := device w; items0 := items0 w;
            console := console w |} /\
    guarded false t = true /\ held_after false t = false /\
    calls_of t = [] /\ allocs_of t = [] /\ copies_of t = []).
Proof.
  eapply wp_mono; [apply vsg_run_setters_spec|]. cbv beta.
  intros r [o' d' i' c'] t (-> & Hd & Hi & Hc & HF & Hp & (Hh & Hb & Hl) & Hrest).
  split; [done|]. split; [|done]. cbn in *. subst.
  destruct HF as (Hf0 & Hf1 & Hf2 & Hf3 & Hf4). destruct o'; cbn in *; subst. reflexivity.
Qed.

(** *** The constructor and the destructor *)

Lemma vsg_ctor_body_spec w :
  wp (ctor_body ok) w (fun r w' t =>
    (exists h, self w' = upd_handle h (self w)) /\ items0 w' = items0 w /\
    allocs_of t = [] /\ copies_of t = [] /\
    match r with
    | Done _ => fatal_free ok t = true
    | Aborted => fatal_free ok t = false
    | _ => False
    end).
Proof. unfold ctor_body. repeat wp_step. all: trace_solve ltac:(adapter_simpl). Qed.

Lemma vsg_dtor_spec w :
  _buffer (self w) = None ->
  wp dtor w (fun r w' t =>
    r = Done tt /\ self w' = self w /\ items0 w' = items0 w /\
    allocs_of t = [] /\ copies_of t = [] /\
    calls_of t = [vsgAbort (_handle (self w)); vsgCloseDevice (_handle (self w))]).
Proof.
  destruct w as [[h c sr lv io qo pc buf len] d items con]. cbn. intros ->.
  unfold dtor. repeat wp_step. repeat split.
Qed.

(** *** The transfer hook *)

Lemma vsg_work_spec n w :
  wp (work ok n) w (fun r w' t =>
    calls_of t `prefix_of` work_calls (self w) n (items0 w) /\
    (_param_changed (self w) = true ->
       calls_of t <> [] /\
       (config_calls (self w) `prefix_of` calls_of t \/
        r = Aborted /\ calls_of t `prefix_of` config_calls (self w))) /\
    items0 w' = items0 w /\ _buffer (self w') = _buffer (self w) /\
    allocs_of t = [] /\ copies_of t = [] /\
    match r with
    | Done x =>
        x = n /\ calls_of t = work_calls (self w) n (items0 w) /\
        self w' = upd_param_changed false (self w)
    | Aborted => _param_changed (self w) = true /\ fatal_free ok t = false /\
                 calls_of t `prefix_of` config_calls (self w)
    | _ => False
    end).
Proof.
  destruct w as [[h c sr lv io qo pc buf len] d items con].
  destruct pc.
  all: unfold work, work_reconfigure, work_submit, configure.
  all: unfold work_calls, config_calls.
  all: repeat wp_step.
  all: trace_solve ltac:(adapter_simpl).
Qed.

(** With the marker clear, [work] makes its two calls and returns, whatever
    statuses they give. *)
Lemma vsg_work_clean_run n w :
  _param_changed (self w) = false ->
  work ok n w =
  (let h := _handle (self w) in
   let '(r1, d1) := vendor api (vsgSubmitIQ h (items0 w) n) (device w) in
   let '(r2, d2) := vendor api (vsgFlush h) d1 in
   (Done n,
    {| self := self w; device := d2; items0 := items0 w; console := console w |},
    [EvLoad F_param_changed; EvCall (vsgSubmitIQ h (items0 w) n) (status r1);
     EvCall (vsgFlush h) (status r2)])).
Proof.
  intros Hc. unfold work, work_reconfigure, work_submit, bind, load, read, read_items0,
    emit, call, ret. cbn. rewrite Hc. cbn.
  destruct (vendor api (vsgSubmitIQ _ _ _) _) as [r1 d1]. cbn.
  destruct (vendor api (vsgFlush _) _) as [r2 d2]. cbn. done.
Qed.

(** *** The life of a block *)

Lemma vsg_run_ops_spec l w :
  _buffer (self w) = None ->
  wp (run_ops ok l) w (fun r w' t =>
    _buffer (self w') = None /\ items0 w' = items0 w /\
    allocs_of t = [] /\ copies_of t = [] /\ (r = Done tt \/ r = Aborted)).
Proof.
  revert w. induction l as [|o l IH]; intros w Hb.
  { unfold wp; cbn. repeat split; auto. }
  cbn [run_ops]. apply wp_bind. destruct o as [s|n]; cbn [run_op].
  - eapply wp_mono; [apply vsg_run_setter_spec|]. cbv beta.
    intros r w1 t1 (-> & Hd & Hi & Hc & HF & Hp & (Hh & Hb1 & Hl) & ->).
    eapply wp_mono; [apply IH; congruence|]. cbv beta.
    intros r w2 t2 (Hb2 & Hi2 & Ha & Hc2 & Hr).
    repeat split; try congruence.
    + cbn [app allocs_of]. rewrite !allocs_of_app, Ha. by destruct s.
    + cbn [app copies_of]. rewrite !copies_of_app, Hc2. by destruct s.
  - apply wp_bind. eapply wp_mono; [apply vsg_work_spec|]. cbv beta.
    intros r w1 t1 (_ & _ & Hi & Hb1 & Ha & Hc & Hr).
    destruct r as [x| | |]; try done.
    + apply wp_ret. eapply wp_mono; [apply IH; congruence|]. cbv beta.
      intros r w2 t2 (Hb2 & Hi2 & Ha2 & Hc2 & Hr2). rewrite app_nil_r.
      rewrite allocs_of_app, copies_of_app, Ha, Hc, Ha2, Hc2.
      repeat split; try congruence.
    + repeat split; try congruence. by right.
Qed.
End Facts.
End VsgFacts.

(** * bb_series: [work] cut into steps *)

Module BbHookFacts.
Import Bb.

Section Facts.
Context {api : VendorApi Call}.
Variable ok : Z.
Implicit Types w : World bb_series_impl api.

Ltac crunch :=
  cbv beta iota zeta delta
    [interleave hook_step bind load emit read ret work work_reconfigure].

Ltac next_step :=
  match goal with
  | |- context [match ?m ?w with _ => _ end] =>
      lazymatch type of (m w) with
      | (Result _ * World _ _ * list _)%type =>
          destruct (m w) as [[[?| | |] ?] ?]
      end
  end; crunch; try reflexivity.

Ltac next_step' :=
  match goal with
  | |- context [match ?m ?w with _ => _ end] =>
      lazymatch type of (m w) with
      | (Result _ * World _ _ * list _)%type =>
          destruct (m w) as [[[?| | |] ?] ?]
      end
  end; crunch.

(** Left alone, the steps are [work]. *)
Lemma hook_alone n w :
  (interleave ok n [Hook; Hook; Hook; Hook] AtTest ;; ret n) w = work ok n w.
Proof.
  crunch. destruct (_param_changed (self w)); crunch.
  all: repeat next_step.
  all: cbn [app]; rewrite ?app_nil_r, <- ?app_assoc; reflexivity.
Qed.

(** [work] reads the marker before any lock is taken: its trace is never
    guarded. *)
Lemma work_tests_marker_unlocked n w :
  wp (work ok n) w (fun r w' t => exists t', t = EvLoad F_param_changed :: t').
Proof.
  unfold wp. rewrite <- hook_alone.
  crunch. destruct (_param_changed (self w)); crunch.
  all: repeat next_step'.
  all: eexists; reflexivity.
Qed.
End Facts.
End BbHookFacts.

(** * Facts about whole runs *)

Section RunFacts.
Context {F C : Type}.
Implicit Types t : list (Event F C).

Lemma lock_ok_app h t1 t2 :
  lock_ok h (t1 ++ t2) = lock_ok h t1 && lock_ok (held_after h t1) t2.
Proof.
  revert h. induction t1 as [|[] t1 IH]; intros h; simpl; rewrite ?IH; try done.
  all: by rewrite andb_assoc.
Qed.

Lemma locked_calls_app h t1 t2 :
  locked_calls h (t1 ++ t2) = locked_calls h t1 ++ locked_calls (held_after h t1) t2.
Proof.
  revert h. induction t1 as [|[] t1 IH]; intros h; simpl; rewrite ?IH; try done.
  by rewrite app_assoc.
Qed.

Lemma unlocked_calls_app h t1 t2 :
  unlocked_calls h (t1 ++ t2) =
  unlocked_calls h t1 ++ unlocked_calls (held_after h t1) t2.
Proof.
  revert h. induction t1 as [|[] t1 IH]; intros h; simpl; rewrite ?IH; try done.
  by rewrite app_assoc.
Qed.

Lemma unguarded_app h t1 t2 :
  unguarded h (t1 ++ t2) = unguarded h t1 ++ unguarded (held_after h t1) t2.
Proof.
  revert h. induction t1 as [|[] t1 IH]; intros h; simpl; rewrite ?IH; try done.
  all: by rewrite app_assoc.
Qed.

Lemma heap_after_app live t1 t2 :
  heap_after live (t1 ++ t2) = heap_after live t1 ≫= (fun l => heap_after l t2).
Proof.
  revert live. induction t1 as [|[] t1 IH]; intros live; simpl; rewrite ?IH; try done.
  all: by destruct live.
Qed.

Lemma checks_of_app t1 t2 : checks_of (t1 ++ t2) = checks_of t1 ++ checks_of t2.
Proof. induction t1 as [|[] t1 IH]; simpl; by rewrite ?IH. Qed.

Lemma calls_of_checks t : calls_of t = (checks_of t).*1.
Proof. induction t as [|[] t IH]; simpl; by rewrite ?IH. Qed.

Lemma statuses_of_checks t : statuses_of t = (checks_of t).*2.
Proof. induction t as [|[] t IH]; simpl; by rewrite ?IH. Qed.

Lemma checks_of_copy (js : list nat) : checks_of (F:=F) (C:=C) (EvCopy <$> js) = [].
Proof. induction js; simpl; auto. Qed.

(** A run of copies takes no lock, calls nothing and leaves the heap alone. *)
Lemma lock_ok_copy h (js : list nat) : lock_ok (F:=F) (C:=C) h (EvCopy <$> js) = true.
Proof. induction js; simpl; auto. Qed.
Lemma locked_calls_copy h (js : list nat) :
  locked_calls (F:=F) (C:=C) h (EvCopy <$> js) = [].
Proof. induction js; simpl; auto. Qed.
Lemma unlocked_calls_copy h (js : list nat) :
  unlocked_calls (F:=F) (C:=C) h (EvCopy <$> js) = [].
Proof. induction js; simpl; auto. Qed.
Lemma unguarded_copy h (js : list nat) : unguarded (F:=F) (C:=C) h (EvCopy <$> js) = [].
Proof. induction js; simpl; auto. Qed.
Lemma heap_after_copy live (js : list nat) :
  heap_after (F:=F) (C:=C) live (EvCopy <$> js) = Some live.
Proof. induction js; simpl; auto. Qed.
End RunFacts.

Lemma int16_t_congruent x : (int16_t x - x) mod 65536 = 0.
Proof.
  unfold int16_t.
  replace ((x + 32768) mod 65536 - 32768 - x)
    with (- (65536 * ((x + 32768) / 65536))) by (pose proof (Z.div_mod (x + 32768) 65536); lia).
  rewrite Z.mul_comm, <- Z.mul_opp_l. apply Z.mod_mul. lia.
Qed.

Lemma int16_t_fixed x : int16_t x = x <-> -32768 <= x <= 32767.
Proof.
  split; [|apply int16_t_id]. intros <-. apply int16_t_range.
Qed.

Lemma last_set_app {S V : Type} (pick : S -> option V) l1 l2 prior :
  last_set pick (l1 ++ l2) prior = last_set pick l2 (last_set pick l1 prior).
Proof.
  revert prior. induction l1 as [|s l1 IH]; intros prior; [done|].
  cbn [app]. by rewrite !last_set_cons, IH.
Qed.

Lemma run_calls_app {C : Type} (api : VendorApi C) cs1 cs2 d :
  run_calls api (cs1 ++ cs2) d =
  let '(rs1, d1) := run_calls api cs1 d in
  let '(rs2, d2) := run_calls api cs2 d1 in
  (rs1 ++ rs2, d2).
Proof.
  revert d. induction cs1 as [|c cs1 IH]; intros d; simpl.
  { by destruct (run_calls api cs2 d). }
  destruct (vendor api c d) as [r d1]. rewrite IH.
  destruct (run_calls api cs1 d1) as [rs1 d2].
  by destruct (run_calls api cs2 d2).
Qed.

Lemma run_calls_snoc {C : Type} (api : VendorApi C) cs c d rs d1 r d2 :
  run_calls api cs d = (rs, d1) -> vendor api c d1 = (r, d2) ->
  run_calls api (cs ++ [c]) d = (rs ++ [r], d2).
Proof. intros H1 H2. rewrite run_calls_app, H1. simpl. by rewrite H2. Qed.

(** A transfer that fills the whole array leaves exactly the samples of the
    reply. *)
Lemma fill_iq_all f n buf :
  Z.of_nat (length buf) = n -> fill_iq f n buf = f <$> seq 0 (length buf).
Proof.
  intros Hn. unfold fill_iq. apply list_eq. intros i.
  rewrite list_lookup_imap, list_lookup_fmap.
  destruct (buf !! i) as [x|] eqn:Hx; simpl.
  - apply lookup_lt_Some in Hx as Hi.
    rewrite lookup_seq_lt by done. simpl.
    destruct (decide _); [done|lia].
  - apply lookup_ge_None in Hx. by rewrite lookup_seq_ge.
Qed.

Ltac run_norm :=
  rewrite ?app_nil_r, ?calls_of_app, ?statuses_of_app, ?copies_of_app, ?allocs_of_app,
    ?fatal_free_app, ?guarded_app, ?lock_ok_app, ?locked_calls_app, ?unlocked_calls_app,
    ?unguarded_app, ?heap_after_app, ?held_after_app, ?checks_of_app,
    ?calls_of_copy, ?statuses_of_copy, ?allocs_of_copy, ?copies_of_copy,
    ?fatal_free_copy, ?guarded_copy, ?lock_ok_copy, ?locked_calls_copy,
    ?unlocked_calls_copy, ?unguarded_copy, ?heap_after_copy, ?held_after_copy,
    ?checks_of_copy,
    ?app_nil_r.

(** One step of a run, keeping what the device answered. *)
Ltac wp_prim_keep :=
  lazymatch goal with
  | |- wp (call _) _ _ =>
      apply wp_call; let H := fresh "Hv" in intros ? ? H; cbn [device] in H
  | _ => wp_prim
  end.

(** The device run over the calls of an explicit trace. *)
Ltac run_calls_solve :=
  cbn [calls_of statuses_of run_calls app];
  repeat match goal with
  | H : vendor _ _ _ = _ |- _ => rewrite H; clear H
  end;
  cbn [fmap list_fmap]; try reflexivity.

(** * Whole runs of bb_series *)

Module BbRunFacts.
Import Bb BbRun BbFacts.

Section Facts.
Context {api : VendorApi Call}.
Variable ok : Z.
Implicit Types w : World bb_series_impl api.

(** The transfer call of [work] on the object [o], into the array [buf]. *)
#[local] Abbreviation get_iq o buf n :=
  (bbGetIQUnpacked (_handle o) buf n (if _purge o then BB_TRUE else BB_FALSE)).

Ltac adapter_simpl :=
  cbv beta delta [upd_handle upd_center upd_reflevel upd_decimation upd_bandwidth
                  upd_purge upd_param_changed upd_buffer upd_len];
  cbn [self device items0 console
       _handle _center _reflevel _decimation _bandwidth _purge _param_changed _buffer
       _len
       negb orb andb is_null default from_option id fmap option_fmap option_map];
  use_tests;
  cbn [negb orb andb].

Ltac wp_step :=
  first [ apply bb_wp_ERROR_CHECK; intros ?
        | apply wp_copy_frame; intros ? ? ? ? [-> | ->]
        | wp_prim_keep ];
  adapter_simpl.

Ltac wp_step_run :=
  first [ apply bb_wp_ERROR_CHECK; intros ?
        | eapply wp_copy_run; [adapter_simpl; reflexivity| | |]
        | wp_prim_keep ];
  adapter_simpl.

(** Closing the goals about an explicit run. *)
Ltac split_last :=
  lazymatch goal with
  | |- exists t0 c st, ?t = t0 ++ [EvCall c st] /\ _ =>
      exists (removelast t); cbn [removelast]; do 2 eexists; split; [reflexivity|]
  end.

Ltac inv_solve :=
  unfold buffer_inv; cbn;
  let Hinv := fresh in let Hb := fresh in
  intros Hinv ? Hb; try specialize (Hinv _ eq_refl); simplify_eq;
  rewrite ?length_fill_iq, ?length_replicate; first [done | lia].

Ltac run_solve :=
  repeat match goal with
  | H : (_ =? _) = true |- _ => apply Z.eqb_eq in H; subst
  | H : _ \/ _ |- _ => destruct H; subst
  end;
  run_norm;
  cbn [lock_ok guarded locked_calls unlocked_calls unguarded heap_after held_after
       calls_of statuses_of copies_of allocs_of app negb andb orb mbind option_bind];
  run_norm;
  repeat match goal with
  | |- _ /\ _ => split
  | |- buffer_inv _ -> _ => inv_solve
  | |- ?x <> ?x -> _ => let H := fresh in intros H; by destruct H
  | |- _ <> _ -> _ => intros ?
  | |- forall _, _ => intro
  | |- exists t0 c st, _ = t0 ++ [EvCall c st] /\ _ => split_last
  | |- exists live, heap_after _ _ = Some live /\ _ => eexists; split; [reflexivity|]
  | |- exists live, Some _ = Some live /\ _ => eexists; split; [reflexivity|]
  end;
  try done;
  try solve [eexists; reflexivity];
  try solve [exists []; eexists; reflexivity];
  try solve [do 2 eexists; reflexivity];
  try solve [status_tests; unfold fatal_free; cbn;
             repeat match goal with H : (_ <=? _) = _ |- _ => rewrite ?H; clear H end;
             done].

Lemma bb_check_output_fatal st :
  st < ok ->
  check_output (api:=api) ok st =
    [[Str "** "; Str "Error: "; Str (GetErrorString api st); Str " **"; Str newline]].
Proof.
  intros H. unfold check_output.
  destruct (Z.eqb_spec st ok); [lia|]. destruct (Z.gtb_spec st ok); [lia|done].
Qed.

Lemma bb_last_console_fatal st (con : list (list Chunk)) :
  st < ok ->
  last (con ++ check_output (api:=api) ok st) =
    Some [Str "** "; Str "Error: "; Str (GetErrorString api st); Str " **"; Str newline].
Proof. intros H. rewrite bb_check_output_fatal by done. apply last_snoc. Qed.

(** *** [configure] *)

Lemma bb_configure_run w :
  wp (configure ok) w (fun r w' t =>
    self w' = self w /\ items0 w' = items0 w /\
    (lock_ok false t = true /\ guarded false t = true /\
     locked_calls false t = calls_of t /\ unlocked_calls false t = [] /\
     unguarded false t = []) /\
    (forall live, heap_after live t = Some live) /\
    match r with
    | Done _ =>
        calls_of t = config_calls (self w) /\ fatal_free ok t = true /\
        held_after false t = false
    | Aborted =>
        calls_of t `prefix_of` config_calls (self w) /\ held_after false t = true /\
        exists t0 c st, t = t0 ++ [EvCall c st] /\ st < ok /\ fatal_free ok t0 = true /\
          last (console w') =
            Some [Str "** "; Str "Error: "; Str (GetErrorString api st); Str " **"; Str newline]
    | _ => False
    end).
Proof.
  unfold configure, config_calls.
  repeat wp_step.
  all: run_solve.
  all: try (apply bb_last_console_fatal; done).
Qed.

Lemma bb_diagnostics_app (t1 t2 : list (Event Field Call)) :
  diagnostics (api:=api) ok (t1 ++ t2) =
  diagnostics (api:=api) ok t1 ++ diagnostics (api:=api) ok t2.
Proof. unfold diagnostics. by rewrite checks_of_app, flat_map_app. Qed.

(** Closing a goal about the device and the console of an explicit run. *)
Ltac device_solve :=
  eexists; split; [run_calls_solve|]; split; [reflexivity|];
  unfold diagnostics; cbn [checks_of flat_map last fst snd app];
  rewrite <- ?app_assoc, ?app_nil_r; cbn [app]; reflexivity.

Lemma bb_configure_device w :
  wp (configure ok) w (fun r w' t =>
    exists rs, run_calls api (calls_of t) (device w) = (rs, device w') /\
      statuses_of t = status <$> rs /\
      console w' = console w ++ diagnostics (api:=api) ok t ++
        match r, last rs with
        | Done _, Some q =>
            [[Str newline; Str "Sample Rate: "; Dbl (ret_dbl q); Str newline];
             [Str "Actual Bandwidth: "; Dbl (ret_dbl2 q); Str newline]]
        | _, _ => []
        end).
Proof. unfold configure. repeat wp_step. all: device_solve. Qed.

(** *** The statements of [work] *)

Lemma bb_work_reconfigure_run w :
  wp (work_reconfigure ok) w (fun r w' t =>
    items0 w' = items0 w /\
    (exists m, self w' = upd_param_changed m (self w)) /\
    (lock_ok false t = true /\ locked_calls false t = calls_of t /\
     unlocked_calls false t = []) /\
    (forall live, heap_after live t = Some live) /\
    allocs_of t = [] /\ copies_of t = [] /\
    match r with
    | Done _ =>
        _param_changed (self w') = false /\
        calls_of t = (if _param_changed (self w) then config_calls (self w) else []) /\
        fatal_free ok t = true /\ held_after false t = false /\
        unguarded false t =
          EvLoad F_param_changed ::
          (if _param_changed (self w) then [EvStore F_param_changed] else [])
    | Aborted =>
        _param_changed (self w) = true /\ self w' = self w /\
        calls_of t `prefix_of` config_calls (self w) /\ held_after false t = true /\
        unguarded false t = [EvLoad F_param_changed] /\
        exists t0 c st, t = t0 ++ [EvCall c st] /\ st < ok /\ fatal_free ok t0 = true /\
          last (console w') =
            Some [Str "** "; Str "Error: "; Str (GetErrorString api st); Str " **"; Str newline]
    | _ => False
    end).
Proof.
  destruct w as [[h c rl dec bw p pc buf len] d items con].
  unfold work_reconfigure, configure, config_calls. destruct pc.
  all: repeat wp_step.
  all: run_solve.
  all: try (apply bb_last_console_fatal; done).
Qed.

Lemma bb_work_reconfigure_device w :
  wp (work_reconfigure ok) w (fun r w' t =>
    exists rs, run_calls api (calls_of t) (device w) = (rs, device w') /\
      statuses_of t = status <$> rs /\
      console w' = console w ++ diagnostics (api:=api) ok t ++
        match r, last rs with
        | Done _, Some q =>
            [[Str newline; Str "Sample Rate: "; Dbl (ret_dbl q); Str newline];
             [Str "Actual Bandwidth: "; Dbl (ret_dbl2 q); Str newline]]
        | _, _ => []
        end).
Proof.
  unfold work_reconfigure, configure. repeat wp_step. all: device_solve.
Qed.

(** The allocation, the transfer and the copy: what follows the
    reconfiguration in [work]. *)
Lemma bb_transfer_run {A} (a : A) n w :
  wp (work_allocate n ;; work_get_iq ok n ;; work_copy n ;; ret a) w (fun r w' t =>
    (exists b l, self w' = upd_len l (upd_buffer b (self w))) /\
    (buffer_inv (self w) -> buffer_inv (self w')) /\
    (lock_ok false t = true /\ held_after false t = false /\
     locked_calls false t = [] /\ unlocked_calls false t = calls_of t /\
     unguarded false t `prefix_of` [EvLoad F_purge]) /\
    (exists buf, calls_of t `prefix_of` [get_iq (self w) buf n]) /\
    (exists live, heap_after (negb (is_null (_buffer (self w)))) t = Some live /\
       (r <> Thrown -> live = negb (is_null (_buffer (self w'))))) /\
    match r with
    | Done x =>
        x = a /\ (exists buf, calls_of t = [get_iq (self w) buf n]) /\
        unguarded false t = [EvLoad F_purge] /\ fatal_free ok t = true
    | Aborted =>
        items0 w' = items0 w /\ copies_of t = [] /\
        exists t0 c st, t = t0 ++ [EvCall c st] /\ st < ok /\ fatal_free ok t0 = true /\
          last (console w') =
            Some [Str "** "; Str "Error: "; Str (GetErrorString api st); Str " **"; Str newline]
    | Thrown => n < 0 /\ calls_of t = [] /\ copies_of t = [] /\ items0 w' = items0 w
    | Undefined => fatal_free ok t = true
    end).
Proof.
  destruct w as [[h c rl dec bw p pc buf len] d items con].
  unfold work_allocate, work_get_iq, work_copy.
  destruct (n =? len) eqn:Hnl; destruct buf as [l|].
  all: repeat wp_step.
  all: run_solve.
  all: try (apply bb_last_console_fatal; done).
Qed.

(** With room for the samples, the transfer is one call and the copy of what
    it delivered. *)
Lemma bb_transfer_complete {A} (a : A) n w :
  0 <= n -> (Z.to_nat n <= length (items0 w))%nat -> buffer_inv (self w) ->
  wp (work_allocate n ;; work_get_iq ok n ;; work_copy n ;; ret a) w (fun r w' t =>
    exists c q, checks_of t = [(c, status q)] /\
      vendor api c (device w) = (q, device w') /\
      console w' = console w ++ diagnostics (api:=api) ok t /\
      match r with
      | Done _ =>
          ok <= status q /\
          _buffer (self w') = Some (ret_iq q <$> seq 0 (Z.to_nat n)) /\
          items0 w' = (ret_iq q <$> seq 0 (Z.to_nat n)) ++ drop (Z.to_nat n) (items0 w) /\
          copies_of t = seq 0 (Z.to_nat n)
      | Aborted => status q < ok /\ items0 w' = items0 w
      | _ => False
      end).
Proof.
  destruct w as [[h c rl dec bw p pc buf len] d items con].
  intros Hn Hitems Hinv. cbn in Hitems.
  assert (forall l, buf = Some l -> Z.of_nat (length l) = len) as Hlen by apply Hinv.
  clear Hinv. unfold work_allocate, work_get_iq, work_copy.
  destruct (n =? len) eqn:Hnl; destruct buf as [l|]; try specialize (Hlen l eq_refl).
  all: repeat wp_step_run.
  all: try done; try lia.
  all: repeat match goal with H : (_ =? _) = true |- _ => apply Z.eqb_eq in H; subst end.
  all: try (rewrite length_fill_iq, ?length_replicate; lia).
  all: do 2 eexists; run_norm; cbn [checks_of app].
  all: (split; [reflexivity|]); (split; [eassumption|]).
  all: unfold diagnostics; cbn [checks_of flat_map fst snd app]; run_norm;
    cbn [checks_of flat_map fst snd app]; rewrite ?app_nil_r.
  all: (split; [reflexivity|]).
  all: repeat split; try done.
  all: rewrite fill_iq_all, ?length_replicate, ?Nat2Z.id by (rewrite ?length_replicate; lia).
  all: reflexivity.
Qed.

(** *** [work] *)

Lemma bb_work_run n w :
  wp (work ok n) w (fun r w' t =>
    (exists b l m, self w' = upd_len l (upd_buffer b (upd_param_changed m (self w)))) /\
    (buffer_inv (self w) -> buffer_inv (self w')) /\
    (lock_ok false t = true /\ (held_after false t = false \/ r = Aborted)) /\
    (locked_calls false t `prefix_of`
       (if _param_changed (self w) then config_calls (self w) else []) /\
     (exists buf, unlocked_calls false t `prefix_of` [get_iq (self w) buf n]) /\
     calls_of t = locked_calls false t ++ unlocked_calls false t /\
     unguarded false t `prefix_of`
       (EvLoad F_param_changed ::
        (if _param_changed (self w) then [EvStore F_param_changed] else [])) ++
       [EvLoad F_purge]) /\
    (exists live, heap_after (negb (is_null (_buffer (self w)))) t = Some live /\
       (r <> Thrown -> live = negb (is_null (_buffer (self w'))))) /\
    match r with
    | Done x =>
        x = n /\ _param_changed (self w') = false /\
        locked_calls false t =
          (if _param_changed (self w) then config_calls (self w) else []) /\
        (exists buf, unlocked_calls false t = [get_iq (self w) buf n]) /\
        unguarded false t =
          (EvLoad F_param_changed ::
           (if _param_changed (self w) then [EvStore F_param_changed] else [])) ++
          [EvLoad F_purge] /\
        fatal_free ok t = true
    | Aborted =>
        items0 w' = items0 w /\ copies_of t = [] /\
        exists t0 c st, t = t0 ++ [EvCall c st] /\ st < ok /\ fatal_free ok t0 = true /\
          last (console w') =
            Some [Str "** "; Str "Error: "; Str (GetErrorString api st); Str " **"; Str newline]
    | Thrown =>
        n < 0 /\ unlocked_calls false t = [] /\ copies_of t = [] /\ items0 w' = items0 w
    | Undefined => fatal_free ok t = true
    end).
Proof.
  unfold work. apply wp_bind.
  eapply wp_mono; [apply bb_work_reconfigure_run|]. cbv beta.
  intros r1 w1 t1 (Hi1 & [m Hs1] & (Hl1 & Hlc1 & Hul1) & Hh1 & Ha1 & Hc1 & Hr1).
  destruct r1; try done.
  - destruct Hr1 as (Hm1 & Hcalls1 & Hff1 & Hheld1 & Hug1).
    eapply wp_mono; [apply (bb_transfer_run n n w1)|]. cbv beta.
    intros r2 w2 t2 ([b [l Hs2]] & Hinv2 & (Hl2 & Hheld2 & Hlc2 & Hul2 & Hug2) &
                     [buf Hp2] & [live [Hhp2 Hlive2]] & Hr2).
    rewrite Hs1 in Hs2, Hinv2, Hp2, Hhp2, Hr2.
    run_norm. rewrite Hl1, Hheld1, Hl2, Hheld2, Hlc1, Hlc2, Hul1, Hul2, Hug1, (Hh1 _), Hcalls1.
    rewrite ?app_nil_r. cbn [andb app mbind option_bind].
    split; [by exists b, l, m; rewrite Hs2|].
    split; [exact Hinv2|].
    split; [split; [done|by left]|].
    split; [split; [done|split; [by exists buf|split; [done|]]]|];
      [by apply prefix_cons, prefix_app|].
    split; [by exists live|].
    destruct r2.
    + destruct Hr2 as (-> & Hcalls2 & Hug2' & Hff2).
      rewrite Hs1 in Hm1. cbn in Hm1. subst m.
      rewrite Hug2', Hff1, Hff2, Hs2.
      split; [done|]. split; [done|]. split; [done|]. split; [exact Hcalls2|]. done.
    + destruct Hr2 as (Hi2 & Hc2 & t0 & c & st & -> & Hst & Hff0 & Hlast).
      rewrite Hc1, Hc2, Hi2. split; [done|]. split; [done|].
      exists (t1 ++ t0), c, st. rewrite app_assoc, fatal_free_app, Hff1, Hff0. done.
    + destruct Hr2 as (Hn & Hcalls2 & Hc2 & Hi2).
      rewrite Hcalls2, Hc1, Hc2, Hi2. done.
    + by rewrite Hff1, Hr2.
  - destruct Hr1 as (Hpc & Hs1' & Hp1 & Hheld1 & Hug1 & Hlast).
    rewrite Hlc1, Hul1, Hug1, Hpc, Hs1', (Hh1 _), app_nil_r.
    split; [exists (_buffer (self w)), (_len (self w)), true;
            by destruct (self w); cbn in *; subst|].
    split; [done|].
    split; [split; [done|by right]|].
    split; [split; [done|split; [by exists []; eexists|split; [done|by eexists]]]|].
    split; [by eexists|]. done.
Qed.

Lemma bb_work_device n w :
  0 <= n -> (Z.to_nat n <= length (items0 w))%nat -> buffer_inv (self w) ->
  wp (work ok n) w (fun r w' t =>
    exists rs, run_calls api (calls_of t) (device w) = (rs, device w') /\
      statuses_of t = status <$> rs /\
      match r with
      | Done _ =>
          exists q, last rs = Some q /\
            _buffer (self w') = Some (ret_iq q <$> seq 0 (Z.to_nat n)) /\
            items0 w' =
              (ret_iq q <$> seq 0 (Z.to_nat n)) ++ drop (Z.to_nat n) (items0 w) /\
            copies_of t = seq 0 (Z.to_nat n)
      | Aborted => items0 w' = items0 w
      | _ => False
      end).
Proof.
  intros Hn Hroom Hinv. unfold work. apply wp_bind.
  eapply wp_mono;
    [apply wp_conj; [apply bb_work_reconfigure_run|apply bb_work_reconfigure_device]|].
  cbv beta.
  intros r1 w1 t1 [(Hi1 & [m Hs1] & _ & _ & _ & Hc1 & Hr1) (rs1 & Hrun1 & Hst1 & _)].
  destruct r1; try done.
  - eapply wp_mono; [apply (bb_transfer_complete n n w1)| ];
      [done|by rewrite Hi1|rewrite Hs1; exact Hinv|].
    cbv beta. intros r2 w2 t2 (c & q & Hck & Hv & _ & Hr2).
    exists (rs1 ++ [q]). run_norm.
    rewrite (calls_of_checks t2), (statuses_of_checks t2), Hck. cbn [fmap list_fmap fst snd].
    split; [by apply (run_calls_snoc _ _ _ _ _ _ _ _ Hrun1)|].
    split; [by rewrite Hst1, fmap_app|].
    destruct r2; try done.
    + destruct Hr2 as (_ & Hb & Hit & Hcp). exists q.
      rewrite last_snoc, Hc1, Hcp, Hit, Hi1. done.
    + destruct Hr2 as [_ ->]. done.
  - exists rs1. split; [done|]. split; [done|]. done.
Qed.

(** *** The constructor and the destructor *)

Lemma bb_ctor_quiet w :
  wp (ctor_body ok) w (fun r w' t =>
    (exists h, self w' = upd_handle h (self w)) /\
    (forall held, lock_ok held t = true /\ held_after held t = held) /\
    (forall live, heap_after live t = Some live) /\
    (r = Done tt \/ r = Aborted)).
Proof. unfold ctor_body. repeat wp_step. all: run_solve; auto. Qed.

Lemma bb_dtor_run w :
  wp dtor w (fun r w' t =>
    r = Done tt /\ self w' = self w /\ items0 w' = items0 w /\ console w' = console w /\
    (exists rs, run_calls api (calls_of t) (device w) = (rs, device w') /\
       statuses_of t = status <$> rs) /\
    exists s1 s2,
      t = [EvCall (bbAbort (_handle (self w))) s1;
           EvCall (bbCloseDevice (_handle (self w))) s2] ++
          (if is_null (_buffer (self w)) then [] else [EvDelete])).
Proof.
  destruct w as [[h c rl dec bw p pc buf len] d items con].
  unfold dtor. destruct buf as [l|].
  all: repeat wp_step.
  all: repeat split; try done.
  all: try (eexists; split; [run_calls_solve|reflexivity]).
  all: do 2 eexists; reflexivity.
Qed.

(** *** Sequences of operations *)

Lemma bb_run_op_run o w :
  wp (run_op ok o) w (fun r w' t =>
    (buffer_inv (self w) -> buffer_inv (self w')) /\
    (lock_ok false t = true /\ (held_after false t = false \/ r = Aborted)) /\
    (exists live, heap_after (negb (is_null (_buffer (self w)))) t = Some live /\
       (r <> Thrown -> live = negb (is_null (_buffer (self w'))))) /\
    _handle (self w') = _handle (self w) /\
    (let l := [o] in
     _center (self w') = last_set center_of (setters_of l) (_center (self w)) /\
       _reflevel (self w') = last_set reflevel_of (setters_of l) (_reflevel (self w)) /\
       _decimation (self w') = last_set decimation_of (setters_of l) (_decimation (self w)) /\
       _bandwidth (self w') = last_set bandwidth_of (setters_of l) (_bandwidth (self w)) /\
       _purge (self w') = last_set purge_of (setters_of l) (_purge (self w)))).
Proof.
  destruct o as [s|n]; cbn [run_op].
  - eapply wp_mono; [apply bb_run_setter_spec|]. cbv beta.
    intros r w' t (-> & _ & _ & _ & HF & _ & (Hh & Hb & Hl) & ->).
    split; [unfold buffer_inv; by rewrite Hb, Hl|].
    split; [split; [|left]; destruct s; reflexivity|].
    split; [exists (negb (is_null (_buffer (self w)))); rewrite Hb;
            split; [destruct s; reflexivity|done]|].
    split; [done|]. cbv zeta. change (setters_of [OpSet s]) with [s].
    rewrite !last_set_cons, !last_set_nil. exact HF.
  - apply wp_bind. eapply wp_mono; [apply bb_work_run|]. cbv beta.
    intros r w' t ((b & l & m & Hs) & Hinv & Hlock & _ & Hheap & Hr).
    assert (_handle (self w') = _handle (self w)) as Hh by (by rewrite Hs).
    assert (let l := [OpWork n] in
       _center (self w') = last_set center_of (setters_of l) (_center (self w)) /\
       _reflevel (self w') = last_set reflevel_of (setters_of l) (_reflevel (self w)) /\
       _decimation (self w') = last_set decimation_of (setters_of l) (_decimation (self w)) /\
       _bandwidth (self w') = last_set bandwidth_of (setters_of l) (_bandwidth (self w)) /\
       _purge (self w') = last_set purge_of (setters_of l) (_purge (self w))) as HF
      by (by rewrite Hs).
    destruct r; [apply wp_ret; rewrite app_nil_r| | |].
    all: split; [exact Hinv|].
    all: split; [destruct Hlock as [? [?|?]]; split; auto; by right|].
    all: split; [destruct Hheap as (live & ? & Hl); exists live; split; [done|];
                 intros ?; apply Hl; done|].
    all: split; [done|exact HF].
Qed.

Lemma bb_setters_of_app l1 l2 :
  setters_of (l1 ++ l2) = setters_of l1 ++ setters_of l2.
Proof. apply omap_app. Qed.

Lemma bb_run_ops_run l w :
  wp (run_ops ok l) w (fun r w' t =>
    (buffer_inv (self w) -> buffer_inv (self w')) /\
    (lock_ok false t = true /\ (held_after false t = false \/ r = Aborted)) /\
    (exists live, heap_after (negb (is_null (_buffer (self w)))) t = Some live /\
       (r <> Thrown -> live = negb (is_null (_buffer (self w'))))) /\
    _handle (self w') = _handle (self w) /\
    (r = Done tt ->
       _center (self w') = last_set center_of (setters_of l) (_center (self w)) /\
       _reflevel (self w') = last_set reflevel_of (setters_of l) (_reflevel (self w)) /\
       _decimation (self w') = last_set decimation_of (setters_of l) (_decimation (self w)) /\
       _bandwidth (self w') = last_set bandwidth_of (setters_of l) (_bandwidth (self w)) /\
       _purge (self w') = last_set purge_of (setters_of l) (_purge (self w)))).
Proof.
  revert w. induction l as [|o l IH]; intros w.
  { apply wp_ret. split; [done|]. split; [split; [done|by left]|].
    split; [by eexists|]. split; [done|]. intros _. repeat split. }
  cbn [run_ops]. apply wp_bind.
  eapply wp_mono; [apply bb_run_op_run|]. cbv beta zeta.
  intros r1 w1 t1 (Hinv1 & [Hl1 Hheld1] & (live1 & Hheap1 & Hlive1) & Hh1 & HF1).
  destruct r1.
  - destruct Hheld1 as [Hheld1|?]; [|done].
    eapply wp_mono; [apply IH|]. cbv beta.
    intros r2 w2 t2 (Hinv2 & [Hl2 Hheld2] & (live2 & Hheap2 & Hlive2) & Hh2 & HF2).
    run_norm. rewrite Hl1, Hheld1, Hl2, Hheap1. cbn [mbind option_bind andb].
    rewrite (Hlive1 ltac:(done)), Hheap2.
    split; [auto|]. split; [done|]. split; [by exists live2|]. split; [congruence|].
    intros Hr. specialize (HF2 Hr).
    change (o :: l) with ([o] ++ l). rewrite bb_setters_of_app, !last_set_app.
    destruct HF1 as (Hf0 & Hf1 & Hf2 & Hf3 & Hf4).
    destruct HF2 as (Hg0 & Hg1 & Hg2 & Hg3 & Hg4).
    repeat split; congruence.
  - split; [done|]. split; [done|]. split; [by exists live1|]. split; [done|]. done.
  - split; [done|]. split; [done|]. split; [by exists live1|]. split; [done|]. done.
  - split; [done|]. split; [done|]. split; [by exists live1|]. split; [done|]. done.
Qed.

(** A block from its construction on. *)
Lemma bb_built_run l w :
  wp (ctor_body ok ;; run_ops ok l) w (fun r w' t =>
    (buffer_inv (self w) -> buffer_inv (self w')) /\
    (r = Done tt ->
       _center (self w') = last_set center_of (setters_of l) (_center (self w)) /\
       _reflevel (self w') = last_set reflevel_of (setters_of l) (_reflevel (self w)) /\
       _decimation (self w') = last_set decimation_of (setters_of l) (_decimation (self w)) /\
       _bandwidth (self w') = last_set bandwidth_of (setters_of l) (_bandwidth (self w)) /\
       _purge (self w') = last_set purge_of (setters_of l) (_purge (self w)))).
Proof.
  apply wp_bind. eapply wp_mono; [apply bb_ctor_quiet|]. cbv beta.
  intros r1 w1 t1 ([h Hs1] & _ & _ & Hr1).
  destruct r1; try (split; [by rewrite Hs1|done]).
  eapply wp_mono; [apply bb_run_ops_run|]. cbv beta.
  intros r2 w2 t2 (Hinv2 & _ & _ & _ & HF2). rewrite Hs1 in Hinv2, HF2.
  split; [exact Hinv2|exact HF2].
Qed.

(** The life of a block. *)
Lemma bb_life_run l w :
  wp (life ok l) w (fun r w' t =>
    (lock_ok false t = true /\ (held_after false t = false \/ r = Aborted)) /\
    (exists live, heap_after (negb (is_null (_buffer (self w)))) t = Some live /\
       match r with
       | Done _ => live = false
       | Thrown => True
       | _ => live = negb (is_null (_buffer (self w')))
       end)).
Proof.
  unfold life. apply wp_bind. eapply wp_mono; [apply bb_ctor_quiet|]. cbv beta.
  intros r1 w1 t1 ([h Hs1] & Hq1 & Hh1 & Hr1).
  destruct (Hq1 false) as [Hl1 Hheld1].
  assert (_buffer (self w1) = _buffer (self w)) as Hb1 by (by rewrite Hs1).
  destruct r1.
  - apply wp_bind. eapply wp_mono; [apply bb_run_ops_run|]. cbv beta.
    intros r2 w2 t2 (_ & [Hl2 Hheld2] & (live2 & Hheap2 & Hlive2) & _ & _).
    rewrite Hb1 in Hheap2.
    destruct r2.
    + destruct Hheld2 as [Hheld2|?]; [|done].
      eapply wp_mono; [apply bb_dtor_run|]. cbv beta.
      intros r3 w3 t3 (-> & Hs3 & _ & _ & _ & s1 & s2 & ->).
      run_norm. rewrite (Hh1 _). cbn [mbind option_bind]. run_norm.
      rewrite Hl1, Hheld1, Hl2, Hheld2, Hheap2.
      cbn [mbind option_bind andb]. rewrite (Hlive2 ltac:(done)).
      split; [split; [|left]; by destruct (_buffer (self w2))|].
      exists false. by destruct (_buffer (self w2)).
    + run_norm. rewrite (Hh1 _). cbn [mbind option_bind].
      rewrite Hl1, Hheld1, Hl2, Hheap2. cbn [andb].
      split; [split; [done|by right]|]. exists live2. split; [done|]. by apply Hlive2.
    + run_norm. rewrite (Hh1 _). cbn [mbind option_bind].
      rewrite Hl1, Hheld1, Hl2, Hheap2. cbn [andb]. split; [done|]. by exists live2.
    + run_norm. rewrite (Hh1 _). cbn [mbind option_bind].
      rewrite Hl1, Hheld1, Hl2, Hheap2. cbn [andb]. split; [done|].
      exists live2. split; [done|]. by apply Hlive2.
  - rewrite (Hh1 _), Hl1, Hheld1, Hb1. split; [split; [done|by right]|]. by eexists.
  - by destruct Hr1.
  - by destruct Hr1.
Qed.

(** *** The constructor, call by call *)

Lemma bb_ctor_run w :
  wp (ctor_body ok) w (fun r w' t =>
    exists ro d1, vendor api bbOpenDevice (device w) = (ro, d1) /\
      self w' = upd_handle (ret_int ro) (self w) /\ items0 w' = items0 w /\
      (status ro < ok ->
         r = Aborted /\ t = [EvCall bbOpenDevice (status ro)] /\ device w' = d1 /\
         console w' =
           console w ++
           [[Str newline; Str "API Version: "; Str (GetAPIVersion api); Str newline]] ++
           diagnostics (api:=api) ok t) /\
      (ok <= status ro ->
         exists rs, vendor api (bbGetSerialNumber (ret_int ro)) d1 = (rs, device w') /\
           t = [EvCall bbOpenDevice (status ro);
                EvCall (bbGetSerialNumber (ret_int ro)) (status rs)] /\
           r = (if status rs <? ok then Aborted else Done tt) /\
           console w' =
             console w ++
             [[Str newline; Str "API Version: "; Str (GetAPIVersion api); Str newline]] ++
             diagnostics (api:=api) ok t ++
             (if status rs <? ok then []
              else [[Str "Serial Number: "; Num (ret_int rs); Str newline]]))).
Proof.
  unfold ctor_body. repeat wp_step.
  all: do 2 eexists; split; [eassumption|]; split; [reflexivity|]; split; [reflexivity|].
  all: split; intros ?; try lia.
  all: try (eexists; split; [eassumption|]; split; [reflexivity|]).
  all: unfold diagnostics; cbn [checks_of flat_map fst snd app];
    rewrite <- ?app_assoc, ?app_nil_r; cbn [app].
  all: repeat match goal with
       | H : status ?r < ok |- context [status ?r <? ok] =>
           rewrite (proj2 (Z.ltb_lt _ _) H)
       | H : ok <= status ?r |- context [status ?r <? ok] =>
           rewrite (proj2 (Z.ltb_ge _ _) H)
       end.
  all: rewrite ?app_nil_r; repeat split; reflexivity.
Qed.

(** *** Counts at the edge *)

Lemma bb_transfer_negative {A} (a : A) n w :
  n < 0 -> buffer_inv (self w) ->
  wp (work_allocate n ;; work_get_iq ok n ;; work_copy n ;; ret a) w (fun r w' t =>
    r = Thrown /\ calls_of t = [] /\ copies_of t = [] /\ items0 w' = items0 w).
Proof.
  destruct w as [[h c rl dec bw p pc buf len] d items con].
  intros Hn Hinv.
  assert (forall l, buf = Some l -> Z.of_nat (length l) = len) as Hlen by apply Hinv.
  clear Hinv. unfold work_allocate, work_get_iq, work_copy.
  destruct (n =? len) eqn:Hnl; destruct buf as [l|]; try specialize (Hlen l eq_refl).
  all: repeat match goal with H : (_ =? _) = true |- _ => apply Z.eqb_eq in H end.
  all: try lia.
  all: repeat first [ wp_prim_keep; adapter_simpl | lia ].
  all: try lia; repeat split.
Qed.

Lemma bb_work_negative n w :
  n < 0 -> buffer_inv (self w) ->
  wp (work ok n) w (fun r w' t =>
    (r = Thrown \/ r = Aborted) /\
    calls_of t `prefix_of` config_calls (self w) /\
    copies_of t = [] /\ items0 w' = items0 w).
Proof.
  intros Hn Hinv. unfold work. apply wp_bind.
  eapply wp_mono; [apply bb_work_reconfigure_run|]. cbv beta.
  intros r1 w1 t1 (Hi1 & [m Hs1] & _ & _ & _ & Hc1 & Hr1).
  destruct r1; try done.
  - destruct Hr1 as (_ & Hcalls1 & _).
    eapply wp_mono; [apply (bb_transfer_negative n n w1)| ];
      [done|rewrite Hs1; exact Hinv|].
    cbv beta. intros r2 w2 t2 (-> & Hcalls2 & Hc2 & Hi2).
    run_norm. rewrite Hcalls1, Hcalls2, Hc1, Hc2, Hi2, app_nil_r.
    split; [by left|]. split; [|done].
    destruct (_param_changed (self w)); [done|by eexists].
  - destruct Hr1 as (_ & _ & Hp1 & _). split; [by right|]. done.
Qed.

Lemma bb_transfer_zero {A} (a : A) w :
  wp (work_allocate 0 ;; work_get_iq ok 0 ;; work_copy 0 ;; ret a) w (fun r w' t =>
    (r = Done a \/ r = Aborted) /\ copies_of t = [] /\ items0 w' = items0 w /\
    exists buf, calls_of t = [get_iq (self w) buf 0]).
Proof.
  destruct w as [[h c rl dec bw p pc buf len] d items con].
  unfold work_allocate, work_get_iq, work_copy.
  change (Z.to_nat 0) with 0%nat. cbn [for_loop].
  destruct (0 =? len) eqn:Hnl; destruct buf as [l|].
  all: repeat wp_step.
  all: try lia.
  all: repeat split; auto; eexists; reflexivity.
Qed.

Lemma bb_work_zero w :
  wp (work ok 0) w (fun r w' t =>
    (r = Done 0 \/ r = Aborted) /\ copies_of t = [] /\ items0 w' = items0 w).
Proof.
  unfold work. apply wp_bind.
  eapply wp_mono; [apply bb_work_reconfigure_run|]. cbv beta.
  intros r1 w1 t1 (Hi1 & _ & _ & _ & _ & Hc1 & Hr1).
  destruct r1; try done.
  - eapply wp_mono; [apply (bb_transfer_zero 0 w1)|]. cbv beta.
    intros r2 w2 t2 (Hr2 & Hc2 & Hi2 & _).
    run_norm. rewrite Hc1, Hc2, Hi2. done.
  - split; [by right|]. done.
Qed.

(** *** [set_purge] before a transfer *)

Lemma bb_set_purge_then_work b n w :
  _param_changed (self w) = false ->
  wp (set_purge b ;; work ok n) w (fun r w' t =>
    (exists buf, calls_of t `prefix_of`
       [bbGetIQUnpacked (_handle (self w)) buf n
            (if b then BB_TRUE else BB_FALSE)]) /\
    match r with
    | Done _ =>
        _param_changed (self w') = false /\
        exists buf, calls_of t =
          [bbGetIQUnpacked (_handle (self w)) buf n
            (if b then BB_TRUE else BB_FALSE)]
    | _ => True
    end).
Proof.
  intros Hpc. apply wp_bind.
  eapply wp_mono; [apply (bb_run_setter_spec (SetPurge b))|]. cbv beta.
  intros r1 w1 t1 (-> & _ & _ & _ & HF & Hp & (Hh & _ & _) & ->).
  assert (_purge (self w1) = b) as Hpurge
    by (by destruct HF as (Hf0 & Hf1 & Hf2 & Hf3 & Hf4)).
  cbn [is_set_purge negb] in Hp. rewrite orb_false_r, Hpc in Hp.
  eapply wp_mono; [apply bb_work_run|]. cbv beta.
  intros r2 w2 t2 (_ & _ & _ & (Hlc & [buf Hul] & Hcalls & _) & _ & Hr2).
  rewrite Hp in Hlc, Hr2. apply prefix_nil_inv in Hlc.
  rewrite Hlc in Hcalls. cbn [app] in Hcalls.
  rewrite Hh, Hpurge in Hul, Hr2.
  
  cbn [written_by fmap list_fmap app calls_of].
  rewrite ?calls_of_app, Hcalls. cbn [calls_of app]. rewrite ?app_nil_r.
  split; [by exists buf|].
  destruct r2; try done.
  destruct Hr2 as (_ & Hm & _ & [buf' Hul'] & _). split; [done|]. by exists buf'.
Qed.
End Facts.
End BbRunFacts.

(** * Whole runs of sm_series *)

Module SmRunFacts.
Import Sm SmRun SmFacts.

Section Facts.
Context {api : VendorApi Call}.
Variable ok : Z.
Implicit Types w : World sm_series_impl api.

(** The transfer call of [work] on the object [o], into the array [buf]. *)
#[local] Abbreviation get_iq o buf n :=
  (smGetIQ (_handle o) buf n (of_bool (truth (_purge o)))).

Ltac adapter_simpl :=
  cbv beta delta [upd_handle upd_center upd_reflevel upd_atten upd_decimation
                  upd_bandwidth upd_purge upd_swfilter upd_param_changed upd_buffer
                  upd_len];
  cbn [self device items0 console
       _handle _center _reflevel _atten _decimation _bandwidth _purge _swfilter
       _param_changed _buffer _len
       negb orb andb is_null default from_option id fmap option_fmap option_map];
  use_tests;
  cbn [negb orb andb].

Ltac wp_step :=
  first [ apply sm_wp_ERROR_CHECK; intros ?
        | apply wp_copy_frame; intros ? ? ? ? [-> | ->]
        | wp_prim_keep ];
  adapter_simpl.

Ltac wp_step_run :=
  first [ apply sm_wp_ERROR_CHECK; intros ?
        | eapply wp_copy_run; [adapter_simpl; reflexivity| | |]
        | wp_prim_keep ];
  adapter_simpl.

(** Closing the goals about an explicit run. *)
Ltac split_last :=
  lazymatch goal with
  | |- exists t0 c st, ?t = t0 ++ [EvCall c st] /\ _ =>
      exists (removelast t); cbn [removelast]; do 2 eexists; split; [reflexivity|]
  end.

Ltac inv_solve :=
  unfold buffer_inv; cbn;
  let Hinv := fresh in let Hb := fresh in
  intros Hinv ? Hb; try specialize (Hinv _ eq_refl); simplify_eq;
  rewrite ?length_fill_iq, ?length_replicate; first [done | lia].

Ltac run_solve :=
  repeat match goal with
  | H : (_ =? _) = true |- _ => apply Z.eqb_eq in H; subst
  | H : _ \/ _ |- _ => destruct H; subst
  end;
  run_norm;
  cbn [lock_ok guarded locked_calls unlocked_calls unguarded heap_after held_after
       calls_of statuses_of copies_of allocs_of app negb andb orb mbind option_bind];
  run_norm;
  repeat match goal with
  | |- _ /\ _ => split
  | |- buffer_inv _ -> _ => inv_solve
  | |- ?x <> ?x -> _ => let H := fresh in intros H; by destruct H
  | |- _ <> _ -> _ => intros ?
  | |- forall _, _ => intro
  | |- exists t0 c st, _ = t0 ++ [EvCall c st] /\ _ => split_last
  | |- exists live, heap_after _ _ = Some live /\ _ => eexists; split; [reflexivity|]
  | |- exists live, Some _ = Some live /\ _ => eexists; split; [reflexivity|]
  end;
  try done;
  try solve [eexists; reflexivity];
  try solve [exists []; eexists; reflexivity];
  try solve [do 2 eexists; reflexivity];
  try solve [status_tests; unfold fatal_free; cbn;
             repeat match goal with H : (_ <=? _) = _ |- _ => rewrite ?H; clear H end;
             done].

Lemma sm_check_output_fatal (cname : string) st :
  st < ok ->
  check_output (api:=api) ok cname st =
    [[Str "** "; Str "Error: ("; Str cname; Str ")";
          Str (GetErrorString api st); Str " **"; Str newline]].
Proof.
  intros H. unfold check_output.
  destruct (Z.eqb_spec st ok); [lia|]. destruct (Z.gtb_spec st ok); [lia|done].
Qed.

Lemma sm_last_console_fatal (cname : string) st (con : list (list Chunk)) :
  st < ok ->
  last (con ++ check_output (api:=api) ok cname st) =
    Some [Str "** "; Str "Error: ("; Str cname; Str ")";
          Str (GetErrorString api st); Str " **"; Str newline].
Proof. intros H. rewrite sm_check_output_fatal by done. apply last_snoc. Qed.

(** *** [configure] *)

Lemma sm_configure_run w :
  wp (configure ok) w (fun r w' t =>
    self w' = self w /\ items0 w' = items0 w /\
    (lock_ok false t = true /\ guarded false t = true /\
     locked_calls false t = calls_of t /\ unlocked_calls false t = [] /\
     unguarded false t = []) /\
    (forall live, heap_after live t = Some live) /\
    match r with
    | Done _ =>
        calls_of t = config_calls (self w) /\ fatal_free ok t = true /\
        held_after false t = false
    | Aborted =>
        calls_of t `prefix_of` config_calls (self w) /\ held_after false t = true /\
        exists t0 c st, t = t0 ++ [EvCall c st] /\ st < ok /\ fatal_free ok t0 = true /\
          last (console w') =
            Some [Str "** "; Str "Error: ("; Str (call_name c); Str ")";
                  Str (GetErrorString api st); Str " **"; Str newline]
    | _ => False
    end).
Proof.
  unfold configure, config_calls.
  repeat wp_step.
  all: run_solve.
  all: try (apply sm_last_console_fatal; done).
Qed.

Lemma sm_diagnostics_app (t1 t2 : list (Event Field Call)) :
  diagnostics (api:=api) ok (t1 ++ t2) =
  diagnostics (api:=api) ok t1 ++ diagnostics (api:=api) ok t2.
Proof. unfold diagnostics. by rewrite checks_of_app, flat_map_app. Qed.

(** Closing a goal about the device and the console of an explicit run. *)
Ltac device_solve :=
  eexists; split; [run_calls_solve|]; split; [reflexivity|];
  unfold diagnostics; cbn [checks_of flat_map last fst snd app];
  rewrite <- ?app_assoc, ?app_nil_r; cbn [app]; reflexivity.

Lemma sm_configure_device w :
  wp (configure ok) w (fun r w' t =>
    exists rs, run_calls api (calls_of t) (device w) = (rs, device w') /\
      statuses_of t = status <$> rs /\
      console w' = console w ++ diagnostics (api:=api) ok t ++
        match r, last rs with
        | Done _, Some q =>
            [[Str newline; Str "Sample Rate: "; Dbl (ret_dbl q); Endl];
             [Str "Actual Bandwidth: "; Dbl (ret_dbl2 q); Endl]]
        | _, _ => []
        end).
Proof. unfold configure. repeat wp_step. all: device_solve. Qed.

(** *** The statements of [work] *)

Lemma sm_work_reconfigure_run w :
  wp (work_reconfigure ok) w (fun r w' t =>
    items0 w' = items0 w /\
    (exists m, self w' = upd_param_changed m (self w)) /\
    (lock_ok false t = true /\ locked_calls false t = calls_of t /\
     unlocked_calls false t = []) /\
    (forall live, heap_after live t = Some live) /\
    allocs_of t = [] /\ copies_of t = [] /\
    match r with
    | Done _ =>
        _param_changed (self w') = false /\
        calls_of t = (if _param_changed (self w) then config_calls (self w) else []) /\
        fatal_free ok t = true /\ held_after false t = false /\
        unguarded false t =
          EvLoad F_param_changed ::
          (if _param_changed (self w) then [EvStore F_param_changed] else [])
    | Aborted =>
        _param_changed (self w) = true /\ self w' = self w /\
        calls_of t `prefix_of` config_calls (self w) /\ held_after false t = true /\
        unguarded false t = [EvLoad F_param_changed] /\
        exists t0 c st, t = t0 ++ [EvCall c st] /\ st < ok /\ fatal_free ok t0 = true /\
          last (console w') =
            Some [Str "** "; Str "Error: ("; Str (call_name c); Str ")";
                  Str (GetErrorString api st); Str " **"; Str newline]
    | _ => False
    end).
Proof.
  destruct w as [[h c rl att dec bw p sf pc buf len] d items con].
  unfold work_reconfigure, configure, config_calls. destruct pc.
  all: repeat wp_step.
  all: run_solve.
  all: try (apply sm_last_console_fatal; done).
Qed.

Lemma sm_work_reconfigure_device w :
  wp (work_reconfigure ok) w (fun r w' t =>
    exists rs, run_calls api (calls_of t) (device w) = (rs, device w') /\
      statuses_of t = status <$> rs /\
      console w' = console w ++ diagnostics (api:=api) ok t ++
        match r, last rs with
        | Done _, Some q =>
            [[Str newline; Str "Sample Rate: "; Dbl (ret_dbl q); Endl];
             [Str "Actual Bandwidth: "; Dbl (ret_dbl2 q); Endl]]
        | _, _ => []
        end).
Proof.
  unfold work_reconfigure, configure. repeat wp_step. all: device_solve.
Qed.

(** The allocation, the transfer and the copy: what follows the
    reconfiguration in [work]. *)
Lemma sm_transfer_run {A} (a : A) n w :
  wp (work_allocate n ;; work_get_iq ok n ;; work_copy n ;; ret a) w (fun r w' t =>
    (exists b l, self w' = upd_len l (upd_buffer b (self w))) /\
    (buffer_inv (self w) -> buffer_inv (self w')) /\
    (lock_ok false t = true /\ held_after false t = false /\
     locked_calls false t = [] /\ unlocked_calls false t = calls_of t /\
     unguarded false t `prefix_of` [EvLoad F_purge]) /\
    (exists buf, calls_of t `prefix_of` [get_iq (self w) buf n]) /\
    (exists live, heap_after (negb (is_null (_buffer (self w)))) t = Some live /\
       (r <> Thrown -> live = negb (is_null (_buffer (self w'))))) /\
    match r with
    | Done x =>
        x = a /\ (exists buf, calls_of t = [get_iq (self w) buf n]) /\
        unguarded false t = [EvLoad F_purge] /\ fatal_free ok t = true
    | Aborted =>
        items0 w' = items0 w /\ copies_of t = [] /\
        exists t0 c st, t = t0 ++ [EvCall c st] /\ st < ok /\ fatal_free ok t0 = true /\
          last (console w') =
            Some [Str "** "; Str "Error: ("; Str (call_name c); Str ")";
                  Str (GetErrorString api st); Str " **"; Str newline]
    | Thrown => n < 0 /\ calls_of t = [] /\ copies_of t = [] /\ items0 w' = items0 w
    | Undefined => fatal_free ok t = true
    end).
Proof.
  destruct w as [[h c rl att dec bw p sf pc buf len] d items con].
  unfold work_allocate, work_get_iq, work_copy.
  destruct (n =? len) eqn:Hnl; destruct buf as [l|].
  all: repeat wp_step.
  all: run_solve.
  all: try (apply sm_last_console_fatal; done).
Qed.

(** With room for the samples, the transfer is one call and the copy of what
    it delivered. *)
Lemma sm_transfer_complete {A} (a : A) n w :
  0 <= n -> (Z.to_nat n <= length (items0 w))%nat -> buffer_inv (self w) ->
  wp (work_allocate n ;; work_get_iq ok n ;; work_copy n ;; ret a) w (fun r w' t =>
    exists c q, checks_of t = [(c, status q)] /\
      vendor api c (device w) = (q, device w') /\
      console w' = console w ++ diagnostics (api:=api) ok t /\
      match r with
      | Done _ =>
          ok <= status q /\
          _buffer (self w') = Some (ret_iq q <$> seq 0 (Z.to_nat n)) /\
          items0 w' = (ret_iq q <$> seq 0 (Z.to_nat n)) ++ drop (Z.to_nat n) (items0 w) /\
          copies_of t = seq 0 (Z.to_nat n)
      | Aborted => status q < ok /\ items0 w' = items0 w
      | _ => False
      end).
Proof.
  destruct w as [[h c rl att dec bw p sf pc buf len] d items con].
  intros Hn Hitems Hinv. cbn in Hitems.
  assert (forall l, buf = Some l -> Z.of_nat (length l) = len) as Hlen by apply Hinv.
  clear Hinv. unfold work_allocate, work_get_iq, work_copy.
  destruct (n =? len) eqn:Hnl; destruct buf as [l|]; try specialize (Hlen l eq_refl).
  all: repeat wp_step_run.
  all: try done; try lia.
  all: repeat match goal with H : (_ =? _) = true |- _ => apply Z.eqb_eq in H; subst end.
  all: try (rewrite length_fill_iq, ?length_replicate; lia).
  all: do 2 eexists; run_norm; cbn [checks_of app].
  all: (split; [reflexivity|]); (split; [eassumption|]).
  all: unfold diagnostics; cbn [checks_of flat_map fst snd app]; run_norm;
    cbn [checks_of flat_map fst snd app]; rewrite ?app_nil_r.
  all: (split; [reflexivity|]).
  all: repeat split; try done.
  all: rewrite fill_iq_all, ?length_replicate, ?Nat2Z.id by (rewrite ?length_replicate; lia).
  all: reflexivity.
Qed.

(** *** [work] *)

Lemma sm_work_run n w :
  wp (work ok n) w (fun r w' t =>
    (exists b l m, self w' = upd_len l (upd_buffer b (upd_param_changed m (self w)))) /\
    (buffer_inv (self w) -> buffer_inv (self w')) /\
    (lock_ok false t = true /\ (held_after false t = false \/ r = Aborted)) /\
    (locked_calls false t `prefix_of`
       (if _param_changed (self w) then config_calls (self w) else []) /\
     (exists buf, unlocked_calls false t `prefix_of` [get_iq (self w) buf n]) /\
     calls_of t = locked_calls false t ++ unlocked_calls false t /\
     unguarded false t `prefix_of`
       (EvLoad F_param_changed ::
        (if _param_changed (self w) then [EvStore F_param_changed] else [])) ++
       [EvLoad F_purge]) /\
    (exists live, heap_after (negb (is_null (_buffer (self w)))) t = Some live /\
       (r <> Thrown -> live = negb (is_null (_buffer (self w'))))) /\
    match r with
    | Done x =>
        x = n /\ _param_changed (self w') = false /\
        locked_calls false t =
          (if _param_changed (self w) then config_calls (self w) else []) /\
        (exists buf, unlocked_calls false t = [get_iq (self w) buf n]) /\
        unguarded false t =
          (EvLoad F_param_changed ::
           (if _param_changed (self w) then [EvStore F_param_changed] else [])) ++
          [EvLoad F_purge] /\
        fatal_free ok t = true
    | Aborted =>
        items0 w' = items0 w /\ copies_of t = [] /\
        exists t0 c st, t = t0 ++ [EvCall c st] /\ st < ok /\ fatal_free ok t0 = true /\
          last (console w') =
            Some [Str "** "; Str "Error: ("; Str (call_name c); Str ")";
                  Str (GetErrorString api st); Str " **"; Str newline]
    | Thrown =>
        n < 0 /\ unlocked_calls false t = [] /\ copies_of t = [] /\ items0 w' = items0 w
    | Undefined => fatal_free ok t = true
    end).
Proof.
  unfold work. apply wp_bind.
  eapply wp_mono; [apply sm_work_reconfigure_run|]. cbv beta.
  intros r1 w1 t1 (Hi1 & [m Hs1] & (Hl1 & Hlc1 & Hul1) & Hh1 & Ha1 & Hc1 & Hr1).
  destruct r1; try done.
  - destruct Hr1 as (Hm1 & Hcalls1 & Hff1 & Hheld1 & Hug1).
    eapply wp_mono; [apply (sm_transfer_run n n w1)|]. cbv beta.
    intros r2 w2 t2 ([b [l Hs2]] & Hinv2 & (Hl2 & Hheld2 & Hlc2 & Hul2 & Hug2) &
                     [buf Hp2] & [live [Hhp2 Hlive2]] & Hr2).
    rewrite Hs1 in Hs2, Hinv2, Hp2, Hhp2, Hr2.
    run_norm. rewrite Hl1, Hheld1, Hl2, Hheld2, Hlc1, Hlc2, Hul1, Hul2, Hug1, (Hh1 _), Hcalls1.
    rewrite ?app_nil_r. cbn [andb app mbind option_bind].
    split; [by exists b, l, m; rewrite Hs2|].
    split; [exact Hinv2|].
    split; [split; [done|by left]|].
    split; [split; [done|split; [by exists buf|split; [done|]]]|];
      [by apply prefix_cons, prefix_app|].
    split; [by exists live|].
    destruct r2.
    + destruct Hr2 as (-> & Hcalls2 & Hug2' & Hff2).
      rewrite Hs1 in Hm1. cbn in Hm1. subst m.
      rewrite Hug2', Hff1, Hff2, Hs2.
      split; [done|]. split; [done|]. split; [done|]. split; [exact Hcalls2|]. done.
    + destruct Hr2 as (Hi2 & Hc2 & t0 & c & st & -> & Hst & Hff0 & Hlast).
      rewrite Hc1, Hc2, Hi2. split; [done|]. split; [done|].
      exists (t1 ++ t0), c, st. rewrite app_assoc, fatal_free_app, Hff1, Hff0. done.
    + destruct Hr2 as (Hn & Hcalls2 & Hc2 & Hi2).
      rewrite Hcalls2, Hc1, Hc2, Hi2. done.
    + by rewrite Hff1, Hr2.
  - destruct Hr1 as (Hpc & Hs1' & Hp1 & Hheld1 & Hug1 & Hlast).
    rewrite Hlc1, Hul1, Hug1, Hpc, Hs1', (Hh1 _), app_nil_r.
    split; [exists (_buffer (self w)), (_len (self w)), true;
            by destruct (self w); cbn in *; subst|].
    split; [done|].
    split; [split; [done|by right]|].
    split; [split; [done|split; [by exists []; eexists|split; [done|by eexists]]]|].
    split; [by eexists|]. done.
Qed.

Lemma sm_work_device n w :
  0 <= n -> (Z.to_nat n <= length (items0 w))%nat -> buffer_inv (self w) ->
  wp (work ok n) w (fun r w' t =>
    exists rs, run_calls api (calls_of t) (device w) = (rs, device w') /\
      statuses_of t = status <$> rs /\
      match r with
      | Done _ =>
          exists q, last rs = Some q /\
            _buffer (self w') = Some (ret_iq q <$> seq 0 (Z.to_nat n)) /\
            items0 w' =
              (ret_iq q <$> seq 0 (Z.to_nat n)) ++ drop (Z.to_nat n) (items0 w) /\
            copies_of t = seq 0 (Z.to_nat n)
      | Aborted => items0 w' = items0 w
      | _ => False
      end).
Proof.
  intros Hn Hroom Hinv. unfold work. apply wp_bind.
  eapply wp_mono;
    [apply wp_conj; [apply sm_work_reconfigure_run|apply sm_work_reconfigure_device]|].
  cbv beta.
  intros r1 w1 t1 [(Hi1 & [m Hs1] & _ & _ & _ & Hc1 & Hr1) (rs1 & Hrun1 & Hst1 & _)].
  destruct r1; try done.
  - eapply wp_mono; [apply (sm_transfer_complete n n w1)| ];
      [done|by rewrite Hi1|rewrite Hs1; exact Hinv|].
    cbv beta. intros r2 w2 t2 (c & q & Hck & Hv & _ & Hr2).
    exists (rs1 ++ [q]). run_norm.
    rewrite (calls_of_checks t2), (statuses_of_checks t2), Hck. cbn [fmap list_fmap fst snd].
    split; [by apply (run_calls_snoc _ _ _ _ _ _ _ _ Hrun1)|].
    split; [by rewrite Hst1, fmap_app|].
    destruct r2; try done.
    + destruct Hr2 as (_ & Hb & Hit & Hcp). exists q.
      rewrite last_snoc, Hc1, Hcp, Hit, Hi1. done.
    + destruct Hr2 as [_ ->]. done.
  - exists rs1. split; [done|]. split; [done|]. done.
Qed.

(** *** The constructor and the destructor *)

Lemma sm_ctor_quiet w :
  wp (ctor_body ok) w (fun r w' t =>
    (exists h, self w' = upd_handle h (self w)) /\
    (forall held, lock_ok held t = true /\ held_after held t = held) /\
    (forall live, heap_after live t = Some live) /\
    (r = Done tt \/ r = Aborted)).
Proof. unfold ctor_body. repeat wp_step. all: run_solve; auto. Qed.

Lemma sm_dtor_run w :
  wp dtor w (fun r w' t =>
    r = Done tt /\ self w' = self w /\ items0 w' = items0 w /\ console w' = console w /\
    (exists rs, run_calls api (calls_of t) (device w) = (rs, device w') /\
       statuses_of t = status <$> rs) /\
    exists s1 s2,
      t = [EvCall (smAbort (_handle (self w))) s1;
           EvCall (smCloseDevice (_handle (self w))) s2] ++
          (if is_null (_buffer (self w)) then [] else [EvDelete])).
Proof.
  destruct w as [[h c rl att dec bw p sf pc buf len] d items con].
  unfold dtor. destruct buf as [l|].
  all: repeat wp_step.
  all: repeat split; try done.
  all: try (eexists; split; [run_calls_solve|reflexivity]).
  all: do 2 eexists; reflexivity.
Qed.

(** *** Sequences of operations *)

Lemma sm_run_op_run o w :
  wp (run_op ok o) w (fun r w' t =>
    (buffer_inv (self w) -> buffer_inv (self w')) /\
    (lock_ok false t = true /\ (held_after false t = false \/ r = Aborted)) /\
    (exists live, heap_after (negb (is_null (_buffer (self w)))) t = Some live /\
       (r <> Thrown -> live = negb (is_null (_buffer (self w'))))) /\
    _handle (self w') = _handle (self w) /\
    (let l := [o] in
     _center (self w') = last_set center_of (setters_of l) (_center (self w)) /\
       _reflevel (self w') = last_set reflevel_of (setters_of l) (_reflevel (self w)) /\
       _atten (self w') = last_set atten_of (setters_of l) (_atten (self w)) /\
       _decimation (self w') = last_set decimation_of (setters_of l) (_decimation (self w)) /\
       _bandwidth (self w') = last_set bandwidth_of (setters_of l) (_bandwidth (self w)) /\
       _swfilter (self w') = last_set swfilter_of (setters_of l) (_swfilter (self w)) /\
       _purge (self w') = last_set purge_of (setters_of l) (_purge (self w)))).
Proof.
  destruct o as [s|n]; cbn [run_op].
  - eapply wp_mono; [apply sm_run_setter_spec|]. cbv beta.
    intros r w' t (-> & _ & _ & _ & HF & _ & (Hh & Hb & Hl) & ->).
    split; [unfold buffer_inv; by rewrite Hb, Hl|].
    split; [split; [|left]; destruct s; reflexivity|].
    split; [exists (negb (is_null (_buffer (self w)))); rewrite Hb;
            split; [destruct s; reflexivity|done]|].
    split; [done|]. cbv zeta. change (setters_of [OpSet s]) with [s].
    rewrite !last_set_cons, !last_set_nil. exact HF.
  - apply wp_bind. eapply wp_mono; [apply sm_work_run|]. cbv beta.
    intros r w' t ((b & l & m & Hs) & Hinv & Hlock & _ & Hheap & Hr).
    assert (_handle (self w') = _handle (self w)) as Hh by (by rewrite Hs).
    assert (let l := [OpWork n] in
       _center (self w') = last_set center_of (setters_of l) (_center (self w)) /\
       _reflevel (self w') = last_set reflevel_of (setters_of l) (_reflevel (self w)) /\
       _atten (self w') = last_set atten_of (setters_of l) (_atten (self w)) /\
       _decimation (self w') = last_set decimation_of (setters_of l) (_decimation (self w)) /\
       _bandwidth (self w') = last_set bandwidth_of (setters_of l) (_bandwidth (self w)) /\
       _swfilter (self w') = last_set swfilter_of (setters_of l) (_swfilter (self w)) /\
       _purge (self w') = last_set purge_of (setters_of l) (_purge (self w))) as HF
      by (by rewrite Hs).
    destruct r; [apply wp_ret; rewrite app_nil_r| | |].
    all: split; [exact Hinv|].
    all: split; [destruct Hlock as [? [?|?]]; split; auto; by right|].
    all: split; [destruct Hheap as (live & ? & Hl); exists live; split; [done|];
                 intros ?; apply Hl; done|].
    all: split; [done|exact HF].
Qed.

Lemma sm_setters_of_app l1 l2 :
  setters_of (l1 ++ l2) = setters_of l1 ++ setters_of l2.
Proof. apply omap_app. Qed.

Lemma sm_run_ops_run l w :
  wp (run_ops ok l) w (fun r w' t =>
    (buffer_inv (self w) -> buffer_inv (self w')) /\
    (lock_ok false t = true /\ (held_after false t = false \/ r = Aborted)) /\
    (exists live, heap_after (negb (is_null (_buffer (self w)))) t = Some live /\
       (r <> Thrown -> live = negb (is_null (_buffer (self w'))))) /\
    _handle (self w') = _handle (self w) /\
    (r = Done tt ->
       _center (self w') = last_set center_of (setters_of l) (_center (self w)) /\
       _reflevel (self w') = last_set reflevel_of (setters_of l) (_reflevel (self w)) /\
       _atten (self w') = last_set atten_of (setters_of l) (_atten (self w)) /\
       _decimation (self w') = last_set decimation_of (setters_of l) (_decimation (self w)) /\
       _bandwidth (self w') = last_set bandwidth_of (setters_of l) (_bandwidth (self w)) /\
       _swfilter (self w') = last_set swfilter_of (setters_of l) (_swfilter (self w)) /\
       _purge (self w') = last_set purge_of (setters_of l) (_purge (self w)))).
Proof.
  revert w. induction l as [|o l IH]; intros w.
  { apply wp_ret. split; [done|]. split; [split; [done|by left]|].
    split; [by eexists|]. split; [done|]. intros _. repeat split. }
  cbn [run_ops]. apply wp_bind.
  eapply wp_mono; [apply sm_run_op_run|]. cbv beta zeta.
  intros r1 w1 t1 (Hinv1 & [Hl1 Hheld1] & (live1 & Hheap1 & Hlive1) & Hh1 & HF1).
  destruct r1.
  - destruct Hheld1 as [Hheld1|?]; [|done].
    eapply wp_mono; [apply IH|]. cbv beta.
    intros r2 w2 t2 (Hinv2 & [Hl2 Hheld2] & (live2 & Hheap2 & Hlive2) & Hh2 & HF2).
    run_norm. rewrite Hl1, Hheld1, Hl2, Hheap1. cbn [mbind option_bind andb].
    rewrite (Hlive1 ltac:(done)), Hheap2.
    split; [auto|]. split; [done|]. split; [by exists live2|]. split; [congruence|].
    intros Hr. specialize (HF2 Hr).
    change (o :: l) with ([o] ++ l). rewrite sm_setters_of_app, !last_set_app.
    destruct HF1 as (Hf0 & Hf1 & Hf2 & Hf3 & Hf4 & Hf5 & Hf6).
    destruct HF2 as (Hg0 & Hg1 & Hg2 & Hg3 & Hg4 & Hg5 & Hg6).
    repeat split; congruence.
  - split; [done|]. split; [done|]. split; [by exists live1|]. split; [done|]. done.
  - split; [done|]. split; [done|]. split; [by exists live1|]. split; [done|]. done.
  - split; [done|]. split; [done|]. split; [by exists live1|]. split; [done|]. done.
Qed.

(** A block from its construction on. *)
Lemma sm_built_run l w :
  wp (ctor_body ok ;; run_ops ok l) w (fun r w' t =>
    (buffer_inv (self w) -> buffer_inv (self w')) /\
    (r = Done tt ->
       _center (self w') = last_set center_of (setters_of l) (_center (self w)) /\
       _reflevel (self w') = last_set reflevel_of (setters_of l) (_reflevel (self w)) /\
       _atten (self w') = last_set atten_of (setters_of l) (_atten (self w)) /\
       _decimation (self w') = last_set decimation_of (setters_of l) (_decimation (self w)) /\
       _bandwidth (self w') = last_set bandwidth_of (setters_of l) (_bandwidth (self w)) /\
       _swfilter (self w') = last_set swfilter_of (setters_of l) (_swfilter (self w)) /\
       _purge (self w') = last_set purge_of (setters_of l) (_purge (self w)))).
Proof.
  apply wp_bind. eapply wp_mono; [apply sm_ctor_quiet|]. cbv beta.
  intros r1 w1 t1 ([h Hs1] & _ & _ & Hr1).
  destruct r1; try (split; [by rewrite Hs1|done]).
  eapply wp_mono; [apply sm_run_ops_run|]. cbv beta.
  intros r2 w2 t2 (Hinv2 & _ & _ & _ & HF2). rewrite Hs1 in Hinv2, HF2.
  split; [exact Hinv2|exact HF2].
Qed.

(** The life of a block. *)
Lemma sm_life_run l w :
  wp (life ok l) w (fun r w' t =>
    (lock_ok false t = true /\ (held_after false t = false \/ r = Aborted)) /\
    (exists live, heap_after (negb (is_null (_buffer (self w)))) t = Some live /\
       match r with
       | Done _ => live = false
       | Thrown => True
       | _ => live = negb (is_null (_buffer (self w')))
       end)).
Proof.
  unfold life. apply wp_bind. eapply wp_mono; [apply sm_ctor_quiet|]. cbv beta.
  intros r1 w1 t1 ([h Hs1] & Hq1 & Hh1 & Hr1).
  destruct (Hq1 false) as [Hl1 Hheld1].
  assert (_buffer (self w1) = _buffer (self w)) as Hb1 by (by rewrite Hs1).
  destruct r1.
  - apply wp_bind. eapply wp_mono; [apply sm_run_ops_run|]. cbv beta.
    intros r2 w2 t2 (_ & [Hl2 Hheld2] & (live2 & Hheap2 & Hlive2) & _ & _).
    rewrite Hb1 in Hheap2.
    destruct r2.
    + destruct Hheld2 as [Hheld2|?]; [|done].
      eapply wp_mono; [apply sm_dtor_run|]. cbv beta.
      intros r3 w3 t3 (-> & Hs3 & _ & _ & _ & s1 & s2 & ->).
      run_norm. rewrite (Hh1 _). cbn [mbind option_bind]. run_norm.
      rewrite Hl1, Hheld1, Hl2, Hheld2, Hheap2.
      cbn [mbind option_bind andb]. rewrite (Hlive2 ltac:(done)).
      split; [split; [|left]; by destruct (_buffer (self w2))|].
      exists false. by destruct (_buffer (self w2)).
    + run_norm. rewrite (Hh1 _). cbn [mbind option_bind].
      rewrite Hl1, Hheld1, Hl2, Hheap2. cbn [andb].
      split; [split; [done|by right]|]. exists live2. split; [done|]. by apply Hlive2.
    + run_norm. rewrite (Hh1 _). cbn [mbind option_bind].
      rewrite Hl1, Hheld1, Hl2, Hheap2. cbn [andb]. split; [done|]. by exists live2.
    + run_norm. rewrite (Hh1 _). cbn [mbind option_bind].
      rewrite Hl1, Hheld1, Hl2, Hheap2. cbn [andb]. split; [done|].
      exists live2. split; [done|]. by apply Hlive2.
  - rewrite (Hh1 _), Hl1, Hheld1, Hb1. split; [split; [done|by right]|]. by eexists.
  - by destruct Hr1.
  - by destruct Hr1.
Qed.

(** *** The constructor, call by call *)

Lemma sm_ctor_run w :
  wp (ctor_body ok) w (fun r w' t =>
    exists ro d1, vendor api smOpenDevice (device w) = (ro, d1) /\
      self w' = upd_handle (ret_int ro) (self w) /\ items0 w' = items0 w /\
      (status ro < ok ->
         r = Aborted /\ t = [EvCall smOpenDevice (status ro)] /\ device w' = d1 /\
         console w' =
           console w ++
           [[Str newline; Str "API Version: "; Str (GetAPIVersion api); Endl]] ++
           diagnostics (api:=api) ok t) /\
      (ok <= status ro ->
         exists rs, vendor api (smGetDeviceInfo (ret_int ro)) d1 = (rs, device w') /\
           t = [EvCall smOpenDevice (status ro);
                EvCall (smGetDeviceInfo (ret_int ro)) (status rs)] /\
           r = (if status rs <? ok then Aborted else Done tt) /\
           console w' =
             console w ++
             [[Str newline; Str "API Version: "; Str (GetAPIVersion api); Endl]] ++
             diagnostics (api:=api) ok t ++
             (if status rs <? ok then []
              else [[Str "Serial Number: "; Num (ret_int2 rs); Endl]]))).
Proof.
  unfold ctor_body. repeat wp_step.
  all: do 2 eexists; split; [eassumption|]; split; [reflexivity|]; split; [reflexivity|].
  all: split; intros ?; try lia.
  all: try (eexists; split; [eassumption|]; split; [reflexivity|]).
  all: unfold diagnostics; cbn [checks_of flat_map fst snd app];
    rewrite <- ?app_assoc, ?app_nil_r; cbn [app].
  all: repeat match goal with
       | H : status ?r < ok |- context [status ?r <? ok] =>
           rewrite (proj2 (Z.ltb_lt _ _) H)
       | H : ok <= status ?r |- context [status ?r <? ok] =>
           rewrite (proj2 (Z.ltb_ge _ _) H)
       end.
  all: rewrite ?app_nil_r; repeat split; reflexivity.
Qed.

(** *** Counts at the edge *)

Lemma sm_transfer_negative {A} (a : A) n w :
  n < 0 -> buffer_inv (self w) ->
  wp (work_allocate n ;; work_get_iq ok n ;; work_copy n ;; ret a) w (fun r w' t =>
    r = Thrown /\ calls_of t = [] /\ copies_of t = [] /\ items0 w' = items0 w).
Proof.
  destruct w as [[h c rl att dec bw p sf pc buf len] d items con].
  intros Hn Hinv.
  assert (forall l, buf = Some l -> Z.of_nat (length l) = len) as Hlen by apply Hinv.
  clear Hinv. unfold work_allocate, work_get_iq, work_copy.
  destruct (n =? len) eqn:Hnl; destruct buf as [l|]; try specialize (Hlen l eq_refl).
  all: repeat match goal with H : (_ =? _) = true |- _ => apply Z.eqb_eq in H end.
  all: try lia.
  all: repeat first [ wp_prim_keep; adapter_simpl | lia ].
  all: try lia; repeat split.
Qed.

Lemma sm_work_negative n w :
  n < 0 -> buffer_inv (self w) ->
  wp (work ok n) w (fun r w' t =>
    (r = Thrown \/ r = Aborted) /\
    calls_of t `prefix_of` config_calls (self w) /\
    copies_of t = [] /\ items0 w' = items0 w).
Proof.
  intros Hn Hinv. unfold work. apply wp_bind.
  eapply wp_mono; [apply sm_work_reconfigure_run|]. cbv beta.
  intros r1 w1 t1 (Hi1 & [m Hs1] & _ & _ & _ & Hc1 & Hr1).
  destruct r1; try done.
  - destruct Hr1 as (_ & Hcalls1 & _).
    eapply wp_mono; [apply (sm_transfer_negative n n w1)| ];
      [done|rewrite Hs1; exact Hinv|].
    cbv beta. intros r2 w2 t2 (-> & Hcalls2 & Hc2 & Hi2).
    run_norm. rewrite Hcalls1, Hcalls2, Hc1, Hc2, Hi2, app_nil_r.
    split; [by left|]. split; [|done].
    destruct (_param_changed (self w)); [done|by eexists].
  - destruct Hr1 as (_ & _ & Hp1 & _). split; [by right|]. done.
Qed.

Lemma sm_transfer_zero {A} (a : A) w :
  wp (work_allocate 0 ;; work_get_iq ok 0 ;; work_copy 0 ;; ret a) w (fun r w' t =>
    (r = Done a \/ r = Aborted) /\ copies_of t = [] /\ items0 w' = items0 w /\
    exists buf, calls_of t = [get_iq (self w) buf 0]).
Proof.
  destruct w as [[h c rl att dec bw p sf pc buf len] d items con].
  unfold work_allocate, work_get_iq, work_copy.
  change (Z.to_nat 0) with 0%nat. cbn [for_loop].
  destruct (0 =? len) eqn:Hnl; destruct buf as [l|].
  all: repeat wp_step.
  all: try lia.
  all: repeat split; auto; eexists; reflexivity.
Qed.

Lemma sm_work_zero w :
  wp (work ok 0) w (fun r w' t =>
    (r = Done 0 \/ r = Aborted) /\ copies_of t = [] /\ items0 w' = items0 w).
Proof.
  unfold work. apply wp_bind.
  eapply wp_mono; [apply sm_work_reconfigure_run|]. cbv beta.
  intros r1 w1 t1 (Hi1 & _ & _ & _ & _ & Hc1 & Hr1).
  destruct r1; try done.
  - eapply wp_mono; [apply (sm_transfer_zero 0 w1)|]. cbv beta.
    intros r2 w2 t2 (Hr2 & Hc2 & Hi2 & _).
    run_norm. rewrite Hc1, Hc2, Hi2. done.
  - split; [by right|]. done.
Qed.

(** *** [set_purge] before a transfer *)

Lemma sm_set_purge_then_work b n w :
  _param_changed (self w) = false ->
  wp (set_purge b ;; work ok n) w (fun r w' t =>
    (exists buf, calls_of t `prefix_of`
       [smGetIQ (_handle (self w)) buf n (of_bool b)]) /\
    match r with
    | Done _ =>
        _param_changed (self w') = false /\
        exists buf, calls_of t =
          [smGetIQ (_handle (self w)) buf n (of_bool b)]
    | _ => True
    end).
Proof.
  intros Hpc. apply wp_bind.
  eapply wp_mono; [apply (sm_run_setter_spec (SetPurge b))|]. cbv beta.
  intros r1 w1 t1 (-> & _ & _ & _ & HF & Hp & (Hh & _ & _) & ->).
  assert (_purge (self w1) = of_bool b) as Hpurge
    by (by destruct HF as (Hf0 & Hf1 & Hf2 & Hf3 & Hf4 & Hf5 & Hf6)).
  cbn [is_set_purge negb] in Hp. rewrite orb_false_r, Hpc in Hp.
  eapply wp_mono; [apply sm_work_run|]. cbv beta.
  intros r2 w2 t2 (_ & _ & _ & (Hlc & [buf Hul] & Hcalls & _) & _ & Hr2).
  rewrite Hp in Hlc, Hr2. apply prefix_nil_inv in Hlc.
  rewrite Hlc in Hcalls. cbn [app] in Hcalls.
  rewrite Hh, Hpurge in Hul, Hr2.
  replace (of_bool (truth (of_bool b))) with (of_bool b) in Hul, Hr2
    by (by destruct b).
  cbn [written_by fmap list_fmap app calls_of].
  rewrite ?calls_of_app, Hcalls. cbn [calls_of app]. rewrite ?app_nil_r.
  split; [by exists buf|].
  destruct r2; try done.
  destruct Hr2 as (_ & Hm & _ & [buf' Hul'] & _). split; [done|]. by exists buf'.
Qed.
End Facts.
End SmRunFacts.

(** * Whole runs of sp_series *)

Module SpRunFacts.
Import Sp SpRun SpFacts.

Section Facts.
Context {api : VendorApi Call}.
#[local] Abbreviation ok := spNoError.
#[local] Opaque spNoError.
Implicit Types w : World sp_series_impl api.

(** The transfer call of [work] on the object [o], into the array [buf]. *)
#[local] Abbreviation get_iq o buf n :=
  (spGetIQ (_handle o) buf n (of_bool (truth (_purge o)))).

Ltac adapter_simpl :=
  cbv beta delta [upd_handle upd_center upd_reflevel upd_atten upd_decimation
                  upd_bandwidth upd_purge upd_swfilter upd_param_changed upd_buffer
                  upd_len];
  cbn [self device items0 console
       _handle _center _reflevel _atten _decimation _bandwidth _purge _swfilter
       _param_changed _buffer _len
       negb orb andb is_null default from_option id fmap option_fmap option_map];
  use_tests;
  cbn [negb orb andb].

Ltac wp_step :=
  first [ apply sp_wp_ERROR_CHECK; intros ?
        | apply wp_copy_frame; intros ? ? ? ? [-> | ->]
        | wp_prim_keep ];
  adapter_simpl.

Ltac wp_step_run :=
  first [ apply sp_wp_ERROR_CHECK; intros ?
        | eapply wp_copy_run; [adapter_simpl; reflexivity| | |]
        | wp_prim_keep ];
  adapter_simpl.

(** Closing the goals about an explicit run. *)
Ltac split_last :=
  lazymatch goal with
  | |- exists t0 c st, ?t = t0 ++ [EvCall c st] /\ _ =>
      exists (removelast t); cbn [removelast]; do 2 eexists; split; [reflexivity|]
  end.

Ltac inv_solve :=
  unfold buffer_inv; cbn;
  let Hinv := fresh in let Hb := fresh in
  intros Hinv ? Hb; try specialize (Hinv _ eq_refl); simplify_eq;
  rewrite ?length_fill_iq, ?length_replicate; first [done | lia].

Ltac run_solve :=
  repeat match goal with
  | H : (_ =? _) = true |- _ => apply Z.eqb_eq in H; subst
  | H : _ \/ _ |- _ => destruct H; subst
  end;
  run_norm;
  cbn [lock_ok guarded locked_calls unlocked_calls unguarded heap_after held_after
       calls_of statuses_of copies_of allocs_of app negb andb orb mbind option_bind];
  run_norm;
  repeat match goal with
  | |- _ /\ _ => split
  | |- buffer_inv _ -> _ => inv_solve
  | |- ?x <> ?x -> _ => let H := fresh in intros H; by destruct H
  | |- _ <> _ -> _ => intros ?
  | |- forall _, _ => intro
  | |- exists t0 c st, _ = t0 ++ [EvCall c st] /\ _ => split_last
  | |- exists live, heap_after _ _ = Some live /\ _ => eexists; split; [reflexivity|]
  | |- exists live, Some _ = Some live /\ _ => eexists; split; [reflexivity|]
  end;
  try done;
  try solve [eexists; reflexivity];
  try solve [exists []; eexists; reflexivity];
  try solve [do 2 eexists; reflexivity];
  try solve [status_tests; unfold fatal_free; cbn;
             repeat match goal with H : (_ <=? _) = _ |- _ => rewrite ?H; clear H end;
             done].

Lemma sp_check_output_fatal st :
  st < ok ->
  check_output (api:=api) st =
    [[Str "** "; Str "Error: "; Str (GetErrorString api st); Str " **"; Str newline]].
Proof.
  intros H. unfold check_output.
  destruct (Z.eqb_spec st ok); [lia|]. destruct (Z.gtb_spec st ok); [lia|done].
Qed.

Lemma sp_last_console_fatal st (con : list (list Chunk)) :
  st < ok ->
  last (con ++ check_output (api:=api) st) =
    Some [Str "** "; Str "Error: "; Str (GetErrorString api st); Str " **"; Str newline].
Proof. intros H. rewrite sp_check_output_fatal by done. apply last_snoc. Qed.

(** *** [configure] *)

Lemma sp_configure_run w :
  wp (configure) w (fun r w' t =>
    self w' = self w /\ items0 w' = items0 w /\
    (lock_ok false t = true /\ guarded false t = true /\
     locked_calls false t = calls_of t /\ unlocked_calls false t = [] /\
     unguarded false t = []) /\
    (forall live, heap_after live t = Some live) /\
    match r with
    | Done _ =>
        calls_of t = config_calls (self w) /\ fatal_free ok t = true /\
        held_after false t = false
    | Aborted =>
        calls_of t `prefix_of` config_calls (self w) /\ held_after false t = true /\
        exists t0 c st, t = t0 ++ [EvCall c st] /\ st < ok /\ fatal_free ok t0 = true /\
          last (console w') =
            Some [Str "** "; Str "Error: "; Str (GetErrorString api st); Str " **"; Str newline]
    | _ => False
    end).
Proof.
  unfold configure, config_calls.
  repeat wp_step.
  all: run_solve.
  all: try (apply sp_last_console_fatal; done).
Qed.

Lemma sp_diagnostics_app (t1 t2 : list (Event Field Call)) :
  diagnostics (api:=api) (t1 ++ t2) =
  diagnostics (api:=api) t1 ++ diagnostics (api:=api) t2.
Proof. unfold diagnostics. by rewrite checks_of_app, flat_map_app. Qed.

(** Closing a goal about the device and the console of an explicit run. *)
Ltac device_solve :=
  eexists; split; [run_calls_solve|]; split; [reflexivity|];
  unfold diagnostics; cbn [checks_of flat_map last fst snd app];
  rewrite <- ?app_assoc, ?app_nil_r; cbn [app]; reflexivity.

Lemma sp_configure_device w :
  wp (configure) w (fun r w' t =>
    exists rs, run_calls api (calls_of t) (device w) = (rs, device w') /\
      statuses_of t = status <$> rs /\
      console w' = console w ++ diagnostics (api:=api) t ++
        match r, last rs with
        | Done _, Some q =>
            [[Str newline; Str "Sample Rate: "; Dbl (ret_dbl q); Endl];
             [Str "Actual Bandwidth: "; Dbl (ret_dbl2 q); Endl]]
        | _, _ => []
        end).
Proof. unfold configure. repeat wp_step. all: device_solve. Qed.

(** *** The statements of [work] *)

Lemma sp_work_reconfigure_run w :
  wp (work_reconfigure) w (fun r w' t =>
    items0 w' = items0 w /\
    (exists m, self w' = upd_param_changed m (self w)) /\
    (lock_ok false t = true /\ locked_calls false t = calls_of t /\
     unlocked_calls false t = []) /\
    (forall live, heap_after live t = Some live) /\
    allocs_of t = [] /\ copies_of t = [] /\
    match r with
    | Done _ =>
        _param_changed (self w') = false /\
        calls_of t = (if _param_changed (self w) then config_calls (self w) else []) /\
        fatal_free ok t = true /\ held_after false t = false /\
        unguarded false t =
          EvLoad F_param_changed ::
          (if _param_changed (self w) then [EvStore F_param_changed] else [])
    | Aborted =>
        _param_changed (self w) = true /\ self w' = self w /\
        calls_of t `prefix_of` config_calls (self w) /\ held_after false t = true /\
        unguarded false t = [EvLoad F_param_changed] /\
        exists t0 c st, t = t0 ++ [EvCall c st] /\ st < ok /\ fatal_free ok t0 = true /\
          last (console w') =
            Some [Str "** "; Str "Error: "; Str (GetErrorString api st); Str " **"; Str newline]
    | _ => False
    end).
Proof.
  destruct w as [[h c rl att dec bw p sf pc buf len] d items con].
  unfold work_reconfigure, configure, config_calls. destruct pc.
  all: repeat wp_step.
  all: run_solve.
  all: try (apply sp_last_console_fatal; done).
Qed.

Lemma sp_work_reconfigure_device w :
  wp (work_reconfigure) w (fun r w' t =>
    exists rs, run_calls api (calls_of t) (device w) = (rs, device w') /\
      statuses_of t = status <$> rs /\
      console w' = console w ++ diagnostics (api:=api) t ++
        match r, last rs with
        | Done _, Some q =>
            [[Str newline; Str "Sample Rate: "; Dbl (ret_dbl q); Endl];
             [Str "Actual Bandwidth: "; Dbl (ret_dbl2 q); Endl]]
        | _, _ => []
        end).
Proof.
  unfold work_reconfigure, configure. repeat wp_step. all: device_solve.
Qed.

(** The allocation, the transfer and the copy: what follows the
    reconfiguration in [work]. *)
Lemma sp_transfer_run {A} (a : A) n w :
  wp (work_allocate n ;; work_get_iq n ;; work_copy n ;; ret a) w (fun r w' t =>
    (exists b l, self w' = upd_len l (upd_buffer b (self w))) /\
    (buffer_inv (self w) -> buffer_inv (self w')) /\
    (lock_ok false t = true /\ held_after false t = false /\
     locked_calls false t = [] /\ unlocked_calls false t = calls_of t /\
     unguarded false t `prefix_of` [EvLoad F_purge]) /\
    (exists buf, calls_of t `prefix_of` [get_iq (self w) buf n]) /\
    (exists live, heap_after (negb (is_null (_buffer (self w)))) t = Some live /\
       (r <> Thrown -> live = negb (is_null (_buffer (self w'))))) /\
    match r with
    | Done x =>
        x = a /\ (exists buf, calls_of t = [get_iq (self w) buf n]) /\
        unguarded false t = [EvLoad F_purge] /\ fatal_free ok t = true
    | Aborted =>
        items0 w' = items0 w /\ copies_of t = [] /\
        exists t0 c st, t = t0 ++ [EvCall c st] /\ st < ok /\ fatal_free ok t0 = true /\
          last (console w') =
            Some [Str "** "; Str "Error: "; Str (GetErrorString api st); Str " **"; Str newline]
    | Thrown => n < 0 /\ calls_of t = [] /\ copies_of t = [] /\ items0 w' = items0 w
    | Undefined => fatal_free ok t = true
    end).
Proof.
  destruct w as [[h c rl att dec bw p sf pc buf len] d items con].
  unfold work_allocate, work_get_iq, work_copy.
  destruct (n =? len) eqn:Hnl; destruct buf as [l|].
  all: repeat wp_step.
  all: run_solve.
  all: try (apply sp_last_console_fatal; done).
Qed.

(** With room for the samples, the transfer is one call and the copy of what
    it delivered. *)
Lemma sp_transfer_complete {A} (a : A) n w :
  0 <= n -> (Z.to_nat n <= length (items0 w))%nat -> buffer_inv (self w) ->
  wp (work_allocate n ;; work_get_iq n ;; work_copy n ;; ret a) w (fun r w' t =>
    exists c q, checks_of t = [(c, status q)] /\
      vendor api c (device w) = (q, device w') /\
      console w' = console w ++ diagnostics (api:=api) t /\
      match r with
      | Done _ =>
          ok <= status q /\
          _buffer (self w') = Some (ret_iq q <$> seq 0 (Z.to_nat n)) /\
          items0 w' = (ret_iq q <$> seq 0 (Z.to_nat n)) ++ drop (Z.to_nat n) (items0 w) /\
          copies_of t = seq 0 (Z.to_nat n)
      | Aborted => status q < ok /\ items0 w' = items0 w
      | _ => False
      end).
Proof.
  destruct w as [[h c rl att dec bw p sf pc buf len] d items con].
  intros Hn Hitems Hinv. cbn in Hitems.
  assert (forall l, buf = Some l -> Z.of_nat (length l) = len) as Hlen by apply Hinv.
  clear Hinv. unfold work_allocate, work_get_iq, work_copy.
  destruct (n =? len) eqn:Hnl; destruct buf as [l|]; try specialize (Hlen l eq_refl).
  all: repeat wp_step_run.
  all: try done; try lia.
  all: repeat match goal with H : (_ =? _) = true |- _ => apply Z.eqb_eq in H; subst end.
  all: try (rewrite length_fill_iq, ?length_replicate; lia).
  all: do 2 eexists; run_norm; cbn [checks_of app].
  all: (split; [reflexivity|]); (split; [eassumption|]).
  all: unfold diagnostics; cbn [checks_of flat_map fst snd app]; run_norm;
    cbn [checks_of flat_map fst snd app]; rewrite ?app_nil_r.
  all: (split; [reflexivity|]).
  all: repeat split; try done.
  all: rewrite fill_iq_all, ?length_replicate, ?Nat2Z.id by (rewrite ?length_replicate; lia).
  all: reflexivity.
Qed.

(** *** [work] *)

Lemma sp_work_run n w :
  wp (work n) w (fun r w' t =>
    (exists b l m, self w' = upd_len l (upd_buffer b (upd_param_changed m (self w)))) /\
    (buffer_inv (self w) -> buffer_inv (self w')) /\
    (lock_ok false t = true /\ (held_after false t = false \/ r = Aborted)) /\
    (locked_calls false t `prefix_of`
       (if _param_changed (self w) then config_calls (self w) else []) /\
     (exists buf, unlocked_calls false t `prefix_of` [get_iq (self w) buf n]) /\
     calls_of t = locked_calls false t ++ unlocked_calls false t /\
     unguarded false t `prefix_of`
       (EvLoad F_param_changed ::
        (if _param_changed (self w) then [EvStore F_param_changed] else [])) ++
       [EvLoad F_purge]) /\
    (exists live, heap_after (negb (is_null (_buffer (self w)))) t = Some live /\
       (r <> Thrown -> live = negb (is_null (_buffer (self w'))))) /\
    match r with
    | Done x =>
        x = n /\ _param_changed (self w') = false /\
        locked_calls false t =
          (if _param_changed (self w) then config_calls (self w) else []) /\
        (exists buf, unlocked_calls false t = [get_iq (self w) buf n]) /\
        unguarded false t =
          (EvLoad F_param_changed ::
           (if _param_changed (self w) then [EvStore F_param_changed] else [])) ++
          [EvLoad F_purge] /\
        fatal_free ok t = true
    | Aborted =>
        items0 w' = items0 w /\ copies_of t = [] /\
        exists t0 c st, t = t0 ++ [EvCall c st] /\ st < ok /\ fatal_free ok t0 = true /\
          last (console w') =
            Some [Str "** "; Str "Error: "; Str (GetErrorString api st); Str " **"; Str newline]
    | Thrown =>
        n < 0 /\ unlocked_calls false t = [] /\ copies_of t = [] /\ items0 w' = items0 w
    | Undefined => fatal_free ok t = true
    end).
Proof.
  unfold work. apply wp_bind.
  eapply wp_mono; [apply sp_work_reconfigure_run|]. cbv beta.
  intros r1 w1 t1 (Hi1 & [m Hs1] & (Hl1 & Hlc1 & Hul1) & Hh1 & Ha1 & Hc1 & Hr1).
  destruct r1; try done.
  - destruct Hr1 as (Hm1 & Hcalls1 & Hff1 & Hheld1 & Hug1).
    eapply wp_mono; [apply (sp_transfer_run n n w1)|]. cbv beta.
    intros r2 w2 t2 ([b [l Hs2]] & Hinv2 & (Hl2 & Hheld2 & Hlc2 & Hul2 & Hug2) &
                     [buf Hp2] & [live [Hhp2 Hlive2]] & Hr2).
    rewrite Hs1 in Hs2, Hinv2, Hp2, Hhp2, Hr2.
    run_norm. rewrite Hl1, Hheld1, Hl2, Hheld2, Hlc1, Hlc2, Hul1, Hul2, Hug1, (Hh1 _), Hcalls1.
    rewrite ?app_nil_r. cbn [andb app mbind option_bind].
    split; [by exists b, l, m; rewrite Hs2|].
    split; [exact Hinv2|].
    split; [split; [done|by left]|].
    split; [split; [done|split; [by exists buf|split; [done|]]]|];
      [by apply prefix_cons, prefix_app|].
    split; [by exists live|].
    destruct r2.
    + destruct Hr2 as (-> & Hcalls2 & Hug2' & Hff2).
      rewrite Hs1 in Hm1. cbn in Hm1. subst m.
      rewrite Hug2', Hff1, Hff2, Hs2.
      split; [done|]. split; [done|]. split; [done|]. split; [exact Hcalls2|]. done.
    + destruct Hr2 as (Hi2 & Hc2 & t0 & c & st & -> & Hst & Hff0 & Hlast).
      rewrite Hc1, Hc2, Hi2. split; [done|]. split; [done|].
      exists (t1 ++ t0), c, st. rewrite app_assoc, fatal_free_app, Hff1, Hff0. done.
    + destruct Hr2 as (Hn & Hcalls2 & Hc2 & Hi2).
      rewrite Hcalls2, Hc1, Hc2, Hi2. done.
    + by rewrite Hff1, Hr2.
  - destruct Hr1 as (Hpc & Hs1' & Hp1 & Hheld1 & Hug1 & Hlast).
    rewrite Hlc1, Hul1, Hug1, Hpc, Hs1', (Hh1 _), app_nil_r.
    split; [exists (_buffer (self w)), (_len (self w)), true;
            by destruct (self w); cbn in *; subst|].
    split; [done|].
    split; [split; [done|by right]|].
    split; [split; [done|split; [by exists []; eexists|split; [done|by eexists]]]|].
    split; [by eexists|]. done.
Qed.

Lemma sp_work_device n w :
  0 <= n -> (Z.to_nat n <= length (items0 w))%nat -> buffer_inv (self w) ->
  wp (work n) w (fun r w' t =>
    exists rs, run_calls api (calls_of t) (device w) = (rs, device w') /\
      statuses_of t = status <$> rs /\
      match r with
      | Done _ =>
          exists q, last rs = Some q /\
            _buffer (self w') = Some (ret_iq q <$> seq 0 (Z.to_nat n)) /\
            items0 w' =
              (ret_iq q <$> seq 0 (Z.to_nat n)) ++ drop (Z.to_nat n) (items0 w) /\
            copies_of t = seq 0 (Z.to_nat n)
      | Aborted => items0 w' = items0 w
      | _ => False
      end).
Proof.
  intros Hn Hroom Hinv. unfold work. apply wp_bind.
  eapply wp_mono;
    [apply wp_conj; [apply sp_work_reconfigure_run|apply sp_work_reconfigure_device]|].
  cbv beta.
  intros r1 w1 t1 [(Hi1 & [m Hs1] & _ & _ & _ & Hc1 & Hr1) (rs1 & Hrun1 & Hst1 & _)].
  destruct r1; try done.
  - eapply wp_mono; [apply (sp_transfer_complete n n w1)| ];
      [done|by rewrite Hi1|rewrite Hs1; exact Hinv|].
    cbv beta. intros r2 w2 t2 (c & q & Hck & Hv & _ & Hr2).
    exists (rs1 ++ [q]). run_norm.
    rewrite (calls_of_checks t2), (statuses_of_checks t2), Hck. cbn [fmap list_fmap fst snd].
    split; [by apply (run_calls_snoc _ _ _ _ _ _ _ _ Hrun1)|].
    split; [by rewrite Hst1, fmap_app|].
    destruct r2; try done.
    + destruct Hr2 as (_ & Hb & Hit & Hcp). exists q.
      rewrite last_snoc, Hc1, Hcp, Hit, Hi1. done.
    + destruct Hr2 as [_ ->]. done.
  - exists rs1. split; [done|]. split; [done|]. done.
Qed.

(** *** The constructor and the destructor *)

Lemma sp_ctor_quiet w :
  wp (ctor_body) w (fun r w' t =>
    (exists h, self w' = upd_handle h (self w)) /\
    (forall held, lock_ok held t = true /\ held_after held t = held) /\
    (forall live, heap_after live t = Some live) /\
    (r = Done tt \/ r = Aborted)).
Proof. unfold ctor_body. repeat wp_step. all: run_solve; auto. Qed.

Lemma sp_dtor_run w :
  wp dtor w (fun r w' t =>
    r = Done tt /\ self w' = self w /\ items0 w' = items0 w /\ console w' = console w /\
    (exists rs, run_calls api (calls_of t) (device w) = (rs, device w') /\
       statuses_of t = status <$> rs) /\
    exists s1 s2,
      t = [EvCall (spAbort (_handle (self w))) s1;
           EvCall (spCloseDevice (_handle (self w))) s2] ++
          (if is_null (_buffer (self w)) then [] else [EvDelete])).
Proof.
  destruct w as [[h c rl att dec bw p sf pc buf len] d items con].
  unfold dtor. destruct buf as [l|].
  all: repeat wp_step.
  all: repeat split; try done.
  all: try (eexists; split; [run_calls_solve|reflexivity]).
  all: do 2 eexists; reflexivity.
Qed.

(** *** Sequences of operations *)

Lemma sp_run_op_run o w :
  wp (run_op o) w (fun r w' t =>
    (buffer_inv (self w) -> buffer_inv (self w')) /\
    (lock_ok false t = true /\ (held_after false t = false \/ r = Aborted)) /\
    (exists live, heap_after (negb (is_null (_buffer (self w)))) t = Some live /\
       (r <> Thrown -> live = negb (is_null (_buffer (self w'))))) /\
    _handle (self w') = _handle (self w) /\
    (let l := [o] in
     _center (self w') = last_set center_of (setters_of l) (_center (self w)) /\
       _reflevel (self w') = last_set reflevel_of (setters_of l) (_reflevel (self w)) /\
       _atten (self w') = last_set atten_of (setters_of l) (_atten (self w)) /\
       _decimation (self w') = last_set decimation_of (setters_of l) (_decimation (self w)) /\
       _bandwidth (self w') = last_set bandwidth_of (setters_of l) (_bandwidth (self w)) /\
       _swfilter (self w') = last_set swfilter_of (setters_of l) (_swfilter (self w)) /\
       _purge (self w') = last_set purge_of (setters_of l) (_purge (self w)))).
Proof.
  destruct o as [s|n]; cbn [run_op].
  - eapply wp_mono; [apply sp_run_setter_spec|]. cbv beta.
    intros r w' t (-> & _ & _ & _ & HF & _ & (Hh & Hb & Hl) & ->).
    split; [unfold buffer_inv; by rewrite Hb, Hl|].
    split; [split; [|left]; destruct s; reflexivity|].
    split; [exists (negb (is_null (_buffer (self w)))); rewrite Hb;
            split; [destruct s; reflexivity|done]|].
    split; [done|]. cbv zeta. change (setters_of [OpSet s]) with [s].
    rewrite !last_set_cons, !last_set_nil. exact HF.
  - apply wp_bind. eapply wp_mono; [apply sp_work_run|]. cbv beta.
    intros r w' t ((b & l & m & Hs) & Hinv & Hlock & _ & Hheap & Hr).
    assert (_handle (self w') = _handle (self w)) as Hh by (by rewrite Hs).
    assert (let l := [OpWork n] in
       _center (self w') = last_set center_of (setters_of l) (_center (self w)) /\
       _reflevel (self w') = last_set reflevel_of (setters_of l) (_reflevel (self w)) /\
       _atten (self w') = last_set atten_of (setters_of l) (_atten (self w)) /\
       _decimation (self w') = last_set decimation_of (setters_of l) (_decimation (self w)) /\
       _bandwidth (self w') = last_set bandwidth_of (setters_of l) (_bandwidth (self w)) /\
       _swfilter (self w') = last_set swfilter_of (setters_of l) (_swfilter (self w)) /\
       _purge (self w') = last_set purge_of (setters_of l) (_purge (self w))) as HF
      by (by rewrite Hs).
    destruct r; [apply wp_ret; rewrite app_nil_r| | |].
    all: split; [exact Hinv|].
    all: split; [destruct Hlock as [? [?|?]]; split; auto; by right|].
    all: split; [destruct Hheap as (live & ? & Hl); exists live; split; [done|];
                 intros ?; apply Hl; done|].
    all: split; [done|exact HF].
Qed.

Lemma sp_setters_of_app l1 l2 :
  setters_of (l1 ++ l2) = setters_of l1 ++ setters_of l2.
Proof. apply omap_app. Qed.

Lemma sp_run_ops_run l w :
  wp (run_ops l) w (fun r w' t =>
    (buffer_inv (self w) -> buffer_inv (self w')) /\
    (lock_ok false t = true /\ (held_after false t = false \/ r = Aborted)) /\
    (exists live, heap_after (negb (is_null (_buffer (self w)))) t = Some live /\
       (r <> Thrown -> live = negb (is_null (_buffer (self w'))))) /\
    _handle (self w') = _handle (self w) /\
    (r = Done tt ->
       _center (self w') = last_set center_of (setters_of l) (_center (self w)) /\
       _reflevel (self w') = last_set reflevel_of (setters_of l) (_reflevel (self w)) /\
       _atten (self w') = last_set atten_of (setters_of l) (_atten (self w)) /\
       _decimation (self w') = last_set decimation_of (setters_of l) (_decimation (self w)) /\
       _bandwidth (self w') = last_set bandwidth_of (setters_of l) (_bandwidth (self w)) /\
       _swfilter (self w') = last_set swfilter_of (setters_of l) (_swfilter (self w)) /\
       _purge (self w') = last_set purge_of (setters_of l) (_purge (self w)))).
Proof.
  revert w. induction l as [|o l IH]; intros w.
  { apply wp_ret. split; [done|]. split; [split; [done|by left]|].
    split; [by eexists|]. split; [done|]. intros _. repeat split. }
  cbn [run_ops]. apply wp_bind.
  eapply wp_mono; [apply sp_run_op_run|]. cbv beta zeta.
  intros r1 w1 t1 (Hinv1 & [Hl1 Hheld1] & (live1 & Hheap1 & Hlive1) & Hh1 & HF1).
  destruct r1.
  - destruct Hheld1 as [Hheld1|?]; [|done].
    eapply wp_mono; [apply IH|]. cbv beta.
    intros r2 w2 t2 (Hinv2 & [Hl2 Hheld2] & (live2 & Hheap2 & Hlive2) & Hh2 & HF2).
    run_norm. rewrite Hl1, Hheld1, Hl2, Hheap1. cbn [mbind option_bind andb].
    rewrite (Hlive1 ltac:(done)), Hheap2.
    split; [auto|]. split; [done|]. split; [by exists live2|]. split; [congruence|].
    intros Hr. specialize (HF2 Hr).
    change (o :: l) with ([o] ++ l). rewrite sp_setters_of_app, !last_set_app.
    destruct HF1 as (Hf0 & Hf1 & Hf2 & Hf3 & Hf4 & Hf5 & Hf6).
    destruct HF2 as (Hg0 & Hg1 & Hg2 & Hg3 & Hg4 & Hg5 & Hg6).
    repeat split; congruence.
  - split; [done|]. split; [done|]. split; [by exists live1|]. split; [done|]. done.
  - split; [done|]. split; [done|]. split; [by exists live1|]. split; [done|]. done.
  - split; [done|]. split; [done|]. split; [by exists live1|]. split; [done|]. done.
Qed.

(** A block from its construction on. *)
Lemma sp_built_run l w :
  wp (ctor_body ;; run_ops l) w (fun r w' t =>
    (buffer_inv (self w) -> buffer_inv (self w')) /\
    (r = Done tt ->
       _center (self w') = last_set center_of (setters_of l) (_center (self w)) /\
       _reflevel (self w') = last_set reflevel_of (setters_of l) (_reflevel (self w)) /\
       _atten (self w') = last_set atten_of (setters_of l) (_atten (self w)) /\
       _decimation (self w') = last_set decimation_of (setters_of l) (_decimation (self w)) /\
       _bandwidth (self w') = last_set bandwidth_of (setters_of l) (_bandwidth (self w)) /\
       _swfilter (self w') = last_set swfilter_of (setters_of l) (_swfilter (self w)) /\
       _purge (self w') = last_set purge_of (setters_of l) (_purge (self w)))).
Proof.
  apply wp_bind. eapply wp_mono; [apply sp_ctor_quiet|]. cbv beta.
  intros r1 w1 t1 ([h Hs1] & _ & _ & Hr1).
  destruct r1; try (split; [by rewrite Hs1|done]).
  eapply wp_mono; [apply sp_run_ops_run|]. cbv beta.
  intros r2 w2 t2 (Hinv2 & _ & _ & _ & HF2). rewrite Hs1 in Hinv2, HF2.
  split; [exact Hinv2|exact HF2].
Qed.

(** The life of a block. *)
Lemma sp_life_run l w :
  wp (life l) w (fun r w' t =>
    (lock_ok false t = true /\ (held_after false t = false \/ r = Aborted)) /\
    (exists live, heap_after (negb (is_null (_buffer (self w)))) t = Some live /\
       match r with
       | Done _ => live = false
       | Thrown => True
       | _ => live = negb (is_null (_buffer (self w')))
       end)).
Proof.
  unfold life. apply wp_bind. eapply wp_mono; [apply sp_ctor_quiet|]. cbv beta.
  intros r1 w1 t1 ([h Hs1] & Hq1 & Hh1 & Hr1).
  destruct (Hq1 false) as [Hl1 Hheld1].
  assert (_buffer (self w1) = _buffer (self w)) as Hb1 by (by rewrite Hs1).
  destruct r1.
  - apply wp_bind. eapply wp_mono; [apply sp_run_ops_run|]. cbv beta.
    intros r2 w2 t2 (_ & [Hl2 Hheld2] & (live2 & Hheap2 & Hlive2) & _ & _).
    rewrite Hb1 in Hheap2.
    destruct r2.
    + destruct Hheld2 as [Hheld2|?]; [|done].
      eapply wp_mono; [apply sp_dtor_run|]. cbv beta.
      intros r3 w3 t3 (-> & Hs3 & _ & _ & _ & s1 & s2 & ->).
      run_norm. rewrite (Hh1 _). cbn [mbind option_bind]. run_norm.
      rewrite Hl1, Hheld1, Hl2, Hheld2, Hheap2.
      cbn [mbind option_bind andb]. rewrite (Hlive2 ltac:(done)).
      split; [split; [|left]; by destruct (_buffer (self w2))|].
      exists false. by destruct (_buffer (self w2)).
    + run_norm. rewrite (Hh1 _). cbn [mbind option_bind].
      rewrite Hl1, Hheld1, Hl2, Hheap2. cbn [andb].
      split; [split; [done|by right]|]. exists live2. split; [done|]. by apply Hlive2.
    + run_norm. rewrite (Hh1 _). cbn [mbind option_bind].
      rewrite Hl1, Hheld1, Hl2, Hheap2. cbn [andb]. split; [done|]. by exists live2.
    + run_norm. rewrite (Hh1 _). cbn [mbind option_bind].
      rewrite Hl1, Hheld1, Hl2, Hheap2. cbn [andb]. split; [done|].
      exists live2. split; [done|]. by apply Hlive2.
  - rewrite (Hh1 _), Hl1, Hheld1, Hb1. split; [split; [done|by right]|]. by eexists.
  - by destruct Hr1.
  - by destruct Hr1.
Qed.

(** *** The constructor, call by call *)

Lemma sp_ctor_run w :
  wp (ctor_body) w (fun r w' t =>
    exists ro d1, vendor api spOpenDevice (device w) = (ro, d1) /\
      self w' = upd_handle (ret_int ro) (self w) /\ items0 w' = items0 w /\
      (status ro < ok ->
         r = Aborted /\ t = [EvCall spOpenDevice (status ro)] /\ device w' = d1 /\
         console w' =
           console w ++
           [[Str newline; Str "API Version: "; Str (GetAPIVersion api); Endl]] ++
           diagnostics (api:=api) t) /\
      (ok <= status ro ->
         exists rs, vendor api (spGetSerialNumber (ret_int ro)) d1 = (rs, device w') /\
           t = [EvCall spOpenDevice (status ro);
                EvCall (spGetSerialNumber (ret_int ro)) (status rs)] /\
           r = (if status rs <? ok then Aborted else Done tt) /\
           console w' =
             console w ++
             [[Str newline; Str "API Version: "; Str (GetAPIVersion api); Endl]] ++
             diagnostics (api:=api) t ++
             (if status rs <? ok then []
              else [[Str "Serial Number: "; Num (ret_int rs); Endl]]))).
Proof.
  unfold ctor_body. repeat wp_step.
  all: do 2 eexists; split; [eassumption|]; split; [reflexivity|]; split; [reflexivity|].
  all: split; intros ?; try lia.
  all: try (eexists; split; [eassumption|]; split; [reflexivity|]).
  all: unfold diagnostics; cbn [checks_of flat_map fst snd app];
    rewrite <- ?app_assoc, ?app_nil_r; cbn [app].
  all: repeat match goal with
       | H : status ?r < ok |- context [status ?r <? ok] =>
           rewrite (proj2 (Z.ltb_lt _ _) H)
       | H : ok <= status ?r |- context [status ?r <? ok] =>
           rewrite (proj2 (Z.ltb_ge _ _) H)
       end.
  all: rewrite ?app_nil_r; repeat split; reflexivity.
Qed.

(** *** Counts at the edge *)

Lemma sp_transfer_negative {A} (a : A) n w :
  n < 0 -> buffer_inv (self w) ->
  wp (work_allocate n ;; work_get_iq n ;; work_copy n ;; ret a) w (fun r w' t =>
    r = Thrown /\ calls_of t = [] /\ copies_of t = [] /\ items0 w' = items0 w).
Proof.
  destruct w as [[h c rl att dec bw p sf pc buf len] d items con].
  intros Hn Hinv.
  assert (forall l, buf = Some l -> Z.of_nat (length l) = len) as Hlen by apply Hinv.
  clear Hinv. unfold work_allocate, work_get_iq, work_copy.
  destruct (n =? len) eqn:Hnl; destruct buf as [l|]; try specialize (Hlen l eq_refl).
  all: repeat match goal with H : (_ =? _) = true |- _ => apply Z.eqb_eq in H end.
  all: try lia.
  all: repeat first [ wp_prim_keep; adapter_simpl | lia ].
  all: try lia; repeat split.
Qed.

Lemma sp_work_negative n w :
  n < 0 -> buffer_inv (self w) ->
  wp (work n) w (fun r w' t =>
    (r = Thrown \/ r = Aborted) /\
    calls_of t `prefix_of` config_calls (self w) /\
    copies_of t = [] /\ items0 w' = items0 w).
Proof.
  intros Hn Hinv. unfold work. apply wp_bind.
  eapply wp_mono; [apply sp_work_reconfigure_run|]. cbv beta.
  intros r1 w1 t1 (Hi1 & [m Hs1] & _ & _ & _ & Hc1 & Hr1).
  destruct r1; try done.
  - destruct Hr1 as (_ & Hcalls1 & _).
    eapply wp_mono; [apply (sp_transfer_negative n n w1)| ];
      [done|rewrite Hs1; exact Hinv|].
    cbv beta. intros r2 w2 t2 (-> & Hcalls2 & Hc2 & Hi2).
    run_norm. rewrite Hcalls1, Hcalls2, Hc1, Hc2, Hi2, app_nil_r.
    split; [by left|]. split; [|done].
    destruct (_param_changed (self w)); [done|by eexists].
  - destruct Hr1 as (_ & _ & Hp1 & _). split; [by right|]. done.
Qed.

Lemma sp_transfer_zero {A} (a : A) w :
  wp (work_allocate 0 ;; work_get_iq 0 ;; work_copy 0 ;; ret a) w (fun r w' t =>
    (r = Done a \/ r = Aborted) /\ copies_of t = [] /\ items0 w' = items0 w /\
    exists buf, calls_of t = [get_iq (self w) buf 0]).
Proof.
  destruct w as [[h c rl att dec bw p sf pc buf len] d items con].
  unfold work_allocate, work_get_iq, work_copy.
  change (Z.to_nat 0) with 0%nat. cbn [for_loop].
  destruct (0 =? len) eqn:Hnl; destruct buf as [l|].
  all: repeat wp_step.
  all: try lia.
  all: repeat split; auto; eexists; reflexivity.
Qed.

Lemma sp_work_zero w :
  wp (work 0) w (fun r w' t =>
    (r = Done 0 \/ r = Aborted) /\ copies_of t = [] /\ items0 w' = items0 w).
Proof.
  unfold work. apply wp_bind.
  eapply wp_mono; [apply sp_work_reconfigure_run|]. cbv beta.
  intros r1 w1 t1 (Hi1 & _ & _ & _ & _ & Hc1 & Hr1).
  destruct r1; try done.
  - eapply wp_mono; [apply (sp_transfer_zero 0 w1)|]. cbv beta.
    intros r2 w2 t2 (Hr2 & Hc2 & Hi2 & _).
    run_norm. rewrite Hc1, Hc2, Hi2. done.
  - split; [by right|]. done.
Qed.

(** *** [set_purge] before a transfer *)

Lemma sp_set_purge_then_work b n w :
  _param_changed (self w) = false ->
  wp (set_purge b ;; work n) w (fun r w' t =>
    (exists buf, calls_of t `prefix_of`
       [spGetIQ (_handle (self w)) buf n (of_bool b)]) /\
    match r with
    | Done _ =>
        _param_changed (self w') = false /\
        exists buf, calls_of t =
          [spGetIQ (_handle (self w)) buf n (of_bool b)]
    | _ => True
    end).
Proof.
  intros Hpc. apply wp_bind.
  eapply wp_mono; [apply (sp_run_setter_spec (SetPurge b))|]. cbv beta.
  intros r1 w1 t1 (-> & _ & _ & _ & HF & Hp & (Hh & _ & _) & ->).
  assert (_purge (self w1) = of_bool b) as Hpurge
    by (by destruct HF as (Hf0 & Hf1 & Hf2 & Hf3 & Hf4 & Hf5 & Hf6)).
  cbn [is_set_purge negb] in Hp. rewrite orb_false_r, Hpc in Hp.
  eapply wp_mono; [apply sp_work_run|]. cbv beta.
  intros r2 w2 t2 (_ & _ & _ & (Hlc & [buf Hul] & Hcalls & _) & _ & Hr2).
  rewrite Hp in Hlc, Hr2. apply prefix_nil_inv in Hlc.
  rewrite Hlc in Hcalls. cbn [app] in Hcalls.
  rewrite Hh, Hpurge in Hul, Hr2.
  replace (of_bool (truth (of_bool b))) with (of_bool b) in Hul, Hr2
    by (by destruct b).
  cbn [written_by fmap list_fmap app calls_of].
  rewrite ?calls_of_app, Hcalls. cbn [calls_of app]. rewrite ?app_nil_r.
  split; [by exists buf|].
  destruct r2; try done.
  destruct Hr2 as (_ & Hm & _ & [buf' Hul'] & _). split; [done|]. by exists buf'.
Qed.
End Facts.
End SpRunFacts.

(** * Whole runs of vsg_series *)

Module VsgRunFacts.
Import Vsg VsgRun VsgFacts.

Section Facts.
Context {api : VendorApi Call}.
Variable ok : Z.
Implicit Types w : World vsg_series_impl api.

Ltac adapter_simpl :=
  cbv beta delta [upd_handle upd_center upd_samplerate upd_level upd_ioffset upd_qoffset
                  upd_param_changed upd_buffer upd_len];
  cbn [self device items0 console _handle _center _samplerate _level _ioffset _qoffset
       _param_changed _buffer _len
       negb orb andb is_null default from_option id fmap option_fmap option_map];
  use_tests;
  cbn [negb orb andb].

Ltac wp_step :=
  first [ apply vsg_wp_ERROR_CHECK; intros ? | wp_prim_keep ];
  adapter_simpl.

Ltac split_last :=
  lazymatch goal with
  | |- exists t0 c st, ?t = t0 ++ [EvCall c st] /\ _ =>
      exists (removelast t); cbn [removelast]; do 2 eexists; split; [reflexivity|]
  end.

Ltac run_solve :=
  run_norm;
  cbn [lock_ok guarded locked_calls unlocked_calls unguarded heap_after held_after
       calls_of statuses_of copies_of allocs_of app negb andb orb mbind option_bind];
  run_norm;
  repeat match goal with
  | |- _ /\ _ => split
  | |- forall _, _ => intro
  | |- exists t0 c st, _ = t0 ++ [EvCall c st] /\ _ => split_last
  end;
  try done;
  try solve [eexists; reflexivity];
  try solve [status_tests; unfold fatal_free; cbn;
             repeat match goal with H : (_ <=? _) = _ |- _ => rewrite ?H; clear H end;
             done].

Lemma vsg_check_output_fatal (cname : string) st :
  st < ok ->
  check_output (api:=api) ok cname st =
    [[Str "** VSG "; Str "Error: ("; Str cname; Str ")";
      Str (GetErrorString api st); Str " **"; Str newline]].
Proof.
  intros H. unfold check_output.
  destruct (Z.eqb_spec st ok); [lia|]. destruct (Z.gtb_spec st ok); [lia|done].
Qed.

Lemma vsg_last_console_fatal (cname : string) st (con : list (list Chunk)) :
  st < ok ->
  last (con ++ check_output (api:=api) ok cname st) =
    Some [Str "** VSG "; Str "Error: ("; Str cname; Str ")";
          Str (GetErrorString api st); Str " **"; Str newline].
Proof. intros H. rewrite vsg_check_output_fatal by done. apply last_snoc. Qed.

Lemma vsg_diagnostics_app (t1 t2 : list (Event Field Call)) :
  diagnostics (api:=api) ok (t1 ++ t2) =
  diagnostics (api:=api) ok t1 ++ diagnostics (api:=api) ok t2.
Proof. unfold diagnostics. by rewrite checks_of_app, flat_map_app. Qed.

Ltac device_solve :=
  eexists; split; [run_calls_solve|]; split; [reflexivity|];
  unfold diagnostics; cbn [checks_of flat_map last fst snd app];
  rewrite <- ?app_assoc, ?app_nil_r; cbn [app]; reflexivity.

(** *** [configure] *)

Lemma vsg_configure_run w :
  wp (configure ok) w (fun r w' t =>
    self w' = self w /\ items0 w' = items0 w /\
    (lock_ok false t = true /\ guarded false t = true /\
     locked_calls false t = calls_of t /\ unlocked_calls false t = [] /\
     unguarded false t = []) /\
    match r with
    | Done _ =>
        calls_of t = config_calls (self w) /\ fatal_free ok t = true /\
        held_after false t = false
    | Aborted =>
        calls_of t `prefix_of` config_calls (self w) /\ held_after false t = true /\
        exists t0 c st, t = t0 ++ [EvCall c st] /\ st < ok /\ fatal_free ok t0 = true /\
          last (console w') =
            Some [Str "** VSG "; Str "Error: ("; Str (call_name c); Str ")";
                  Str (GetErrorString api st); Str " **"; Str newline]
    | _ => False
    end).
Proof.
  unfold configure, config_calls.
  repeat wp_step.
  all: run_solve.
  all: try (apply vsg_last_console_fatal; done).
Qed.

Lemma vsg_configure_device w :
  wp (configure ok) w (fun r w' t =>
    exists rs, run_calls api (calls_of t) (device w) = (rs, device w') /\
      statuses_of t = status <$> rs /\
      console w' = console w ++ diagnostics (api:=api) ok t ++
        match r, rs with
        | Done _, [_; _; _; _; aFreq; aSamp; aLeve; aOff] =>
            [[Str newline; Str "Frequency: "; Dbl (ret_dbl aFreq); Endl];
             [Str "SampleRate: "; Dbl (ret_dbl aSamp); Endl];
             [Str "Level: "; Dbl (ret_dbl aLeve); Endl];
             [Str "I Offset: "; Num (ret_int aOff); Endl];
             [Str "Q Offset: "; Num (ret_int2 aOff); Endl]]
        | _, _ => []
        end).
Proof. unfold configure. repeat wp_step. all: device_solve. Qed.

(** *** [work] *)

Lemma vsg_work_run n w :
  wp (work ok n) w (fun r w' t =>
    (exists m, self w' = upd_param_changed m (self w)) /\
    (lock_ok false t = true /\ (held_after false t = false \/ r = Aborted)) /\
    (locked_calls false t `prefix_of`
       (if _param_changed (self w) then config_calls (self w) else []) /\
     unlocked_calls false t `prefix_of`
       [vsgSubmitIQ (_handle (self w)) (items0 w) n; vsgFlush (_handle (self w))] /\
     calls_of t = locked_calls false t ++ unlocked_calls false t /\
     unguarded false t `prefix_of`
       EvLoad F_param_changed ::
       (if _param_changed (self w) then [EvStore F_param_changed] else [])) /\
    match r with
    | Done x =>
        x = n /\ _param_changed (self w') = false /\
        locked_calls false t =
          (if _param_changed (self w) then config_calls (self w) else []) /\
        unlocked_calls false t =
          [vsgSubmitIQ (_handle (self w)) (items0 w) n; vsgFlush (_handle (self w))] /\
        unguarded false t =
          EvLoad F_param_changed ::
          (if _param_changed (self w) then [EvStore F_param_changed] else [])
    | Aborted =>
        _param_changed (self w) = true /\ unlocked_calls false t = [] /\
        exists t0 c st, t = t0 ++ [EvCall c st] /\ st < ok /\ fatal_free ok t0 = true /\
          last (console w') =
            Some [Str "** VSG "; Str "Error: ("; Str (call_name c); Str ")";
                  Str (GetErrorString api st); Str " **"; Str newline]
    | _ => False
    end).
Proof.
  destruct w as [[h c sr lv io qo pc buf len] d items con].
  destruct pc.
  all: unfold work, work_reconfigure, work_submit, configure, config_calls.
  all: repeat wp_step.
  all: run_solve; auto.
  all: try (apply vsg_last_console_fatal; done).
  all: try solve [exists []; reflexivity].
Qed.

(** *** The constructor and the destructor *)

Lemma vsg_ctor_quiet w :
  wp (ctor_body ok) w (fun r w' t =>
    (exists h, self w' = upd_handle h (self w)) /\
    (forall held, lock_ok held t = true /\ held_after held t = held) /\
    (r = Done tt \/ r = Aborted)).
Proof. unfold ctor_body. repeat wp_step. all: run_solve; auto. Qed.

Lemma vsg_dtor_run w :
  wp dtor w (fun r w' t =>
    r = Done tt /\ self w' = self w /\ items0 w' = items0 w /\ console w' = console w /\
    (exists rs, run_calls api (calls_of t) (device w) = (rs, device w') /\
       statuses_of t = status <$> rs) /\
    exists s1 s2,
      t = [EvCall (vsgAbort (_handle (self w))) s1;
           EvCall (vsgCloseDevice (_handle (self w))) s2] ++
          (if is_null (_buffer (self w)) then [] else [EvDelete])).
Proof.
  destruct w as [[h c sr lv io qo pc buf len] d items con].
  unfold dtor. destruct buf as [l|].
  all: repeat wp_step.
  all: repeat split; try done.
  all: try (eexists; split; [run_calls_solve|reflexivity]).
  all: do 2 eexists; reflexivity.
Qed.

Lemma vsg_ctor_run w :
  wp (ctor_body ok) w (fun r w' t =>
    exists ro d1, vendor api vsgOpenDevice (device w) = (ro, d1) /\
      self w' = upd_handle (ret_int ro) (self w) /\ items0 w' = items0 w /\
      (status ro < ok ->
         r = Aborted /\ t = [EvCall vsgOpenDevice (status ro)] /\ device w' = d1 /\
         console w' =
           console w ++
           [[Str newline; Str "API Version: "; Str (GetAPIVersion api); Endl]] ++
           diagnostics (api:=api) ok t) /\
      (ok <= status ro ->
         exists rs, vendor api (vsgGetSerialNumber (ret_int ro)) d1 = (rs, device w') /\
           t = [EvCall vsgOpenDevice (status ro);
                EvCall (vsgGetSerialNumber (ret_int ro)) (status rs)] /\
           r = (if status rs <? ok then Aborted else Done tt) /\
           console w' =
             console w ++
             [[Str newline; Str "API Version: "; Str (GetAPIVersion api); Endl]] ++
             diagnostics (api:=api) ok t ++
             (if status rs <? ok then []
              else [[Str "Serial Number: "; Num (ret_int rs); Endl]]))).
Proof.
  unfold ctor_body. repeat wp_step.
  all: do 2 eexists; split; [eassumption|]; split; [reflexivity|]; split; [reflexivity|].
  all: split; intros ?; try lia.
  all: try (eexists; split; [eassumption|]; split; [reflexivity|]).
  all: unfold diagnostics; cbn [checks_of flat_map fst snd app];
    rewrite <- ?app_assoc, ?app_nil_r; cbn [app].
  all: repeat match goal with
       | H : status ?r < ok |- context [status ?r <? ok] =>
           rewrite (proj2 (Z.ltb_lt _ _) H)
       | H : ok <= status ?r |- context [status ?r <? ok] =>
           rewrite (proj2 (Z.ltb_ge _ _) H)
       end.
  all: rewrite ?app_nil_r; repeat split; reflexivity.
Qed.

(** *** The offsets on their way to the device *)

Lemma vsg_offsets_pushed (s : Setter) n w :
  wp (run_setter s ;; work ok n) w (fun r w' t =>
    match r with
    | Done _ =>
        calls_of t !! 3%nat =
          Some (vsgSetIQOffset (_handle (self w))
                  (int16_t (default (_ioffset (self w)) (ioffset_of s)))
                  (int16_t (default (_qoffset (self w)) (qoffset_of s))))
    | _ => True
    end).
Proof.
  apply wp_bind.
  eapply wp_mono; [apply (vsg_run_setter_spec s)|]. cbv beta.
  intros r1 w1 t1 (-> & _ & _ & _ & HF & Hp & (Hh & _ & _) & ->).
  destruct HF as (_ & _ & _ & Hio & Hqo).
  eapply wp_mono; [apply vsg_work_run|]. cbv beta.
  intros r2 w2 t2 (_ & _ & (_ & _ & Hcalls & _) & Hr2).
  destruct r2; try done.
  destruct Hr2 as (_ & _ & Hlc & _). rewrite Hp in Hlc.
  rewrite calls_of_app, Hcalls, Hlc.
  replace (calls_of (EvLock :: (EvStore <$> written_by s) ++ [EvUnlock])) with (@nil Call)
    by (by destruct s).
  cbn [app config_calls]. rewrite Hh, Hio, Hqo. reflexivity.
Qed.

(** *** Sequences of operations *)

Lemma vsg_setters_of_app l1 l2 :
  setters_of (l1 ++ l2) = setters_of l1 ++ setters_of l2.
Proof. apply omap_app. Qed.

Lemma vsg_run_op_run o w :
  wp (run_op ok o) w (fun r w' t =>
    (lock_ok false t = true /\ (held_after false t = false \/ r = Aborted)) /\
    _handle (self w') = _handle (self w) /\
    (r = Done tt \/ r = Aborted) /\
    (let l := [o] in
     _center (self w') = last_set center_of (setters_of l) (_center (self w)) /\
     _samplerate (self w') = last_set samplerate_of (setters_of l) (_samplerate (self w)) /\
     _level (self w') = last_set level_of (setters_of l) (_level (self w)) /\
     _ioffset (self w') = last_set ioffset_of (setters_of l) (_ioffset (self w)) /\
     _qoffset (self w') = last_set qoffset_of (setters_of l) (_qoffset (self w)))).
Proof.
  destruct o as [s|n]; cbn [run_op].
  - eapply wp_mono; [apply vsg_run_setter_spec|]. cbv beta.
    intros r w' t (-> & _ & _ & _ & HF & _ & (Hh & Hb & Hl) & ->).
    split; [split; [|left]; destruct s; reflexivity|].
    split; [done|]. split; [by left|]. cbv zeta. change (setters_of [OpSet s]) with [s].
    rewrite !last_set_cons, !last_set_nil. exact HF.
  - apply wp_bind. eapply wp_mono; [apply vsg_work_run|]. cbv beta.
    intros r w' t ((m & Hs) & Hlock & _ & Hr).
    assert (_handle (self w') = _handle (self w)) as Hh by (by rewrite Hs).
    assert (let l := [OpWork n] in
     _center (self w') = last_set center_of (setters_of l) (_center (self w)) /\
     _samplerate (self w') = last_set samplerate_of (setters_of l) (_samplerate (self w)) /\
     _level (self w') = last_set level_of (setters_of l) (_level (self w)) /\
     _ioffset (self w') = last_set ioffset_of (setters_of l) (_ioffset (self w)) /\
     _qoffset (self w') = last_set qoffset_of (setters_of l) (_qoffset (self w)))
      as HF by (by rewrite Hs).
    destruct r; [apply wp_ret; rewrite app_nil_r| | |]; try done.
    all: split; [destruct Hlock as [? [?|?]]; split; auto; by right|].
    all: split; [done|]. all: split; [auto|exact HF].
Qed.

Lemma vsg_run_ops_run l w :
  wp (run_ops ok l) w (fun r w' t =>
    (lock_ok false t = true /\ (held_after false t = false \/ r = Aborted)) /\
    _handle (self w') = _handle (self w) /\
    (r = Done tt \/ r = Aborted) /\
    (r = Done tt ->
     _center (self w') = last_set center_of (setters_of l) (_center (self w)) /\
     _samplerate (self w') = last_set samplerate_of (setters_of l) (_samplerate (self w)) /\
     _level (self w') = last_set level_of (setters_of l) (_level (self w)) /\
     _ioffset (self w') = last_set ioffset_of (setters_of l) (_ioffset (self w)) /\
     _qoffset (self w') = last_set qoffset_of (setters_of l) (_qoffset (self w)))).
Proof.
  revert w. induction l as [|o l IH]; intros w.
  { apply wp_ret. split; [split; [done|by left]|]. split; [done|]. split; [by left|].
    intros _. repeat split. }
  cbn [run_ops]. apply wp_bind.
  eapply wp_mono; [apply vsg_run_op_run|]. cbv beta zeta.
  intros r1 w1 t1 ([Hl1 Hheld1] & Hh1 & Hr1 & HF1).
  destruct r1.
  - destruct Hheld1 as [Hheld1|?]; [|done].
    eapply wp_mono; [apply IH|]. cbv beta.
    intros r2 w2 t2 ([Hl2 Hheld2] & Hh2 & Hr2 & HF2).
    run_norm. rewrite Hl1, Hheld1, Hl2. cbn [andb].
    split; [done|]. split; [congruence|]. split; [done|].
    intros Hr. specialize (HF2 Hr).
    change (o :: l) with ([o] ++ l). rewrite vsg_setters_of_app, !last_set_app.
    destruct HF1 as (Hf0 & Hf1 & Hf2 & Hf3 & Hf4).
    destruct HF2 as (Hg0 & Hg1 & Hg2 & Hg3 & Hg4).
    repeat split; congruence.
  - split; [done|]. split; [done|]. split; [by right|]. done.
  - by destruct Hr1.
  - by destruct Hr1.
Qed.

(** The life of a block. *)
Lemma vsg_life_run l w :
  wp (life ok l) w (fun r w' t =>
    lock_ok false t = true /\ (held_after false t = false \/ r = Aborted)).
Proof.
  unfold life. apply wp_bind. eapply wp_mono; [apply vsg_ctor_quiet|]. cbv beta.
  intros r1 w1 t1 ([h Hs1] & Hq1 & Hr1).
  destruct (Hq1 false) as [Hl1 Hheld1].
  destruct r1.
  - apply wp_bind. eapply wp_mono; [apply vsg_run_ops_run|]. cbv beta.
    intros r2 w2 t2 ([Hl2 Hheld2] & _ & Hr2 & _).
    destruct r2.
    + destruct Hheld2 as [Hheld2|?]; [|done].
      eapply wp_mono; [apply vsg_dtor_run|]. cbv beta.
      intros r3 w3 t3 (-> & Hs3 & _ & _ & _ & s1 & s2 & ->).
      run_norm. rewrite Hl1, Hheld1, Hl2, Hheld2.
      split; [|left]; by destruct (_buffer (self w2)).
    + run_norm. rewrite Hl1, Hheld1, Hl2. split; [done|by right].
    + by destruct Hr2.
    + by destruct Hr2.
  - rewrite Hl1. split; [done|by right].
  - by destruct Hr1.
  - by destruct Hr1.
Qed.
End Facts.
End VsgRunFacts.

(** * bb_series: one setter call while [work] runs *)

Module BbRaceFacts.
Import Bb BbRun BbFacts BbRunFacts.

Section Facts.
Context {api : VendorApi Call}.
Variable ok : Z.
Implicit Types w : World bb_series_impl api.

(** The steps of [work], one by one. *)
Lemma bb_step_test n w :
  wp (hook_step ok n AtTest) w (fun r w' t =>
    r = Done (if _param_changed (self w) then AtConfigure else AtTransfer) /\
    self w' = self w /\ calls_of t = []).
Proof. cbn [hook_step]. repeat wp_prim. done. Qed.

Lemma bb_step_configure n w :
  wp (hook_step ok n AtConfigure) w (fun r w' t =>
    self w' = self w /\
    match r with
    | Done pc => pc = AtClear /\ calls_of t = config_calls (self w)
    | _ => True
    end).
Proof.
  cbn [hook_step]. apply wp_bind.
  eapply wp_mono; [apply bb_configure_run|]. cbv beta.
  intros r w' t (Hs & _ & _ & _ & Hr). destruct r; try done.
  apply wp_ret. rewrite app_nil_r. by destruct Hr as (? & _).
Qed.

Lemma bb_step_clear n w :
  wp (hook_step ok n AtClear) w (fun r w' t =>
    r = Done AtTransfer /\ self w' = upd_param_changed false (self w) /\ calls_of t = []).
Proof. cbn [hook_step]. repeat wp_prim. done. Qed.

Lemma bb_step_transfer n w :
  wp (hook_step ok n AtTransfer) w (fun r w' t =>
    (exists b l, self w' = upd_len l (upd_buffer b (self w))) /\
    match r with
    | Done pc =>
        pc = AtReturn /\
        exists buf, calls_of t =
          [bbGetIQUnpacked (_handle (self w)) buf n
             (if _purge (self w) then BB_TRUE else BB_FALSE)]
    | _ => True
    end).
Proof.
  cbn [hook_step].
  eapply wp_mono; [apply (bb_transfer_run ok AtReturn n w)|]. cbv beta.
  intros r w' t (Hs & _ & _ & _ & _ & Hr). split; [done|].
  destruct r; try done. by destruct Hr as (? & ? & _).
Qed.

Lemma bb_step_return n w :
  wp (hook_step ok n AtReturn) w (fun r w' t =>
    r = Done AtReturn /\ self w' = self w /\ calls_of t = []).
Proof. cbn [hook_step]. by apply wp_ret. Qed.

Lemma bb_step_control s w :
  wp (run_setter s) w (fun r w' t =>
    r = Done tt /\ self w' = after_setters [s] (self w) /\ calls_of t = []).
Proof.
  destruct s, w as [[? ? ? ? ? ? [] ? ?] ? ? ?]; unfold wp; cbn; repeat split.
Qed.

Lemma bb_world_with_self w (o : bb_series_impl) :
  self w = o ->
  exists d it c, w = {| self := o; device := d; items0 := it; console := c |}.
Proof. intros <-. exists (device w), (items0 w), (console w). by destruct w. Qed.

(** One turn of a schedule: the world after it is the world before it with
    the object changed as the step says. *)
Ltac settle Hs :=
  apply bb_world_with_self in Hs; destruct Hs as (? & ? & ? & ->); cbn [self].

Ltac turn :=
  cbn [interleave]; apply wp_bind;
  let Hs := fresh "Hs" in
  let Hc := fresh "Hc" in
  lazymatch goal with
  | |- wp (run_setter _) _ _ =>
      eapply wp_mono; [apply bb_step_control|]; cbv beta;
      intros ? ? ? (-> & Hs & Hc)
  | |- wp (hook_step _ _ AtTest) _ _ =>
      eapply wp_mono; [apply bb_step_test|]; cbv beta;
      intros ? ? ? (-> & Hs & Hc)
  | |- wp (hook_step _ _ AtConfigure) _ _ =>
      eapply wp_mono; [apply bb_step_configure|]; cbv beta;
      intros [?| | |] ? ? (Hs & Hc); [destruct Hc as [-> Hc]|done..]
  | |- wp (hook_step _ _ AtClear) _ _ =>
      eapply wp_mono; [apply bb_step_clear|]; cbv beta;
      intros ? ? ? (-> & Hs & Hc)
  | |- wp (hook_step _ _ AtTransfer) _ _ =>
      eapply wp_mono; [apply bb_step_transfer|]; cbv beta;
      intros [?| | |] ? ? ((? & ? & Hs) & Hc); [destruct Hc as (-> & ? & Hc)|done..]
  | |- wp (hook_step _ _ AtReturn) _ _ =>
      eapply wp_mono; [apply bb_step_return|]; cbv beta;
      intros ? ? ? (-> & Hs & Hc)
  end;
  cbn [self] in Hs, Hc; settle Hs.

Lemma bb_one_control_run n s i w :
  is_set_purge s = false -> (i <= 4)%nat ->
  wp (interleave ok n (one_control i s) AtTest) w (fun r w' t =>
    match r with
    | Done pc =>
        pc = AtReturn /\
        (_center (self w') = default (_center (self w)) (center_of s) /\
         _reflevel (self w') = default (_reflevel (self w)) (reflevel_of s) /\
         _decimation (self w') = default (_decimation (self w)) (decimation_of s) /\
         _bandwidth (self w') = default (_bandwidth (self w)) (bandwidth_of s)) /\
        if _param_changed (self w) && (i =? 2)%nat
        then _param_changed (self w') = false /\
             config_calls (self w) `prefix_of` calls_of t
        else _param_changed (self w') = true \/
             config_calls (self w') `prefix_of` calls_of t
    | _ => True
    end).
Proof.
  intros Hpurge Hi.
  destruct (_param_changed (self w)) eqn:Hm.
  all: destruct i as [|[|[|[|[|i]]]]]; try lia.
  all: unfold one_control; cbn [replicate app Nat.sub Nat.eqb andb].
  all: repeat (turn;
               cbv beta delta [upd_param_changed upd_buffer upd_len];
               cbn [after_setters _param_changed existsb];
               rewrite ?Hpurge, ?Hm; cbn [negb orb]).
  all: cbn [interleave]; apply wp_ret.
  all: rewrite ?calls_of_app;
    repeat match goal with H : calls_of _ = _ |- _ => rewrite H; clear H end.
  all: cbv beta delta [config_calls];
    cbn [self app after_setters _handle _center _reflevel _decimation _bandwidth _purge
         _param_changed _buffer _len];
    rewrite ?app_nil_r, ?last_set_cons, ?last_set_nil;
    cbn [existsb]; rewrite ?Hpurge; cbn [negb orb].
  all: split; [reflexivity|]; split; [repeat split|].
  all: first [ left; reflexivity
             | right; eexists; reflexivity
             | split; [reflexivity|eexists; reflexivity] ].
Qed.
End Facts.
End BbRaceFacts.

(** * The claims of the specification *)

(** C1 (as amended).  In each of the four adapters a setter call runs to its
    end, gives its own field the value passed and leaves every other pending
    field alone; every setter except [set_purge] also sets the marker
    [_param_changed], while [set_purge] leaves the marker as it was; the
    members written are exactly those of [written_by], and every write
    happens between the taking and the release of the lock. *)
Theorem C1_setters_update_under_lock :
  (forall (api : VendorApi Bb.Call) (s : Bb.Setter) (w : World Bb.bb_series_impl api),
     wp (Bb.run_setter s) w (fun r w' t =>
       r = Done tt /\
       (Bb._center (self w') = default (Bb._center (self w)) (Bb.center_of s) /\
        Bb._reflevel (self w') = default (Bb._reflevel (self w)) (Bb.reflevel_of s) /\
        Bb._decimation (self w') = default (Bb._decimation (self w)) (Bb.decimation_of s) /\
        Bb._bandwidth (self w') = default (Bb._bandwidth (self w)) (Bb.bandwidth_of s) /\
        Bb._purge (self w') = default (Bb._purge (self w)) (Bb.purge_of s)) /\
       Bb._param_changed (self w') =
         (if Bb.is_set_purge s then Bb._param_changed (self w) else true) /\
       stores_of t = Bb.written_by s /\
       guarded false t = true /\ held_after false t = false)) /\
  (forall (api : VendorApi Sm.Call) (s : Sm.Setter) (w : World Sm.sm_series_impl api),
     wp (Sm.run_setter s) w (fun r w' t =>
       r = Done tt /\
       (Sm._center (self w') = default (Sm._center (self w)) (Sm.center_of s) /\
        Sm._reflevel (self w') = default (Sm._reflevel (self w)) (Sm.reflevel_of s) /\
        Sm._atten (self w') = default (Sm._atten (self w)) (Sm.atten_of s) /\
        Sm._decimation (self w') = default (Sm._decimation (self w)) (Sm.decimation_of s) /\
        Sm._bandwidth (self w') = default (Sm._bandwidth (self w)) (Sm.bandwidth_of s) /\
        Sm._swfilter (self w') = default (Sm._swfilter (self w)) (Sm.swfilter_of s) /\
        Sm._purge (self w') = default (Sm._purge (self w)) (Sm.purge_of s)) /\
       Sm._param_changed (self w') =
         (if Sm.is_set_purge s then Sm._param_changed (self w) else true) /\
       stores_of t = Sm.written_by s /\
       guarded false t = true /\ held_after false t = false)) /\
  (forall (api : VendorApi Sp.Call) (s : Sp.Setter) (w : World Sp.sp_series_impl api),
     wp (Sp.run_setter s) w (fun r w' t =>
       r = Done tt /\
       (Sp._center (self w') = default (Sp._center (self w)) (Sp.center_of s) /\
        Sp._reflevel (self w') = default (Sp._reflevel (self w)) (Sp.reflevel_of s) /\
        Sp._atten (self w') = default (Sp._atten (self w)) (Sp.atten_of s) /\
        Sp._decimation (self w') = default (Sp._decimation (self w)) (Sp.decimation_of s) /\
        Sp._bandwidth (self w') = default (Sp._bandwidth (self w)) (Sp.bandwidth_of s) /\
        Sp._swfilter (self w') = default (Sp._swfilter (self w)) (Sp.swfilter_of s) /\
        Sp._purge (self w') = default (Sp._purge (self w)) (Sp.purge_of s)) /\
       Sp._param_changed (self w') =
         (if Sp.is_set_purge s then Sp._param_changed (self w) else true) /\
       stores_of t = Sp.written_by s /\
       guarded false t = true /\ held_after false t = false)) /\
  (forall (api : VendorApi Vsg.Call) (s : Vsg.Setter) (w : World Vsg.vsg_series_impl api),
     wp (Vsg.run_setter s) w (fun r w' t =>
       r = Done tt /\
       (Vsg._center (self w') = default (Vsg._center (self w)) (Vsg.center_of s) /\
        Vsg._samplerate (self w') =
          default (Vsg._samplerate (self w)) (Vsg.samplerate_of s) /\
        Vsg._level (self w') = default (Vsg._level (self w)) (Vsg.level_of s) /\
        Vsg._ioffset (self w') = default (Vsg._ioffset (self w)) (Vsg.ioffset_of s) /\
        Vsg._qoffset (self w') = default (Vsg._qoffset (self w)) (Vsg.qoffset_of s)) /\
       Vsg._param_changed (self w') = true /\
       stores_of t = Vsg.written_by s /\
       guarded false t = true /\ held_after false t = false)).
Proof.
  split; [|split; [|split]]; intros api s w.
  - eapply wp_mono; [apply BbFacts.bb_run_setter_spec|]. cbv beta.
    intros r w' t (-> & _ & _ & _ & HF & Hp & _ & ->).
    split; [done|]. split; [exact HF|].
    rewrite Hp. destruct s; cbn; rewrite ?orb_true_r, ?orb_false_r; done.
  - eapply wp_mono; [apply SmFacts.sm_run_setter_spec|]. cbv beta.
    intros r w' t (-> & _ & _ & _ & HF & Hp & _ & ->).
    split; [done|]. split; [exact HF|].
    rewrite Hp. destruct s; cbn; rewrite ?orb_true_r, ?orb_false_r; done.
  - eapply wp_mono; [apply SpFacts.sp_run_setter_spec|]. cbv beta.
    intros r w' t (-> & _ & _ & _ & HF & Hp & _ & ->).
    split; [done|]. split; [exact HF|].
    rewrite Hp. destruct s; cbn; rewrite ?orb_true_r, ?orb_false_r; done.
  - eapply wp_mono; [apply VsgFacts.vsg_run_setter_spec|]. cbv beta.
    intros r w' t (-> & _ & _ & _ & HF & Hp & _ & ->).
    split; [done|]. split; [exact HF|].
    rewrite Hp. destruct s; cbn; done.
Qed.

(** C1, as stated, fails: on a bb_series block whose marker is clear,
    [set_purge(true)] stores the flag under the lock and returns with the
    marker still clear. *)
Lemma C1_set_purge_leaves_marker_clear :
  wp (Bb.set_purge true) (Examples.bb_block false None 0 [])
    (fun r w' t =>
       r = Done tt /\ Bb._purge (self w') = true /\
       t = [EvLock; EvStore Bb.F_purge; EvUnlock] /\
       Bb._param_changed (self w') = false).
Proof. unfold wp. vm_compute. repeat split. Qed.

(** C3.  [ERROR_CHECK] of each adapter, on every status and in every world:
    a status equal to the success value prints nothing and returns; a greater
    one prints a warning line and returns; a smaller one prints an error line
    and aborts.  So it aborts exactly when the status is below the success
    value. *)
Theorem C3_error_check_three_cases :
  (forall (api : VendorApi Bb.Call) (ok st : Z) (w : World Bb.bb_series_impl api),
     Bb.ERROR_CHECK ok st w =
       match st ?= ok with
       | Eq => (Done tt, w, [])
       | Gt => (Done tt,
                {| self := self w; device := device w; items0 := items0 w;
                   console := console w ++
                     [[Str "** "; Str "Warning: "; Str (GetErrorString api st);
                       Str " **"; Str newline]] |}, [])
       | Lt => (Aborted,
                {| self := self w; device := device w; items0 := items0 w;
                   console := console w ++
                     [[Str "** "; Str "Error: "; Str (GetErrorString api st);
                       Str " **"; Str newline]] |}, [])
       end /\
     (fst (fst (Bb.ERROR_CHECK ok st w)) = Aborted <-> st < ok)) /\
  (forall (api : VendorApi Sm.Call) (ok : Z) (cname : string) (st : Z)
          (w : World Sm.sm_series_impl api),
     Sm.ERROR_CHECK ok cname st w =
       match st ?= ok with
       | Eq => (Done tt, w, [])
       | Gt => (Done tt,
                {| self := self w; device := device w; items0 := items0 w;
                   console := console w ++
                     [[Str "** "; Str "Warning: ("; Str cname; Str ")";
                       Str (GetErrorString api st); Str " **"; Str newline]] |}, [])
       | Lt => (Aborted,
                {| self := self w; device := device w; items0 := items0 w;
                   console := console w ++
                     [[Str "** "; Str "Error: ("; Str cname; Str ")";
                       Str (GetErrorString api st); Str " **"; Str newline]] |}, [])
       end /\
     (fst (fst (Sm.ERROR_CHECK ok cname st w)) = Aborted <-> st < ok)) /\
  (forall (api : VendorApi Sp.Call) (st : Z) (w : World Sp.sp_series_impl api),
     Sp.ERROR_CHECK st w =
       match st ?= Sp.spNoError with
       | Eq => (Done tt, w, [])
       | Gt => (Done tt,
                {| self := self w; device := device w; items0 := items0 w;
                   console := console w ++
                     [[Str "** "; Str "Warning: "; Str (GetErrorString api st);
                       Str " **"; Str newline]] |}, [])
       | Lt => (Aborted,
                {| self := self w; device := device w; items0 := items0 w;
                   console := console w ++
                     [[Str "** "; Str "Error: "; Str (GetErrorString api st);
                       Str " **"; Str newline]] |}, [])
       end /\
     (fst (fst (Sp.ERROR_CHECK st w)) = Aborted <-> st < Sp.spNoError)) /\
  (forall (api : VendorApi Vsg.Call) (ok : Z) (cname : string) (st : Z)
          (w : World Vsg.vsg_series_impl api),
     Vsg.ERROR_CHECK ok cname st w =
       match st ?= ok with
       | Eq => (Done tt, w, [])
       | Gt => (Done tt,
                {| self := self w; device := device w; items0 := items0 w;
                   console := console w ++
                     [[Str "** VSG "; Str "Warning: ("; Str cname; Str ")";
                       Str (GetErrorString api st); Str " **"; Str newline]] |}, [])
       | Lt => (Aborted,
                {| self := self w; device := device w; items0 := items0 w;
                   console := console w ++
                     [[Str "** VSG "; Str "Error: ("; Str cname; Str ")";
                       Str (GetErrorString api st); Str " **"; Str newline]] |}, [])
       end /\
     (fst (fst (Vsg.ERROR_CHECK ok cname st w)) = Aborted <-> st < ok)).
Proof.
  split; [|split; [|split]]; intros.
  - split; [apply BbFacts.bb_ERROR_CHECK_cases|]. rewrite BbFacts.bb_ERROR_CHECK_cases.
    destruct (Z.compare_spec st ok); cbn; split; (done || lia).
  - split; [apply SmFacts.sm_ERROR_CHECK_cases|]. rewrite SmFacts.sm_ERROR_CHECK_cases.
    destruct (Z.compare_spec st ok); cbn; split; (done || lia).
  - split; [apply SpFacts.sp_ERROR_CHECK_cases|]. rewrite SpFacts.sp_ERROR_CHECK_cases.
    destruct (Z.compare_spec st Sp.spNoError); cbn; split; (done || lia).
  - split; [apply VsgFacts.vsg_ERROR_CHECK_cases|]. rewrite VsgFacts.vsg_ERROR_CHECK_cases.
    destruct (Z.compare_spec st ok); cbn; split; (done || lia).
Qed.

(** C4.  For each receiver (bb, sm, sp), on a hook invocation with a
    non-negative count, room for that many samples in the runtime's output
    buffer and [_len] the length of the transfer buffer: when a device call
    of the invocation returns a status below the success value the process
    aborts, the output buffer is as it was and no sample has been copied;
    when none does (every status is success or a warning) the hook returns
    the requested count, and the first [n] samples of the output buffer are
    the [n] samples of the transfer buffer, copied in order. *)
Theorem C4_fatal_aborts_before_copy_else_completes :
  (forall (api : VendorApi Bb.Call) (ok : Z) (n : Z) (w : World Bb.bb_series_impl api),
     0 <= n -> (Z.to_nat n <= length (items0 w))%nat -> Bb.buffer_inv (self w) ->
     wp (Bb.work ok n) w (fun r w' t =>
       if fatal_free ok t
       then r = Done n /\
            exists b, Bb._buffer (self w') = Some b /\ length b = Z.to_nat n /\
              items0 w' = b ++ drop (Z.to_nat n) (items0 w) /\
              copies_of t = seq 0 (Z.to_nat n)
       else r = Aborted /\ items0 w' = items0 w /\ copies_of t = [])) /\
  (forall (api : VendorApi Sm.Call) (ok : Z) (n : Z) (w : World Sm.sm_series_impl api),
     0 <= n -> (Z.to_nat n <= length (items0 w))%nat -> Sm.buffer_inv (self w) ->
     wp (Sm.work ok n) w (fun r w' t =>
       if fatal_free ok t
       then r = Done n /\
            exists b, Sm._buffer (self w') = Some b /\ length b = Z.to_nat n /\
              items0 w' = b ++ drop (Z.to_nat n) (items0 w) /\
              copies_of t = seq 0 (Z.to_nat n)
       else r = Aborted /\ items0 w' = items0 w /\ copies_of t = [])) /\
  (forall (api : VendorApi Sp.Call) (n : Z) (w : World Sp.sp_series_impl api),
     0 <= n -> (Z.to_nat n <= length (items0 w))%nat -> Sp.buffer_inv (self w) ->
     wp (Sp.work n) w (fun r w' t =>
       if fatal_free Sp.spNoError t
       then r = Done n /\
            exists b, Sp._buffer (self w') = Some b /\ length b = Z.to_nat n /\
              items0 w' = b ++ drop (Z.to_nat n) (items0 w) /\
              copies_of t = seq 0 (Z.to_nat n)
       else r = Aborted /\ items0 w' = items0 w /\ copies_of t = [])).
Proof.
  split; [|split]; intros.
  - eapply wp_mono;
      [apply wp_conj; [apply BbFacts.bb_work_spec | apply BbFacts.bb_work_complete; eassumption]|].
    cbv beta. intros r w' t [(_ & _ & _ & _ & Hs) Hc].
    destruct r; try done.
    + destruct Hs as (-> & -> & _). split; [done|exact Hc].
    + destruct Hs as (-> & ? & ?). done.
  - eapply wp_mono;
      [apply wp_conj; [apply SmFacts.sm_work_spec | apply SmFacts.sm_work_complete; eassumption]|].
    cbv beta. intros r w' t [(_ & _ & _ & _ & Hs) Hc].
    destruct r; try done.
    + destruct Hs as (-> & -> & _). split; [done|exact Hc].
    + destruct Hs as (-> & ? & ?). done.
  - eapply wp_mono;
      [apply wp_conj; [apply SpFacts.sp_work_spec | apply SpFacts.sp_work_complete; eassumption]|].
    cbv beta. intros r w' t [(_ & _ & _ & _ & Hs) Hc].
    destruct r; try done.
    + destruct Hs as (-> & -> & _). split; [done|exact Hc].
    + destruct Hs as (-> & ? & ?). done.
Qed.

(** A run of C4: a bb_series block with the marker set, no buffer yet, three
    samples requested, the device warning once (status 1) during the
    configuration. *)
Lemma C4_witness :
  0 <= 3 /\
  (Z.to_nat 3 <= length (items0 Examples.bb_unconfigured))%nat /\
  Bb.buffer_inv (self Examples.bb_unconfigured) /\
  wp (Bb.work 0 3) Examples.bb_unconfigured (fun r w' t =>
    if fatal_free 0 t
    then r = Done 3 /\
         exists b, Bb._buffer (self w') = Some b /\ length b = Z.to_nat 3 /\
           items0 w' = b ++ drop (Z.to_nat 3) (items0 Examples.bb_unconfigured) /\
           copies_of t = seq 0 (Z.to_nat 3)
    else r = Aborted /\ items0 w' = items0 Examples.bb_unconfigured /\
         copies_of t = []).
Proof.
  assert (H0 : 0 <= 3) by lia.
  assert (H1 : (Z.to_nat 3 <= length (items0 Examples.bb_unconfigured))%nat)
    by (vm_compute; lia).
  assert (H2 : Bb.buffer_inv (self Examples.bb_unconfigured))
    by (intros b Hb; discriminate Hb).
  split; [exact H0|]. split; [exact H1|]. split; [exact H2|].
  exact (proj1 C4_fatal_aborts_before_copy_else_completes (scripted Bb.Call) 0 3
           Examples.bb_unconfigured H0 H1 H2).
Defined.

(** C5 (as amended).  In each of the four adapters, after any sequence of
    setter calls the pending configuration holds, field by field, the last
    value set for the field, or the value it had when no call set it
    ([after_setters]); the setters call nothing on the device; and the calls
    of the next hook invocation are, in order and up to the point where it
    stops, those of [work_calls] on that configuration: when the marker is
    set, the configuration calls with these values as arguments, then the
    transfer call (for the receivers with the purge flag last set).  For the
    generator the I and Q offsets reach the device converted to a signed
    16-bit integer ([config_calls] passes [int16_t] of the pending values). *)
Theorem C5_last_write_wins_per_field :
  (forall (api : VendorApi Bb.Call) (ok : Z) (l : list Bb.Setter) (n : Z)
          (w : World Bb.bb_series_impl api),
     wp (Bb.run_setters l) w (fun r1 w1 t1 =>
       r1 = Done tt /\ self w1 = Bb.after_setters l (self w) /\ calls_of t1 = [] /\
       wp (Bb.work ok n) w1 (fun r w' t =>
         (exists buf, calls_of t `prefix_of`
                        Bb.work_calls (Bb.after_setters l (self w)) n buf) /\
         match r with
         | Done _ => exists buf,
             calls_of t = Bb.work_calls (Bb.after_setters l (self w)) n buf
         | _ => True
         end))) /\
  (forall (api : VendorApi Sm.Call) (ok : Z) (l : list Sm.Setter) (n : Z)
          (w : World Sm.sm_series_impl api),
     wp (Sm.run_setters l) w (fun r1 w1 t1 =>
       r1 = Done tt /\ self w1 = Sm.after_setters l (self w) /\ calls_of t1 = [] /\
       wp (Sm.work ok n) w1 (fun r w' t =>
         (exists buf, calls_of t `prefix_of`
                        Sm.work_calls (Sm.after_setters l (self w)) n buf) /\
         match r with
         | Done _ => exists buf,
             calls_of t = Sm.work_calls (Sm.after_setters l (self w)) n buf
         | _ => True
         end))) /\
  (forall (api : VendorApi Sp.Call) (l : list Sp.Setter) (n : Z)
          (w : World Sp.sp_series_impl api),
     wp (Sp.run_setters l) w (fun r1 w1 t1 =>
       r1 = Done tt /\ self w1 = Sp.after_setters l (self w) /\ calls_of t1 = [] /\
       wp (Sp.work n) w1 (fun r w' t =>
         (exists buf, calls_of t `prefix_of`
                        Sp.work_calls (Sp.after_setters l (self w)) n buf) /\
         match r with
         | Done _ => exists buf,
             calls_of t = Sp.work_calls (Sp.after_setters l (self w)) n buf
         | _ => True
         end))) /\
  (forall (api : VendorApi Vsg.Call) (ok : Z) (l : list Vsg.Setter) (n : Z)
          (w : World Vsg.vsg_series_impl api),
     wp (Vsg.run_setters l) w (fun r1 w1 t1 =>
       r1 = Done tt /\ self w1 = Vsg.after_setters l (self w) /\ calls_of t1 = [] /\
       wp (Vsg.work ok n) w1 (fun r w' t =>
         calls_of t `prefix_of`
           Vsg.work_calls (Vsg.after_setters l (self w)) n (items0 w) /\
         match r with
         | Done _ => calls_of t = Vsg.work_calls (Vsg.after_setters l (self w)) n (items0 w)
         | _ => True
         end))).
Proof.
  split; [|split; [|split]]; intros.
  - eapply wp_mono; [apply BbFacts.bb_run_setters_after|]. cbv beta.
    intros r1 w1 t1 (-> & -> & _ & _ & Hc & _). cbn [self].
    split; [done|]. split; [done|]. split; [done|].
    eapply wp_mono; [apply (BbFacts.bb_work_spec ok)|]. cbv beta. cbn [self].
    intros r w' t (Hp & _ & _ & _ & Hr). split; [exact Hp|].
    destruct r; try done. by destruct Hr as (_ & _ & ? & _).
  - eapply wp_mono; [apply SmFacts.sm_run_setters_after|]. cbv beta.
    intros r1 w1 t1 (-> & -> & _ & _ & Hc & _). cbn [self].
    split; [done|]. split; [done|]. split; [done|].
    eapply wp_mono; [apply (SmFacts.sm_work_spec ok)|]. cbv beta. cbn [self].
    intros r w' t (Hp & _ & _ & _ & Hr). split; [exact Hp|].
    destruct r; try done. by destruct Hr as (_ & _ & ? & _).
  - eapply wp_mono; [apply SpFacts.sp_run_setters_after|]. cbv beta.
    intros r1 w1 t1 (-> & -> & _ & _ & Hc & _). cbn [self].
    split; [done|]. split; [done|]. split; [done|].
    eapply wp_mono; [apply SpFacts.sp_work_spec|]. cbv beta. cbn [self].
    intros r w' t (Hp & _ & _ & _ & Hr). split; [exact Hp|].
    destruct r; try done. by destruct Hr as (_ & _ & ? & _).
  - eapply wp_mono; [apply VsgFacts.vsg_run_setters_after|]. cbv beta.
    intros r1 w1 t1 (-> & -> & _ & _ & Hc & _). cbn [self].
    split; [done|]. split; [done|]. split; [done|].
    eapply wp_mono; [apply (VsgFacts.vsg_work_spec ok)|]. cbv beta. cbn [self items0].
    intros r w' t (Hp & _ & _ & _ & _ & _ & Hr). split; [exact Hp|].
    destruct r; try done. by destruct Hr as (_ & ? & _).
Qed.

(** C5, as stated, fails for the generator: after [set_ioffset(70000)] the
    pending offset is 70000, the last value set, while the next hook
    invocation pushes 4464 to the device. *)
Lemma C5_generator_offset_is_truncated :
  wp (Vsg.run_setters [Vsg.SetIoffset 70000] ;; Vsg.work 0 2)
    (Examples.vsg_block false []) (fun r w' t =>
      r = Done 2 /\
      last_set Vsg.ioffset_of [Vsg.SetIoffset 70000] 0 = 70000 /\
      Vsg._ioffset (self w') = 70000 /\
      calls_of t =
        [Vsg.vsgSetFrequency 7 1e9; Vsg.vsgSetSampleRate 7 5e7; Vsg.vsgSetLevel 7 (-10);
         Vsg.vsgSetIQOffset 7 4464 0;
         Vsg.vsgGetFrequency 7; Vsg.vsgGetSampleRate 7; Vsg.vsgGetLevel 7;
         Vsg.vsgGetIQOffset 7;
         Vsg.vsgSubmitIQ 7 [(1%float, 0%float); (0%float, 1%float)] 2; Vsg.vsgFlush 7]).
Proof. unfold wp. vm_compute. repeat split. Qed.

(** C6.  For each receiver (bb, sm, sp).  First, the allocation statement of
    [work], run on an object whose [_len] is the length of its buffer:
    it allocates (once, [n] elements) exactly when there is no buffer or [n]
    differs from [_len], otherwise it changes nothing; when it is done the
    buffer exists, has [n] elements and [_len] is [n] (with a negative [n]
    the allocation throws).  Second, when a hook invocation has returned,
    the marker is clear, and a next invocation with the same count and no
    setter call in between allocates nothing, makes no configuration call
    (its only possible call is the transfer call) and leaves the marker
    clear. *)
Theorem C6_buffer_reallocated_only_on_size_change :
  (forall (api : VendorApi Bb.Call) (n : Z) (w : World Bb.bb_series_impl api),
     Bb.buffer_inv (self w) ->
     wp (Bb.work_allocate n) w (fun r w' t =>
       match r with
       | Done _ =>
           (allocs_of t = [n] /\ (Bb._buffer (self w) = None \/ n <> Bb._len (self w)) \/
            allocs_of t = [] /\ w' = w /\
              Bb._buffer (self w) <> None /\ n = Bb._len (self w)) /\
           exists b, Bb._buffer (self w') = Some b /\ Z.of_nat (length b) = n /\
                     Bb._len (self w') = n
       | Thrown => n < 0
       | _ => False
       end)) /\
  (forall (api : VendorApi Bb.Call) (ok : Z) (n : Z) (w : World Bb.bb_series_impl api),
     wp (Bb.work ok n) w (fun r1 w1 t1 =>
       match r1 with
       | Done _ =>
           Bb._param_changed (self w1) = false /\
           wp (Bb.work ok n) w1 (fun r2 w2 t2 =>
             allocs_of t2 = [] /\
             (exists buf, calls_of t2 `prefix_of`
                [Bb.bbGetIQUnpacked (Bb._handle (self w1)) buf n
              (if Bb._purge (self w1) then Bb.BB_TRUE else Bb.BB_FALSE)]) /\
             Bb._param_changed (self w2) = false)
       | _ => True
       end)) /\
  (forall (api : VendorApi Sm.Call) (n : Z) (w : World Sm.sm_series_impl api),
     Sm.buffer_inv (self w) ->
     wp (Sm.work_allocate n) w (fun r w' t =>
       match r with
       | Done _ =>
           (allocs_of t = [n] /\ (Sm._buffer (self w) = None \/ n <> Sm._len (self w)) \/
            allocs_of t = [] /\ w' = w /\
              Sm._buffer (self w) <> None /\ n = Sm._len (self w)) /\
           exists b, Sm._buffer (self w') = Some b /\ Z.of_nat (length b) = n /\
                     Sm._len (self w') = n
       | Thrown => n < 0
       | _ => False
       end)) /\
  (forall (api : VendorApi Sm.Call) (ok : Z) (n : Z) (w : World Sm.sm_series_impl api),
     wp (Sm.work ok n) w (fun r1 w1 t1 =>
       match r1 with
       | Done _ =>
           Sm._param_changed (self w1) = false /\
           wp (Sm.work ok n) w1 (fun r2 w2 t2 =>
             allocs_of t2 = [] /\
             (exists buf, calls_of t2 `prefix_of`
                [Sm.smGetIQ (Sm._handle (self w1)) buf n
              (Sm.of_bool (Sm.truth (Sm._purge (self w1))))]) /\
             Sm._param_changed (self w2) = false)
       | _ => True
       end)) /\
  (forall (api : VendorApi Sp.Call) (n : Z) (w : World Sp.sp_series_impl api),
     Sp.buffer_inv (self w) ->
     wp (Sp.work_allocate n) w (fun r w' t =>
       match r with
       | Done _ =>
           (allocs_of t = [n] /\ (Sp._buffer (self w) = None \/ n <> Sp._len (self w)) \/
            allocs_of t = [] /\ w' = w /\
              Sp._buffer (self w) <> None /\ n = Sp._len (self w)) /\
           exists b, Sp._buffer (self w') = Some b /\ Z.of_nat (length b) = n /\
                     Sp._len (self w') = n
       | Thrown => n < 0
       | _ => False
       end)) /\
  (forall (api : VendorApi Sp.Call) (n : Z) (w : World Sp.sp_series_impl api),
     wp (Sp.work n) w (fun r1 w1 t1 =>
       match r1 with
       | Done _ =>
           Sp._param_changed (self w1) = false /\
           wp (Sp.work n) w1 (fun r2 w2 t2 =>
             allocs_of t2 = [] /\
             (exists buf, calls_of t2 `prefix_of`
                [Sp.spGetIQ (Sp._handle (self w1)) buf n
              (Sp.of_bool (Sp.truth (Sp._purge (self w1))))]) /\
             Sp._param_changed (self w2) = false)
       | _ => True
       end)).
Proof.
  split; [|split; [|split; [|split; [|split]]]].
  - intros api n w Hinv.
    eapply wp_mono; [apply BbFacts.bb_work_allocate_spec; exact Hinv|]. cbv beta.
    intros r w' t (_ & _ & Hr). destruct r; try done; [|by destruct Hr].
    destruct Hr as (Ha & Hsame & b & Hs & Hl). split.
    + unfold Bb.must_allocate in *. destruct (Bb._buffer (self w)) eqn:Hb; cbn in *.
      * destruct (Z.eqb_spec n (Bb._len (self w))); cbn in *.
        -- right. repeat split; auto.
        -- left. split; [done|]. by right.
      * left. split; [done|]. by left.
    + exists b. rewrite Hs. repeat split; done.
  - intros.
    eapply wp_mono; [apply (BbFacts.bb_work_spec ok)|]. cbv beta.
    intros r1 w1 t1 (_ & _ & _ & _ & Hr). destruct r1; try done.
    destruct Hr as (_ & _ & _ & _ & b & Hs). split; [by rewrite Hs|].
    eapply wp_mono; [apply (BbFacts.bb_work_spec ok)|]. cbv beta.
    intros r2 w2 t2 (Hp & _ & Hm & Ha & _).
    assert (Bb._param_changed (self w1) = false) as Hc by (by rewrite Hs).
    split; [|split].
    + apply Ha. rewrite Hs. unfold Bb.must_allocate. cbn. by rewrite Z.eqb_refl.
    + destruct Hp as [buf Hp]. exists buf. unfold Bb.work_calls in Hp.
      by rewrite Hc in Hp.
    + by apply Hm.
  - intros api n w Hinv.
    eapply wp_mono; [apply SmFacts.sm_work_allocate_spec; exact Hinv|]. cbv beta.
    intros r w' t (_ & _ & Hr). destruct r; try done; [|by destruct Hr].
    destruct Hr as (Ha & Hsame & b & Hs & Hl). split.
    + unfold Sm.must_allocate in *. destruct (Sm._buffer (self w)) eqn:Hb; cbn in *.
      * destruct (Z.eqb_spec n (Sm._len (self w))); cbn in *.
        -- right. repeat split; auto.
        -- left. split; [done|]. by right.
      * left. split; [done|]. by left.
    + exists b. rewrite Hs. repeat split; done.
  - intros.
    eapply wp_mono; [apply (SmFacts.sm_work_spec ok)|]. cbv beta.
    intros r1 w1 t1 (_ & _ & _ & _ & Hr). destruct r1; try done.
    destruct Hr as (_ & _ & _ & _ & b & Hs). split; [by rewrite Hs|].
    eapply wp_mono; [apply (SmFacts.sm_work_spec ok)|]. cbv beta.
    intros r2 w2 t2 (Hp & _ & Hm & Ha & _).
    assert (Sm._param_changed (self w1) = false) as Hc by (by rewrite Hs).
    split; [|split].
    + apply Ha. rewrite Hs. unfold Sm.must_allocate. cbn. by rewrite Z.eqb_refl.
    + destruct Hp as [buf Hp]. exists buf. unfold Sm.work_calls in Hp.
      by rewrite Hc in Hp.
    + by apply Hm.
  - intros api n w Hinv.
    eapply wp_mono; [apply SpFacts.sp_work_allocate_spec; exact Hinv|]. cbv beta.
    intros r w' t (_ & _ & Hr). destruct r; try done; [|by destruct Hr].
    destruct Hr as (Ha & Hsame & b & Hs & Hl). split.
    + unfold Sp.must_allocate in *. destruct (Sp._buffer (self w)) eqn:Hb; cbn in *.
      * destruct (Z.eqb_spec n (Sp._len (self w))); cbn in *.
        -- right. repeat split; auto.
        -- left. split; [done|]. by right.
      * left. split; [done|]. by left.
    + exists b. rewrite Hs. repeat split; done.
  - intros.
    eapply wp_mono; [apply SpFacts.sp_work_spec|]. cbv beta.
    intros r1 w1 t1 (_ & _ & _ & _ & Hr). destruct r1; try done.
    destruct Hr as (_ & _ & _ & _ & b & Hs). split; [by rewrite Hs|].
    eapply wp_mono; [apply SpFacts.sp_work_spec|]. cbv beta.
    intros r2 w2 t2 (Hp & _ & Hm & Ha & _).
    assert (Sp._param_changed (self w1) = false) as Hc by (by rewrite Hs).
    split; [|split].
    + apply Ha. rewrite Hs. unfold Sp.must_allocate. cbn. by rewrite Z.eqb_refl.
    + destruct Hp as [buf Hp]. exists buf. unfold Sp.work_calls in Hp.
      by rewrite Hc in Hp.
    + by apply Hm.
Qed.

(** A run of the first part of C6: a bb_series block holding two samples is
    asked for three. *)
Lemma C6_witness :
  Bb.buffer_inv (self Examples.bb_holding_two) /\
  wp (Bb.work_allocate 3)
    Examples.bb_holding_two (fun r w' t =>
       match r with
       | Done _ =>
           (allocs_of t = [3] /\
              (Bb._buffer (self Examples.bb_holding_two)
                 = None \/
               3 <> Bb._len (self Examples.bb_holding_two))
            \/
            allocs_of t = [] /\
              w' = Examples.bb_block false (Some (replicate 2 complex_zero)) 2 [] /\
              Bb._buffer (self Examples.bb_holding_two)
                <> None /\
              3 = Bb._len (self Examples.bb_holding_two)) /\
           exists b, Bb._buffer (self w') = Some b /\ Z.of_nat (length b) = 3 /\
                     Bb._len (self w') = 3
       | Thrown => 3 < 0
       | _ => False
       end).
Proof.
  assert (H : Bb.buffer_inv
                (self Examples.bb_holding_two))
    by (intros b Hb; injection Hb as <-; reflexivity).
  split; [exact H|].
  exact (proj1 C6_buffer_reallocated_only_on_size_change (scripted Bb.Call) 3
           Examples.bb_holding_two H).
Defined.

(** C7.  For each of the four adapters: when the constructor has run to its
    end (no fatal status from the two calls it makes), the marker
    [_param_changed] is set; and the hook invocation that follows starts with
    the configuration: either all the calls of [configure] come first in its
    calls, before any transfer call, or it aborts inside the configuration,
    having made some of these calls and no transfer call. *)
Theorem C7_marker_set_after_construction :
  (forall (api : VendorApi Bb.Call) (ok : Z) (center reflevel : double) (decimation : Z) (bandwidth : double) (purge : bool)
          (d : Dev api) (items : list gr_complex) (w : World Bb.bb_series_impl api)
          (t : list (Event Bb.Field Bb.Call)),
     Bb.make ok center reflevel decimation bandwidth purge d items = (Done tt, w, t) ->
     Bb._param_changed (self w) = true /\
     forall n, wp (Bb.work ok n) w (fun r w' t' =>
       calls_of t' <> [] /\
       (Bb.config_calls (self w) `prefix_of` calls_of t' \/
        r = Aborted /\ calls_of t' `prefix_of` Bb.config_calls (self w)))) /\
  (forall (api : VendorApi Sm.Call) (ok : Z) (center reflevel : double) (atten decimation : Z) (swfilter purge : bool)
          (bandwidth : double)
          (d : Dev api) (items : list gr_complex) (w : World Sm.sm_series_impl api)
          (t : list (Event Sm.Field Sm.Call)),
     Sm.make ok center reflevel atten decimation swfilter purge bandwidth d items = (Done tt, w, t) ->
     Sm._param_changed (self w) = true /\
     forall n, wp (Sm.work ok n) w (fun r w' t' =>
       calls_of t' <> [] /\
       (Sm.config_calls (self w) `prefix_of` calls_of t' \/
        r = Aborted /\ calls_of t' `prefix_of` Sm.config_calls (self w)))) /\
  (forall (api : VendorApi Sp.Call) (reflevel : double) (atten : Z) (center : double) (decimation : Z)
          (swfilter : bool) (bandwidth : double) (purge : bool)
          (d : Dev api) (items : list gr_complex) (w : World Sp.sp_series_impl api)
          (t : list (Event Sp.Field Sp.Call)),
     Sp.make reflevel atten center decimation swfilter bandwidth purge d items = (Done tt, w, t) ->
     Sp._param_changed (self w) = true /\
     forall n, wp (Sp.work n) w (fun r w' t' =>
       calls_of t' <> [] /\
       (Sp.config_calls (self w) `prefix_of` calls_of t' \/
        r = Aborted /\ calls_of t' `prefix_of` Sp.config_calls (self w)))) /\
  (forall (api : VendorApi Vsg.Call) (ok : Z) (center samplerate level : double) (ioffset qoffset : Z)
          (d : Dev api) (items : list gr_complex) (w : World Vsg.vsg_series_impl api)
          (t : list (Event Vsg.Field Vsg.Call)),
     Vsg.make ok center samplerate level ioffset qoffset d items = (Done tt, w, t) ->
     Vsg._param_changed (self w) = true /\
     forall n, wp (Vsg.work ok n) w (fun r w' t' =>
       calls_of t' <> [] /\
       (Vsg.config_calls (self w) `prefix_of` calls_of t' \/
        r = Aborted /\ calls_of t' `prefix_of` Vsg.config_calls (self w)))).
Proof.
  split; [|split; [|split]].
  - intros until t. intros Hmake. unfold Bb.make in Hmake.
    pose proof (wp_elim _ _ _ _ _ _ (BbFacts.bb_ctor_body_spec ok _) Hmake) as ([h Hs] & _).
    assert (Bb._param_changed (self w) = true) as Hc by (by rewrite Hs).
    split; [exact Hc|]. intros n.
    eapply wp_mono; [apply (BbFacts.bb_work_spec ok)|]. cbv beta.
    intros r w' t' (_ & Hd & _). by apply Hd.
  - intros until t. intros Hmake. unfold Sm.make in Hmake.
    pose proof (wp_elim _ _ _ _ _ _ (SmFacts.sm_ctor_body_spec ok _) Hmake) as ([h Hs] & _).
    assert (Sm._param_changed (self w) = true) as Hc by (by rewrite Hs).
    split; [exact Hc|]. intros n.
    eapply wp_mono; [apply (SmFacts.sm_work_spec ok)|]. cbv beta.
    intros r w' t' (_ & Hd & _). by apply Hd.
  - intros until t. intros Hmake. unfold Sp.make in Hmake.
    pose proof (wp_elim _ _ _ _ _ _ (SpFacts.sp_ctor_body_spec _) Hmake) as ([h Hs] & _).
    assert (Sp._param_changed (self w) = true) as Hc by (by rewrite Hs).
    split; [exact Hc|]. intros n.
    eapply wp_mono; [apply SpFacts.sp_work_spec|]. cbv beta.
    intros r w' t' (_ & Hd & _). by apply Hd.
  - intros until t. intros Hmake. unfold Vsg.make in Hmake.
    pose proof (wp_elim _ _ _ _ _ _ (VsgFacts.vsg_ctor_body_spec ok _) Hmake) as ([h Hs] & _).
    assert (Vsg._param_changed (self w) = true) as Hc by (by rewrite Hs).
    split; [exact Hc|]. intros n.
    eapply wp_mono; [apply (VsgFacts.vsg_work_spec ok)|]. cbv beta.
    intros r w' t' (_ & Hd & _). by apply Hd.
Qed.

(** C8.  In each of the four adapters, a hook invocation that returns returns
    the requested count: the receivers report [noutput_items] items produced,
    the generator [noutput_items] items consumed.  An invocation that does
    not return has met a status below the success value and aborted (for the
    receivers it can also have been given a negative count, or an output
    buffer with no room for the request). *)
Theorem C8_returned_count_is_requested_count :
  (forall (api : VendorApi Bb.Call) (ok : Z) (n : Z) (w : World Bb.bb_series_impl api),
     wp (Bb.work ok n) w (fun r w' t =>
       match r with
       | Done x => x = n
       | Aborted => fatal_free ok t = false
       | Thrown => n < 0
       | Undefined => True
       end)) /\
  (forall (api : VendorApi Sm.Call) (ok : Z) (n : Z) (w : World Sm.sm_series_impl api),
     wp (Sm.work ok n) w (fun r w' t =>
       match r with
       | Done x => x = n
       | Aborted => fatal_free ok t = false
       | Thrown => n < 0
       | Undefined => True
       end)) /\
  (forall (api : VendorApi Sp.Call) (n : Z) (w : World Sp.sp_series_impl api),
     wp (Sp.work n) w (fun r w' t =>
       match r with
       | Done x => x = n
       | Aborted => fatal_free Sp.spNoError t = false
       | Thrown => n < 0
       | Undefined => True
       end)) /\
  (forall (api : VendorApi Vsg.Call) (ok : Z) (n : Z) (w : World Vsg.vsg_series_impl api),
     wp (Vsg.work ok n) w (fun r w' t =>
       match r with
       | Done x => x = n
       | Aborted => fatal_free ok t = false
       | _ => False
       end)).
Proof.
  split; [|split; [|split]]; intros.
  - eapply wp_mono; [apply (BbFacts.bb_work_spec ok)|]. cbv beta.
    intros r w' t (_ & _ & _ & _ & Hr). destruct r; try done; by destruct Hr.
  - eapply wp_mono; [apply (SmFacts.sm_work_spec ok)|]. cbv beta.
    intros r w' t (_ & _ & _ & _ & Hr). destruct r; try done; by destruct Hr.
  - eapply wp_mono; [apply SpFacts.sp_work_spec|]. cbv beta.
    intros r w' t (_ & _ & _ & _ & Hr). destruct r; try done; by destruct Hr.
  - eapply wp_mono; [apply (VsgFacts.vsg_work_spec ok)|]. cbv beta.
    intros r w' t (_ & _ & _ & _ & _ & _ & Hr).
    destruct r; try done; [by destruct Hr | by destruct Hr as (_ & ? & _)].
Qed.

(** A run of C7: the constructor of bb_series on a device that answers
    every call with success. *)
Lemma C7_witness :
  Bb.make (api:=scripted Bb.Call) 0 1e9 (-20) 4 1e6 false [] (replicate 4 complex_zero) =
    (Done tt, snd (fst Examples.bb_made), snd Examples.bb_made) /\
  Bb._param_changed (self (snd (fst Examples.bb_made))) = true /\
  forall n, wp (Bb.work 0 n) (snd (fst Examples.bb_made)) (fun r w' t' =>
    calls_of t' <> [] /\
    (Bb.config_calls (self (snd (fst Examples.bb_made))) `prefix_of` calls_of t' \/
     r = Aborted /\
     calls_of t' `prefix_of` Bb.config_calls (self (snd (fst Examples.bb_made))))).
Proof.
  assert (H : Bb.make (api:=scripted Bb.Call) 0 1e9 (-20) 4 1e6 false []
                (replicate 4 complex_zero) =
              (Done tt, snd (fst Examples.bb_made), snd Examples.bb_made))
    by (vm_compute; reflexivity).
  split; [exact H|].
  exact (proj1 C7_marker_set_after_construction (scripted Bb.Call) 0 1e9%float
           (-20)%float 4 1e6%float false [] (replicate 4 complex_zero)
           (snd (fst Examples.bb_made)) (snd Examples.bb_made) H).
Defined.

(** C2: the code at the failing input.  A vsg_series block with the marker
    clear, on a device that answers [vsgSubmitIQ] with -1 and [vsgFlush] with
    -3 (0 being [vsgNoError]): [work] makes the two calls, prints nothing and
    returns the count, although both statuses are below the success value.
    With the marker set, the same status -1 from the first configuration call
    aborts: the calls of [configure] are checked. *)
Theorem C2_generator_transfer_statuses_not_checked :
  wp (Vsg.work 0 2) (Examples.vsg_block false [-1; -3]) (fun r w' t =>
    r = Done 2 /\
    calls_of t = [Vsg.vsgSubmitIQ 7 [(1%float, 0%float); (0%float, 1%float)] 2;
                  Vsg.vsgFlush 7] /\
    statuses_of t = [-1; -3] /\ fatal_free 0 t = false /\ console w' = []) /\
  wp (Vsg.work 0 2) (Examples.vsg_block true [-1; -3]) (fun r w' t =>
    r = Aborted /\ calls_of t = [Vsg.vsgSetFrequency 7 1e9] /\ statuses_of t = [-1]).
Proof. unfold wp. vm_compute. repeat split. Qed.

(** C9: the code at the failing interleaving.  In every run of [work] of
    bb_series the marker is read before the lock is taken.  On a block with
    the marker set and a device that answers every call with success, let the
    control thread call [set_center(2e9)] after [configure] has released the
    lock and before [work] clears the marker: [work] has pushed 1e9, clears
    the marker that the setter has just set, and issues its transfer call;
    the pending centre is 2e9, the marker is clear, and the next invocation
    transfers again without any configuration call. *)
Theorem C9_marker_tested_and_cleared_outside_lock :
  (forall (api : VendorApi Bb.Call) (ok n : Z) (w : World Bb.bb_series_impl api),
     wp (Bb.work ok n) w (fun r w' t => guarded false t = false)) /\
  wp (Bb.work 0 2) (Examples.bb_block true None 0 []) (fun r w' t =>
    r = Done 2 /\
    t = [EvLoad Bb.F_param_changed;
         EvLock;
         EvLoad Bb.F_center; EvCall (Bb.bbConfigureIQCenter 7 1e9) 0;
         EvLoad Bb.F_reflevel; EvCall (Bb.bbConfigureRefLevel 7 (-20)) 0;
         EvLoad Bb.F_decimation; EvLoad Bb.F_bandwidth;
         EvCall (Bb.bbConfigureIQ 7 4 1e6) 0;
         EvCall (Bb.bbConfigureIQDataType 7 Bb.bbDataType32fc) 0;
         EvCall (Bb.bbInitiate 7 Bb.BB_STREAMING Bb.BB_STREAM_IQ) 0;
         EvCall (Bb.bbQueryIQParameters 7) 0;
         EvUnlock;
         EvStore Bb.F_param_changed;
         EvNew 2;
         EvLoad Bb.F_purge;
         EvCall (Bb.bbGetIQUnpacked 7 (replicate 2 complex_zero) 2 Bb.BB_FALSE) 0;
         EvCopy 0; EvCopy 1]) /\
  wp (Bb.interleave 0 2 Examples.late_set_center Bb.AtTest)
    (Examples.bb_block true None 0 []) (fun r w' t =>
      r = Done Bb.AtReturn /\
      calls_of t =
        [Bb.bbConfigureIQCenter 7 1e9; Bb.bbConfigureRefLevel 7 (-20);
         Bb.bbConfigureIQ 7 4 1e6; Bb.bbConfigureIQDataType 7 Bb.bbDataType32fc;
         Bb.bbInitiate 7 Bb.BB_STREAMING Bb.BB_STREAM_IQ; Bb.bbQueryIQParameters 7;
         Bb.bbGetIQUnpacked 7 (replicate 2 complex_zero) 2 Bb.BB_FALSE] /\
      stores_of t = [Bb.F_center; Bb.F_param_changed; Bb.F_param_changed] /\
      Bb._center (self w') = 2e9%float /\
      Bb._param_changed (self w') = false /\
      wp (Bb.work 0 2) w' (fun r2 w2 t2 =>
        r2 = Done 2 /\ Bb._center (self w2) = 2e9%float /\
        exists buf, calls_of t2 = [Bb.bbGetIQUnpacked 7 buf 2 Bb.BB_FALSE])).
Proof.
  split; [|split].
  - intros. eapply wp_mono; [apply BbHookFacts.work_tests_marker_unlocked|].
    cbv beta. intros r w' t [t' ->]. reflexivity.
  - unfold wp. vm_compute. repeat split.
  - unfold wp. vm_compute. repeat split. eexists. reflexivity.
Qed.

(** C10.  For the generator: the constructor leaves [_buffer] null and
    allocates nothing; whatever setter calls and hook invocations follow, in
    any order, [_buffer] stays null, nothing is allocated and nothing is
    copied, and the destructor then finds no array to delete; and a hook
    invocation leaves the runtime's input buffer as it was and gives that
    very buffer, with the requested count, to [vsgSubmitIQ], followed by
    [vsgFlush]. *)
Theorem C10_generator_buffer_stays_null :
  (forall (api : VendorApi Vsg.Call) (ok : Z) (center samplerate level : double)
          (ioffset qoffset : Z) (d : Dev api) (items : list gr_complex)
          (ops : list Vsg.Op),
     match Vsg.make ok center samplerate level ioffset qoffset d items with
     | (r0, w0, t0) =>
         Vsg._buffer (self w0) = None /\ allocs_of t0 = [] /\ copies_of t0 = [] /\
         wp (Vsg.run_ops ok ops) w0 (fun r w' t =>
           Vsg._buffer (self w') = None /\ allocs_of t = [] /\ copies_of t = [] /\
           items0 w' = items /\
           wp Vsg.dtor w' (fun r' w'' t' =>
             r' = Done tt /\ Vsg._buffer (self w'') = None /\
             calls_of t' = [Vsg.vsgAbort (Vsg._handle (self w'));
                            Vsg.vsgCloseDevice (Vsg._handle (self w'))] /\
             allocs_of t' = [] /\ copies_of t' = []))
     end) /\
  (forall (api : VendorApi Vsg.Call) (ok n : Z) (w : World Vsg.vsg_series_impl api),
     wp (Vsg.work ok n) w (fun r w' t =>
       Vsg._buffer (self w') = Vsg._buffer (self w) /\
       allocs_of t = [] /\ copies_of t = [] /\ items0 w' = items0 w /\
       match r with
       | Done _ =>
           calls_of t =
             (if Vsg._param_changed (self w) then Vsg.config_calls (self w) else []) ++
             [Vsg.vsgSubmitIQ (Vsg._handle (self w)) (items0 w) n;
              Vsg.vsgFlush (Vsg._handle (self w))]
       | Aborted => calls_of t `prefix_of` Vsg.config_calls (self w)
       | _ => False
       end)).
Proof.
  split.
  - intros. unfold Vsg.make.
    match goal with |- match ?m ?w with _ => _ end =>
      pose proof (VsgFacts.vsg_ctor_body_spec ok w) as Hc; unfold wp in Hc;
      destruct (m w) as [[r0 w0] t0]
    end.
    destruct Hc as ([h Hs] & Hi & Ha & Hcp & _). cbn in Hs, Hi.
    assert (Vsg._buffer (self w0) = None) as Hb by (by rewrite Hs).
    split; [exact Hb|]. split; [exact Ha|]. split; [exact Hcp|].
    eapply wp_mono; [apply VsgFacts.vsg_run_ops_spec; exact Hb|]. cbv beta.
    intros r w' t (Hb' & Hi' & Ha' & Hc' & _).
    split; [exact Hb'|]. split; [exact Ha'|]. split; [exact Hc'|].
    split; [congruence|].
    eapply wp_mono; [apply VsgFacts.vsg_dtor_spec; exact Hb'|]. cbv beta.
    intros r' w'' t' (-> & Hs' & _ & Ha'' & Hc'' & Hcalls).
    rewrite Hs'. done.
  - intros. eapply wp_mono; [apply (VsgFacts.vsg_work_spec ok)|]. cbv beta.
    intros r w' t (Hp & Hd & Hi & Hb & Ha & Hc & Hr).
    split; [exact Hb|]. split; [exact Ha|]. split; [exact Hc|]. split; [exact Hi|].
    destruct r; try done.
    + by destruct Hr as (_ & ? & _).
    + by destruct Hr as (_ & _ & ?).
Qed.

(** * Further properties of the adapters

    What the constructors and destructors do, which invariants the blocks
    keep over any sequence of setter calls and hook invocations, what the
    lock covers, what reaches the device and what reaches the output. *)

(** X1.  The constructors.  In each adapter, building a block sends the API
    version to the console and opens the device.
    When opening returns a fatal status the process aborts with this single
    call made.  Otherwise the handle the device gave is stored in [_handle],
    the other members being as the initialisers left them (the arguments as
    pending configuration, the marker set, no buffer), and the serial number
    is asked for with the new handle; a fatal status there aborts as well;
    otherwise the constructor returns and the last console line shows the
    serial number the device reported.  In between, the console has one line
    per status that was not success. *)
Theorem constructor_opens_device_then_asks_serial :
  (forall (api : VendorApi Bb.Call) (ok : Z)
     (center reflevel : double) (decimation : Z) (bandwidth : double) (purge : bool)
     (d : Dev api) (items : list gr_complex),
     wp (Bb.ctor_body ok)
       {| self := Bb.init center reflevel decimation bandwidth purge;
          device := d; items0 := items; console := [] |}
       (fun r w' t =>
          exists ro d1, vendor api Bb.bbOpenDevice d = (ro, d1) /\
            items0 w' = items /\
            (status ro < ok ->
               r = Aborted /\ t = [EvCall Bb.bbOpenDevice (status ro)] /\
               device w' = d1 /\
               console w' =
                 [[Str newline; Str "API Version: "; Str (GetAPIVersion api); Str newline]] ++
                 BbRun.diagnostics (api:=api) ok t) /\
            (ok <= status ro ->
               self w' =
                 Bb.upd_handle (ret_int ro)
                   (Bb.init center reflevel decimation bandwidth purge) /\
               exists rs,
                 vendor api (Bb.bbGetSerialNumber (ret_int ro)) d1 = (rs, device w') /\
                 t = [EvCall Bb.bbOpenDevice (status ro);
                      EvCall (Bb.bbGetSerialNumber (ret_int ro)) (status rs)] /\
                 r = (if status rs <? ok then Aborted else Done tt) /\
                 console w' =
                   [[Str newline; Str "API Version: "; Str (GetAPIVersion api); Str newline]] ++
                   BbRun.diagnostics (api:=api) ok t ++
                   (if status rs <? ok then []
                    else [[Str "Serial Number: "; Num (ret_int rs); Str newline]])))) /\
  (forall (api : VendorApi Sm.Call) (ok : Z)
     (center reflevel : double) (atten decimation : Z) (swfilter purge : bool)
     (bandwidth : double)
     (d : Dev api) (items : list gr_complex),
     wp (Sm.ctor_body ok)
       {| self := Sm.init center reflevel atten decimation swfilter purge bandwidth;
          device := d; items0 := items; console := [] |}
       (fun r w' t =>
          exists ro d1, vendor api Sm.smOpenDevice d = (ro, d1) /\
            items0 w' = items /\
            (status ro < ok ->
               r = Aborted /\ t = [EvCall Sm.smOpenDevice (status ro)] /\
               device w' = d1 /\
               console w' =
                 [[Str newline; Str "API Version: "; Str (GetAPIVersion api); Endl]] ++
                 SmRun.diagnostics (api:=api) ok t) /\
            (ok <= status ro ->
               self w' =
                 Sm.upd_handle (ret_int ro)
                   (Sm.init center reflevel atten decimation swfilter purge bandwidth) /\
               exists rs,
                 vendor api (Sm.smGetDeviceInfo (ret_int ro)) d1 = (rs, device w') /\
                 t = [EvCall Sm.smOpenDevice (status ro);
                      EvCall (Sm.smGetDeviceInfo (ret_int ro)) (status rs)] /\
                 r = (if status rs <? ok then Aborted else Done tt) /\
                 console w' =
                   [[Str newline; Str "API Version: "; Str (GetAPIVersion api); Endl]] ++
                   SmRun.diagnostics (api:=api) ok t ++
                   (if status rs <? ok then []
                    else [[Str "Serial Number: "; Num (ret_int2 rs); Endl]])))) /\
  (forall (api : VendorApi Sp.Call) 
     (reflevel : double) (atten : Z) (center : double) (decimation : Z)
     (swfilter : bool) (bandwidth : double) (purge : bool)
     (d : Dev api) (items : list gr_complex),
     wp (Sp.ctor_body)
       {| self := Sp.init reflevel atten center decimation swfilter bandwidth purge;
          device := d; items0 := items; console := [] |}
       (fun r w' t =>
          exists ro d1, vendor api Sp.spOpenDevice d = (ro, d1) /\
            items0 w' = items /\
            (status ro < Sp.spNoError ->
               r = Aborted /\ t = [EvCall Sp.spOpenDevice (status ro)] /\
               device w' = d1 /\
               console w' =
                 [[Str newline; Str "API Version: "; Str (GetAPIVersion api); Endl]] ++
                 SpRun.diagnostics (api:=api) t) /\
            (Sp.spNoError <= status ro ->
               self w' =
                 Sp.upd_handle (ret_int ro)
                   (Sp.init reflevel atten center decimation swfilter bandwidth purge) /\
               exists rs,
                 vendor api (Sp.spGetSerialNumber (ret_int ro)) d1 = (rs, device w') /\
                 t = [EvCall Sp.spOpenDevice (status ro);
                      EvCall (Sp.spGetSerialNumber (ret_int ro)) (status rs)] /\
                 r = (if status rs <? Sp.spNoError then Aborted else Done tt) /\
                 console w' =
                   [[Str newline; Str "API Version: "; Str (GetAPIVersion api); Endl]] ++
                   SpRun.diagnostics (api:=api) t ++
                   (if status rs <? Sp.spNoError then []
                    else [[Str "Serial Number: "; Num (ret_int rs); Endl]])))) /\
  (forall (api : VendorApi Vsg.Call) (ok : Z)
     (center samplerate level : double) (ioffset qoffset : Z)
     (d : Dev api) (items : list gr_complex),
     wp (Vsg.ctor_body ok)
       {| self := Vsg.init center samplerate level ioffset qoffset;
          device := d; items0 := items; console := [] |}
       (fun r w' t =>
          exists ro d1, vendor api Vsg.vsgOpenDevice d = (ro, d1) /\
            items0 w' = items /\
            (status ro < ok ->
               r = Aborted /\ t = [EvCall Vsg.vsgOpenDevice (status ro)] /\
               device w' = d1 /\
               console w' =
                 [[Str newline; Str "API Version: "; Str (GetAPIVersion api); Endl]] ++
                 VsgRun.diagnostics (api:=api) ok t) /\
            (ok <= status ro ->
               self w' =
                 Vsg.upd_handle (ret_int ro)
                   (Vsg.init center samplerate level ioffset qoffset) /\
               exists rs,
                 vendor api (Vsg.vsgGetSerialNumber (ret_int ro)) d1 = (rs, device w') /\
                 t = [EvCall Vsg.vsgOpenDevice (status ro);
                      EvCall (Vsg.vsgGetSerialNumber (ret_int ro)) (status rs)] /\
                 r = (if status rs <? ok then Aborted else Done tt) /\
                 console w' =
                   [[Str newline; Str "API Version: "; Str (GetAPIVersion api); Endl]] ++
                   VsgRun.diagnostics (api:=api) ok t ++
                   (if status rs <? ok then []
                    else [[Str "Serial Number: "; Num (ret_int rs); Endl]])))).
Proof.
  split; [|split; [|split]]; intros.
  - eapply wp_mono; [apply BbRunFacts.bb_ctor_run|]. cbv beta.
    intros r w' t (ro & d1 & Hv & Hs & Hi & Hlt & Hge).
    exists ro, d1. split; [exact Hv|]. split; [exact Hi|]. split; [exact Hlt|].
    intros Hok. split; [exact Hs|]. exact (Hge Hok).
  - eapply wp_mono; [apply SmRunFacts.sm_ctor_run|]. cbv beta.
    intros r w' t (ro & d1 & Hv & Hs & Hi & Hlt & Hge).
    exists ro, d1. split; [exact Hv|]. split; [exact Hi|]. split; [exact Hlt|].
    intros Hok. split; [exact Hs|]. exact (Hge Hok).
  - eapply wp_mono; [apply SpRunFacts.sp_ctor_run|]. cbv beta.
    intros r w' t (ro & d1 & Hv & Hs & Hi & Hlt & Hge).
    exists ro, d1. split; [exact Hv|]. split; [exact Hi|]. split; [exact Hlt|].
    intros Hok. split; [exact Hs|]. exact (Hge Hok).
  - eapply wp_mono; [apply VsgRunFacts.vsg_ctor_run|]. cbv beta.
    intros r w' t (ro & d1 & Hv & Hs & Hi & Hlt & Hge).
    exists ro, d1. split; [exact Hv|]. split; [exact Hi|]. split; [exact Hlt|].
    intros Hok. split; [exact Hs|]. exact (Hge Hok).
Qed.

(** X2.  The destructors.  In each adapter the destructor stops the device and
    closes it, in this order and with the handle of the block, deletes the
    transfer buffer exactly when there is one, and returns: the statuses of
    the two calls are not looked at, so whatever they are nothing is printed
    and the process is not aborted; no lock is taken. *)
Theorem destructor_closes_device_whatever_the_statuses :
  (forall (api : VendorApi Bb.Call) (w : World Bb.bb_series_impl api),
     wp Bb.dtor w (fun r w' t =>
       r = Done tt /\ self w' = self w /\ items0 w' = items0 w /\
       console w' = console w /\
       exists s1 s2,
         t = [EvCall (Bb.bbAbort (Bb._handle (self w))) s1;
              EvCall (Bb.bbCloseDevice (Bb._handle (self w))) s2] ++
             (if is_null (Bb._buffer (self w)) then [] else [EvDelete]))) /\
  (forall (api : VendorApi Sm.Call) (w : World Sm.sm_series_impl api),
     wp Sm.dtor w (fun r w' t =>
       r = Done tt /\ self w' = self w /\ items0 w' = items0 w /\
       console w' = console w /\
       exists s1 s2,
         t = [EvCall (Sm.smAbort (Sm._handle (self w))) s1;
              EvCall (Sm.smCloseDevice (Sm._handle (self w))) s2] ++
             (if is_null (Sm._buffer (self w)) then [] else [EvDelete]))) /\
  (forall (api : VendorApi Sp.Call) (w : World Sp.sp_series_impl api),
     wp Sp.dtor w (fun r w' t =>
       r = Done tt /\ self w' = self w /\ items0 w' = items0 w /\
       console w' = console w /\
       exists s1 s2,
         t = [EvCall (Sp.spAbort (Sp._handle (self w))) s1;
              EvCall (Sp.spCloseDevice (Sp._handle (self w))) s2] ++
             (if is_null (Sp._buffer (self w)) then [] else [EvDelete]))) /\
  (forall (api : VendorApi Vsg.Call) (w : World Vsg.vsg_series_impl api),
     wp Vsg.dtor w (fun r w' t =>
       r = Done tt /\ self w' = self w /\ items0 w' = items0 w /\
       console w' = console w /\
       exists s1 s2,
         t = [EvCall (Vsg.vsgAbort (Vsg._handle (self w))) s1;
              EvCall (Vsg.vsgCloseDevice (Vsg._handle (self w))) s2] ++
             (if is_null (Vsg._buffer (self w)) then [] else [EvDelete]))).
Proof.
  split; [|split; [|split]]; intros.
  - eapply wp_mono; [apply BbRunFacts.bb_dtor_run|]. cbv beta.
    intros r w' t (? & ? & ? & ? & _ & ?). done.
  - eapply wp_mono; [apply SmRunFacts.sm_dtor_run|]. cbv beta.
    intros r w' t (? & ? & ? & ? & _ & ?). done.
  - eapply wp_mono; [apply SpRunFacts.sp_dtor_run|]. cbv beta.
    intros r w' t (? & ? & ? & ? & _ & ?). done.
  - eapply wp_mono; [apply VsgRunFacts.vsg_dtor_run|]. cbv beta.
    intros r w' t (? & ? & ? & ? & _ & ?). done.
Qed.

(** X3.  The length invariant.  For each receiver, from the construction of the
    block on and through any sequence of setter calls and hook invocations,
    with any counts, as long as no exception has left [work] (also in the
    state in which the process aborts): whenever [_buffer] is not null,
    [_len] is the length of the array it points to. *)
Theorem buffer_length_is_kept_by_every_operation :
  (forall (api : VendorApi Bb.Call) (ok : Z)
     (center reflevel : double) (decimation : Z) (bandwidth : double) (purge : bool)
     (d : Dev api) (items : list gr_complex) (l : list BbRun.Op),
     wp (Bb.ctor_body ok ;; BbRun.run_ops ok l)
       {| self := Bb.init center reflevel decimation bandwidth purge;
          device := d; items0 := items; console := [] |}
       (fun r w' t => if r is Thrown then True else Bb.buffer_inv (self w'))) /\
  (forall (api : VendorApi Sm.Call) (ok : Z)
     (center reflevel : double) (atten decimation : Z) (swfilter purge : bool)
     (bandwidth : double)
     (d : Dev api) (items : list gr_complex) (l : list SmRun.Op),
     wp (Sm.ctor_body ok ;; SmRun.run_ops ok l)
       {| self := Sm.init center reflevel atten decimation swfilter purge bandwidth;
          device := d; items0 := items; console := [] |}
       (fun r w' t => if r is Thrown then True else Sm.buffer_inv (self w'))) /\
  (forall (api : VendorApi Sp.Call) 
     (reflevel : double) (atten : Z) (center : double) (decimation : Z)
     (swfilter : bool) (bandwidth : double) (purge : bool)
     (d : Dev api) (items : list gr_complex) (l : list SpRun.Op),
     wp (Sp.ctor_body ;; SpRun.run_ops l)
       {| self := Sp.init reflevel atten center decimation swfilter bandwidth purge;
          device := d; items0 := items; console := [] |}
       (fun r w' t => if r is Thrown then True else Sp.buffer_inv (self w'))).
Proof.
  split; [|split]; intros.
  - eapply wp_mono; [apply BbRunFacts.bb_built_run|]. cbv beta.
    intros r w' t [H _]. destruct r; try done; apply H; intros b Hb; discriminate Hb.
  - eapply wp_mono; [apply SmRunFacts.sm_built_run|]. cbv beta.
    intros r w' t [H _]. destruct r; try done; apply H; intros b Hb; discriminate Hb.
  - eapply wp_mono; [apply SpRunFacts.sp_built_run|]. cbv beta.
    intros r w' t [H _]. destruct r; try done; apply H; intros b Hb; discriminate Hb.
Qed.


(** X5.  The use of the mutex.  In each adapter, over the whole life of a block
    and any sequence of setter calls and hook invocations the thread never
    takes the (non-recursive) mutex while it holds it and never releases it
    while it is free; and the mutex is free at the end unless the process was
    aborted (which happens inside [configure], with the lock held). *)
Theorem mutex_never_taken_twice_and_always_released :
  (forall (api : VendorApi Bb.Call) (ok : Z) (l : list BbRun.Op)
     (w : World Bb.bb_series_impl api),
     wp (BbRun.life ok l) w (fun r w' t =>
       lock_ok false t = true /\ (held_after false t = false \/ r = Aborted))) /\
  (forall (api : VendorApi Sm.Call) (ok : Z) (l : list SmRun.Op)
     (w : World Sm.sm_series_impl api),
     wp (SmRun.life ok l) w (fun r w' t =>
       lock_ok false t = true /\ (held_after false t = false \/ r = Aborted))) /\
  (forall (api : VendorApi Sp.Call) (l : list SpRun.Op)
     (w : World Sp.sp_series_impl api),
     wp (SpRun.life l) w (fun r w' t =>
       lock_ok false t = true /\ (held_after false t = false \/ r = Aborted))) /\
  (forall (api : VendorApi Vsg.Call) (ok : Z) (l : list Vsg.Op)
     (w : World Vsg.vsg_series_impl api),
     wp (VsgRun.life ok l) w (fun r w' t =>
       lock_ok false t = true /\ (held_after false t = false \/ r = Aborted))).
Proof.
  split; [|split; [|split]]; intros.
  - eapply wp_mono; [apply BbRunFacts.bb_life_run|]. cbv beta.
    intros r w' t [H _]. exact H.
  - eapply wp_mono; [apply SmRunFacts.sm_life_run|]. cbv beta.
    intros r w' t [H _]. exact H.
  - eapply wp_mono; [apply SpRunFacts.sp_life_run|]. cbv beta.
    intros r w' t [H _]. exact H.
  - apply VsgRunFacts.vsg_life_run.
Qed.

(** X6.  What the lock covers in [work].  In each adapter the calls made with the
    lock held are configuration calls (all of them when the marker is set
    and [work] returns, none when the marker is clear), and they come first;
    the transfer call of a receiver, and the submission and the flush of the
    generator, are made with the lock free, so a setter never waits for a
    transfer.  The members shared with the setters that [work] accesses
    without the lock are the marker (read, and written when it was set) and,
    in the receivers, the purge flag (read for the transfer call). *)
Theorem lock_covers_configuration_not_transfer :
  (forall (api : VendorApi Bb.Call) (ok : Z) (n : Z) (w : World Bb.bb_series_impl api),
     wp (Bb.work ok n) w (fun r w' t =>
       locked_calls false t `prefix_of`
         (if Bb._param_changed (self w) then Bb.config_calls (self w) else []) /\
       (exists buf, unlocked_calls false t `prefix_of`
           [Bb.bbGetIQUnpacked (Bb._handle (self w)) buf n
             (if Bb._purge (self w) then Bb.BB_TRUE else Bb.BB_FALSE)]) /\
       calls_of t = locked_calls false t ++ unlocked_calls false t /\
       unguarded false t `prefix_of`
         (EvLoad Bb.F_param_changed ::
            (if Bb._param_changed (self w)
             then [EvStore Bb.F_param_changed] else [])) ++
           [EvLoad Bb.F_purge] /\
       match r with
       | Done _ =>
           locked_calls false t =
             (if Bb._param_changed (self w) then Bb.config_calls (self w) else []) /\
           (exists buf, unlocked_calls false t =
           [Bb.bbGetIQUnpacked (Bb._handle (self w)) buf n
             (if Bb._purge (self w) then Bb.BB_TRUE else Bb.BB_FALSE)]) /\
           unguarded false t =
             (EvLoad Bb.F_param_changed ::
            (if Bb._param_changed (self w)
             then [EvStore Bb.F_param_changed] else [])) ++
           [EvLoad Bb.F_purge]
       | _ => True
       end)) /\
  (forall (api : VendorApi Sm.Call) (ok : Z) (n : Z) (w : World Sm.sm_series_impl api),
     wp (Sm.work ok n) w (fun r w' t =>
       locked_calls false t `prefix_of`
         (if Sm._param_changed (self w) then Sm.config_calls (self w) else []) /\
       (exists buf, unlocked_calls false t `prefix_of`
           [Sm.smGetIQ (Sm._handle (self w)) buf n
             (Sm.of_bool (Sm.truth (Sm._purge (self w))))]) /\
       calls_of t = locked_calls false t ++ unlocked_calls false t /\
       unguarded false t `prefix_of`
         (EvLoad Sm.F_param_changed ::
            (if Sm._param_changed (self w)
             then [EvStore Sm.F_param_changed] else [])) ++
           [EvLoad Sm.F_purge] /\
       match r with
       | Done _ =>
           locked_calls false t =
             (if Sm._param_changed (self w) then Sm.config_calls (self w) else []) /\
           (exists buf, unlocked_calls false t =
           [Sm.smGetIQ (Sm._handle (self w)) buf n
             (Sm.of_bool (Sm.truth (Sm._purge (self w))))]) /\
           unguarded false t =
             (EvLoad Sm.F_param_changed ::
            (if Sm._param_changed (self w)
             then [EvStore Sm.F_param_changed] else [])) ++
           [EvLoad Sm.F_purge]
       | _ => True
       end)) /\
  (forall (api : VendorApi Sp.Call) (n : Z) (w : World Sp.sp_series_impl api),
     wp (Sp.work n) w (fun r w' t =>
       locked_calls false t `prefix_of`
         (if Sp._param_changed (self w) then Sp.config_calls (self w) else []) /\
       (exists buf, unlocked_calls false t `prefix_of`
           [Sp.spGetIQ (Sp._handle (self w)) buf n
             (Sp.of_bool (Sp.truth (Sp._purge (self w))))]) /\
       calls_of t = locked_calls false t ++ unlocked_calls false t /\
       unguarded false t `prefix_of`
         (EvLoad Sp.F_param_changed ::
            (if Sp._param_changed (self w)
             then [EvStore Sp.F_param_changed] else [])) ++
           [EvLoad Sp.F_purge] /\
       match r with
       | Done _ =>
           locked_calls false t =
             (if Sp._param_changed (self w) then Sp.config_calls (self w) else []) /\
           (exists buf, unlocked_calls false t =
           [Sp.spGetIQ (Sp._handle (self w)) buf n
             (Sp.of_bool (Sp.truth (Sp._purge (self w))))]) /\
           unguarded false t =
             (EvLoad Sp.F_param_changed ::
            (if Sp._param_changed (self w)
             then [EvStore Sp.F_param_changed] else [])) ++
           [EvLoad Sp.F_purge]
       | _ => True
       end)) /\
  (forall (api : VendorApi Vsg.Call) (ok : Z) (n : Z) (w : World Vsg.vsg_series_impl api),
     wp (Vsg.work ok n) w (fun r w' t =>
       locked_calls false t `prefix_of`
         (if Vsg._param_changed (self w) then Vsg.config_calls (self w) else []) /\
       unlocked_calls false t `prefix_of`
           [Vsg.vsgSubmitIQ (Vsg._handle (self w)) (items0 w) n;
            Vsg.vsgFlush (Vsg._handle (self w))] /\
       calls_of t = locked_calls false t ++ unlocked_calls false t /\
       unguarded false t `prefix_of`
         EvLoad Vsg.F_param_changed ::
           (if Vsg._param_changed (self w)
            then [EvStore Vsg.F_param_changed] else []) /\
       match r with
       | Done _ =>
           locked_calls false t =
             (if Vsg._param_changed (self w) then Vsg.config_calls (self w) else []) /\
           unlocked_calls false t =
           [Vsg.vsgSubmitIQ (Vsg._handle (self w)) (items0 w) n;
            Vsg.vsgFlush (Vsg._handle (self w))] /\
           unguarded false t =
             EvLoad Vsg.F_param_changed ::
           (if Vsg._param_changed (self w)
            then [EvStore Vsg.F_param_changed] else [])
       | _ => True
       end)).
Proof.
  split; [|split; [|split]]; intros.
  - eapply wp_mono; [apply BbRunFacts.bb_work_run|]. cbv beta.
    intros r w' t (_ & _ & _ & (H1 & H2 & H3 & H4) & _ & Hr).
    split; [exact H1|]. split; [exact H2|]. split; [exact H3|]. split; [exact H4|].
    destruct r; try done. by destruct Hr as (_ & _ & ? & ? & ? & _).
  - eapply wp_mono; [apply SmRunFacts.sm_work_run|]. cbv beta.
    intros r w' t (_ & _ & _ & (H1 & H2 & H3 & H4) & _ & Hr).
    split; [exact H1|]. split; [exact H2|]. split; [exact H3|]. split; [exact H4|].
    destruct r; try done. by destruct Hr as (_ & _ & ? & ? & ? & _).
  - eapply wp_mono; [apply SpRunFacts.sp_work_run|]. cbv beta.
    intros r w' t (_ & _ & _ & (H1 & H2 & H3 & H4) & _ & Hr).
    split; [exact H1|]. split; [exact H2|]. split; [exact H3|]. split; [exact H4|].
    destruct r; try done. by destruct Hr as (_ & _ & ? & ? & ? & _).
  - eapply wp_mono; [apply VsgRunFacts.vsg_work_run|]. cbv beta.
    intros r w' t (_ & _ & (H1 & H2 & H3 & H4) & Hr).
    split; [exact H1|]. split; [exact H2|]. split; [exact H3|]. split; [exact H4|].
    destruct r; try done. by destruct Hr as (_ & _ & ? & ? & ?).
Qed.

(** X7.  What reaches the output.  For each receiver, on a hook invocation with a
    non-negative count, room for that many samples in the output buffer and
    [_len] the length of the transfer buffer: the device is left in the
    state that the calls of the invocation, made in order, lead to; and when
    [work] returns, the first [n] samples of the output buffer, and the
    transfer buffer, are the [n] samples of the reply to the last call (the
    transfer call of this invocation), in order, the rest of the output
    buffer being as it was.  When the process aborts the output buffer is
    untouched. *)
Theorem output_is_what_the_device_delivered :
  (forall (api : VendorApi Bb.Call) (ok : Z) (n : Z) (w : World Bb.bb_series_impl api),
     0 <= n -> (Z.to_nat n <= length (items0 w))%nat -> Bb.buffer_inv (self w) ->
     wp (Bb.work ok n) w (fun r w' t =>
       exists rs,
         run_calls api (calls_of t) (device w) =
           (rs, device w') /\
         statuses_of t = status <$> rs /\
         match r with
         | Done _ =>
             exists q, last rs = Some q /\
               Bb._buffer (self w') = Some (ret_iq q <$> seq 0 (Z.to_nat n)) /\
               items0 w' =
                 (ret_iq q <$> seq 0 (Z.to_nat n)) ++
                 drop (Z.to_nat n) (items0 w) /\
               copies_of t = seq 0 (Z.to_nat n)
         | Aborted => items0 w' = items0 w
         | _ => False
         end)) /\
  (forall (api : VendorApi Sm.Call) (ok : Z) (n : Z) (w : World Sm.sm_series_impl api),
     0 <= n -> (Z.to_nat n <= length (items0 w))%nat -> Sm.buffer_inv (self w) ->
     wp (Sm.work ok n) w (fun r w' t =>
       exists rs,
         run_calls api (calls_of t) (device w) =
           (rs, device w') /\
         statuses_of t = status <$> rs /\
         match r with
         | Done _ =>
             exists q, last rs = Some q /\
               Sm._buffer (self w') = Some (ret_iq q <$> seq 0 (Z.to_nat n)) /\
               items0 w' =
                 (ret_iq q <$> seq 0 (Z.to_nat n)) ++
                 drop (Z.to_nat n) (items0 w) /\
               copies_of t = seq 0 (Z.to_nat n)
         | Aborted => items0 w' = items0 w
         | _ => False
         end)) /\
  (forall (api : VendorApi Sp.Call) (n : Z) (w : World Sp.sp_series_impl api),
     0 <= n -> (Z.to_nat n <= length (items0 w))%nat -> Sp.buffer_inv (self w) ->
     wp (Sp.work n) w (fun r w' t =>
       exists rs,
         run_calls api (calls_of t) (device w) =
           (rs, device w') /\
         statuses_of t = status <$> rs /\
         match r with
         | Done _ =>
             exists q, last rs = Some q /\
               Sp._buffer (self w') = Some (ret_iq q <$> seq 0 (Z.to_nat n)) /\
               items0 w' =
                 (ret_iq q <$> seq 0 (Z.to_nat n)) ++
                 drop (Z.to_nat n) (items0 w) /\
               copies_of t = seq 0 (Z.to_nat n)
         | Aborted => items0 w' = items0 w
         | _ => False
         end)).
Proof.
  split; [|split]; intros.
  - by apply BbRunFacts.bb_work_device.
  - by apply SmRunFacts.sm_work_device.
  - by apply SpRunFacts.sp_work_device.
Qed.

(** A run: a bb_series block with the marker set and no buffer yet, three
    samples requested, the device warning once during the configuration. *)
Lemma output_is_what_the_device_delivered_witness :
  0 <= 3 /\
  (Z.to_nat 3 <= length (items0 Examples.bb_unconfigured))%nat /\
  Bb.buffer_inv (self Examples.bb_unconfigured) /\
  wp (Bb.work 0 3) Examples.bb_unconfigured (fun r w' t =>
       exists rs,
         run_calls (scripted Bb.Call) (calls_of t) (device Examples.bb_unconfigured) =
           (rs, device w') /\
         statuses_of t = status <$> rs /\
         match r with
         | Done _ =>
             exists q, last rs = Some q /\
               Bb._buffer (self w') = Some (ret_iq q <$> seq 0 (Z.to_nat 3)) /\
               items0 w' =
                 (ret_iq q <$> seq 0 (Z.to_nat 3)) ++
                 drop (Z.to_nat 3) (items0 Examples.bb_unconfigured) /\
               copies_of t = seq 0 (Z.to_nat 3)
         | Aborted => items0 w' = items0 Examples.bb_unconfigured
         | _ => False
         end).
Proof.
  assert (H0 : 0 <= 3) by lia.
  assert (H1 : (Z.to_nat 3 <= length (items0 Examples.bb_unconfigured))%nat)
    by (vm_compute; lia).
  assert (H2 : Bb.buffer_inv (self Examples.bb_unconfigured))
    by (intros b Hb; discriminate Hb).
  split; [exact H0|]. split; [exact H1|]. split; [exact H2|].
  exact (proj1 output_is_what_the_device_delivered (scripted Bb.Call) 0 3
           Examples.bb_unconfigured H0 H1 H2).
Defined.

(** X8.  Failing fast.  In each adapter, when a hook invocation aborts the
    process, the last thing it did on the device is a call that returned a
    fatal status, every call before it returned success or a warning, and
    the last line on the console is the error line of that status (with the
    name of the vendor function, in the adapters that print it): no call is
    made after a fatal status.  In the receivers, when [work] returns no
    call of the invocation has returned a fatal status. *)
Theorem abort_follows_the_first_fatal_status_at_once :
  (forall (api : VendorApi Bb.Call) (ok : Z) (n : Z) (w : World Bb.bb_series_impl api),
     wp (Bb.work ok n) w (fun r w' t =>
       match r with
       | Aborted =>
           exists t0 c st,
             t = t0 ++ [EvCall c st] /\ st < ok /\ fatal_free ok t0 = true /\
             last (console w') =
               Some [Str "** "; Str "Error: "; Str (GetErrorString api st); Str " **"; Str newline]
       | Done _ => fatal_free ok t = true
       | _ => True
       end)) /\
  (forall (api : VendorApi Sm.Call) (ok : Z) (n : Z) (w : World Sm.sm_series_impl api),
     wp (Sm.work ok n) w (fun r w' t =>
       match r with
       | Aborted =>
           exists t0 c st,
             t = t0 ++ [EvCall c st] /\ st < ok /\ fatal_free ok t0 = true /\
             last (console w') =
               Some [Str "** "; Str "Error: ("; Str (SmRun.call_name c); Str ")";
                   Str (GetErrorString api st); Str " **"; Str newline]
       | Done _ => fatal_free ok t = true
       | _ => True
       end)) /\
  (forall (api : VendorApi Sp.Call) (n : Z) (w : World Sp.sp_series_impl api),
     wp (Sp.work n) w (fun r w' t =>
       match r with
       | Aborted =>
           exists t0 c st,
             t = t0 ++ [EvCall c st] /\ st < Sp.spNoError /\ fatal_free Sp.spNoError t0 = true /\
             last (console w') =
               Some [Str "** "; Str "Error: "; Str (GetErrorString api st); Str " **"; Str newline]
       | Done _ => fatal_free Sp.spNoError t = true
       | _ => True
       end)) /\
  (forall (api : VendorApi Vsg.Call) (ok : Z) (n : Z) (w : World Vsg.vsg_series_impl api),
     wp (Vsg.work ok n) w (fun r w' t =>
       match r with
       | Aborted =>
           exists t0 c st,
             t = t0 ++ [EvCall c st] /\ st < ok /\ fatal_free ok t0 = true /\
             last (console w') =
               Some [Str "** VSG "; Str "Error: ("; Str (VsgRun.call_name c); Str ")";
                   Str (GetErrorString api st); Str " **"; Str newline]
       | Done _ => True
       | _ => True
       end)).
Proof.
  split; [|split; [|split]]; intros.
  - eapply wp_mono; [apply BbRunFacts.bb_work_run|]. cbv beta.
    intros r w' t (_ & _ & _ & _ & _ & Hr). destruct r; try done.
    + by destruct Hr as (_ & _ & _ & _ & _ & ?).
    + by destruct Hr as (_ & _ & ?).
  - eapply wp_mono; [apply SmRunFacts.sm_work_run|]. cbv beta.
    intros r w' t (_ & _ & _ & _ & _ & Hr). destruct r; try done.
    + by destruct Hr as (_ & _ & _ & _ & _ & ?).
    + by destruct Hr as (_ & _ & ?).
  - eapply wp_mono; [apply SpRunFacts.sp_work_run|]. cbv beta.
    intros r w' t (_ & _ & _ & _ & _ & Hr). destruct r; try done.
    + by destruct Hr as (_ & _ & _ & _ & _ & ?).
    + by destruct Hr as (_ & _ & ?).
  - eapply wp_mono; [apply VsgRunFacts.vsg_work_run|]. cbv beta.
    intros r w' t (_ & _ & _ & Hr). destruct r; try done.
    by destruct Hr as (_ & _ & ?).
Qed.

(** X9.  [configure].  In each adapter [configure] changes no member of the
    block: it only reads the pending configuration, every read and every
    device call being made with the lock held.  The device is left in the
    state that its calls, made in order, lead to; the console gets one line
    for each status that was not success, in call order (naming the vendor
    function in the adapters that print it), and, when [configure] returns,
    the read-back lines, which show what the device answered to the
    read-back calls, not what was asked for.  It returns after all the
    configuration calls, none of which was fatal, or aborts in the middle of
    them. *)
Theorem configure_only_reads_and_reports_device_values :
  (forall (api : VendorApi Bb.Call) (ok : Z) (w : World Bb.bb_series_impl api),
     wp (Bb.configure ok) w (fun r w' t =>
       self w' = self w /\ items0 w' = items0 w /\
       guarded false t = true /\ locked_calls false t = calls_of t /\
       (exists rs, run_calls api (calls_of t) (device w) = (rs, device w') /\
          statuses_of t = status <$> rs /\
          console w' = console w ++ BbRun.diagnostics (api:=api) ok t ++
            match r, last rs with
              | Done _, Some q =>
                  [[Str newline; Str "Sample Rate: "; Dbl (ret_dbl q); Str newline];
                   [Str "Actual Bandwidth: "; Dbl (ret_dbl2 q); Str newline]]
              | _, _ => []
              end) /\
       match r with
       | Done _ => calls_of t = Bb.config_calls (self w) /\ fatal_free ok t = true
       | Aborted => calls_of t `prefix_of` Bb.config_calls (self w)
       | _ => False
       end)) /\
  (forall (api : VendorApi Sm.Call) (ok : Z) (w : World Sm.sm_series_impl api),
     wp (Sm.configure ok) w (fun r w' t =>
       self w' = self w /\ items0 w' = items0 w /\
       guarded false t = true /\ locked_calls false t = calls_of t /\
       (exists rs, run_calls api (calls_of t) (device w) = (rs, device w') /\
          statuses_of t = status <$> rs /\
          console w' = console w ++ SmRun.diagnostics (api:=api) ok t ++
            match r, last rs with
              | Done _, Some q =>
                  [[Str newline; Str "Sample Rate: "; Dbl (ret_dbl q); Endl];
                   [Str "Actual Bandwidth: "; Dbl (ret_dbl2 q); Endl]]
              | _, _ => []
              end) /\
       match r with
       | Done _ => calls_of t = Sm.config_calls (self w) /\ fatal_free ok t = true
       | Aborted => calls_of t `prefix_of` Sm.config_calls (self w)
       | _ => False
       end)) /\
  (forall (api : VendorApi Sp.Call) (w : World Sp.sp_series_impl api),
     wp (Sp.configure) w (fun r w' t =>
       self w' = self w /\ items0 w' = items0 w /\
       guarded false t = true /\ locked_calls false t = calls_of t /\
       (exists rs, run_calls api (calls_of t) (device w) = (rs, device w') /\
          statuses_of t = status <$> rs /\
          console w' = console w ++ SpRun.diagnostics (api:=api) t ++
            match r, last rs with
              | Done _, Some q =>
                  [[Str newline; Str "Sample Rate: "; Dbl (ret_dbl q); Endl];
                   [Str "Actual Bandwidth: "; Dbl (ret_dbl2 q); Endl]]
              | _, _ => []
              end) /\
       match r with
       | Done _ => calls_of t = Sp.config_calls (self w) /\ fatal_free Sp.spNoError t = true
       | Aborted => calls_of t `prefix_of` Sp.config_calls (self w)
       | _ => False
       end)) /\
  (forall (api : VendorApi Vsg.Call) (ok : Z) (w : World Vsg.vsg_series_impl api),
     wp (Vsg.configure ok) w (fun r w' t =>
       self w' = self w /\ items0 w' = items0 w /\
       guarded false t = true /\ locked_calls false t = calls_of t /\
       (exists rs, run_calls api (calls_of t) (device w) = (rs, device w') /\
          statuses_of t = status <$> rs /\
          console w' = console w ++ VsgRun.diagnostics (api:=api) ok t ++
            match r, rs with
              | Done _, [_; _; _; _; aFreq; aSamp; aLeve; aOff] =>
                  [[Str newline; Str "Frequency: "; Dbl (ret_dbl aFreq); Endl];
                   [Str "SampleRate: "; Dbl (ret_dbl aSamp); Endl];
                   [Str "Level: "; Dbl (ret_dbl aLeve); Endl];
                   [Str "I Offset: "; Num (ret_int aOff); Endl];
                   [Str "Q Offset: "; Num (ret_int2 aOff); Endl]]
              | _, _ => []
              end) /\
       match r with
       | Done _ => calls_of t = Vsg.config_calls (self w) /\ fatal_free ok t = true
       | Aborted => calls_of t `prefix_of` Vsg.config_calls (self w)
       | _ => False
       end)).
Proof.
  split; [|split; [|split]]; intros.
  - eapply wp_mono;
      [apply wp_conj; [apply BbRunFacts.bb_configure_run|];
       apply BbRunFacts.bb_configure_device|].
    cbv beta. intros r w' t [(Hs & Hi & (_ & Hg & Hl & _) & _ & Hr) Hd].
    split; [exact Hs|]. split; [exact Hi|]. split; [exact Hg|]. split; [exact Hl|].
    split; [exact Hd|]. destruct r; try done.
    + by destruct Hr as (? & ? & _).
    + by destruct Hr as (? & _).
  - eapply wp_mono;
      [apply wp_conj; [apply SmRunFacts.sm_configure_run|];
       apply SmRunFacts.sm_configure_device|].
    cbv beta. intros r w' t [(Hs & Hi & (_ & Hg & Hl & _) & _ & Hr) Hd].
    split; [exact Hs|]. split; [exact Hi|]. split; [exact Hg|]. split; [exact Hl|].
    split; [exact Hd|]. destruct r; try done.
    + by destruct Hr as (? & ? & _).
    + by destruct Hr as (? & _).
  - eapply wp_mono;
      [apply wp_conj; [apply SpRunFacts.sp_configure_run|];
       apply SpRunFacts.sp_configure_device|].
    cbv beta. intros r w' t [(Hs & Hi & (_ & Hg & Hl & _) & _ & Hr) Hd].
    split; [exact Hs|]. split; [exact Hi|]. split; [exact Hg|]. split; [exact Hl|].
    split; [exact Hd|]. destruct r; try done.
    + by destruct Hr as (? & ? & _).
    + by destruct Hr as (? & _).
  - eapply wp_mono;
      [apply wp_conj; [apply VsgRunFacts.vsg_configure_run|];
       apply VsgRunFacts.vsg_configure_device|].
    cbv beta. intros r w' t [(Hs & Hi & (_ & Hg & Hl & _) & Hr) Hd].
    split; [exact Hs|]. split; [exact Hi|]. split; [exact Hg|]. split; [exact Hl|].
    split; [exact Hd|]. destruct r; try done.
    + by destruct Hr as (? & ? & _).
    + by destruct Hr as (? & _).
Qed.

(** X10.  Counts at the edge.  For each receiver: with a negative count (and
    [_len] the length of the transfer buffer) [work] never returns and never
    reaches the transfer call: either the process aborts during the
    configuration, or the allocation throws; the only calls made are
    configuration calls and the output buffer is untouched.  With the count
    zero [work] returns zero (unless a call was fatal) and the output buffer
    is untouched. *)
Theorem negative_count_never_transfers_and_zero_copies_nothing :
  (forall (api : VendorApi Bb.Call) (ok : Z) (n : Z) (w : World Bb.bb_series_impl api),
     n < 0 -> Bb.buffer_inv (self w) ->
     wp (Bb.work ok n) w (fun r w' t =>
       (r = Thrown \/ r = Aborted) /\
       calls_of t `prefix_of` Bb.config_calls (self w) /\
       copies_of t = [] /\ items0 w' = items0 w)) /\
  (forall (api : VendorApi Bb.Call) (ok : Z) (w : World Bb.bb_series_impl api),
     wp (Bb.work ok 0) w (fun r w' t =>
       (r = Done 0 \/ r = Aborted) /\ copies_of t = [] /\ items0 w' = items0 w)) /\
  (forall (api : VendorApi Sm.Call) (ok : Z) (n : Z) (w : World Sm.sm_series_impl api),
     n < 0 -> Sm.buffer_inv (self w) ->
     wp (Sm.work ok n) w (fun r w' t =>
       (r = Thrown \/ r = Aborted) /\
       calls_of t `prefix_of` Sm.config_calls (self w) /\
       copies_of t = [] /\ items0 w' = items0 w)) /\
  (forall (api : VendorApi Sm.Call) (ok : Z) (w : World Sm.sm_series_impl api),
     wp (Sm.work ok 0) w (fun r w' t =>
       (r = Done 0 \/ r = Aborted) /\ copies_of t = [] /\ items0 w' = items0 w)) /\
  (forall (api : VendorApi Sp.Call) (n : Z) (w : World Sp.sp_series_impl api),
     n < 0 -> Sp.buffer_inv (self w) ->
     wp (Sp.work n) w (fun r w' t =>
       (r = Thrown \/ r = Aborted) /\
       calls_of t `prefix_of` Sp.config_calls (self w) /\
       copies_of t = [] /\ items0 w' = items0 w)) /\
  (forall (api : VendorApi Sp.Call) (w : World Sp.sp_series_impl api),
     wp (Sp.work 0) w (fun r w' t =>
       (r = Done 0 \/ r = Aborted) /\ copies_of t = [] /\ items0 w' = items0 w)).
Proof.
  split; [|split; [|split; [|split; [|split]]]]; intros.
  - by apply BbRunFacts.bb_work_negative.
  - apply BbRunFacts.bb_work_zero.
  - by apply SmRunFacts.sm_work_negative.
  - apply SmRunFacts.sm_work_zero.
  - by apply SpRunFacts.sp_work_negative.
  - apply SpRunFacts.sp_work_zero.
Qed.

(** A run: a bb_series block that holds two samples is asked for -1. *)
Lemma negative_count_never_transfers_and_zero_copies_nothing_witness :
  -1 < 0 /\ Bb.buffer_inv (self Examples.bb_holding_two) /\
  wp (Bb.work 0 (-1)) Examples.bb_holding_two (fun r w' t =>
       (r = Thrown \/ r = Aborted) /\
       calls_of t `prefix_of` Bb.config_calls (self Examples.bb_holding_two) /\
       copies_of t = [] /\ items0 w' = items0 Examples.bb_holding_two).
Proof.
  assert (H0 : -1 < 0) by lia.
  assert (H1 : Bb.buffer_inv (self Examples.bb_holding_two))
    by (intros b Hb; injection Hb as <-; reflexivity).
  split; [exact H0|]. split; [exact H1|].
  exact (proj1 negative_count_never_transfers_and_zero_copies_nothing
           (scripted Bb.Call) 0 (-1) Examples.bb_holding_two H0 H1).
Defined.

(** X11.  The window in which an update is lost.  A hook invocation of bb_series
    is cut in its four steps (the test of the marker, [configure], the
    clearing of the marker, the transfer), and the control thread makes one
    call of a setter other than [set_purge] after the first [i] of them.
    When the run returns, the pending configuration holds the value set; and
    unless the call fell between [configure] and the clearing of the marker
    (the marker was set and [i] is 2), either the marker is still set, so the
    next invocation will configure, or the device has been configured with
    the pending configuration.  In that one window the update is lost: the
    device has been configured with the configuration from before the call
    and the marker is clear. *)
Theorem setter_call_is_lost_only_between_configure_and_clear :
  forall (api : VendorApi Bb.Call) (ok n : Z) (s : Bb.Setter) (i : nat)
         (w : World Bb.bb_series_impl api),
    Bb.is_set_purge s = false -> (i <= 4)%nat ->
    wp (Bb.interleave ok n (BbRun.one_control i s) Bb.AtTest) w
      (fun r w' t =>
      match r with
      | Done pc =>
          pc = Bb.AtReturn /\
          (Bb._center (self w') =
             default (Bb._center (self w)) (Bb.center_of s) /\
           Bb._reflevel (self w') =
             default (Bb._reflevel (self w)) (Bb.reflevel_of s) /\
           Bb._decimation (self w') =
             default (Bb._decimation (self w)) (Bb.decimation_of s) /\
           Bb._bandwidth (self w') =
             default (Bb._bandwidth (self w)) (Bb.bandwidth_of s)) /\
          if Bb._param_changed (self w) && (i =? 2)%nat
          then Bb._param_changed (self w') = false /\
               Bb.config_calls (self w) `prefix_of` calls_of t
          else Bb._param_changed (self w') = true \/
               Bb.config_calls (self w') `prefix_of` calls_of t
      | _ => True
      end).
Proof. intros. by apply BbRaceFacts.bb_one_control_run. Qed.

(** A run: [set_center(2e9)] between [configure] and the clearing of the
    marker, on a block whose marker is set. *)
Lemma setter_call_is_lost_only_between_configure_and_clear_witness :
  Bb.is_set_purge Cases.retune = false /\ (2 <= 4)%nat /\
  wp (Bb.interleave 0 2 (BbRun.one_control 2 Cases.retune) Bb.AtTest) Cases.bb_dirty
      (fun r w' t =>
      match r with
      | Done pc =>
          pc = Bb.AtReturn /\
          (Bb._center (self w') =
             default (Bb._center (self Cases.bb_dirty)) (Bb.center_of Cases.retune) /\
           Bb._reflevel (self w') =
             default (Bb._reflevel (self Cases.bb_dirty)) (Bb.reflevel_of Cases.retune) /\
           Bb._decimation (self w') =
             default (Bb._decimation (self Cases.bb_dirty)) (Bb.decimation_of Cases.retune) /\
           Bb._bandwidth (self w') =
             default (Bb._bandwidth (self Cases.bb_dirty)) (Bb.bandwidth_of Cases.retune)) /\
          if Bb._param_changed (self Cases.bb_dirty) && (2 =? 2)%nat
          then Bb._param_changed (self w') = false /\
               Bb.config_calls (self Cases.bb_dirty) `prefix_of` calls_of t
          else Bb._param_changed (self w') = true \/
               Bb.config_calls (self w') `prefix_of` calls_of t
      | _ => True
      end).
Proof.
  assert (H0 : Bb.is_set_purge Cases.retune = false) by reflexivity.
  assert (H1 : (2 <= 4)%nat) by lia.
  split; [exact H0|]. split; [exact H1|].
  exact (setter_call_is_lost_only_between_configure_and_clear (scripted Bb.Call) 0 2
           Cases.retune 2 Cases.bb_dirty H0 H1).
Defined.

(** X12.  [set_purge] needs no reconfiguration.  For each receiver, on a block
    whose marker is clear, a call of [set_purge] followed by a hook
    invocation makes no configuration call: the only call is the transfer
    call, and it carries the flag just set (as the vendor's true or false
    value); the marker is still clear afterwards. *)
Theorem set_purge_reaches_next_transfer_without_reconfiguration :
  (forall (api : VendorApi Bb.Call) (ok : Z) (b : bool) (n : Z)
     (w : World Bb.bb_series_impl api),
     Bb._param_changed (self w) = false ->
     wp (Bb.set_purge b ;; Bb.work ok n) w (fun r w' t =>
       (exists buf, calls_of t `prefix_of`
          [Bb.bbGetIQUnpacked (Bb._handle (self w)) buf n
            (if b then Bb.BB_TRUE else Bb.BB_FALSE)]) /\
       match r with
       | Done _ =>
           Bb._param_changed (self w') = false /\
           exists buf, calls_of t =
             [Bb.bbGetIQUnpacked (Bb._handle (self w)) buf n
            (if b then Bb.BB_TRUE else Bb.BB_FALSE)]
       | _ => True
       end)) /\
  (forall (api : VendorApi Sm.Call) (ok : Z) (b : bool) (n : Z)
     (w : World Sm.sm_series_impl api),
     Sm._param_changed (self w) = false ->
     wp (Sm.set_purge b ;; Sm.work ok n) w (fun r w' t =>
       (exists buf, calls_of t `prefix_of`
          [Sm.smGetIQ (Sm._handle (self w)) buf n (Sm.of_bool b)]) /\
       match r with
       | Done _ =>
           Sm._param_changed (self w') = false /\
           exists buf, calls_of t =
             [Sm.smGetIQ (Sm._handle (self w)) buf n (Sm.of_bool b)]
       | _ => True
       end)) /\
  (forall (api : VendorApi Sp.Call) (b : bool) (n : Z)
     (w : World Sp.sp_series_impl api),
     Sp._param_changed (self w) = false ->
     wp (Sp.set_purge b ;; Sp.work n) w (fun r w' t =>
       (exists buf, calls_of t `prefix_of`
          [Sp.spGetIQ (Sp._handle (self w)) buf n (Sp.of_bool b)]) /\
       match r with
       | Done _ =>
           Sp._param_changed (self w') = false /\
           exists buf, calls_of t =
             [Sp.spGetIQ (Sp._handle (self w)) buf n (Sp.of_bool b)]
       | _ => True
       end)).
Proof.
  split; [|split]; intros.
  - by apply BbRunFacts.bb_set_purge_then_work.
  - by apply SmRunFacts.sm_set_purge_then_work.
  - by apply SpRunFacts.sp_set_purge_then_work.
Qed.

(** A run: [set_purge(true)] on a bb_series block that holds two samples,
    then two samples requested. *)
Lemma set_purge_reaches_next_transfer_without_reconfiguration_witness :
  Bb._param_changed (self Examples.bb_holding_two) = false /\
  wp (Bb.set_purge true ;; Bb.work 0 2) Examples.bb_holding_two (fun r w' t =>
       (exists buf, calls_of t `prefix_of`
          [Bb.bbGetIQUnpacked (Bb._handle (self Examples.bb_holding_two)) buf 2
            (if true then Bb.BB_TRUE else Bb.BB_FALSE)]) /\
       match r with
       | Done _ =>
           Bb._param_changed (self w') = false /\
           exists buf, calls_of t =
             [Bb.bbGetIQUnpacked (Bb._handle (self Examples.bb_holding_two)) buf 2
            (if true then Bb.BB_TRUE else Bb.BB_FALSE)]
       | _ => True
       end).
Proof.
  assert (H0 : Bb._param_changed (self Examples.bb_holding_two) = false) by reflexivity.
  split; [exact H0|].
  exact (proj1 set_purge_reaches_next_transfer_without_reconfiguration
           (scripted Bb.Call) 0 true 2 Examples.bb_holding_two H0).
Defined.

(** X13.  The offsets of the generator on their way to the device.  After a call
    of any setter, when the following hook invocation returns, its fourth
    call is [vsgSetIQOffset] with the pending I and Q offsets converted to
    [int16_t]; and the conversion gives a value between -32768 and 32767
    that differs from the pending one by a multiple of 65536, so it is the
    pending value exactly when that lies in this range. *)
Theorem generator_offsets_reach_device_modulo_65536 :
  (forall (api : VendorApi Vsg.Call) (ok : Z) (s : Vsg.Setter) (n : Z)
          (w : World Vsg.vsg_series_impl api),
     wp (Vsg.run_setter s ;; Vsg.work ok n) w (fun r w' t =>
       match r with
       | Done _ =>
           calls_of t !! 3%nat =
             Some (Vsg.vsgSetIQOffset (Vsg._handle (self w))
                     (int16_t (default (Vsg._ioffset (self w)) (Vsg.ioffset_of s)))
                     (int16_t (default (Vsg._qoffset (self w)) (Vsg.qoffset_of s))))
       | _ => True
       end)) /\
  (forall x : Z,
     -32768 <= int16_t x <= 32767 /\ (int16_t x - x) mod 65536 = 0 /\
     (int16_t x = x <-> -32768 <= x <= 32767)).
Proof.
  split; intros.
  - apply VsgRunFacts.vsg_offsets_pushed.
  - split; [apply int16_t_range|]. split; [apply int16_t_congruent|apply int16_t_fixed].
Qed.

(** X14.  Hook invocations leave the pending configuration alone.  In each
    adapter, after any sequence of setter calls and hook invocations, in any
    order, that ran to its end, every pending parameter holds the last value
    a setter of the sequence gave it, or the value it had before when none
    did, however many hook invocations came in between; and no operation
    changes the handle. *)
Theorem pending_configuration_is_changed_by_setters_only :
  (forall (api : VendorApi Bb.Call) (ok : Z) (l : list BbRun.Op)
     (w : World Bb.bb_series_impl api),
     wp (BbRun.run_ops ok l) w (fun r w' t =>
       Bb._handle (self w') = Bb._handle (self w) /\
       (r = Done tt ->
          Bb._center (self w') =
            last_set Bb.center_of (BbRun.setters_of l) (Bb._center (self w)) /\
          Bb._reflevel (self w') =
            last_set Bb.reflevel_of (BbRun.setters_of l) (Bb._reflevel (self w)) /\
          Bb._decimation (self w') =
            last_set Bb.decimation_of (BbRun.setters_of l) (Bb._decimation (self w)) /\
          Bb._bandwidth (self w') =
            last_set Bb.bandwidth_of (BbRun.setters_of l) (Bb._bandwidth (self w)) /\
          Bb._purge (self w') =
            last_set Bb.purge_of (BbRun.setters_of l) (Bb._purge (self w))))) /\
  (forall (api : VendorApi Sm.Call) (ok : Z) (l : list SmRun.Op)
     (w : World Sm.sm_series_impl api),
     wp (SmRun.run_ops ok l) w (fun r w' t =>
       Sm._handle (self w') = Sm._handle (self w) /\
       (r = Done tt ->
          Sm._center (self w') =
            last_set Sm.center_of (SmRun.setters_of l) (Sm._center (self w)) /\
          Sm._reflevel (self w') =
            last_set Sm.reflevel_of (SmRun.setters_of l) (Sm._reflevel (self w)) /\
          Sm._atten (self w') =
            last_set Sm.atten_of (SmRun.setters_of l) (Sm._atten (self w)) /\
          Sm._decimation (self w') =
            last_set Sm.decimation_of (SmRun.setters_of l) (Sm._decimation (self w)) /\
          Sm._bandwidth (self w') =
            last_set Sm.bandwidth_of (SmRun.setters_of l) (Sm._bandwidth (self w)) /\
          Sm._swfilter (self w') =
            last_set Sm.swfilter_of (SmRun.setters_of l) (Sm._swfilter (self w)) /\
          Sm._purge (self w') =
            last_set Sm.purge_of (SmRun.setters_of l) (Sm._purge (self w))))) /\
  (forall (api : VendorApi Sp.Call) (l : list SpRun.Op)
     (w : World Sp.sp_series_impl api),
     wp (SpRun.run_ops l) w (fun r w' t =>
       Sp._handle (self w') = Sp._handle (self w) /\
       (r = Done tt ->
          Sp._center (self w') =
            last_set Sp.center_of (SpRun.setters_of l) (Sp._center (self w)) /\
          Sp._reflevel (self w') =
            last_set Sp.reflevel_of (SpRun.setters_of l) (Sp._reflevel (self w)) /\
          Sp._atten (self w') =
            last_set Sp.atten_of (SpRun.setters_of l) (Sp._atten (self w)) /\
          Sp._decimation (self w') =
            last_set Sp.decimation_of (SpRun.setters_of l) (Sp._decimation (self w)) /\
          Sp._bandwidth (self w') =
            last_set Sp.bandwidth_of (SpRun.setters_of l) (Sp._bandwidth (self w)) /\
          Sp._swfilter (self w') =
            last_set Sp.swfilter_of (SpRun.setters_of l) (Sp._swfilter (self w)) /\
          Sp._purge (self w') =
            last_set Sp.purge_of (SpRun.setters_of l) (Sp._purge (self w))))) /\
  (forall (api : VendorApi Vsg.Call) (ok : Z) (l : list Vsg.Op)
     (w : World Vsg.vsg_series_impl api),
     wp (Vsg.run_ops ok l) w (fun r w' t =>
       Vsg._handle (self w') = Vsg._handle (self w) /\
       (r = Done tt ->
          Vsg._center (self w') =
            last_set Vsg.center_of (VsgRun.setters_of l) (Vsg._center (self w)) /\
          Vsg._samplerate (self w') =
            last_set Vsg.samplerate_of (VsgRun.setters_of l) (Vsg._samplerate (self w)) /\
          Vsg._level (self w') =
            last_set Vsg.level_of (VsgRun.setters_of l) (Vsg._level (self w)) /\
          Vsg._ioffset (self w') =
            last_set Vsg.ioffset_of (VsgRun.setters_of l) (Vsg._ioffset (self w)) /\
          Vsg._qoffset (self w') =
            last_set Vsg.qoffset_of (VsgRun.setters_of l) (Vsg._qoffset (self w))))).
Proof.
  split; [|split; [|split]]; intros.
  - eapply wp_mono; [apply BbRunFacts.bb_run_ops_run|]. cbv beta.
    intros r w' t (_ & _ & _ & Hh & HF). split; [exact Hh|exact HF].
  - eapply wp_mono; [apply SmRunFacts.sm_run_ops_run|]. cbv beta.
    intros r w' t (_ & _ & _ & Hh & HF). split; [exact Hh|exact HF].
  - eapply wp_mono; [apply SpRunFacts.sp_run_ops_run|]. cbv beta.
    intros r w' t (_ & _ & _ & Hh & HF). split; [exact Hh|exact HF].
  - eapply wp_mono; [apply VsgRunFacts.vsg_run_ops_run|]. cbv beta.
    intros r w' t (_ & Hh & _ & HF). split; [exact Hh|exact HF].
Qed.

